(** * ublox.c : u-blox receiver dependent functions (RTKLIB)

    A shallow embedding of [src/rcv/ublox.c]: the UBX field codec, the
    Fletcher checksum, the stream framer [input_ubx], the message decoders
    reached from [decode_ubx] and the outbound generator [gen_ubx].

    Conventions.
    - A C [int], [unsigned char], ... is a [Z]; where the C type wraps, the
      wrap-around is written out ([mod 256], [mod 2^16], ...).
    - A C [double] is a binary64 primitive float; a C [float] is a binary64
      float holding a value rounded to binary32.
    - A byte buffer is a [list Z]; [rd] reads a cell and [wr] writes one.
      Reading or writing outside the list is undefined behaviour in C; [rd]
      then yields 0 and [wr] leaves the buffer as it is, and the places where
      the proofs need an access to be in range say so.
    - [trace], [traceb] and [print_buffer_in_hax] only write to the trace log
      and are left out. *)

From Stdlib Require Import ZArith Lia Bool List String Ascii Floats DecimalString.
From stdpp Require Import base list.
Import ListNotations.
Open Scope Z_scope.
Set Warnings "-inexact-float".

(** ** Buffers *)

(** [a[i]] and [a[i]=v] for a C array held in a list. *)
Definition arr_get {A : Type} (d : A) (a : list A) (i : Z) : A :=
  if i <? 0 then d else default d (a !! Z.to_nat i).

Definition arr_set {A : Type} (a : list A) (i : Z) (v : A) : list A :=
  if i <? 0 then a else <[Z.to_nat i := v]> a.

Definition rd (buff : list Z) (i : Z) : Z := arr_get 0 buff i.

Definition wr (buff : list Z) (i : Z) (v : Z) : list Z := arr_set buff i v.

(** [p+off]: the buffer seen from offset [off]. *)
Definition at_off (buff : list Z) (off : Z) : list Z := drop (Z.to_nat off) buff.

(** [memcpy(dst+off,src,n)] and [memset(dst+off,c,n)]. *)
Fixpoint wr_list (dst : list Z) (off : Z) (src : list Z) : list Z :=
  match src with
  | [] => dst
  | b :: src' => wr_list (wr dst off b) (off + 1) src'
  end.

Definition memcpy (dst : list Z) (off : Z) (src : list Z) (n : Z) : list Z :=
  wr_list dst off (take (Z.to_nat n) src).

Definition memset (dst : list Z) (off : Z) (c : Z) (n : Z) : list Z :=
  wr_list dst off (replicate (Z.to_nat n) c).

(** A counted loop [for (i=lo;i<hi;i++) body]. *)
Fixpoint for_loop {S : Type} (n : nat) (i : Z) (body : Z -> S -> S) (s : S) : S :=
  match n with
  | O => s
  | Datatypes.S n' => for_loop n' (i + 1) body (body i s)
  end.

Definition for_range {S : Type} (lo hi : Z) (body : Z -> S -> S) (s : S) : S :=
  for_loop (Z.to_nat (hi - lo)) lo body s.

(** ** Field codec (little-endian) *)

Definition U1 (p : list Z) : Z := rd p 0 mod 256.
Definition I1 (p : list Z) : Z := let u := U1 p in if u <? 128 then u else u - 256.
Definition U2 (p : list Z) : Z := rd p 0 mod 256 + 256 * (rd p 1 mod 256).
Definition U4 (p : list Z) : Z :=
  rd p 0 mod 256 + 256 * (rd p 1 mod 256) + 65536 * (rd p 2 mod 256)
  + 16777216 * (rd p 3 mod 256).
Definition I4 (p : list Z) : Z :=
  let u := U4 p in if u <? 2147483648 then u else u - 4294967296.
Definition U8bits (p : list Z) : Z := U4 p + 4294967296 * U4 (at_off p 4).

(** *** IEEE-754 values from and to their bit patterns *)

Definition Z2F (z : Z) : float := SF2Prim (SpecFloat.binary_normalize 53 1024 z 0 false).

Definition bits64_to_SF (b : Z) : SpecFloat.spec_float :=
  let s := Z.testbit b 63 in
  let e := Z.land (Z.shiftr b 52) 2047 in
  let m := Z.land b (Z.ones 52) in
  if e =? 0 then
    match m with
    | Zpos q => SpecFloat.S754_finite s q (-1074)
    | _ => SpecFloat.S754_zero s
    end
  else if e =? 2047 then
    (if m =? 0 then SpecFloat.S754_infinity s else SpecFloat.S754_nan)
  else
    match m + 2 ^ 52 with
    | Zpos q => SpecFloat.S754_finite s q (e - 1075)
    | _ => SpecFloat.S754_zero s
    end.

Definition bits32_to_SF (b : Z) : SpecFloat.spec_float :=
  let s := Z.testbit b 31 in
  let e := Z.land (Z.shiftr b 23) 255 in
  let m := Z.land b (Z.ones 23) in
  if e =? 0 then
    match m with
    | Zpos q => SpecFloat.S754_finite s q (-149)
    | _ => SpecFloat.S754_zero s
    end
  else if e =? 255 then
    (if m =? 0 then SpecFloat.S754_infinity s else SpecFloat.S754_nan)
  else
    match m + 2 ^ 23 with
    | Zpos q => SpecFloat.S754_finite s q (e - 150)
    | _ => SpecFloat.S754_zero s
    end.

(** The bit pattern of a value of the format with [prec] significand bits
    and [ebits] exponent bits (a NaN is given the quiet pattern). *)
Definition SF_to_bits (prec ebits : Z) (x : SpecFloat.spec_float) : Z :=
  let sgn (s : bool) := if s then 2 ^ (prec - 1 + ebits) else 0 in
  let emax_field := 2 ^ ebits - 1 in
  let bias := 2 ^ (ebits - 1) - 1 in
  match x with
  | SpecFloat.S754_zero s => sgn s
  | SpecFloat.S754_infinity s => sgn s + emax_field * 2 ^ (prec - 1)
  | SpecFloat.S754_nan => emax_field * 2 ^ (prec - 1) + 2 ^ (prec - 2)
  | SpecFloat.S754_finite s m e =>
      if Zpos m <? 2 ^ (prec - 1)
      then sgn s + Zpos m
      else sgn s + (e + bias + prec - 1) * 2 ^ (prec - 1) + (Zpos m - 2 ^ (prec - 1))
  end.

(** [(float)x]: round a double to binary32. *)
Definition SF_to_single (x : SpecFloat.spec_float) : SpecFloat.spec_float :=
  match x with
  | SpecFloat.S754_finite s m e => SpecFloat.binary_round 24 128 s m e
  | _ => x
  end.

Definition to_single (x : float) : float := SF2Prim (SF_to_single (Prim2SF x)).

Definition R4 (p : list Z) : float := SF2Prim (bits32_to_SF (U4 p)).
Definition R8 (p : list Z) : float := SF2Prim (bits64_to_SF (U8bits p)).
Definition I8 (p : list Z) : float :=
  (Z2F (I4 (at_off p 4)) * 4294967296 + Z2F (U4 p))%float.

(** [floor(x)] and the conversion [(int)x] (truncation; the result of an
    out-of-range conversion is undefined in C, the model keeps the integer). *)
Definition F_floor_Z (x : float) : option Z :=
  match Prim2SF x with
  | SpecFloat.S754_zero _ => Some 0
  | SpecFloat.S754_finite s m e =>
      let v := if 0 <=? e then Zpos m * 2 ^ e else Zpos m / 2 ^ (- e) in
      let exact := if 0 <=? e then true else (Zpos m mod 2 ^ (- e) =? 0) in
      Some (if s then (if exact then - v else - v - 1) else v)
  | _ => None
  end.

Definition F_trunc_Z (x : float) : Z :=
  match Prim2SF x with
  | SpecFloat.S754_finite s m e =>
      let v := if 0 <=? e then Zpos m * 2 ^ e else Zpos m / 2 ^ (- e) in
      if s then - v else v
  | _ => 0
  end.

Definition F_floor (x : float) : float :=
  match F_floor_Z x with
  | Some z => if z =? 0 then (if PrimFloat.ltb x 0 then (-0)%float else x - x)%float
              else Z2F z
  | None => x
  end.

(** [ROUND(x)]: [(int)floor((x)+0.5)]. *)
Definition ROUND (x : float) : Z := F_trunc_Z (F_floor (x + 0.5)%float).

(** *** Set fields (little-endian): the bytes written at [p] *)

Definition le_bytes (n : nat) (v : Z) : list Z :=
  map (fun k => Z.shiftr v (8 * Z.of_nat k) mod 256) (seq 0 n).

Definition setU1 (u : Z) : list Z := le_bytes 1 (u mod 2 ^ 8).
Definition setU2 (u : Z) : list Z := le_bytes 2 (u mod 2 ^ 16).
Definition setU4 (u : Z) : list Z := le_bytes 4 (u mod 2 ^ 32).
Definition setI1 (i : Z) : list Z := le_bytes 1 (i mod 2 ^ 8).
Definition setI2 (i : Z) : list Z := le_bytes 2 (i mod 2 ^ 16).
Definition setI4 (i : Z) : list Z := le_bytes 4 (i mod 2 ^ 32).
Definition setR4 (r : float) : list Z :=
  le_bytes 4 (SF_to_bits 24 8 (SF_to_single (Prim2SF r))).
Definition setR8 (r : float) : list Z := le_bytes 8 (SF_to_bits 53 11 (Prim2SF r)).

(** ** Checksum *)

Definition cs_step (buff : list Z) (i : Z) (ck : Z * Z) : Z * Z :=
  let cka := (fst ck + rd buff i) mod 256 in
  let ckb := (snd ck + cka) mod 256 in
  (cka, ckb).

Definition cs_sum (buff : list Z) (len : Z) : Z * Z :=
  for_range 2 (len - 2) (cs_step buff) (0, 0).

Definition checksum (buff : list Z) (len : Z) : bool :=
  let ck := cs_sum buff len in
  (fst ck =? rd buff (len - 2)) && (snd ck =? rd buff (len - 1)).

Definition setcs (buff : list Z) (len : Z) : list Z :=
  let ck := cs_sum buff len in
  wr (wr buff (len - 2) (fst ck)) (len - 1) (snd ck).

(** ** C strings *)

Open Scope string_scope.
Open Scope Z_scope.

(** [strstr(s,needle)]: the suffix of [s] from the first occurrence. *)
Fixpoint strstr (s needle : string) : option string :=
  if String.prefix needle s then Some s
  else match s with
       | EmptyString => None
       | String _ s' => strstr s' needle
       end.

Definition has_opt (opt name : string) : bool :=
  match strstr opt name with Some _ => true | None => false end.

Fixpoint str_drop (n : nat) (s : string) : string :=
  match n, s with
  | Datatypes.S n', String _ s' => str_drop n' s'
  | _, _ => s
  end.

Definition isspace (c : ascii) : bool :=
  let n := Z.of_nat (nat_of_ascii c) in (n =? 32) || ((9 <=? n) && (n <=? 13)).

Definition digit_of (c : ascii) : option Z :=
  let n := Z.of_nat (nat_of_ascii c) in
  if (48 <=? n) && (n <=? 57) then Some (n - 48) else None.

Fixpoint skip_space (s : string) : string :=
  match s with
  | String c s' => if isspace c then skip_space s' else s
  | EmptyString => s
  end.

(** The digits of a decimal conversion: the value read so far, or [None]
    while no digit has been read. *)
Fixpoint scan_digits (s : string) (acc : option Z) : option Z :=
  match s with
  | String c s' =>
      match digit_of c with
      | Some d => scan_digits s' (Some (10 * default 0 acc + d))
      | None => acc
      end
  | EmptyString => acc
  end.

(** The conversion [%d] of [sscanf] (and of [strtol] in base 10): blanks, an
    optional sign, digits; [None] when no digit follows. A value outside
    [int] is not representable in C; the model keeps the integer read. *)
Definition scan_d (s : string) : option Z :=
  match skip_space s with
  | String "-" s' => Z.opp <$> scan_digits s' None
  | String "+" s' => scan_digits s' None
  | s' => scan_digits s' None
  end.

Definition atoi (s : string) : Z := default 0 (scan_d s).

(** [strncmp(s,t,n)!=0] for a literal [t] of [n] characters: [s] does not
    start with [t]. *)
Definition strncmp_ne (s t : string) : bool := negb (String.prefix t s).

(** [strtok(s," ")] called until it returns NULL: the non-empty fields. *)
Fixpoint tokens_aux (s : string) (cur : string) : list string :=
  let flush (rest : list string) :=
    match cur with EmptyString => rest | _ => cur :: rest end in
  match s with
  | EmptyString => flush []
  | String c s' =>
      if Ascii.eqb c " " then flush (tokens_aux s' EmptyString)
      else tokens_aux s' (cur ++ String c EmptyString)
  end.

Definition strtok_all (s : string) : list string := tokens_aux s EmptyString.

(** *** [sprintf] conversions *)

Fixpoint str_rep (n : nat) (c : ascii) : string :=
  match n with
  | O => EmptyString
  | Datatypes.S n' => String c (str_rep n' c)
  end.

Definition fmt_d (z : Z) : string := NilZero.string_of_int (Z.to_int z).

(** [%<w>d]: right-justified in a field of at least [w] characters. *)
Definition fmt_wd (w : nat) (z : Z) : string :=
  let s := fmt_d z in str_rep (w - String.length s) " " ++ s.

Definition hex_digit (n : Z) : ascii :=
  ascii_of_nat (Z.to_nat (if n <? 10 then 48 + n else 55 + n)).

(** [%02X] of a value below 256. *)
Definition fmt_02X (z : Z) : string :=
  String (hex_digit (z / 16 mod 16)) (String (hex_digit (z mod 16)) EmptyString).

(** [%-32.32s]: at most 32 characters, left-justified in 32. *)
Definition fmt_s32 (s : string) : string :=
  let t := String.substring 0 32 s in
  t ++ str_rep (32 - String.length t) " ".

Definition str_bytes (s : string) : list Z :=
  map (fun c => Z.of_nat (nat_of_ascii c)) (list_ascii_of_string s).

Close Scope string_scope.

(** ** Data model (rtklib.h, as far as ublox.c uses it) *)

(** Navigation systems [SYS_???]; [SYS_NONE] is the value 0. *)
Inductive sys_t :=
  SYS_NONE | SYS_GPS | SYS_SBS | SYS_GLO | SYS_GAL | SYS_QZS | SYS_CMP | SYS_IRN | SYS_LEO.

(** Observation codes [CODE_???]; [CODE_NONE] is the value 0. *)
Inductive code_t :=
  CODE_NONE | CODE_L1C | CODE_L1X | CODE_L1B | CODE_L1I
| CODE_L2C | CODE_L2L | CODE_L2S | CODE_L2I | CODE_L7I | CODE_L7Q.

Definition sys_eqb (a b : sys_t) : bool :=
  match a, b with
  | SYS_NONE, SYS_NONE | SYS_GPS, SYS_GPS | SYS_SBS, SYS_SBS | SYS_GLO, SYS_GLO
  | SYS_GAL, SYS_GAL | SYS_QZS, SYS_QZS | SYS_CMP, SYS_CMP | SYS_IRN, SYS_IRN
  | SYS_LEO, SYS_LEO => true
  | _, _ => false
  end.

Definition code_eqb (a b : code_t) : bool :=
  match a, b with
  | CODE_NONE, CODE_NONE | CODE_L1C, CODE_L1C | CODE_L1X, CODE_L1X
  | CODE_L1B, CODE_L1B | CODE_L1I, CODE_L1I | CODE_L2C, CODE_L2C
  | CODE_L2L, CODE_L2L | CODE_L2S, CODE_L2S | CODE_L2I, CODE_L2I
  | CODE_L7I, CODE_L7I | CODE_L7Q, CODE_L7Q => true
  | _, _ => false
  end.

(** [gtime_t]: [time_t time] and the fraction of a second. *)
Record gtime_t := mk_gtime { gt_time : Z; gt_sec : float }.

Definition gtime0 : gtime_t := mk_gtime 0 0.

(** [obsd_t]: one satellite's observation record; the arrays have
    [NFREQ+NEXOBS] cells. *)
Record obsd_t := mk_obsd {
  obsd_time : gtime_t;
  obsd_eventime : gtime_t;
  obsd_timevalid : Z;
  obsd_sat : Z;
  obsd_rcv : Z;
  obsd_SNR : list Z;
  obsd_LLI : list Z;
  obsd_code : list code_t;
  obsd_qualL : list Z;
  obsd_qualP : list Z;
  obsd_L : list float;
  obsd_P : list float;
  obsd_D : list float
}.

Definition obsd0 : obsd_t :=
  mk_obsd gtime0 gtime0 0 0 0 [] [] [] [] [] [] [] [].

(** [obs_t]: the epoch's observation set. *)
Record obs_t := mk_obs {
  obs_n : Z;
  obs_flag : Z;
  obs_rcvcount : Z;
  obs_tmcount : Z;
  obs_data : list obsd_t
}.

(** [eph_t], [geph_t], [alm_t]: the fields ublox.c names; the fields it
    never reads or writes are kept as one block. *)
Record eph_t := mk_eph {
  eph_sat : Z;
  eph_iode : Z;
  eph_iodc : Z;
  eph_toe : gtime_t;
  eph_toc : gtime_t;
  eph_rest : list float
}.

Definition eph0 : eph_t := mk_eph 0 0 0 gtime0 gtime0 [].

Record geph_t := mk_geph {
  geph_sat : Z;
  geph_iode : Z;
  geph_frq : Z;
  geph_tof : gtime_t;
  geph_rest : list float
}.

Definition geph0 : geph_t := mk_geph 0 0 0 gtime0 [].

Definition alm_t : Type := list float.

Record sbsmsg_t := mk_sbsmsg {
  sbs_week : Z;
  sbs_tow : Z;
  sbs_prn : Z;
  sbs_msg : list Z
}.

Record nav_t := mk_nav {
  nav_eph : list eph_t;
  nav_geph : list geph_t;
  nav_alm : list alm_t;
  nav_utc_gps : list float;
  nav_ion_gps : list float;
  nav_utc_qzs : list float;
  nav_ion_qzs : list float;
  nav_leaps : Z
}.

(** [raw_t]: the receiver raw data control struct. *)
Record raw_t := mk_raw {
  raw_time : gtime_t;
  raw_obs : obs_t;
  raw_nav : nav_t;
  raw_sbsmsg : sbsmsg_t;
  raw_msgtype : string;
  raw_subfrm : list (list Z);
  raw_lockt : list (list float);
  raw_halfc : list (list Z);
  raw_lockflag : list (list Z);
  raw_ephsat : Z;
  raw_nbyte : Z;
  raw_len : Z;
  raw_buff : list Z;
  raw_opt : string;
  raw_outtype : Z
}.

Definition set_time (r : raw_t) (v : gtime_t) : raw_t :=
  mk_raw v (raw_obs r) (raw_nav r) (raw_sbsmsg r) (raw_msgtype r) (raw_subfrm r)
    (raw_lockt r) (raw_halfc r) (raw_lockflag r) (raw_ephsat r) (raw_nbyte r)
    (raw_len r) (raw_buff r) (raw_opt r) (raw_outtype r).

Definition set_obs (r : raw_t) (v : obs_t) : raw_t :=
  mk_raw (raw_time r) v (raw_nav r) (raw_sbsmsg r) (raw_msgtype r) (raw_subfrm r)
    (raw_lockt r) (raw_halfc r) (raw_lockflag r) (raw_ephsat r) (raw_nbyte r)
    (raw_len r) (raw_buff r) (raw_opt r) (raw_outtype r).

Definition set_nav (r : raw_t) (v : nav_t) : raw_t :=
  mk_raw (raw_time r) (raw_obs r) v (raw_sbsmsg r) (raw_msgtype r) (raw_subfrm r)
    (raw_lockt r) (raw_halfc r) (raw_lockflag r) (raw_ephsat r) (raw_nbyte r)
    (raw_len r) (raw_buff r) (raw_opt r) (raw_outtype r).

Definition set_sbsmsg (r : raw_t) (v : sbsmsg_t) : raw_t :=
  mk_raw (raw_time r) (raw_obs r) (raw_nav r) v (raw_msgtype r) (raw_subfrm r)
    (raw_lockt r) (raw_halfc r) (raw_lockflag r) (raw_ephsat r) (raw_nbyte r)
    (raw_len r) (raw_buff r) (raw_opt r) (raw_outtype r).

Definition set_msgtype (r : raw_t) (v : string) : raw_t :=
  mk_raw (raw_time r) (raw_obs r) (raw_nav r) (raw_sbsmsg r) v (raw_subfrm r)
    (raw_lockt r) (raw_halfc r) (raw_lockflag r) (raw_ephsat r) (raw_nbyte r)
    (raw_len r) (raw_buff r) (raw_opt r) (raw_outtype r).

Definition set_subfrm (r : raw_t) (v : list (list Z)) : raw_t :=
  mk_raw (raw_time r) (raw_obs r) (raw_nav r) (raw_sbsmsg r) (raw_msgtype r) v
    (raw_lockt r) (raw_halfc r) (raw_lockflag r) (raw_ephsat r) (raw_nbyte r)
    (raw_len r) (raw_buff r) (raw_opt r) (raw_outtype r).

Definition set_lockt (r : raw_t) (v : list (list float)) : raw_t :=
  mk_raw (raw_time r) (raw_obs r) (raw_nav r) (raw_sbsmsg r) (raw_msgtype r)
    (raw_subfrm r) v (raw_halfc r) (raw_lockflag r) (raw_ephsat r) (raw_nbyte r)
    (raw_len r) (raw_buff r) (raw_opt r) (raw_outtype r).

Definition set_halfc (r : raw_t) (v : list (list Z)) : raw_t :=
  mk_raw (raw_time r) (raw_obs r) (raw_nav r) (raw_sbsmsg r) (raw_msgtype r)
    (raw_subfrm r) (raw_lockt r) v (raw_lockflag r) (raw_ephsat r) (raw_nbyte r)
    (raw_len r) (raw_buff r) (raw_opt r) (raw_outtype r).

Definition set_lockflag (r : raw_t) (v : list (list Z)) : raw_t :=
  mk_raw (raw_time r) (raw_obs r) (raw_nav r) (raw_sbsmsg r) (raw_msgtype r)
    (raw_subfrm r) (raw_lockt r) (raw_halfc r) v (raw_ephsat r) (raw_nbyte r)
    (raw_len r) (raw_buff r) (raw_opt r) (raw_outtype r).

Definition set_ephsat (r : raw_t) (v : Z) : raw_t :=
  mk_raw (raw_time r) (raw_obs r) (raw_nav r) (raw_sbsmsg r) (raw_msgtype r)
    (raw_subfrm r) (raw_lockt r) (raw_halfc r) (raw_lockflag r) v (raw_nbyte r)
    (raw_len r) (raw_buff r) (raw_opt r) (raw_outtype r).

Definition set_nbyte (r : raw_t) (v : Z) : raw_t :=
  mk_raw (raw_time r) (raw_obs r) (raw_nav r) (raw_sbsmsg r) (raw_msgtype r)
    (raw_subfrm r) (raw_lockt r) (raw_halfc r) (raw_lockflag r) (raw_ephsat r) v
    (raw_len r) (raw_buff r) (raw_opt r) (raw_outtype r).

Definition set_len (r : raw_t) (v : Z) : raw_t :=
  mk_raw (raw_time r) (raw_obs r) (raw_nav r) (raw_sbsmsg r) (raw_msgtype r)
    (raw_subfrm r) (raw_lockt r) (raw_halfc r) (raw_lockflag r) (raw_ephsat r)
    (raw_nbyte r) v (raw_buff r) (raw_opt r) (raw_outtype r).

Definition set_buff (r : raw_t) (v : list Z) : raw_t :=
  mk_raw (raw_time r) (raw_obs r) (raw_nav r) (raw_sbsmsg r) (raw_msgtype r)
    (raw_subfrm r) (raw_lockt r) (raw_halfc r) (raw_lockflag r) (raw_ephsat r)
    (raw_nbyte r) (raw_len r) v (raw_opt r) (raw_outtype r).

(** Two-dimensional arrays [a[i][j]]. *)
Definition arr2_get {A : Type} (d : A) (a : list (list A)) (i j : Z) : A :=
  arr_get d (arr_get [] a i) j.

Definition arr2_set {A : Type} (a : list (list A)) (i j : Z) (v : A) : list (list A) :=
  arr_set a i (arr_set (arr_get [] a i) j v).

(** ** The interface of rtklib.h and of the C library

    ublox.c is compiled against rtklib.h and linked with rtkcmn.c and the
    other receiver-independent sources. Their constants and functions are
    the fields of [rtklib]: the model is a function of them. A pointer
    argument that the callee writes through is an argument and a result. *)

(** The output pointers of [decode_frame]; [None] is a NULL pointer. *)
Record frame_io := mk_frame_io {
  fio_eph : option eph_t;
  fio_alm : option (list alm_t);
  fio_ion : option (list float);
  fio_utc : option (list float);
  fio_leaps : option Z
}.

Class rtklib := {
  (* constants of rtklib.h *)
  MAXRAWLEN : Z;
  MAXOBS : Z;
  NFREQ : Z;
  NEXOBS : Z;
  MINPRNSBS : Z;
  MINPRNQZS : Z;
  LLI_SLIP : Z;
  LLI_HALFC : Z;
  CLIGHT : float;
  FREQL1 : float;
  P2_32 : float;
  FREQ1_GLO : float;
  FREQ2_GLO : float;
  FREQ3_GLO : float;
  DFRQ1_GLO : float;
  DFRQ2_GLO : float;
  FREQ1_CMP : float;
  FREQ2_CMP : float;
  FREQ3_CMP : float;
  lam_carr : list float;
  (* satellite numbers and time (rtkcmn.c) *)
  satno : sys_t -> Z -> Z;
  satsys : Z -> sys_t * Z;
  gpst2time : Z -> float -> gtime_t;
  time2gpst : gtime_t -> float * Z;
  timeadd : gtime_t -> float -> gtime_t;
  timediff : gtime_t -> gtime_t -> float;
  gpst2utc : gtime_t -> gtime_t;
  time2str : gtime_t -> Z -> string;
  (* bit fields, CRC and navigation frames *)
  getbitu : list Z -> Z -> Z -> Z;
  setbitu : list Z -> Z -> Z -> Z -> list Z;
  rtk_crc24q : list Z -> Z -> Z;
  test_glostr : list Z -> Z;
  decode_frame : list Z -> frame_io -> Z * frame_io;
  decode_gal_inav : list Z -> eph_t -> Z * eph_t;
  decode_bds_d1 : list Z -> eph_t -> Z * eph_t;
  decode_bds_d2 : list Z -> eph_t -> Z * eph_t;
  decode_glostr : list Z -> geph_t -> Z * geph_t;
  sbsdecodemsg : gtime_t -> Z -> list Z -> sbsmsg_t -> Z * sbsmsg_t;
  (* C library: the conversion %lf of sscanf, and atof *)
  sscanf_lf : string -> option float;
  atof : string -> float;
  (* the value read from an int that was never assigned *)
  indeterminate : Z
}.

Definition UBXSYNC1 : Z := 0xB5.
Definition UBXSYNC2 : Z := 0x62.
Definition UBXCFG : Z := 0x06.
Definition PREAMB_CNAV : Z := 0x8B.

Definition ID_NAVSOL : Z := 0x0106.
Definition ID_NAVTIME : Z := 0x0120.
Definition ID_RXMRAW : Z := 0x0210.
Definition ID_RXMSFRB : Z := 0x0211.
Definition ID_RXMSFRBX : Z := 0x0213.
Definition ID_RXMRAWX : Z := 0x0215.
Definition ID_TRKD5 : Z := 0x030A.
Definition ID_TRKMEAS : Z := 0x0310.
Definition ID_TRKSFRBX : Z := 0x030F.
Definition ID_TIMTM2 : Z := 0x0D03.

Definition FU1 : Z := 1.
Definition FU2 : Z := 2.
Definition FU4 : Z := 3.
Definition FU8 : Z := 4.
Definition FI1 : Z := 5.
Definition FI2 : Z := 6.
Definition FI4 : Z := 7.
Definition FR4 : Z := 8.
Definition FR8 : Z := 9.
Definition FS32 : Z := 10.

Definition P2_10 : float := 0.0009765625.
Definition MAX_CPSTD_VALID : Z := 5.
Definition CPSTD_SLIP : Z := 15.

(** Float tests as C writes them. *)
Definition f_eq (a b : float) : bool := PrimFloat.eqb a b.
Definition f_ne (a b : float) : bool := negb (PrimFloat.eqb a b).
Definition f_lt (a b : float) : bool := PrimFloat.ltb a b.
Definition f_gt (a b : float) : bool := PrimFloat.ltb b a.
Definition f_ge (a b : float) : bool := PrimFloat.leb b a.
Definition fget (a : list float) (i : Z) : float := arr_get 0%float a i.

(** ** ubx gnssid to system, sigid to signal, signal index *)

Definition ubx_sys (gnssid : Z) : sys_t :=
  match gnssid with
  | 0 => SYS_GPS
  | 1 => SYS_SBS
  | 2 => SYS_GAL
  | 3 => SYS_CMP
  | 5 => SYS_QZS
  | 6 => SYS_GLO
  | _ => SYS_NONE
  end.

Definition ubx_sig (sys : sys_t) (sigid : Z) : code_t :=
  match sys with
  | SYS_GPS =>
      if sigid =? 0 then CODE_L1C else if sigid =? 3 then CODE_L2L
      else if sigid =? 4 then CODE_L2S else CODE_NONE
  | SYS_GLO =>
      if sigid =? 0 then CODE_L1C else if sigid =? 2 then CODE_L2C else CODE_NONE
  | SYS_GAL =>
      if sigid =? 0 then CODE_L1C else if sigid =? 1 then CODE_L1B
      else if sigid =? 5 then CODE_L7I else if sigid =? 6 then CODE_L7Q
      else CODE_NONE
  | SYS_QZS =>
      if sigid =? 0 then CODE_L1C else if sigid =? 5 then CODE_L2L else CODE_NONE
  | SYS_CMP =>
      if sigid =? 0 then CODE_L2I else if sigid =? 1 then CODE_L2I
      else if sigid =? 2 then CODE_L7I else if sigid =? 3 then CODE_L7I
      else CODE_NONE
  | SYS_SBS => CODE_L1C
  | _ => CODE_NONE
  end.

Definition sig_idx (sys : sys_t) (code : code_t) : Z :=
  match sys with
  | SYS_GPS =>
      match code with CODE_L1C => 1 | CODE_L2L => 2 | CODE_L2S => 2 | _ => 0 end
  | SYS_GLO =>
      match code with CODE_L1C => 1 | CODE_L2C => 2 | _ => 0 end
  | SYS_GAL =>
      match code with
      | CODE_L1C => 1 | CODE_L1B => 1 | CODE_L7I => 2 | CODE_L7Q => 2 | _ => 0
      end
  | SYS_QZS =>
      match code with CODE_L1C => 1 | CODE_L2L => 2 | _ => 0 end
  | SYS_CMP =>
      match code with CODE_L1I => 1 | CODE_L2I => 1 | CODE_L7I => 2 | _ => 0 end
  | SYS_SBS =>
      match code with CODE_L1C => 1 | _ => 0 end
  | _ => 0
  end.

Section Decoders.
Context {lib : rtklib}.

(** freq index to frequency *)
Definition sig_freq (sys : sys_t) (f : Z) (fcn : Z) : float :=
  let freq_glo := [FREQ1_GLO; FREQ2_GLO; FREQ3_GLO; 0; 0; 0; 0; 0]%float in
  let dfrq_glo := [DFRQ1_GLO; DFRQ2_GLO; 0; 0; 0; 0; 0; 0]%float in
  let freq_bds := [FREQ1_CMP; FREQ2_CMP; FREQ3_CMP; 0; 0; 0; 0; 0]%float in
  match sys with
  | SYS_GLO => (fget freq_glo (f - 1) + fget dfrq_glo (f - 1) * Z2F fcn)%float
  | SYS_CMP => fget freq_bds (f - 1)
  | _ => (CLIGHT / fget lam_carr (f - 1))%float
  end.

(** 8-bit week -> full week *)
Definition adj_utcweek (time : gtime_t) (utc : list float) : list float :=
  if f_ge (fget utc 3) 256 then utc
  else
    let week := snd (time2gpst time) in
    let utc := arr_set utc 3 (fget utc 3 + Z2F (Z.quot week 256 * 256))%float in
    if f_lt (fget utc 3) (Z2F (week - 128))
    then arr_set utc 3 (fget utc 3 + 256)%float
    else if f_gt (fget utc 3) (Z2F (week + 128))
    then arr_set utc 3 (fget utc 3 - 256)%float
    else utc.

(** ** Writing the observation set [raw->obs] *)

Definition obsd_with_time (o : obsd_t) (v : gtime_t) : obsd_t :=
  mk_obsd v (obsd_eventime o) (obsd_timevalid o) (obsd_sat o) (obsd_rcv o)
    (obsd_SNR o) (obsd_LLI o) (obsd_code o) (obsd_qualL o) (obsd_qualP o)
    (obsd_L o) (obsd_P o) (obsd_D o).

Definition obsd_with_eventime (o : obsd_t) (v : gtime_t) : obsd_t :=
  mk_obsd (obsd_time o) v (obsd_timevalid o) (obsd_sat o) (obsd_rcv o)
    (obsd_SNR o) (obsd_LLI o) (obsd_code o) (obsd_qualL o) (obsd_qualP o)
    (obsd_L o) (obsd_P o) (obsd_D o).

Definition obsd_with_timevalid (o : obsd_t) (v : Z) : obsd_t :=
  mk_obsd (obsd_time o) (obsd_eventime o) v (obsd_sat o) (obsd_rcv o)
    (obsd_SNR o) (obsd_LLI o) (obsd_code o) (obsd_qualL o) (obsd_qualP o)
    (obsd_L o) (obsd_P o) (obsd_D o).

Definition obsd_with_sat (o : obsd_t) (v : Z) : obsd_t :=
  mk_obsd (obsd_time o) (obsd_eventime o) (obsd_timevalid o) v (obsd_rcv o)
    (obsd_SNR o) (obsd_LLI o) (obsd_code o) (obsd_qualL o) (obsd_qualP o)
    (obsd_L o) (obsd_P o) (obsd_D o).

Definition obsd_with_rcv (o : obsd_t) (v : Z) : obsd_t :=
  mk_obsd (obsd_time o) (obsd_eventime o) (obsd_timevalid o) (obsd_sat o) v
    (obsd_SNR o) (obsd_LLI o) (obsd_code o) (obsd_qualL o) (obsd_qualP o)
    (obsd_L o) (obsd_P o) (obsd_D o).

Definition obsd_with_SNR (o : obsd_t) (k v : Z) : obsd_t :=
  mk_obsd (obsd_time o) (obsd_eventime o) (obsd_timevalid o) (obsd_sat o)
    (obsd_rcv o) (arr_set (obsd_SNR o) k v) (obsd_LLI o) (obsd_code o)
    (obsd_qualL o) (obsd_qualP o) (obsd_L o) (obsd_P o) (obsd_D o).

Definition obsd_with_LLI (o : obsd_t) (k v : Z) : obsd_t :=
  mk_obsd (obsd_time o) (obsd_eventime o) (obsd_timevalid o) (obsd_sat o)
    (obsd_rcv o) (obsd_SNR o) (arr_set (obsd_LLI o) k v) (obsd_code o)
    (obsd_qualL o) (obsd_qualP o) (obsd_L o) (obsd_P o) (obsd_D o).

Definition obsd_with_code (o : obsd_t) (k : Z) (v : code_t) : obsd_t :=
  mk_obsd (obsd_time o) (obsd_eventime o) (obsd_timevalid o) (obsd_sat o)
    (obsd_rcv o) (obsd_SNR o) (obsd_LLI o) (arr_set (obsd_code o) k v)
    (obsd_qualL o) (obsd_qualP o) (obsd_L o) (obsd_P o) (obsd_D o).

Definition obsd_with_qualL (o : obsd_t) (k v : Z) : obsd_t :=
  mk_obsd (obsd_time o) (obsd_eventime o) (obsd_timevalid o) (obsd_sat o)
    (obsd_rcv o) (obsd_SNR o) (obsd_LLI o) (obsd_code o)
    (arr_set (obsd_qualL o) k v) (obsd_qualP o) (obsd_L o) (obsd_P o) (obsd_D o).

Definition obsd_with_qualP (o : obsd_t) (k v : Z) : obsd_t :=
  mk_obsd (obsd_time o) (obsd_eventime o) (obsd_timevalid o) (obsd_sat o)
    (obsd_rcv o) (obsd_SNR o) (obsd_LLI o) (obsd_code o)
    (obsd_qualL o) (arr_set (obsd_qualP o) k v) (obsd_L o) (obsd_P o) (obsd_D o).

Definition obsd_with_L (o : obsd_t) (k : Z) (v : float) : obsd_t :=
  mk_obsd (obsd_time o) (obsd_eventime o) (obsd_timevalid o) (obsd_sat o)
    (obsd_rcv o) (obsd_SNR o) (obsd_LLI o) (obsd_code o)
    (obsd_qualL o) (obsd_qualP o) (arr_set (obsd_L o) k v) (obsd_P o) (obsd_D o).

Definition obsd_with_P (o : obsd_t) (k : Z) (v : float) : obsd_t :=
  mk_obsd (obsd_time o) (obsd_eventime o) (obsd_timevalid o) (obsd_sat o)
    (obsd_rcv o) (obsd_SNR o) (obsd_LLI o) (obsd_code o)
    (obsd_qualL o) (obsd_qualP o) (obsd_L o) (arr_set (obsd_P o) k v) (obsd_D o).

Definition obsd_with_D (o : obsd_t) (k : Z) (v : float) : obsd_t :=
  mk_obsd (obsd_time o) (obsd_eventime o) (obsd_timevalid o) (obsd_sat o)
    (obsd_rcv o) (obsd_SNR o) (obsd_LLI o) (obsd_code o)
    (obsd_qualL o) (obsd_qualP o) (obsd_L o) (obsd_P o) (arr_set (obsd_D o) k v).

Definition obs_with_n (o : obs_t) (v : Z) : obs_t :=
  mk_obs v (obs_flag o) (obs_rcvcount o) (obs_tmcount o) (obs_data o).

Definition obs_with_flag (o : obs_t) (v : Z) : obs_t :=
  mk_obs (obs_n o) v (obs_rcvcount o) (obs_tmcount o) (obs_data o).

Definition obs_with_rcvcount (o : obs_t) (v : Z) : obs_t :=
  mk_obs (obs_n o) (obs_flag o) v (obs_tmcount o) (obs_data o).

Definition obs_with_tmcount (o : obs_t) (v : Z) : obs_t :=
  mk_obs (obs_n o) (obs_flag o) (obs_rcvcount o) v (obs_data o).

Definition obs_with_data (o : obs_t) (v : list obsd_t) : obs_t :=
  mk_obs (obs_n o) (obs_flag o) (obs_rcvcount o) (obs_tmcount o) v.

(** [raw->obs.data[n]]. *)
Definition data_get (raw : raw_t) (n : Z) : obsd_t :=
  arr_get obsd0 (obs_data (raw_obs raw)) n.

(** [raw->obs.data[n].field=...]: [g] applied to the record in place. *)
Definition data_upd (raw : raw_t) (n : Z) (g : obsd_t -> obsd_t) : raw_t :=
  set_obs raw
    (obs_with_data (raw_obs raw) (arr_set (obs_data (raw_obs raw)) n (g (data_get raw n)))).

(** The clearing of the cells [lo .. NFREQ+NEXOBS-1] of a record, as the
    decoders write it ([qual] tells whether qualL and qualP are cleared too). *)
Definition obsd_clear_cell (qual : bool) (k : Z) (o : obsd_t) : obsd_t :=
  let o := obsd_with_P (obsd_with_L o k 0%float) k 0%float in
  let o := if qual then obsd_with_qualP (obsd_with_qualL o k 0) k 0 else o in
  let o := obsd_with_D o k 0%float in
  let o := obsd_with_LLI (obsd_with_SNR o k 0) k 0 in
  obsd_with_code o k CODE_NONE.

Definition obsd_clear_from (qual : bool) (lo : Z) (o : obsd_t) : obsd_t :=
  for_range lo (NFREQ + NEXOBS) (obsd_clear_cell qual) o.

(** The option [-TADJ=tint]; [tadj] keeps its initial 0.0 when the option is
    absent or no number follows. *)
Definition opt_tadj (opt : string) : float :=
  match strstr opt "-TADJ=" with
  | Some q => default 0%float (sscanf_lf (str_drop 6 q))
  | None => 0%float
  end.

(** Time tag adjustment: [(toff, time)]. *)
Definition time_adjust (tadj : float) (time : gtime_t) : float * gtime_t :=
  if f_gt tadj 0 then
    let tn := (fst (time2gpst time) / tadj)%float in
    let toff := ((tn - F_floor (tn + 0.5)) * tadj)%float in
    (toff, timeadd time (- toff)%float)
  else (0%float, time).

(** ** decode ubx-rxm-raw: raw measurement data *)

Definition rxmraw_meas (time : gtime_t) (toff tt : float) (p : list Z)
    (st : raw_t * Z) : raw_t * Z :=
  let '(raw, n) := st in
  let raw := data_upd raw n (fun o => obsd_with_time o time) in
  let raw := data_upd raw n (fun o => obsd_with_L o 0 (R8 p - toff * FREQL1)%float) in
  let raw := data_upd raw n (fun o => obsd_with_P o 0 (R8 (at_off p 8) - toff * CLIGHT)%float) in
  let raw := data_upd raw n (fun o => obsd_with_D o 0 (R4 (at_off p 16))) in
  let prn := U1 (at_off p 20) in
  let raw := data_upd raw n (fun o =>
               obsd_with_SNR o 0 (F_trunc_Z (Z2F (I1 (at_off p 22)) * 4 + 0.5)%float mod 256)) in
  let raw := data_upd raw n (fun o => obsd_with_LLI o 0 (U1 (at_off p 23))) in
  let raw := data_upd raw n (fun o => obsd_with_code o 0 CODE_L1C) in
  (* phase polarity flip option (-INVCP) *)
  let raw := if has_opt (raw_opt raw) "-INVCP"
             then data_upd raw n (fun o => obsd_with_L o 0 (- fget (obsd_L o) 0)%float)
             else raw in
  let sat := satno (if MINPRNSBS <=? prn then SYS_SBS else SYS_GPS) prn in
  if sat =? 0 then (raw, n)
  else
    let raw := data_upd raw n (fun o => obsd_with_sat o sat) in
    let lli := arr_get 0 (obsd_LLI (data_get raw n)) 0 in
    let lt :=
      if negb (Z.land lli 1 =? 0) then 0%float
      else if f_lt tt 1 || f_lt 10 tt then 0%float
      else (arr2_get 0%float (raw_lockt raw) (sat - 1) 0 + tt)%float in
    let raw := set_lockt raw (arr2_set (raw_lockt raw) (sat - 1) 0 lt) in
    let raw := data_upd raw n (obsd_clear_from true 1) in
    (raw, n + 1).

Definition decode_rxmraw (raw : raw_t) : Z * raw_t :=
  let p := at_off (raw_buff raw) 6 in
  let raw :=
    if raw_outtype raw =? 0 then raw
    else set_msgtype raw
           ("UBX RXM-RAW   (" ++ fmt_wd 4 (raw_len raw) ++ "): nsat="
            ++ fmt_d (U1 (at_off p 6)))%string in
  (* time tag adjustment option (-TADJ) *)
  let tadj := opt_tadj (raw_opt raw) in
  let nsat := U1 (at_off p 6) in
  if raw_len raw <? 12 + 24 * nsat then (-1, raw)
  else
    let tow := Z2F (U4 p) in
    let week := U2 (at_off p 4) in
    let time := gpst2time week (tow * 0.001)%float in
    if week =? 0 then (0, raw)
    else
      let '(toff, time) := time_adjust tadj time in
      let tt := timediff time (raw_time raw) in
      let '(raw, n) :=
        for_range 0 (Z.min nsat MAXOBS)
          (fun i => rxmraw_meas time toff tt (at_off p (8 + 24 * i))) (raw, 0) in
      let raw := set_time raw time in
      let raw := set_obs raw (obs_with_n (raw_obs raw) n) in
      (1, raw).

(** ** decode ubx-rxm-rawx: multi-gnss raw measurement data *)

(** max valid std-dev of carrier-phase (-MAX_STD_CP) *)
Definition opt_cpstd_valid (opt : string) : Z :=
  match strstr opt "-MAX_STD_CP=" with
  | Some q => default indeterminate (scan_d (str_drop 12 q))
  | None => MAX_CPSTD_VALID
  end.

(** slip threshold of std-dev of carrier-phase (-STD_SLIP) *)
Definition opt_cpstd_slip (opt : string) : Z :=
  match strstr opt "-STD_SLIP=" with
  | Some q => default indeterminate (scan_d (str_drop 10 q))
  | None => CPSTD_SLIP
  end.

(** The fields of one 32-byte measurement block at [p]. *)
Record rawx_blk := mk_rawx_blk {
  blk_P : float;
  blk_L : float;
  blk_D : float;
  blk_gnss : Z;
  blk_svid : Z;
  blk_sigid : Z;
  blk_frqid : Z;
  blk_lockt : Z;
  blk_cn0 : Z;
  blk_prstd : Z;
  blk_cpstd : Z;
  blk_tstat : Z
}.

Definition rawx_read (p : list Z) : rawx_blk :=
  let prstd := Z.land (U1 (at_off p 27)) 15 in
  mk_rawx_blk
    (R8 p) (R8 (at_off p 8)) (R4 (at_off p 16))
    (U1 (at_off p 20)) (U1 (at_off p 21)) (U1 (at_off p 22)) (U1 (at_off p 23))
    (U2 (at_off p 24)) (U1 (at_off p 26))
    (Z.shiftl 1 (if 5 <=? prstd then prstd - 5 else 0))
    (Z.land (U1 (at_off p 28)) 15)
    (U1 (at_off p 30)).

(** [if (!(tstat&1)) P=0.0;] *)
Definition rawx_valid_P (tstat : Z) (P : float) : float :=
  if Z.land tstat 1 =? 0 then 0%float else P.

(** [if (!(tstat&2)||L==-0.5||cpstd>cpstd_valid) L=0.0;] *)
Definition rawx_valid_L (cpstd_valid tstat cpstd : Z) (L : float) : float :=
  if (Z.land tstat 2 =? 0) || f_eq L (-0.5) || (cpstd_valid <? cpstd)
  then 0%float else L.

(** [for (j=0;j<n;j++) if (raw->obs.data[j].sat==sat) break;]: the [j]
    the loop ends with. *)
Definition find_sat (raw : raw_t) (n sat : Z) : Z :=
  for_range 0 n
    (fun j found => if found <? n then found
                    else if obsd_sat (data_get raw j) =? sat then j else found) n.

(** The first record of a satellite in the epoch: time, sat, rcv and all
    cells cleared. *)
Definition obsd_init (time : gtime_t) (sat : Z) (o : obsd_t) : obsd_t :=
  let o := obsd_with_time o time in
  let o := obsd_with_sat o sat in
  let o := obsd_with_rcv o 0 in
  obsd_clear_from true 0 o.

Definition b2z (b : bool) : Z := if b then 1 else 0.

(** Half-cycle flags, slip inference and the LLI of one measurement: the
    state with lockflag, lockt and halfc of [(sat,f)] updated, and [LLI]. *)
Definition rawx_slip (cpstd_slip : Z) (sys : sys_t) (sat f lockt cpstd tstat : Z)
    (L : float) (raw : raw_t) : raw_t * Z :=
  let halfv :=
    if sys_eqb sys SYS_SBS then b2z (8000 <? lockt) (* half-cycle valid *)
    else b2z (negb (Z.land tstat 4 =? 0)) in
  let halfc := b2z (negb (Z.land tstat 8 =? 0)) in (* half cycle subtracted *)
  let slip :=
    b2z ((lockt =? 0)
         || f_lt (Z2F lockt * 0.001)%float (arr2_get 0%float (raw_lockt raw) (sat - 1) (f - 1))
         || negb (halfc =? arr2_get 0 (raw_halfc raw) (sat - 1) (f - 1))) in
  let slip := if cpstd_slip <=? cpstd then LLI_SLIP else slip in
  let raw := if slip =? 0 then raw
             else set_lockflag raw (arr2_set (raw_lockflag raw) (sat - 1) (f - 1) (slip mod 256)) in
  let raw := set_lockt raw (arr2_set (raw_lockt raw) (sat - 1) (f - 1) (Z2F lockt * 0.001)%float) in
  let raw := set_halfc raw (arr2_set (raw_halfc raw) (sat - 1) (f - 1) halfc) in
  (* LLI: bit1=slip,bit2=half-cycle-invalid *)
  let LLI := if (halfv =? 0) && f_ne L 0 then LLI_HALFC else 0 in
  let LLI := Z.lor LLI (b2z (negb (halfc =? arr2_get 0 (raw_halfc raw) (sat - 1) (f - 1)))) in
  let LLI :=
    if f_ne L 0
    then Z.lor LLI (if 0 <? arr2_get 0 (raw_lockflag raw) (sat - 1) (f - 1) then LLI_SLIP else 0)
    else LLI in
  (raw, LLI).

(** The merge of one measurement into the epoch, by satellite: a new record
    if the satellite is unseen, then the cells of slot [f]; a valid phase
    clears the latched lockflag. *)
Definition rawx_store (time : gtime_t) (sat f : Z) (L P D : float)
    (cpstd prstd cn0 LLI : Z) (code : code_t) (st : raw_t * Z) : raw_t * Z :=
  let '(raw, n) := st in
  let j := find_sat raw n sat in
  let '(raw, n) :=
    if n <=? j then (data_upd raw n (obsd_init time sat), n + 1) else (raw, n) in
  let prstd := if prstd <=? 9 then prstd else 9 in (* limit to 9 to fit RINEX format *)
  let cpstd := if cpstd <=? 9 then cpstd else 9 in (* limit to 9 to fit RINEX format *)
  let raw := data_upd raw j (fun o => obsd_with_L o (f - 1) L) in
  let raw := data_upd raw j (fun o => obsd_with_P o (f - 1) P) in
  let raw := data_upd raw j (fun o => obsd_with_qualL o (f - 1) cpstd) in
  let raw := data_upd raw j (fun o => obsd_with_qualP o (f - 1) prstd) in
  let raw := data_upd raw j (fun o => obsd_with_D o (f - 1) D) in
  let raw := data_upd raw j (fun o => obsd_with_SNR o (f - 1) ((cn0 * 4) mod 256)) in
  let raw := data_upd raw j (fun o => obsd_with_LLI o (f - 1) (LLI mod 256)) in
  let raw := data_upd raw j (fun o => obsd_with_code o (f - 1) code) in
  let raw := if f_ne L 0
             then set_lockflag raw (arr2_set (raw_lockflag raw) (sat - 1) (f - 1) 0)
             else raw in
  (raw, n).

(** The body of the loop over the measurement blocks; a [continue] returns
    the state as it is. *)
Definition rawx_meas (time : gtime_t) (toff : float) (ver cpstd_valid cpstd_slip : Z)
    (p : list Z) (st : raw_t * Z) : raw_t * Z :=
  let '(raw, n) := st in
  let b := rawx_read p in
  let lockt := blk_lockt b in
  let cpstd := blk_cpstd b in
  let prstd := blk_prstd b in
  let tstat := blk_tstat b in
  let P := rawx_valid_P tstat (blk_P b) in
  let L := rawx_valid_L cpstd_valid tstat cpstd (blk_L b) in (* invalid phase *)
  let sys := ubx_sys (blk_gnss b) in
  if sys_eqb sys SYS_NONE then st
  else
    let prn := blk_svid b + (if sys_eqb sys SYS_QZS then MINPRNQZS - 1 else 0) in
    let sat := satno sys prn in
    if sat =? 0 then st
    else
      let code :=
        if 1 <=? ver then ubx_sig sys (blk_sigid b)
        else if sys_eqb sys SYS_CMP then CODE_L2I
        else if sys_eqb sys SYS_GAL then CODE_L1X else CODE_L1C in
      (* signal index in obs data *)
      let f := sig_idx sys code in
      if (f =? 0) || (NFREQ + NEXOBS <? f) then st
      else
        (* offset by time tag adjustment *)
        let adj := f_ne toff 0 && f_ne L 0 in
        let P := if adj then (P - toff * CLIGHT)%float else P in
        let L := if adj then (L - toff * sig_freq sys f (blk_frqid b - 7))%float else L in
        let '(raw, LLI) := rawx_slip cpstd_slip sys sat f lockt cpstd tstat L raw in
        rawx_store time sat f L P (blk_D b) cpstd prstd (blk_cn0 b) LLI code (raw, n).

(** [for (i=0,p+=16;i<nmeas&&n<MAXOBS;i++,p+=32)]: at most [k] more blocks,
    from block [i]. *)
Fixpoint rawx_loop (k : nat) (i : Z) (body : Z -> raw_t * Z -> raw_t * Z)
    (st : raw_t * Z) : raw_t * Z :=
  match k with
  | O => st
  | Datatypes.S k' =>
      if snd st <? MAXOBS then rawx_loop k' (i + 1) body (body i st) else st
  end.

Definition decode_rxmrawx (raw : raw_t) : Z * raw_t :=
  let p := at_off (raw_buff raw) 6 in
  if raw_len raw <? 24 then (-1, raw)
  else
    let tow := R8 p in (* rcvTow (s) *)
    let week := U2 (at_off p 8) in (* week *)
    let nmeas := U1 (at_off p 11) in (* numMeas *)
    let ver := U1 (at_off p 13) in (* version *)
    if raw_len raw <? 24 + 32 * nmeas then (-1, raw)
    else if week =? 0 then (0, raw)
    else
      let time := gpst2time week tow in
      let raw :=
        if raw_outtype raw =? 0 then raw
        else set_msgtype raw
               ("UBX RXM-RAWX  (" ++ fmt_wd 4 (raw_len raw) ++ "): time="
                ++ time2str time 2 ++ " nmeas=" ++ fmt_d nmeas ++ " ver="
                ++ fmt_d ver)%string in
      let tadj := opt_tadj (raw_opt raw) in
      let cpstd_valid := opt_cpstd_valid (raw_opt raw) in
      let cpstd_slip := opt_cpstd_slip (raw_opt raw) in
      let '(toff, time) := time_adjust tadj time in
      let '(raw, n) :=
        rawx_loop (Z.to_nat nmeas) 0
          (fun i => rawx_meas time toff ver cpstd_valid cpstd_slip (at_off p (16 + 32 * i)))
          (raw, 0) in
      let raw := set_time raw time in
      let raw := set_obs raw (obs_with_n (raw_obs raw) n) in
      (1, raw).

(** ** Subframes and ephemerides (ubx-rxm-sfrb) *)

Definition nav_with_eph (n : nav_t) (v : list eph_t) : nav_t :=
  mk_nav v (nav_geph n) (nav_alm n) (nav_utc_gps n) (nav_ion_gps n)
    (nav_utc_qzs n) (nav_ion_qzs n) (nav_leaps n).

Definition nav_with_geph (n : nav_t) (v : list geph_t) : nav_t :=
  mk_nav (nav_eph n) v (nav_alm n) (nav_utc_gps n) (nav_ion_gps n)
    (nav_utc_qzs n) (nav_ion_qzs n) (nav_leaps n).

Definition nav_with_utc_gps (n : nav_t) (v : list float) : nav_t :=
  mk_nav (nav_eph n) (nav_geph n) (nav_alm n) v (nav_ion_gps n)
    (nav_utc_qzs n) (nav_ion_qzs n) (nav_leaps n).

Definition nav_with_utc_qzs (n : nav_t) (v : list float) : nav_t :=
  mk_nav (nav_eph n) (nav_geph n) (nav_alm n) (nav_utc_gps n) (nav_ion_gps n)
    v (nav_ion_qzs n) (nav_leaps n).

Definition eph_with_sat (e : eph_t) (v : Z) : eph_t :=
  mk_eph v (eph_iode e) (eph_iodc e) (eph_toe e) (eph_toc e) (eph_rest e).

Definition geph_with_tof (g : geph_t) (v : gtime_t) : geph_t :=
  mk_geph (geph_sat g) (geph_iode g) (geph_frq g) v (geph_rest g).

Definition geph_with_frq (g : geph_t) (v : Z) : geph_t :=
  mk_geph (geph_sat g) (geph_iode g) v (geph_tof g) (geph_rest g).

(** [raw->subfrm[sat-1]] *)
Definition subfrm_row (raw : raw_t) (sat : Z) : list Z :=
  arr_get [] (raw_subfrm raw) (sat - 1).

Definition set_subfrm_row (raw : raw_t) (sat : Z) (row : list Z) : raw_t :=
  set_subfrm raw (arr_set (raw_subfrm raw) (sat - 1) row).

(** save subframe: the state of the two loops is the row, the offset [q]
    and the bit count [n]. *)
Definition save_subfrm (sat : Z) (raw : raw_t) : Z * raw_t :=
  let p := at_off (raw_buff raw) 6 in
  let id := Z.land (Z.shiftr (U4 (at_off p 6)) 2) 7 in
  if (id <? 1) || (5 <? id) then (0, raw)
  else
    let step (w : Z) (j : Z) (st : list Z * Z * Z) :=
      let '(row, q, n) := st in
      let row := wr row q ((Z.shiftl (rd row q) 1 + Z.land (Z.shiftr w j) 1) mod 256) in
      let n := n + 1 in
      (row, (if n mod 8 =? 0 then q + 1 else q), n) in
    let '(row, _, _) :=
      for_range 0 10
        (fun i st =>
           let w := U4 (at_off p (2 + 4 * i)) in
           for_range 0 24 (fun k st => step w (23 - k) st) st)
        (subfrm_row raw sat, (id - 1) * 30, 0) in
    (id, set_subfrm_row raw sat row).

(** [decode_frame(buff,&eph,NULL,NULL,NULL,NULL)] *)
Definition decode_frame_eph (buff : list Z) (eph : eph_t) : Z * eph_t :=
  let '(r, io) := decode_frame buff (mk_frame_io (Some eph) None None None None) in
  (r, default eph (fio_eph io)).

(** decode ephemeris *)
Definition decode_ephem (sat : Z) (raw : raw_t) : Z * raw_t :=
  let eph := eph0 in
  let row := subfrm_row raw sat in
  let '(r1, eph) := decode_frame_eph row eph in
  if negb (r1 =? 1) then (0, raw)
  else
    let '(r2, eph) := decode_frame_eph (at_off row 30) eph in
    if negb (r2 =? 2) then (0, raw)
    else
      let '(r3, eph) := decode_frame_eph (at_off row 60) eph in
      if negb (r3 =? 3) then (0, raw)
      else
        let old := arr_get eph0 (nav_eph (raw_nav raw)) (sat - 1) in
        if negb (has_opt (raw_opt raw) "-EPHALL")
           && (eph_iode eph =? eph_iode old) && (eph_iodc eph =? eph_iodc old)
        then (0, raw) (* unchanged *)
        else
          let eph := eph_with_sat eph sat in
          let raw := set_nav raw
                       (nav_with_eph (raw_nav raw) (arr_set (nav_eph (raw_nav raw)) (sat - 1) eph)) in
          let raw := set_ephsat raw sat in
          (2, raw).

(** The results of [decode_frame] written back through the pointers that
    were passed: [gps] selects the GPS or the QZSS parameter blocks, [full]
    tells whether ion, utc and leaps were passed at all. *)
Definition decode_frame_alm (buff : list Z) (gps full : bool) (raw : raw_t) : raw_t :=
  let nav := raw_nav raw in
  let ion := if gps then nav_ion_gps nav else nav_ion_qzs nav in
  let utc := if gps then nav_utc_gps nav else nav_utc_qzs nav in
  let io :=
    if full then mk_frame_io None (Some (nav_alm nav)) (Some ion) (Some utc) (Some (nav_leaps nav))
    else mk_frame_io None (Some (nav_alm nav)) None None None in
  let io := snd (decode_frame buff io) in
  let alm := default (nav_alm nav) (fio_alm io) in
  let ion := if full then default ion (fio_ion io) else ion in
  let utc := if full then default utc (fio_utc io) else utc in
  let leaps := if full then default (nav_leaps nav) (fio_leaps io) else nav_leaps nav in
  set_nav raw
    (if gps
     then mk_nav (nav_eph nav) (nav_geph nav) alm utc ion (nav_utc_qzs nav) (nav_ion_qzs nav) leaps
     else mk_nav (nav_eph nav) (nav_geph nav) alm (nav_utc_gps nav) (nav_ion_gps nav) utc ion leaps).

(** decode almanac and ion/utc *)
Definition decode_alm1 (sat : Z) (raw : raw_t) : Z * raw_t :=
  match fst (satsys sat) with
  | SYS_GPS =>
      let raw := decode_frame_alm (at_off (subfrm_row raw sat) 90) true true raw in
      (9, set_nav raw (nav_with_utc_gps (raw_nav raw)
                         (adj_utcweek (raw_time raw) (nav_utc_gps (raw_nav raw)))))
  | SYS_QZS =>
      let raw := decode_frame_alm (at_off (subfrm_row raw sat) 90) false true raw in
      (9, set_nav raw (nav_with_utc_qzs (raw_nav raw)
                         (adj_utcweek (raw_time raw) (nav_utc_qzs (raw_nav raw)))))
  | _ => (9, raw)
  end.

(** decode almanac *)
Definition decode_alm2 (sat : Z) (raw : raw_t) : Z * raw_t :=
  match fst (satsys sat) with
  | SYS_GPS =>
      (0, decode_frame_alm (at_off (subfrm_row raw sat) 120) true false raw)
  | SYS_QZS =>
      let raw := decode_frame_alm (at_off (subfrm_row raw sat) 120) false true raw in
      (0, set_nav raw (nav_with_utc_qzs (raw_nav raw)
                         (adj_utcweek (raw_time raw) (nav_utc_qzs (raw_nav raw)))))
  | _ => (0, raw)
  end.

(** decode ubx-rxm-sfrb: subframe buffer *)
Definition decode_rxmsfrb (raw : raw_t) : Z * raw_t :=
  let p := at_off (raw_buff raw) 6 in
  let raw :=
    if raw_outtype raw =? 0 then raw
    else set_msgtype raw
           ("UBX RXM-SFRB  (" ++ fmt_wd 4 (raw_len raw) ++ "): prn="
            ++ fmt_wd 2 (U1 (at_off p 1)))%string in
  if raw_len raw <? 42 then (-1, raw)
  else
    let prn := U1 (at_off p 1) in
    let sat := satno (if MINPRNSBS <=? prn then SYS_SBS else SYS_GPS) prn in
    if sat =? 0 then (-1, raw)
    else
      let '(sys, prn) := satsys sat in
      match sys with
      | SYS_GPS =>
          let '(id, raw) := save_subfrm sat raw in
          if id =? 3 then decode_ephem sat raw
          else if id =? 4 then decode_alm1 sat raw
          else if id =? 5 then decode_alm2 sat raw
          else (0, raw)
      | SYS_SBS =>
          let words := map (fun i => U4 (at_off p (2 + 4 * Z.of_nat i))) (seq 0 10) in
          let '(r, msg) := sbsdecodemsg (raw_time raw) prn words (raw_sbsmsg raw) in
          ((if r =? 0 then 0 else 3), set_sbsmsg raw msg)
      | _ => (0, raw)
      end.

(** [int] from an [unsigned long] of 32 bits. *)
Definition to_int32 (u : Z) : Z :=
  let v := u mod 2 ^ 32 in if v <? 2 ^ 31 then v else v - 2 ^ 32.

(** decode ubx-nav-sol: navigation solution *)
Definition decode_navsol (raw : raw_t) : Z * raw_t :=
  let p := at_off (raw_buff raw) 6 in
  let raw :=
    if raw_outtype raw =? 0 then raw
    else set_msgtype raw ("UBX NAV-SOL   (" ++ fmt_wd 4 (raw_len raw) ++ "):")%string in
  let itow := to_int32 (U4 p) in
  let ftow := I4 (at_off p 4) in
  let week := U2 (at_off p 8) in
  if Z.land (U1 (at_off p 11)) 0x0C =? 0x0C
  then (0, set_time raw (gpst2time week (Z2F itow * 1E-3 + Z2F ftow * 1E-9)%float))
  else (0, raw).

(** decode ubx-nav-timegps: gps time solution *)
Definition decode_navtime (raw : raw_t) : Z * raw_t :=
  let p := at_off (raw_buff raw) 6 in
  let raw :=
    if raw_outtype raw =? 0 then raw
    else set_msgtype raw ("UBX NAV-TIME  (" ++ fmt_wd 4 (raw_len raw) ++ "):")%string in
  let itow := to_int32 (U4 p) in
  let ftow := I4 (at_off p 4) in
  let week := U2 (at_off p 8) in
  if Z.land (U1 (at_off p 11)) 0x03 =? 0x03
  then (0, set_time raw (gpst2time week (Z2F itow * 1E-3 + Z2F ftow * 1E-9)%float))
  else (0, raw).

(** ** decode ubx-trk-meas and ubx-trkd5: trace measurement data

    The static array [adrs] of both functions is written and, outside the
    disabled debug trace, never read: it is left out. *)

(** adjustment to code measurement in meters, based on GLONASS freq *)
Definition P_adj_fw2 : list Z := [0; 0; 0; 0; 1; 3; 2; 0; -4; -3; -9; -8; -7; -4; 0].
Definition P_adj_fw3 : list Z := [11; 13; 13; 14; 14; 13; 12; 10; 8; 6; 5; 5; 5; 7; 0].

(** trk meas code adjust (-TRKM_ADJ); [fw] keeps its initial 0 otherwise. *)
Definition opt_trkm_adj (opt : string) : Z :=
  match strstr opt "-TRKM_ADJ=" with
  | Some q => default 0 (scan_d (str_drop 10 q))
  | None => 0
  end.

(** adjust week handover: [time] from the time of week [tr]. *)
Definition week_handover (raw : raw_t) (tr : float) : gtime_t :=
  let '(t, week) := time2gpst (raw_time raw) in
  let week :=
    if f_lt tr (t - 302400)%float then week + 1
    else if f_gt tr (t + 302400)%float then week - 1
    else week in
  gpst2time week tr.

(** signal travel time *)
Definition travel_time (tr ts : float) : float :=
  let tau := (tr - ts)%float in
  if f_lt tau (-302400) then (tau + 604800)%float
  else if f_gt tau 302400 then (tau - 604800)%float
  else tau.

Definition trkmeas_ch (time : gtime_t) (tr utc_gpst : float) (fw : Z) (p : list Z)
    (st : raw_t * Z) : raw_t * Z :=
  let '(raw, n) := st in
  (* quality indicator *)
  let qi := U1 (at_off p 1) in
  if (qi <? 4) || (7 <? qi) then st
  else
    (* system and satellite number *)
    let sys := ubx_sys (U1 (at_off p 4)) in
    if sys_eqb sys SYS_NONE then st
    else
      let prn := U1 (at_off p 5) + (if sys_eqb sys SYS_QZS then 192 else 0) in
      let sat := satno sys prn in
      if sat =? 0 then st
      else
        (* transmission time *)
        let ts := (I8 (at_off p 24) * P2_32 / 1000)%float in
        let ts :=
          if sys_eqb sys SYS_CMP then (ts + 14)%float (* bdt -> gpst *)
          else if sys_eqb sys SYS_GLO then (ts - (10800 + utc_gpst))%float (* glot -> gpst *)
          else ts in
        let tau := travel_time tr ts in
        let frq := U1 (at_off p 7) - 7 in (* frequency *)
        let flag := U1 (at_off p 8) in (* tracking status *)
        let lock2 := U1 (at_off p 17) in (* phase lock count *)
        let snr := (Z2F (U2 (at_off p 20)) / 256)%float in
        let half := if Z.land flag 0x40 =? 0 then 0%float else 0.5%float in
        let adr := (I8 (at_off p 32) * P2_32 + half)%float in
        let dop := (Z2F (I4 (at_off p 40)) * P2_10 * 10)%float in
        (* set slip flag *)
        let raw :=
          if (lock2 =? 0) || f_lt (Z2F lock2) (arr2_get 0%float (raw_lockt raw) (sat - 1) 0)
          then set_lockt raw (arr2_set (raw_lockt raw) (sat - 1) 1 1%float)
          else raw in
        let raw := set_lockt raw (arr2_set (raw_lockt raw) (sat - 1) 0 (Z2F lock2)) in
        (* check phase lock *)
        if Z.land flag 0x20 =? 0 then (raw, n)
        else
          let raw := data_upd raw n (fun o => obsd_with_time o time) in
          let raw := data_upd raw n (fun o => obsd_with_sat o sat) in
          let raw := data_upd raw n (fun o => obsd_with_P o 0 (tau * CLIGHT)%float) in
          let raw := data_upd raw n (fun o => obsd_with_L o 0 (- adr)%float) in
          let raw := data_upd raw n (fun o => obsd_with_D o 0 (to_single dop)) in
          let raw := data_upd raw n (fun o =>
                       obsd_with_SNR o 0 (F_trunc_Z (snr * 4)%float mod 256)) in
          let raw := data_upd raw n (fun o =>
                       obsd_with_code o 0 (if sys_eqb sys SYS_CMP then CODE_L2I else CODE_L1C)) in
          let raw := data_upd raw n (fun o => obsd_with_qualL o 0 ((8 - qi) mod 256)) in
          let raw := data_upd raw n (fun o =>
                       obsd_with_LLI o 0
                         (b2z (f_gt (arr2_get 0%float (raw_lockt raw) (sat - 1) 1) 0))) in
          let hv :=
            if sys_eqb sys SYS_SBS then (if 142 <? lock2 then 0 else 2) (* half-cycle valid *)
            else (if Z.land flag 0x80 =? 0 then 2 else 0) in
          let raw := data_upd raw n (fun o =>
                       obsd_with_LLI o 0 (Z.lor (arr_get 0 (obsd_LLI o) 0) hv)) in
          let raw := set_lockt raw (arr2_set (raw_lockt raw) (sat - 1) 1 0%float) in
          (* adjust code measurements for GLONASS sats *)
          let raw :=
            if sys_eqb sys SYS_GLO && (-7 <=? frq) && (frq <=? 7) then
              let raw :=
                if fw =? 2
                then data_upd raw n (fun o =>
                       obsd_with_P o 0 (fget (obsd_P o) 0 + Z2F (rd P_adj_fw2 (frq + 7)))%float)
                else raw in
              if fw =? 3
              then data_upd raw n (fun o =>
                     obsd_with_P o 0 (fget (obsd_P o) 0 + Z2F (rd P_adj_fw3 (frq + 7)))%float)
              else raw
            else raw in
          let raw := data_upd raw n (obsd_clear_from true 1) in
          (raw, n + 1).

Definition decode_trkmeas (raw : raw_t) : Z * raw_t :=
  let p := at_off (raw_buff raw) 6 in
  let raw :=
    if raw_outtype raw =? 0 then raw
    else set_msgtype raw ("UBX TRK-MEAS  (" ++ fmt_wd 4 (raw_len raw) ++ "):")%string in
  if gt_time (raw_time raw) =? 0 then (0, raw)
  else
    let fw := opt_trkm_adj (raw_opt raw) in
    (* number of channels *)
    let nch := U1 (at_off p 2) in
    if raw_len raw <? 112 + nch * 56 then (-1, raw)
    else
      (* time-tag = max(transmission time + 0.08) rounded by 100 ms *)
      let tr :=
        for_range 0 nch
          (fun i tr =>
             let p := at_off (raw_buff raw) (110 + 56 * i) in
             if (U1 (at_off p 1) <? 4) || negb (sys_eqb (ubx_sys (U1 (at_off p 4))) SYS_GPS)
             then tr
             else
               let t := (I8 (at_off p 24) * P2_32 / 1000)%float in
               if f_gt t tr then t else tr)
          (-1)%float in
      if f_lt tr 0 then (0, raw)
      else
        let tr := (Z2F (ROUND ((tr + 0.08) / 0.1)) * 0.1)%float in
        let time := week_handover raw tr in
        let utc_gpst := timediff (gpst2utc time) time in
        let '(raw, n) :=
          for_range 0 nch
            (fun i => trkmeas_ch time tr utc_gpst fw (at_off (raw_buff raw) (110 + 56 * i)))
            (raw, 0) in
        if n <=? 0 then (0, raw)
        else
          let raw := set_time raw time in
          let raw := set_obs raw (obs_with_n (raw_obs raw) n) in
          (1, raw).

(** The number of turns of [for (p=buff+off;p-buff<len-2;p+=step)]. *)
Definition trkd5_turns (off step len : Z) : Z :=
  if off <? len - 2 then (len - 2 - off + step - 1) / step else 0.

Definition trkd5_ch (time : gtime_t) (tr utc_gpst : float) (type : Z) (p : list Z)
    (st : raw_t * Z) : raw_t * Z :=
  let '(raw, n) := st in
  (* quality indicator *)
  let qi := Z.land (U1 (at_off p 41)) 7 in
  if (qi <? 4) || (7 <? qi) then st
  else
    let sys6 := ubx_sys (U1 (at_off p 56)) in
    if (type =? 6) && sys_eqb sys6 SYS_NONE then st
    else
      let prn :=
        if type =? 6 then U1 (at_off p 57) + (if sys_eqb sys6 SYS_QZS then 192 else 0)
        else U1 (at_off p 34) in
      let sys :=
        if type =? 6 then sys6
        else if prn <? MINPRNSBS then SYS_GPS else SYS_SBS in
      let sat := satno sys prn in
      if sat =? 0 then st
      else
        (* transmission time *)
        let ts := (I8 p * P2_32 / 1000)%float in
        let ts := if sys_eqb sys SYS_GLO then (ts - (10800 + utc_gpst))%float else ts in
        let tau := travel_time tr ts in
        let flag := U1 (at_off p 54) in (* tracking status *)
        let half := if Z.land flag 0x01 =? 0 then 0%float else 0.5%float in
        let adr := if qi <? 6 then 0%float else (I8 (at_off p 8) * P2_32 + half)%float in
        let dop := (Z2F (I4 (at_off p 16)) * P2_10 / 4)%float in
        let snr := (Z2F (U2 (at_off p 32)) / 256)%float in
        let raw :=
          if PrimFloat.leb snr 10
          then set_lockt raw (arr2_set (raw_lockt raw) (sat - 1) 1 1%float)
          else raw in
        (* check phase lock *)
        if Z.land flag 0x08 =? 0 then (raw, n)
        else
          let raw := data_upd raw n (fun o => obsd_with_time o time) in
          let raw := data_upd raw n (fun o => obsd_with_sat o sat) in
          let raw := data_upd raw n (fun o => obsd_with_P o 0 (tau * CLIGHT)%float) in
          let raw := data_upd raw n (fun o => obsd_with_L o 0 (- adr)%float) in
          let raw := data_upd raw n (fun o => obsd_with_D o 0 (to_single dop)) in
          let raw := data_upd raw n (fun o =>
                       obsd_with_SNR o 0 (F_trunc_Z (snr * 4)%float mod 256)) in
          let raw := data_upd raw n (fun o =>
                       obsd_with_code o 0 (if sys_eqb sys SYS_CMP then CODE_L2I else CODE_L1C)) in
          let raw := data_upd raw n (fun o =>
                       obsd_with_LLI o 0
                         (b2z (f_gt (arr2_get 0%float (raw_lockt raw) (sat - 1) 1) 0))) in
          let raw := set_lockt raw (arr2_set (raw_lockt raw) (sat - 1) 1 0%float) in
          let raw := data_upd raw n (obsd_clear_from false 1) in
          (raw, n + 1).

Definition decode_trkd5 (raw : raw_t) : Z * raw_t :=
  let p := at_off (raw_buff raw) 6 in
  let raw :=
    if raw_outtype raw =? 0 then raw
    else set_msgtype raw ("UBX TRK-D5    (" ++ fmt_wd 4 (raw_len raw) ++ "):")%string in
  if gt_time (raw_time raw) =? 0 then (0, raw)
  else
    let utc_gpst := timediff (gpst2utc (raw_time raw)) (raw_time raw) in
    let type := U1 p in
    let '(off, len) :=
      if type =? 3 then (86, 56)
      else if type =? 6 then (86, 64) (* u-blox 7 *)
      else (78, 56) in
    let turns := trkd5_turns off len (raw_len raw) in
    let tr :=
      for_range 0 turns
        (fun i tr =>
           let p := at_off (raw_buff raw) (off + len * i) in
           if U1 (at_off p 41) <? 4 then tr
           else
             let t := (I8 p * P2_32 / 1000)%float in
             let t :=
               if sys_eqb (ubx_sys (U1 (at_off p 56))) SYS_GLO
               then (t - (10800 + utc_gpst))%float else t in
             if f_gt t tr then t else tr)
        (-1)%float in
    if f_lt tr 0 then (0, raw)
    else
      let tr := (Z2F (ROUND ((tr + 0.08) / 0.1)) * 0.1)%float in
      (* adjust week handover *)
      let time := week_handover raw tr in
      let '(raw, n) :=
        for_range 0 turns
          (fun i => trkd5_ch time tr utc_gpst type (at_off (raw_buff raw) (off + len * i)))
          (raw, 0) in
      if n <=? 0 then (0, raw)
      else
        let raw := set_time raw time in
        let raw := set_obs raw (obs_with_n (raw_obs raw) n) in
        (1, raw).

(** ** Navigation data in ubx-rxm-sfrbx and ubx-trk-sfrbx *)

(** A callee writing through [buff+off]: [g] on the buffer from [off]. *)
Definition upd_from (buff : list Z) (off : Z) (g : list Z -> list Z) : list Z :=
  take (Z.to_nat off) buff ++ g (drop (Z.to_nat off) buff).

(** [for (i=k=0;i<n;i++,p+=4) for (j=0;j<4;j++) buff[k++]=p[3-j];] *)
Definition swap_words (n : nat) (p : list Z) : list Z :=
  flat_map (fun i => map (fun j => rd p (4 * Z.of_nat i + 3 - Z.of_nat j)) (seq 0 4)) (seq 0 n).

(** [words[i]] for [i<10], each [U4(p)] passed through [g]. *)
Definition read_words (p : list Z) (g : Z -> Z) : list Z :=
  map (fun i => g (U4 (at_off p (4 * Z.of_nat i)))) (seq 0 10).

(** [for (i=0;i<10;i++) setbitu(row+off,i*w,w,words[i]);] *)
Definition put_words (row : list Z) (off w : Z) (words : list Z) : list Z :=
  for_range 0 10
    (fun i row => upd_from row off (fun b => setbitu b (i * w) w (rd words i))) row.

(** decode gps and qzss navigation data *)
Definition decode_nav (raw : raw_t) (sat off : Z) : Z * raw_t :=
  let p := at_off (raw_buff raw) (6 + off) in
  if raw_len raw <? 48 + off then (-1, raw)
  else if Z.shiftr (U4 p) 24 =? PREAMB_CNAV then (0, raw)
  else
    let words := read_words p (fun u => Z.shiftr u 6) in (* 24 bits without parity *)
    let id := Z.land (Z.shiftr (rd words 1) 2) 7 in
    if (id <? 1) || (5 <? id) then (-1, raw)
    else
      let raw := set_subfrm_row raw sat (put_words (subfrm_row raw sat) ((id - 1) * 30) 24 words) in
      if id =? 3 then decode_ephem sat raw
      else if id =? 4 then decode_alm1 sat raw
      else if id =? 5 then decode_alm2 sat raw
      else (0, raw).

(** The CRC buffer of a Galileo page: 4 (pad) + 114 + 82 bits. *)
Definition enav_crc_buff (buff : list Z) : list Z :=
  let crc_buff := replicate 26 0 in
  let crc_buff :=
    for_range 0 15 (fun i c => setbitu c (4 + 8 * i) 8 (getbitu buff (i * 8) 8)) crc_buff in
  for_range 0 11
    (fun i c => setbitu c (118 + 8 * i) 8 (getbitu (at_off buff 16) (i * 8) 8)) crc_buff.

(** The word of type [type] saved in the row of the satellite, and its
    flag set in the mask at offset 112. *)
Definition enav_save (row buff : list Z) (type : Z) : list Z :=
  (* clear word 0-6 flags *)
  let row := if type =? 2 then wr row 112 0 else row in
  (* save page data (112 + 16 bits) to frame buffer *)
  let row :=
    for_range 0 14 (fun i row => wr row (type * 16 + i) (getbitu buff (2 + 8 * i) 8 mod 256)) row in
  let row :=
    for_range 0 2
      (fun i row => wr row (type * 16 + 14 + i) (getbitu (at_off buff 16) (2 + 8 * i) 8 mod 256))
      row in
  wr row 112 (Z.lor (rd row 112) (Z.shiftl 1 type) mod 256).

(** decode galileo navigation data *)
Definition decode_enav (raw : raw_t) (sat off : Z) : Z * raw_t :=
  let eph := eph0 in
  let p := at_off (raw_buff raw) (6 + off) in
  if raw_len raw <? 44 + off then (-1, raw)
  else
    let buff := swap_words 8 p in
    let part1 := getbitu buff 0 1 in
    let page1 := getbitu buff 1 1 in
    let part2 := getbitu (at_off buff 16) 0 1 in
    let page2 := getbitu (at_off buff 16) 1 1 in
    (* skip alert page *)
    if (page1 =? 1) || (page2 =? 1) then (0, raw)
    (* test even-odd parts *)
    else if negb (part1 =? 0) || negb (part2 =? 1) then (-1, raw)
    (* test crc (4(pad) + 114 + 82 bits) *)
    else if negb (rtk_crc24q (enav_crc_buff buff) 25 =? getbitu (at_off buff 16) 82 24)
    then (-1, raw)
    else
      let type := getbitu buff 2 6 in (* word type *)
      (* skip word except for ephemeris, iono, utc parameters *)
      if 6 <? type then (0, raw)
      else
        let row := enav_save (subfrm_row raw sat) buff type in
        let raw := set_subfrm_row raw sat row in
        (* test word 0-6 flags *)
        if negb (rd row 112 =? 0x7F) then (0, raw)
        else if has_opt (raw_opt raw) "-GALFNAV" then (0, raw)
        else
          (* decode galileo inav ephemeris *)
          let '(r, eph) := decode_gal_inav row eph in
          if r =? 0 then (0, raw)
          (* test svid consistency *)
          else if negb (eph_sat eph =? sat) then (-1, raw)
          else
            let old := arr_get eph0 (nav_eph (raw_nav raw)) (sat - 1) in
            if negb (has_opt (raw_opt raw) "-EPHALL")
               && (eph_iode eph =? eph_iode old) (* unchanged *)
               && f_eq (timediff (eph_toe eph) (eph_toe old)) 0
               && f_eq (timediff (eph_toc eph) (eph_toc old)) 0
            then (0, raw)
            else
              let eph := eph_with_sat eph sat in
              let raw := set_nav raw
                           (nav_with_eph (raw_nav raw) (arr_set (nav_eph (raw_nav raw)) (sat - 1) eph)) in
              let raw := set_ephsat raw sat in
              (2, raw).

(** decode beidou navigation data *)
Definition decode_cnav (raw : raw_t) (sat off : Z) : Z * raw_t :=
  let eph := eph0 in
  let p := at_off (raw_buff raw) (6 + off) in
  if raw_len raw <? 48 + off then (-1, raw)
  else
    let words := read_words p (fun u => Z.land u 0x3FFFFFFF) in (* 30 bits *)
    let prn := snd (satsys sat) in
    let id := Z.land (Z.shiftr (rd words 0) 12) 0x07 in (* subframe id (3bit) *)
    if (id <? 1) || (5 <? id) then (-1, raw)
    else
      let finish (raw : raw_t) (eph : eph_t) : Z * raw_t :=
        let old := arr_get eph0 (nav_eph (raw_nav raw)) (sat - 1) in
        if negb (has_opt (raw_opt raw) "-EPHALL")
           && f_eq (timediff (eph_toe eph) (eph_toe old)) 0
           && (eph_iode eph =? eph_iode old) && (eph_iodc eph =? eph_iodc old)
        then (0, raw) (* unchanged *)
        else
          let eph := eph_with_sat eph sat in
          let raw := set_nav raw
                       (nav_with_eph (raw_nav raw) (arr_set (nav_eph (raw_nav raw)) (sat - 1) eph)) in
          (2, set_ephsat raw sat) in
      if (5 <? prn) && (prn <? 59) then (* IGSO/MEO *)
        let raw := set_subfrm_row raw sat (put_words (subfrm_row raw sat) ((id - 1) * 38) 30 words) in
        if negb (id =? 3) then (0, raw)
        else
          (* decode beidou D1 ephemeris *)
          let '(r, eph) := decode_bds_d1 (subfrm_row raw sat) eph in
          if r =? 0 then (0, raw) else finish raw eph
      else (* GEO (C01-05, C59-63) *)
        if negb (id =? 1) then (0, raw)
        else
          (* subframe 1 *)
          let pgn := Z.land (Z.shiftr (rd words 1) 14) 0x0F in (* page number (4bit) *)
          if (pgn <? 1) || (10 <? pgn) then (-1, raw)
          else
            let raw := set_subfrm_row raw sat
                         (put_words (subfrm_row raw sat) ((pgn - 1) * 38) 30 words) in
            if negb (pgn =? 10) then (0, raw)
            else
              (* decode beidou D2 ephemeris *)
              let '(r, eph) := decode_bds_d2 (subfrm_row raw sat) eph in
              if r =? 0 then (0, raw) else finish raw eph.

(** flush frame buffer if frame-id changed, then save the string *)
Definition gnav_store (row buff : list Z) (m : Z) : list Z :=
  let row :=
    if negb (rd row 150 =? rd buff 12) || negb (rd row 151 =? rd buff 13) then
      let row := for_range 0 4 (fun i row => memset row (i * 10) 0 10) row in
      memcpy row 150 (at_off buff 12) 2 (* save frame-id *)
    else row in
  memcpy row ((m - 1) * 10) buff 10.

(** decode glonass navigation data *)
Definition decode_gnav (raw : raw_t) (sat off frq : Z) : Z * raw_t :=
  let geph := geph0 in
  let p := at_off (raw_buff raw) (6 + off) in
  let prn := snd (satsys sat) in
  if raw_len raw <? 24 + off then (-1, raw)
  else
    let buff := swap_words 4 p in
    (* test hamming of glonass string *)
    if test_glostr buff =? 0 then (-1, raw)
    else
      let m := getbitu buff 1 4 in
      if (m <? 1) || (15 <? m) then (-1, raw)
      else
        let raw := set_subfrm_row raw sat (gnav_store (subfrm_row raw sat) buff m) in
        if negb (m =? 4) then (0, raw)
        else
          (* decode glonass ephemeris strings *)
          let geph := geph_with_tof geph (raw_time raw) in
          let '(r, geph) := decode_glostr (subfrm_row raw sat) geph in
          if (r =? 0) || negb (geph_sat geph =? sat) then (0, raw)
          else
            let geph := geph_with_frq geph (frq - 7) in
            let old := arr_get geph0 (nav_geph (raw_nav raw)) (prn - 1) in
            if negb (has_opt (raw_opt raw) "-EPHALL") && (geph_iode geph =? geph_iode old)
            then (0, raw) (* unchanged *)
            else
              let raw := set_nav raw
                           (nav_with_geph (raw_nav raw)
                              (arr_set (nav_geph (raw_nav raw)) (prn - 1) geph)) in
              (2, set_ephsat raw sat).

(** decode sbas navigation data *)
Definition decode_snav (raw : raw_t) (sat off : Z) : Z * raw_t :=
  let p := at_off (raw_buff raw) (6 + off) in
  if raw_len raw <? 40 + off then (-1, raw)
  else
    let '(towf, week) := time2gpst (timeadd (raw_time raw) (-1)%float) in
    let tow := F_trunc_Z towf in
    let prn := snd (satsys sat) in
    let buff := swap_words 8 p in
    let msg := memcpy (sbs_msg (raw_sbsmsg raw)) 0 buff 29 in
    let msg := wr msg 28 (Z.land (rd msg 28) 0xC0) in
    (3, set_sbsmsg raw (mk_sbsmsg week tow prn msg)).

(** The [switch (sys)] shared by both subframe messages. *)
Definition decode_sfrbx_sys (raw : raw_t) (sys : sys_t) (sat off frq : Z) : Z * raw_t :=
  match sys with
  | SYS_GPS => decode_nav raw sat off
  | SYS_QZS => decode_nav raw sat off
  | SYS_GAL => decode_enav raw sat off
  | SYS_CMP => decode_cnav raw sat off
  | SYS_GLO => decode_gnav raw sat off frq
  | SYS_SBS => decode_snav raw sat off
  | _ => (0, raw)
  end.

(** decode ubx-rxm-sfrbx: raw subframe data *)
Definition decode_rxmsfrbx (raw : raw_t) : Z * raw_t :=
  let p := at_off (raw_buff raw) 6 in
  let raw :=
    if raw_outtype raw =? 0 then raw
    else set_msgtype raw
           ("UBX RXM-SFRBX (" ++ fmt_wd 4 (raw_len raw) ++ "): sys=" ++ fmt_d (U1 p)
            ++ " prn=" ++ fmt_wd 3 (U1 (at_off p 1)))%string in
  let sys := ubx_sys (U1 p) in
  if sys_eqb sys SYS_NONE then (-1, raw)
  else
    let prn := U1 (at_off p 1) + (if sys_eqb sys SYS_QZS then 192 else 0) in
    let sat := satno sys prn in
    if sat =? 0 then
      if sys_eqb sys SYS_GLO && (prn =? 255)
      then (0, raw) (* suppress error for unknown glo satellite *)
      else (-1, raw)
    else decode_sfrbx_sys raw sys sat 8 (U1 (at_off p 3)).

(** decode ubx-trk-sfrbx: subframe buffer extension *)
Definition decode_trksfrbx (raw : raw_t) : Z * raw_t :=
  let p := at_off (raw_buff raw) 6 in
  let raw :=
    if raw_outtype raw =? 0 then raw
    else set_msgtype raw
           ("UBX TRK-SFRBX (" ++ fmt_wd 4 (raw_len raw) ++ "): sys=" ++ fmt_d (U1 (at_off p 1))
            ++ " prn=" ++ fmt_wd 3 (U1 (at_off p 2)))%string in
  let sys := ubx_sys (U1 (at_off p 1)) in
  if sys_eqb sys SYS_NONE then (-1, raw)
  else
    let prn := U1 (at_off p 2) + (if sys_eqb sys SYS_QZS then 192 else 0) in
    let sat := satno sys prn in
    if sat =? 0 then (-1, raw)
    else decode_sfrbx_sys raw sys sat 13 (U1 (at_off p 4)).

(** decode ubx-tim-tm2: time mark data *)
Definition decode_timtm2 (raw : raw_t) : Z * raw_t :=
  let p := at_off (raw_buff raw) 6 in
  let raw :=
    if raw_outtype raw =? 0 then raw
    else set_msgtype raw ("UBX TIM-TM2 (" ++ fmt_wd 4 (raw_len raw) ++ ")")%string in
  let flags := U1 (at_off p 1) in
  let count := U2 (at_off p 2) in
  let wnF := U2 (at_off p 6) in
  let towMsF := U4 (at_off p 16) in
  let towSubMsF := U4 (at_off p 20) in
  (* extract flags to variables *)
  let newFallingEdge := Z.land (Z.shiftr flags 2) 0x01 in
  let time := Z.land (Z.shiftr flags 6) 0x01 in
  if negb (newFallingEdge =? 0) then
    let eventime := gpst2time wnF (Z2F towMsF * 1E-3 + Z2F towSubMsF * 1E-9)%float in
    let raw := set_obs raw (obs_with_flag (raw_obs raw) 5) in (* Event flag *)
    let raw := data_upd raw 0 (fun o => obsd_with_eventime o eventime) in
    let raw := set_obs raw (obs_with_rcvcount (raw_obs raw) count) in
    let raw := set_obs raw (obs_with_tmcount (raw_obs raw) (obs_tmcount (raw_obs raw) + 1)) in
    let raw := data_upd raw 0 (fun o => obsd_with_timevalid o time) in
    (0, raw)
  else (0, set_obs raw (obs_with_flag (raw_obs raw) 0)).

(** ** decode ublox raw message *)

Definition decode_ubx (raw : raw_t) : Z * raw_t :=
  let type := Z.shiftl (U1 (at_off (raw_buff raw) 2)) 8 + U1 (at_off (raw_buff raw) 3) in
  (* checksum *)
  if negb (checksum (raw_buff raw) (raw_len raw)) then (-1, raw)
  else if type =? ID_RXMRAW then decode_rxmraw raw
  else if type =? ID_RXMRAWX then decode_rxmrawx raw
  else if type =? ID_RXMSFRB then decode_rxmsfrb raw
  else if type =? ID_RXMSFRBX then decode_rxmsfrbx raw
  else if type =? ID_NAVSOL then decode_navsol raw
  else if type =? ID_NAVTIME then decode_navtime raw
  else if type =? ID_TRKMEAS then decode_trkmeas raw
  else if type =? ID_TRKD5 then decode_trkd5 raw
  else if type =? ID_TRKSFRBX then decode_trksfrbx raw
  else if type =? ID_TIMTM2 then decode_timtm2 raw
  else
    let raw :=
      if raw_outtype raw =? 0 then raw
      else set_msgtype raw
             ("UBX 0x" ++ fmt_02X (Z.shiftr type 8) ++ " 0x" ++ fmt_02X (Z.land type 0xF)
              ++ " (" ++ fmt_wd 4 (raw_len raw) ++ ")")%string in
    (0, raw).

(** ** Stream framer *)

(** sync code: the window [buff[0..1]] after the shift, and the test. *)
Definition sync_ubx (buff : list Z) (data : Z) : bool * list Z :=
  let buff := wr buff 0 (rd buff 1) in
  let buff := wr buff 1 data in
  ((rd buff 0 =? UBXSYNC1) && (rd buff 1 =? UBXSYNC2), buff).

(** input ublox raw message from stream: one byte [data]. The result is
    [None] when the byte (or the sync window) would be stored outside
    [raw->buff]. *)
Definition input_ubx (raw : raw_t) (data : Z) : option (Z * raw_t) :=
  (* synchronize frame *)
  if raw_nbyte raw =? 0 then
    if Z.of_nat (length (raw_buff raw)) <? 2 then None else
    let '(ok, buff) := sync_ubx (raw_buff raw) data in
    let raw := set_buff raw buff in
    if negb ok then Some (0, raw)
    else Some (0, set_nbyte raw 2)
  else if (raw_nbyte raw <? 0) || (Z.of_nat (length (raw_buff raw)) <=? raw_nbyte raw) then None
  else
    let raw := set_buff raw (wr (raw_buff raw) (raw_nbyte raw) data) in
    let raw := set_nbyte raw (raw_nbyte raw + 1) in
    let raw :=
      if raw_nbyte raw =? 6 then set_len raw (U2 (at_off (raw_buff raw) 4) + 8) else raw in
    if (raw_nbyte raw =? 6) && (MAXRAWLEN <? raw_len raw) then
      Some (-1, set_nbyte raw 0)
    else if (raw_nbyte raw <? 6) || (raw_nbyte raw <? raw_len raw) then Some (0, raw)
    else
      let raw := set_nbyte raw 0 in
      (* decode ublox raw message *)
      Some (decode_ubx raw).

(** ** input ublox raw message from file

    The file is the list of the bytes not yet read. *)

(** [fread(buff+off,1,n,fp)]: the count, the buffer and the file. *)
Definition fread (buff : list Z) (off n : Z) (fp : list Z) : Z * list Z * list Z :=
  let got := take (Z.to_nat n) fp in
  (Z.of_nat (length got), wr_list buff off got, drop (Z.to_nat n) fp).

Inductive ubxf_sync_t := SyncFound | SyncEof | SyncNone.

(** [for (i=0;;i++) { if ((data=fgetc(fp))==EOF) return -2;
    if (sync_ubx(raw->buff,(unsigned char)data)) break; if (i>=4096) return 0; }] *)
Fixpoint ubxf_sync (i : Z) (buff fp : list Z) : ubxf_sync_t * list Z * list Z :=
  match fp with
  | [] => (SyncEof, buff, [])
  | data :: fp' =>
      let '(ok, buff) := sync_ubx buff data in
      if ok then (SyncFound, buff, fp')
      else if 4096 <=? i then (SyncNone, buff, fp')
      else ubxf_sync (i + 1) buff fp'
  end.

(** The status, the state and the file after the call; [None] when a store
    would fall outside [raw->buff]. *)
Definition input_ubxf (raw : raw_t) (fp : list Z) : option (Z * raw_t * list Z) :=
  if Z.of_nat (length (raw_buff raw)) <? 6 then None
  else
    (* synchronize frame *)
    let '(s, buff, fp) :=
      if raw_nbyte raw =? 0 then ubxf_sync 0 (raw_buff raw) fp
      else (SyncFound, raw_buff raw, fp) in
    let raw := set_buff raw buff in
    match s with
    | SyncEof => Some (-2, raw, fp)
    | SyncNone => Some (0, raw, fp)
    | SyncFound =>
        let '(got, buff, fp) := fread (raw_buff raw) 2 4 fp in
        let raw := set_buff raw buff in
        if got <? 4 then Some (-2, raw, fp)
        else
          let raw := set_nbyte raw 6 in
          let raw := set_len raw (U2 (at_off (raw_buff raw) 4) + 8) in
          if MAXRAWLEN <? raw_len raw then Some (-1, set_nbyte raw 0, fp)
          else if Z.of_nat (length (raw_buff raw)) <? raw_len raw then None
          else
            let '(got, buff, fp) := fread (raw_buff raw) 6 (raw_len raw - 6) fp in
            let raw := set_buff raw buff in
            if got <? raw_len raw - 6 then Some (-2, raw, fp)
            else
              let raw := set_nbyte raw 0 in
              (* decode ubx raw message *)
              let '(st, raw) := decode_ubx raw in
              Some (st, raw, fp)
    end.

(** ** generate ublox binary message

    The tables of [gen_ubx], in the order of the source ([cmd_id] is its
    [id]). The arrays [cmd] and [vcmd] end with the empty string there; the
    lists hold the entries before it. *)

Definition cmd : list string :=
  [
    "PRT"; "USB"; "MSG"; "NMEA"; "RATE"; "CFG"; "TP"; "NAV2"; "DAT"; "INF";
    "RST"; "RXM"; "ANT"; "FXN"; "SBAS"; "LIC"; "TM"; "TM2"; "TMODE"; "EKF";
    "GNSS"; "ITFM"; "LOGFILTER"; "NAV5"; "NAVX5"; "ODO"; "PM2"; "PWR"; "RINV"; "SMGR";
    "TMODE2"; "TMODE3"; "TPS"; "TXSLOT"; "VALSET"
  ]%string.

Definition cmd_id : list Z :=
  [
    0x00; 0x1B; 0x01; 0x17; 0x08; 0x09; 0x07; 0x1A; 0x06; 0x02;
    0x04; 0x11; 0x13; 0x0E; 0x16; 0x80; 0x10; 0x19; 0x1D; 0x12;
    0x3E; 0x39; 0x47; 0x24; 0x23; 0x1E; 0x3B; 0x57; 0x34; 0x62;
    0x36; 0x71; 0x31; 0x53; 0x8A
  ].

(** The rows of [prm]; each row of the source has 32 cells, the cells after
    the listed ones being 0. *)
Definition prm : list (list Z) :=
  [
    [FU1; FU1; FU2; FU4; FU4; FU2; FU2; FU2; FU2] (* PRT *);
    [FU2; FU2; FU2; FU2; FU2; FU2; FS32; FS32; FS32] (* USB *);
    [FU1; FU1; FU1; FU1; FU1; FU1; FU1; FU1] (* MSG *);
    [FU1; FU1; FU1; FU1] (* NMEA *);
    [FU2; FU2; FU2] (* RATE *);
    [FU4; FU4; FU4; FU1] (* CFG *);
    [FU4; FU4; FI1; FU1; FU2; FI2; FI2; FI4] (* TP *);
    [FU1; FU1; FU2; FU1; FU1; FU1; FU1; FI4; FU1; FU1; FU1; FU1; FU1; FU1; FU2; FU2; FU2; FU2; FU2; FU1; FU1; FU2; FU4; FU4] (* NAV2 *);
    [FR8; FR8; FR4; FR4; FR4; FR4; FR4; FR4; FR4] (* DAT *);
    [FU1; FU1; FU1; FU1; FU1; FU1; FU1; FU1; FU1; FU1] (* INF *);
    [FU2; FU1; FU1] (* RST *);
    [FU1; FU1] (* RXM *);
    [FU2; FU2] (* ANT *);
    [FU4; FU4; FU4; FU4; FU4; FU4; FU4; FU4] (* FXN *);
    [FU1; FU1; FU1; FU1; FU4] (* SBAS *);
    [FU2; FU2; FU2; FU2; FU2; FU2] (* LIC *);
    [FU4; FU4; FU4] (* TM *);
    [FU1; FU1; FU2; FU4; FU4] (* TM2 *);
    [FU4; FI4; FI4; FI4; FU4; FU4; FU4] (* TMODE *);
    [FU1; FU1; FU1; FU1; FU4; FU2; FU2; FU1; FU1; FU2] (* EKF *);
    [FU1; FU1; FU1; FU1; FU1; FU1; FU1; FU1; FU4] (* GNSS *);
    [FU4; FU4] (* ITFM *);
    [FU1; FU1; FU2; FU2; FU2; FU4] (* LOGFILTER *);
    [FU2; FU1; FU1; FI4; FU4; FI1; FU1; FU2; FU2; FU2; FU2; FU1; FU1; FU1; FU1; FU1; FU1; FU2; FU1; FU1; FU1; FU1; FU1; FU1] (* NAV5 *);
    [FU2; FU2; FU4; FU1; FU1; FU1; FU1; FU1; FU1; FU1; FU1; FU1; FU1; FU2; FU1; FU1; FU1; FU1; FU1; FU1; FU1; FU1; FU1; FU1; FU2] (* NAVX5 *);
    [FU1; FU1; FU1; FU1; FU1; FU1; FU1; FU1; FU1] (* ODO *);
    [FU1; FU1; FU1; FU1; FU4; FU4; FU4; FU4; FU2; FU2] (* PM2 *);
    [FU1; FU1; FU1; FU1; FU4] (* PWR *);
    [FU1; FU1] (* RINV *);
    [FU1; FU1; FU2; FU2; FU1; FU1; FU2; FU2; FU2; FU2; FU4] (* SMGR *);
    [FU1; FU1; FU2; FI4; FI4; FI4; FU4; FU4; FU4] (* TMODE2 *);
    [FU1; FU1; FU2; FI4; FI4; FI4; FU4; FU4; FU4] (* TMODE3 *);
    [FU1; FU1; FU1; FU1; FI2; FI2; FU4; FU4; FU4; FU4; FI4; FU4] (* TPS *);
    [FU1; FU1; FU1; FU1; FU4; FU4; FU4; FU4; FU4] (* TXSLOT *);
    [FU1; FU1; FU1; FU1] (* VALSET *)
  ].

(** VALSET commands courtesy of gpsd's ubxtool *)
Definition vcmd : list string :=
  [
    "GEOFENCE-CONFLVL"; "GEOFENCE-USE_PIO"; "GEOFENCE-PINPOL"; "GEOFENCE-PIN";
    "GEOFENCE-USE_FENCE1"; "GEOFENCE-FENCE1_LAT"; "GEOFENCE-FENCE1_LON"; "GEOFENCE-FENCE1_RAD";
    "GEOFENCE-USE_FENCE2"; "GEOFENCE-FENCE2_LAT"; "GEOFENCE-FENCE2_LON"; "GEOFENCE-FENCE2_RAD";
    "GEOFENCE-USE_FENCE3"; "GEOFENCE-FENCE3_LAT"; "GEOFENCE-FENCE3_LON"; "GEOFENCE-FENCE3_RAD";
    "GEOFENCE-USE_FENCE4"; "GEOFENCE-FENCE4_LAT"; "GEOFENCE-FENCE4_LON"; "GEOFENCE-FENCE4_RAD";
    "HW-ANT_CFG_VOLTCTRL"; "HW-ANT_CFG_SHORTDET"; "HW-ANT_CFG_SHORTDET_POL"; "HW-ANT_CFG_OPENDET";
    "HW-ANT_CFG_OPENDET_POL"; "HW-ANT_CFG_PWRDOWN"; "HW-ANT_CFG_PWRDOWN_POL"; "HW-ANT_CFG_RECOVER";
    "HW-ANT_SUP_SWITCH_PIN"; "HW-ANT_SUP_SHORT_PIN"; "HW-ANT_SUP_OPEN_PIN"; "I2C-ADDRESS";
    "I2C-EXTENDEDTIMEOUT"; "I2C-ENABLED"; "I2CINPROT-UBX"; "I2CINPROT-NMEA";
    "I2CINPROT-RTCM2X"; "I2CINPROT-RTCM3X"; "I2COUTPROT-UBX"; "I2COUTPROT-NMEA";
    "I2COUTPROT-RTCM3X"; "INFMSG-UBX_I2C"; "INFMSG-UBX_UART1"; "INFMSG-UBX_UART2";
    "INFMSG-UBX_USB"; "INFMSG-UBX_SPI"; "INFMSG-NMEA_I2C"; "INFMSG-NMEA_UART1";
    "INFMSG-NMEA_UART2"; "INFMSG-NMEA_USB"; "INFMSG-NMEA_SPI"; "ITFM-BBTHRESHOLD";
    "ITFM-CWTHRESHOLD"; "ITFM-ENABLE"; "ITFM-ANTSETTING"; "ITFM-ENABLE_AUX";
    "LOGFILTER-RECORD_ENA"; "LOGFILTER-ONCE_PER_WAKE_UP_ENA"; "LOGFILTER-APPLY_ALL_FILTERS"; "LOGFILTER-MIN_INTERVAL";
    "LOGFILTER-TIME_THRS"; "LOGFILTER-SPEED_THRS"; "LOGFILTER-POSITION_THRS"; "MOT-GNSSSPEED_THRS";
    "MOT-GNSSDIST_THRS"; "MSGOUT-NMEA_ID_DTM_I2C"; "MSGOUT-NMEA_ID_DTM_SPI"; "MSGOUT-NMEA_ID_DTM_UART1";
    "MSGOUT-NMEA_ID_DTM_UART2"; "MSGOUT-NMEA_ID_DTM_USB"; "MSGOUT-NMEA_ID_GBS_I2C"; "MSGOUT-NMEA_ID_GBS_SPI";
    "MSGOUT-NMEA_ID_GBS_UART1"; "MSGOUT-NMEA_ID_GBS_UART2"; "MSGOUT-NMEA_ID_GBS_USB"; "MSGOUT-NMEA_ID_GGA_I2C";
    "MSGOUT-NMEA_ID_GGA_SPI"; "MSGOUT-NMEA_ID_GGA_UART1"; "MSGOUT-NMEA_ID_GGA_UART2"; "MSGOUT-NMEA_ID_GGA_USB";
    "MSGOUT-NMEA_ID_GLL_I2C"; "MSGOUT-NMEA_ID_GLL_SPI"; "MSGOUT-NMEA_ID_GLL_UART1"; "MSGOUT-NMEA_ID_GLL_UART2";
    "MSGOUT-NMEA_ID_GLL_USB"; "MSGOUT-NMEA_ID_GNS_I2C"; "MSGOUT-NMEA_ID_GNS_SPI"; "MSGOUT-NMEA_ID_GNS_UART1";
    "MSGOUT-NMEA_ID_GNS_UART2"; "MSGOUT-NMEA_ID_GNS_USB"; "MSGOUT-NMEA_ID_GRS_I2C"; "MSGOUT-NMEA_ID_GRS_SPI";
    "MSGOUT-NMEA_ID_GRS_UART1"; "MSGOUT-NMEA_ID_GRS_UART2"; "MSGOUT-NMEA_ID_GRS_USB"; "MSGOUT-NMEA_ID_GSA_I2C";
    "MSGOUT-NMEA_ID_GSA_SPI"; "MSGOUT-NMEA_ID_GSA_UART1"; "MSGOUT-NMEA_ID_GSA_UART2"; "MSGOUT-NMEA_ID_GSA_USB";
    "MSGOUT-NMEA_ID_GST_I2C"; "MSGOUT-NMEA_ID_GST_SPI"; "MSGOUT-NMEA_ID_GST_UART1"; "MSGOUT-NMEA_ID_GST_UART2";
    "MSGOUT-NMEA_ID_GST_USB"; "MSGOUT-NMEA_ID_GSV_I2C"; "MSGOUT-NMEA_ID_GSV_SPI"; "MSGOUT-NMEA_ID_GSV_UART1";
    "MSGOUT-NMEA_ID_GSV_UART2"; "MSGOUT-NMEA_ID_GSV_USB"; "MSGOUT-NMEA_ID_RMC_I2C"; "MSGOUT-NMEA_ID_RMC_SPI";
    "MSGOUT-NMEA_ID_RMC_UART1"; "MSGOUT-NMEA_ID_RMC_UART2"; "MSGOUT-NMEA_ID_RMC_USB"; "MSGOUT-NMEA_ID_VLW_I2C";
    "MSGOUT-NMEA_ID_VLW_SPI"; "MSGOUT-NMEA_ID_VLW_UART1"; "MSGOUT-NMEA_ID_VLW_UART2"; "MSGOUT-NMEA_ID_VLW_USB";
    "MSGOUT-NMEA_ID_VTG_I2C"; "MSGOUT-NMEA_ID_VTG_SPI"; "MSGOUT-NMEA_ID_VTG_UART1"; "MSGOUT-NMEA_ID_VTG_UART2";
    "MSGOUT-NMEA_ID_VTG_USB"; "MSGOUT-NMEA_ID_ZDA_I2C"; "MSGOUT-NMEA_ID_ZDA_SPI"; "MSGOUT-NMEA_ID_ZDA_UART1";
    "MSGOUT-NMEA_ID_ZDA_UART2"; "MSGOUT-NMEA_ID_ZDA_USB"; "MSGOUT-PUBX_ID_POLYP_I2C"; "MSGOUT-PUBX_ID_POLYP_SPI";
    "MSGOUT-PUBX_ID_POLYP_UART1"; "MSGOUT-PUBX_ID_POLYP_UART2"; "MSGOUT-PUBX_ID_POLYP_USB"; "MSGOUT-PUBX_ID_POLYS_I2C";
    "MSGOUT-PUBX_ID_POLYS_SPI"; "MSGOUT-PUBX_ID_POLYS_UART1"; "MSGOUT-PUBX_ID_POLYS_UART2"; "MSGOUT-PUBX_ID_POLYS_USB";
    "MSGOUT-PUBX_ID_POLYT_I2C"; "MSGOUT-PUBX_ID_POLYT_SPI"; "MSGOUT-PUBX_ID_POLYT_UART1"; "MSGOUT-PUBX_ID_POLYT_UART2";
    "MSGOUT-PUBX_ID_POLYT_USB"; "MSGOUT-RTCM_3X_TYPE1005_I2C"; "MSGOUT-RTCM_3X_TYPE1005_SPI"; "MSGOUT-RTCM_3X_TYPE1005_UART1";
    "MSGOUT-RTCM_3X_TYPE1005_UART2"; "MSGOUT-RTCM_3X_TYPE1005_USB"; "MSGOUT-RTCM_3X_TYPE1074_I2C"; "MSGOUT-RTCM_3X_TYPE1074_SPI";
    "MSGOUT-RTCM_3X_TYPE1074_UART1"; "MSGOUT-RTCM_3X_TYPE1074_UART2"; "MSGOUT-RTCM_3X_TYPE1074_USB"; "MSGOUT-RTCM_3X_TYPE1077_I2C";
    "MSGOUT-RTCM_3X_TYPE1077_SPI"; "MSGOUT-RTCM_3X_TYPE1077_UART1"; "MSGOUT-RTCM_3X_TYPE1077_UART2"; "MSGOUT-RTCM_3X_TYPE1077_USB";
    "MSGOUT-RTCM_3X_TYPE1087_I2C"; "MSGOUT-RTCM_3X_TYPE1084_SPI"; "MSGOUT-RTCM_3X_TYPE1084_UART1"; "MSGOUT-RTCM_3X_TYPE1084_UART2";
    "MSGOUT-RTCM_3X_TYPE1084_USB"; "MSGOUT-RTCM_3X_TYPE1087_SPI"; "MSGOUT-RTCM_3X_TYPE1087_UART1"; "MSGOUT-RTCM_3X_TYPE1087_UART2";
    "MSGOUT-RTCM_3X_TYPE1087_USB"; "MSGOUT-RTCM_3X_TYPE1094_I2C"; "MSGOUT-RTCM_3X_TYPE1094_SPI"; "MSGOUT-RTCM_3X_TYPE1094_UART1";
    "MSGOUT-RTCM_3X_TYPE1094_UART2"; "MSGOUT-RTCM_3X_TYPE1094_USB"; "MSGOUT-RTCM_3X_TYPE1097_I2C"; "MSGOUT-RTCM_3X_TYPE1097_SPI";
    "MSGOUT-RTCM_3X_TYPE1097_UART1"; "MSGOUT-RTCM_3X_TYPE1097_UART2"; "MSGOUT-RTCM_3X_TYPE1097_USB"; "MSGOUT-RTCM_3X_TYPE1124_I2C";
    "MSGOUT-RTCM_3X_TYPE1124_SPI"; "MSGOUT-RTCM_3X_TYPE1124_UART1"; "MSGOUT-RTCM_3X_TYPE1124_UART2"; "MSGOUT-RTCM_3X_TYPE1124_USB";
    "MSGOUT-RTCM_3X_TYPE1127_I2C"; "MSGOUT-RTCM_3X_TYPE1127_SPI"; "MSGOUT-RTCM_3X_TYPE1127_UART1"; "MSGOUT-RTCM_3X_TYPE1127_UART2";
    "MSGOUT-RTCM_3X_TYPE1127_USB"; "MSGOUT-RTCM_3X_TYPE1230_I2C"; "MSGOUT-RTCM_3X_TYPE1230_SPI"; "MSGOUT-RTCM_3X_TYPE1230_UART1";
    "MSGOUT-RTCM_3X_TYPE1230_UART2"; "MSGOUT-RTCM_3X_TYPE1230_USB"; "MSGOUT-RTCM_3X_TYPE4072_0_I2C"; "MSGOUT-RTCM_3X_TYPE4072_0_SPI";
    "MSGOUT-RTCM_3X_TYPE4072_0_UART1"; "MSGOUT-RTCM_3X_TYPE4072_0_UART2"; "MSGOUT-RTCM_3X_TYPE4072_0_USB"; "MSGOUT-RTCM_3X_TYPE4072_1_I2C";
    "MSGOUT-RTCM_3X_TYPE4072_1_SPI"; "MSGOUT-RTCM_3X_TYPE4072_1_UART1"; "MSGOUT-RTCM_3X_TYPE4072_1_UART2"; "MSGOUT-RTCM_3X_TYPE4072_1_USB";
    "MSGOUT-UBX_LOG_INFO_I2C"; "MSGOUT-UBX_LOG_INFO_SPI"; "MSGOUT-UBX_LOG_INFO_UART1"; "MSGOUT-UBX_LOG_INFO_UART2";
    "MSGOUT-UBX_LOG_INFO_USB"; "MSGOUT-UBX_MON_COMMS_I2C"; "MSGOUT-UBX_MON_COMMS_SPI"; "MSGOUT-UBX_MON_COMMS_UART1";
    "MSGOUT-UBX_MON_COMMS_UART2"; "MSGOUT-UBX_MON_COMMS_USB"; "MSGOUT-UBX_MON_HW2_I2C"; "MSGOUT-UBX_MON_HW2_SPI";
    "MSGOUT-UBX_MON_HW2_UART1"; "MSGOUT-UBX_MON_HW2_UART2"; "MSGOUT-UBX_MON_HW2_USB"; "MSGOUT-UBX_MON_HW3_I2C";
    "MSGOUT-UBX_MON_HW3_SPI"; "MSGOUT-UBX_MON_HW3_UART1"; "MSGOUT-UBX_MON_HW3_UART2"; "MSGOUT-UBX_MON_HW3_USB";
    "MSGOUT-UBX_MON_HW_I2C"; "MSGOUT-UBX_MON_HW_SPI"; "MSGOUT-UBX_MON_HW_UART1"; "MSGOUT-UBX_MON_HW_UART2";
    "MSGOUT-UBX_MON_HW_USB"; "MSGOUT-UBX_MON_IO_I2C"; "MSGOUT-UBX_MON_IO_SPI"; "MSGOUT-UBX_MON_IO_UART1";
    "MSGOUT-UBX_MON_IO_UART2"; "MSGOUT-UBX_MON_IO_USB"; "MSGOUT-UBX_MON_MSGPP_I2C"; "MSGOUT-UBX_MON_MSGPP_SPI";
    "MSGOUT-UBX_MON_MSGPP_UART1"; "MSGOUT-UBX_MON_MSGPP_UART2"; "MSGOUT-UBX_MON_MSGPP_USB"; "MSGOUT-UBX_MON_RF_I2C";
    "MSGOUT-UBX_MON_RF_SPI"; "MSGOUT-UBX_MON_RF_UART1"; "MSGOUT-UBX_MON_RF_UART2"; "MSGOUT-UBX_MON_RF_USB";
    "MSGOUT-UBX_MON_RXBUF_I2C"; "MSGOUT-UBX_MON_RXBUF_SPI"; "MSGOUT-UBX_MON_RXBUF_UART1"; "MSGOUT-UBX_MON_RXBUF_UART2";
    "MSGOUT-UBX_MON_RXBUF_USB"; "MSGOUT-UBX_MON_RXR_I2C"; "MSGOUT-UBX_MON_RXR_SPI"; "MSGOUT-UBX_MON_RXR_UART1";
    "MSGOUT-UBX_MON_RXR_UART2"; "MSGOUT-UBX_MON_RXR_USB"; "MSGOUT-UBX_MON_TXBUF_I2C"; "MSGOUT-UBX_MON_TXBUF_SPI";
    "MSGOUT-UBX_MON_TXBUF_UART1"; "MSGOUT-UBX_MON_TXBUF_UART2"; "MSGOUT-UBX_MON_TXBUF_USB"; "MSGOUT-UBX_MON_TXBUF_I2C";
    "MSGOUT-UBX_MON_TXBUF_SPI"; "MSGOUT-UBX_MON_TXBUF_UART1"; "MSGOUT-UBX_MON_TXBUF_UART2"; "MSGOUT-UBX_MON_TXBUF_USB";
    "MSGOUT-UBX_NAV_CLOCK_I2C"; "MSGOUT-UBX_NAV_CLOCK_SPI"; "MSGOUT-UBX_NAV_CLOCK_UART1"; "MSGOUT-UBX_NAV_CLOCK_UART2";
    "MSGOUT-UBX_NAV_CLOCK_USB"; "MSGOUT-UBX_NAV_DOP_I2C"; "MSGOUT-UBX_NAV_DOP_SPI"; "MSGOUT-UBX_NAV_DOP_UART1";
    "MSGOUT-UBX_NAV_DOP_UART2"; "MSGOUT-UBX_NAV_DOP_USB"; "MSGOUT-UBX_NAV_EOE_I2C"; "MSGOUT-UBX_NAV_EOE_SPI";
    "MSGOUT-UBX_NAV_EOE_UART1"; "MSGOUT-UBX_NAV_EOE_UART2"; "MSGOUT-UBX_NAV_EOE_USB"; "MSGOUT-UBX_NAV_GEOFENCE_I2C";
    "MSGOUT-UBX_NAV_GEOFENCE_SPI"; "MSGOUT-UBX_NAV_GEOFENCE_UART1"; "MSGOUT-UBX_NAV_GEOFENCE_UART2"; "MSGOUT-UBX_NAV_GEOFENCE_USB";
    "MSGOUT-UBX_NAV_HPPOSECEF_I2C"; "MSGOUT-UBX_NAV_HPPOSECEF_SPI"; "MSGOUT-UBX_NAV_HPPOSECEF_UART1"; "MSGOUT-UBX_NAV_HPPOSECEF_UART2";
    "MSGOUT-UBX_NAV_HPPOSECEF_USB"; "MSGOUT-UBX_NAV_HPPOSLLH_I2C"; "MSGOUT-UBX_NAV_HPPOSLLH_SPI"; "MSGOUT-UBX_NAV_HPPOSLLH_UART1";
    "MSGOUT-UBX_NAV_HPPOSLLH_UART2"; "MSGOUT-UBX_NAV_HPPOSLLH_USB"; "MSGOUT-UBX_NAV_ODO_I2C"; "MSGOUT-UBX_NAV_ODO_SPI";
    "MSGOUT-UBX_NAV_ODO_UART1"; "MSGOUT-UBX_NAV_ODO_UART2"; "MSGOUT-UBX_NAV_ODO_USB"; "MSGOUT-UBX_NAV_ORB_I2C";
    "MSGOUT-UBX_NAV_ORB_SPI"; "MSGOUT-UBX_NAV_ORB_UART1"; "MSGOUT-UBX_NAV_ORB_UART2"; "MSGOUT-UBX_NAV_ORB_USB";
    "MSGOUT-UBX_NAV_POSECEF_I2C"; "MSGOUT-UBX_NAV_POSECEF_SPI"; "MSGOUT-UBX_NAV_POSECEF_UART1"; "MSGOUT-UBX_NAV_POSECEF_UART2";
    "MSGOUT-UBX_NAV_POSECEF_USB"; "MSGOUT-UBX_NAV_POSLLH_I2C"; "MSGOUT-UBX_NAV_POSLLH_SPI"; "MSGOUT-UBX_NAV_POSLLH_UART1";
    "MSGOUT-UBX_NAV_POSLLH_UART2"; "MSGOUT-UBX_NAV_POSLLH_USB"; "MSGOUT-UBX_NAV_PVT_I2C"; "MSGOUT-UBX_NAV_PVT_SPI";
    "MSGOUT-UBX_NAV_PVT_UART1"; "MSGOUT-UBX_NAV_PVT_UART2"; "MSGOUT-UBX_NAV_PVT_USB"; "MSGOUT-UBX_NAV_RELPOSNED_I2C";
    "MSGOUT-UBX_NAV_RELPOSNED_SPI"; "MSGOUT-UBX_NAV_RELPOSNED_UART1"; "MSGOUT-UBX_NAV_RELPOSNED_UART2"; "MSGOUT-UBX_NAV_RELPOSNED_USB";
    "MSGOUT-UBX_NAV_SAT_I2C"; "MSGOUT-UBX_NAV_SAT_SPI"; "MSGOUT-UBX_NAV_SAT_UART1"; "MSGOUT-UBX_NAV_SAT_UART2";
    "MSGOUT-UBX_NAV_SAT_USB"; "MSGOUT-UBX_NAV_SBAS_I2C"; "MSGOUT-UBX_NAV_SBAS_SPI"; "MSGOUT-UBX_NAV_SBAS_UART1";
    "MSGOUT-UBX_NAV_SBAS_UART2"; "MSGOUT-UBX_NAV_SBAS_USB"; "MSGOUT-UBX_NAV_SIG_I2C"; "MSGOUT-UBX_NAV_SIG_SPI";
    "MSGOUT-UBX_NAV_SIG_UART1"; "MSGOUT-UBX_NAV_SIG_UART2"; "MSGOUT-UBX_NAV_SIG_USB"; "MSGOUT-UBX_NAV_STATUS_I2C";
    "MSGOUT-UBX_NAV_STATUS_SPI"; "MSGOUT-UBX_NAV_STATUS_UART1"; "MSGOUT-UBX_NAV_STATUS_UART2"; "MSGOUT-UBX_NAV_STATUS_USB";
    "MSGOUT-UBX_NAV_SVIN_I2C"; "MSGOUT-UBX_NAV_SVIN_SPI"; "MSGOUT-UBX_NAV_SVIN_UART1"; "MSGOUT-UBX_NAV_SVIN_UART2";
    "MSGOUT-UBX_NAV_SVIN_USB"; "MSGOUT-UBX_NAV_TIMEBDS_I2C"; "MSGOUT-UBX_NAV_TIMEBDS_SPI"; "MSGOUT-UBX_NAV_TIMEBDS_UART1";
    "MSGOUT-UBX_NAV_TIMEBDS_UART2"; "MSGOUT-UBX_NAV_TIMEBDS_USB"; "MSGOUT-UBX_NAV_TIMEGAL_I2C"; "MSGOUT-UBX_NAV_TIMEGAL_SPI";
    "MSGOUT-UBX_NAV_TIMEGAL_UART1"; "MSGOUT-UBX_NAV_TIMEGAL_UART2"; "MSGOUT-UBX_NAV_TIMEGAL_USB"; "MSGOUT-UBX_NAV_TIMEGLO_I2C";
    "MSGOUT-UBX_NAV_TIMEGLO_SPI"; "MSGOUT-UBX_NAV_TIMEGLO_UART1"; "MSGOUT-UBX_NAV_TIMEGLO_UART2"; "MSGOUT-UBX_NAV_TIMEGLO_USB";
    "MSGOUT-UBX_NAV_TIMEGPS_I2C"; "MSGOUT-UBX_NAV_TIMEGPS_SPI"; "MSGOUT-UBX_NAV_TIMEGPS_UART1"; "MSGOUT-UBX_NAV_TIMEGPS_UART2";
    "MSGOUT-UBX_NAV_TIMEGPS_USB"; "MSGOUT-UBX_NAV_TIMELS_I2C"; "MSGOUT-UBX_NAV_TIMELS_SPI"; "MSGOUT-UBX_NAV_TIMELS_UART1";
    "MSGOUT-UBX_NAV_TIMELS_UART2"; "MSGOUT-UBX_NAV_TIMELS_USB"; "MSGOUT-UBX_NAV_TIMEUTC_I2C"; "MSGOUT-UBX_NAV_TIMEUTC_SPI";
    "MSGOUT-UBX_NAV_TIMEUTC_UART1"; "MSGOUT-UBX_NAV_TIMEUTC_UART2"; "MSGOUT-UBX_NAV_TIMEUTC_USB"; "MSGOUT-UBX_NAV_VELECEF_I2C";
    "MSGOUT-UBX_NAV_VELECEF_SPI"; "MSGOUT-UBX_NAV_VELECEF_UART1"; "MSGOUT-UBX_NAV_VELECEF_UART2"; "MSGOUT-UBX_NAV_VELECEF_USB";
    "MSGOUT-UBX_NAV_VELNED_I2C"; "MSGOUT-UBX_NAV_VELNED_SPI"; "MSGOUT-UBX_NAV_VELNED_UART1"; "MSGOUT-UBX_NAV_VELNED_UART2";
    "MSGOUT-UBX_NAV_VELNED_USB"; "MSGOUT-UBX_RXM_MEASX_I2C"; "MSGOUT-UBX_RXM_MEASX_SPI"; "MSGOUT-UBX_RXM_MEASX_UART1";
    "MSGOUT-UBX_RXM_MEASX_UART2"; "MSGOUT-UBX_RXM_MEASX_USB"; "MSGOUT-UBX_RXM_RAWX_I2C"; "MSGOUT-UBX_RXM_RAWX_SPI";
    "MSGOUT-UBX_RXM_RAWX_UART1"; "MSGOUT-UBX_RXM_RAWX_UART2"; "MSGOUT-UBX_RXM_RAWX_USB"; "MSGOUT-UBX_RXM_RLM_I2C";
    "MSGOUT-UBX_RXM_RLM_SPI"; "MSGOUT-UBX_RXM_RLM_UART1"; "MSGOUT-UBX_RXM_RLM_UART2"; "MSGOUT-UBX_RXM_RLM_USB";
    "MSGOUT-UBX_RXM_RTCM_I2C"; "MSGOUT-UBX_RXM_RTCM_SPI"; "MSGOUT-UBX_RXM_RTCM_UART1"; "MSGOUT-UBX_RXM_RTCM_UART2";
    "MSGOUT-UBX_RXM_RTCM_USB"; "MSGOUT-UBX_RXM_SFRBX_I2C"; "MSGOUT-UBX_RXM_SFRBX_SPI"; "MSGOUT-UBX_RXM_SFRBX_UART1";
    "MSGOUT-UBX_RXM_SFRBX_UART2"; "MSGOUT-UBX_RXM_SFRBX_USB"; "MSGOUT-UBX_TIM_SVIN_I2C"; "MSGOUT-UBX_TIM_SVIN_SPI";
    "MSGOUT-UBX_TIM_SVIN_UART1"; "MSGOUT-UBX_TIM_SVIN_UART2"; "MSGOUT-UBX_TIM_SVIN_USB"; "MSGOUT-UBX_TIM_TM2_I2C";
    "MSGOUT-UBX_TIM_TM2_SPI"; "MSGOUT-UBX_TIM_TM2_UART1"; "MSGOUT-UBX_TIM_TM2_UART2"; "MSGOUT-UBX_TIM_TM2_USB";
    "MSGOUT-UBX_TIM_TP_I2C"; "MSGOUT-UBX_TIM_TP_SPI"; "MSGOUT-UBX_TIM_TP_UART1"; "MSGOUT-UBX_TIM_TP_UART2";
    "MSGOUT-UBX_TIM_TP_USB"; "MSGOUT-UBX_TIM_VRFY_I2C"; "MSGOUT-UBX_TIM_VRFY_SPI"; "MSGOUT-UBX_TIM_VRFY_UART1";
    "MSGOUT-UBX_TIM_VRFY_UART2"; "MSGOUT-UBX_TIM_VRFY_USB"; "NAVHPG-DGNSSMODE"; "NAVSPG-FIXMODE";
    "NAVSPG-INIFIX3D"; "NAVSPG-WKNROLLOVER"; "NAVSPG-USE_PPP"; "NAVSPG-UTCSTANDARD";
    "NAVSPG-DYNMODEL"; "NAVSPG-ACKAIDING"; "NAVSPG-USE_USRDAT"; "NAVSPG-USRDAT_MAJA";
    "NAVSPG-USRDAT_FLAT"; "NAVSPG-USRDAT_DX"; "NAVSPG-USRDAT_DY"; "NAVSPG-USRDAT_DZ";
    "NAVSPG-USRDAT_ROTX"; "NAVSPG-USRDAT_ROTY"; "NAVSPG-USRDAT_ROTZ"; "NAVSPG-USRDAT_SCALE";
    "NAVSPG-INFIL_MINSVS"; "NAVSPG-INFIL_MAXSVS"; "NAVSPG-INFIL_MINCNO"; "NAVSPG-INFIL_MINELEV";
    "NAVSPG-INFIL_NCNOTHRS"; "NAVSPG-INFIL_CNOTHRS"; "NAVSPG-OUTFIL_PDOP"; "NAVSPG-OUTFIL_TDOP";
    "NAVSPG-OUTFIL_PACC"; "NAVSPG-OUTFIL_TACC"; "NAVSPG-OUTFIL_FACC"; "NAVSPG-CONSTR_ALT";
    "NAVSPG-CONSTR_ALTVAR"; "NAVSPG-CONSTR_DGNSSTO"; "NMEA-PROTVER"; "NMEA-MAXSVS";
    "NMEA-COMPAT"; "NMEA-CONSIDER"; "NMEA-LIMIT82"; "NMEA-HIGHPREC";
    "NMEA-SVNUMBERING"; "NMEA-FILT_GPS"; "NMEA-FILT_SBAS"; "NMEA-FILT_QZSS";
    "NMEA-FILT_GLO"; "NMEA-FILT_BDS"; "NMEA-OUT_INVFIX"; "NMEA-OUT_MSKFIX";
    "NMEA-OUT_INVTIME"; "NMEA-OUT_INVDATE"; "NMEA-OUT_ONLYGPS"; "NMEA-OUT_FROZENCOG";
    "NMEA-MAINTALKERID"; "NMEA-GSVTALKERID"; "NMEA-BDSTALKERID"; "ODO-USE_ODO";
    "ODO-USE_COG"; "ODO-OUTLPVEL"; "ODO-OUTLPCOG"; "ODO-PROFILE";
    "ODO-COGMAXSPEED"; "ODO-COGMAXPOSACC"; "ODO-COGLPGAIN"; "ODO-VELLPGAIN";
    "RATE-MEAS"; "RATE-NAV"; "RATE-TIMEREF"; "RINV-DUMP";
    "RINV-BINARY"; "RINV-DATA_SIZE"; "RINV-CHUNK0"; "RINV-CHUNK1";
    "RINV-CHUNK2"; "RINV-CHUNK3"; "SBAS-USE_TESTMODE"; "SBAS-USE_RANGING";
    "SBAS-USE_DIFFCORR"; "SBAS-USE_INTEGRITY"; "SBAS-PRNSCANMASK"; "SIGNAL-GPS_ENA";
    "SIGNAL-GPS_L1CA_ENA"; "SIGNAL-GPS_L2C_ENA"; "SIGNAL-SBAS_ENA"; "SIGNAL-SBAS_L1CA_ENA";
    "SIGNAL-GAL_ENA"; "SIGNAL-GAL_E1_ENA"; "SIGNAL-GAL_E5B_ENA"; "SIGNAL-BDS_ENA";
    "SIGNAL-BDS_B1_ENA"; "SIGNAL-BDS_B2_ENA"; "SIGNAL-QZSS_ENA"; "SIGNAL-QZSS_L1CA_ENA";
    "SIGNAL-QZSS_L1S_ENA"; "SIGNAL-QZSS_L2C_ENA"; "SIGNAL-GLO_ENA"; "SIGNAL-GLO_L1_ENA";
    "SIGNAL-GLO_L2_ENA"; "SPI-MAXFF"; "SPI-CPOLARITY"; "SPI-CPHASE";
    "SPI-EXTENDEDTIMEOUT"; "SPI-ENABLED"; "SPIINPROT-UBX"; "SPIINPROT-NMEA";
    "SPIINPROT-RTCM2X"; "SPIINPROT-RTCM3X"; "SPIOUTPROT-UBX"; "SPIOUTPROT-NMEA";
    "SPIOUTPROT-RTCM3X"; "TMODE-MODE"; "TMODE-POS_TYPE"; "TMODE-ECEF_X";
    "TMODE-ECEF_Y"; "TMODE-ECEF_Z"; "TMODE-ECEF_X_HP"; "TMODE-ECEF_Y_HP";
    "TMODE-ECEF_Z_HP"; "TMODE-LAT"; "TMODE-LON"; "TMODE-HEIGHT";
    "TMODE-LAT_HP"; "TMODE-LON_HP"; "TMODE-HEIGHT_HP"; "TMODE-FIXED_POS_ACC";
    "TMODE-SVIN_MIN_DUR"; "TMODE-SVIN_ACC_LIMIT"; "TP-PULSE_DEF"; "TP-PULSE_LENGTH_DEF";
    "TP-ANT_CABLEDELAY"; "TP-PERIOD_TP1"; "TP-PERIOD_LOCK_TP1"; "TP-FREQ_TP1";
    "TP-FREQ_LOCK_TP1"; "TP-LEN_TP1"; "TP-LEN_LOCK_TP1"; "TP-DUTY_TP1";
    "TP-DUTY_LOCK_TP1"; "TP-USER_DELAY_TP1"; "TP-TP1_ENA"; "TP-SYNC_GNSS_TP1";
    "TP-USE_LOCKED_TP1"; "TP-ALIGN_TO_TOW_TP1"; "TP-POL_TP1"; "TP-TIMEGRID_TP1";
    "TP-PERIOD_TP2"; "TP-PERIOD_LOCK_TP2"; "TP-FREQ_TP2"; "TP-FREQ_LOCK_TP2";
    "TP-LEN_TP2"; "TP-LEN_LOCK_TP2"; "TP-DUTY_TP2"; "TP-DUTY_LOCK_TP2";
    "TP-USER_DELAY_TP2"; "TP-TP2_ENA"; "TP-SYNC_GNSS_TP2"; "TP-USE_LOCKED_TP2";
    "TP-ALIGN_TO_TOW_TP2"; "TP-POL_TP2"; "TP-TIMEGRID_TP2"; "UART1-BAUDRATE";
    "UART1-STOPBITS"; "UART1-DATABITS"; "UART1-PARITY"; "UART1-ENABLED";
    "UART1INPROT-UBX"; "UART1INPROT-NMEA"; "UART1INPROT-RTCM2X"; "UART1INPROT-RTCM3X";
    "UART1OUTPROT-UBX"; "UART1OUTPROT-NMEA"; "UART1OUTPROT-RTCM3X"; "UART2-BAUDRATE";
    "UART2-STOPBITS"; "UART2-DATABITS"; "UART2-PARITY"; "UART2-ENABLED";
    "UART2-REMAP"; "UART2INPROT-UBX"; "UART2INPROT-NMEA"; "UART2INPROT-RTCM2X";
    "UART2INPROT-RTCM3X"; "UART2OUTPROT-UBX"; "UART2OUTPROT-NMEA"; "UART2OUTPROT-RTCM3X";
    "USB-ENABLED"; "USB-SELFPOW"; "USB-VENDOR_ID"; "USB-PRODUCT_ID";
    "USB-POWER"; "USB-VENDOR_STR0"; "USB-VENDOR_STR1"; "USB-VENDOR_STR2";
    "USB-VENDOR_STR3"; "USB-PRODUCT_STR0"; "USB-PRODUCT_STR1"; "USB-PRODUCT_STR2";
    "USB-PRODUCT_STR3"; "USB-SERIAL_NO_STR0"; "USB-SERIAL_NO_STR1"; "USB-SERIAL_NO_STR2";
    "USB-SERIAL_NO_STR3"; "USBINPROT-UBX"; "USBINPROT-NMEA"; "USBINPROT-RTCM2X";
    "USBINPROT-RTCM3X"; "USBOUTPROT-UBX"; "USBOUTPROT-NMEA"; "USBOUTPROT-RTCM3X"
  ]%string.

Definition vid : list Z :=
  [
    0x20240011; 0x10240012; 0x20240013; 0x20240014; 0x10240020; 0x40240021; 0x40240022; 0x40240023;
    0x10240030; 0x40240031; 0x40240032; 0x40240033; 0x10240040; 0x40240041; 0x40240042; 0x40240043;
    0x10240050; 0x40240051; 0x40240052; 0x40240053; 0x10a3002e; 0x10a3002f; 0x10a30030; 0x10a30031;
    0x10a30032; 0x10a30033; 0x10a30034; 0x10a30035; 0x20a30036; 0x20a30037; 0x20a30038; 0x20510001;
    0x10510002; 0x10510003; 0x10710001; 0x10710002; 0x10710003; 0x10710004; 0x10720001; 0x10720002;
    0x10720004; 0x20920001; 0x20920002; 0x20920003; 0x20920004; 0x20920005; 0x20920006; 0x20920007;
    0x20920008; 0x20920009; 0x2092000a; 0x20410001; 0x20410002; 0x1041000d; 0x20410010; 0x10410013;
    0x10de0002; 0x10de0003; 0x10de0004; 0x30de0005; 0x30de0006; 0x30de0007; 0x40de0008; 0x20250038;
    0x3025003b; 0x209100a6; 0x209100aa; 0x209100a7; 0x209100a8; 0x209100a9; 0x209100dd; 0x209100e1;
    0x209100de; 0x209100df; 0x209100e0; 0x209100ba; 0x209100be; 0x209100bb; 0x209100bc; 0x209100bd;
    0x209100c9; 0x209100cd; 0x209100ca; 0x209100cb; 0x209100cc; 0x209100b5; 0x209100b9; 0x209100b6;
    0x209100b7; 0x209100b8; 0x209100ce; 0x209100d2; 0x209100cf; 0x209100d0; 0x209100d1; 0x209100bf;
    0x209100c3; 0x209100c0; 0x209100c1; 0x209100c2; 0x209100d3; 0x209100d7; 0x209100d4; 0x209100d5;
    0x209100d6; 0x209100c4; 0x209100c8; 0x209100c5; 0x209100c6; 0x209100c7; 0x209100ab; 0x209100af;
    0x209100ac; 0x209100ad; 0x209100ae; 0x209100e7; 0x209100eb; 0x209100e8; 0x209100e9; 0x209100ea;
    0x209100b0; 0x209100b4; 0x209100b1; 0x209100b2; 0x209100b3; 0x209100d8; 0x209100dc; 0x209100d9;
    0x209100da; 0x209100db; 0x209100ec; 0x209100f0; 0x209100ed; 0x209100ee; 0x209100ef; 0x209100f1;
    0x209100f5; 0x209100f2; 0x209100f3; 0x209100f4; 0x209100f6; 0x209100fa; 0x209100f7; 0x209100f8;
    0x209100f9; 0x209102bd; 0x209102c1; 0x209102be; 0x209102bf; 0x209102c0; 0x2091035e; 0x20910362;
    0x2091035f; 0x20910360; 0x20910361; 0x209102cc; 0x209102d0; 0x209102cd; 0x209102ce; 0x209102cf;
    0x209102d1; 0x20910367; 0x20910364; 0x20910365; 0x20910366; 0x209102d5; 0x209102d2; 0x209102d3;
    0x209102d4; 0x20910368; 0x2091036c; 0x20910369; 0x2091036a; 0x2091036b; 0x20910318; 0x2091031c;
    0x20910319; 0x2091031a; 0x2091031b; 0x2091036d; 0x20910371; 0x2091036e; 0x2091036f; 0x20910370;
    0x209102d6; 0x209102da; 0x209102d7; 0x209102d8; 0x209102d9; 0x20910303; 0x20910307; 0x20910304;
    0x20910305; 0x20910306; 0x209102fe; 0x20910302; 0x209102ff; 0x20910300; 0x20910301; 0x20910381;
    0x20910385; 0x20910382; 0x20910383; 0x20910384; 0x20910259; 0x2091025d; 0x2091025a; 0x2091025b;
    0x2091025c; 0x2091034f; 0x20910353; 0x20910350; 0x20910351; 0x20910352; 0x209101b9; 0x209101bd;
    0x209101ba; 0x209101bb; 0x209101bc; 0x20910354; 0x20910358; 0x20910355; 0x20910356; 0x20910357;
    0x209101b4; 0x209101b8; 0x209101b5; 0x209101b6; 0x209101b7; 0x209101a5; 0x209101a9; 0x209101a6;
    0x209101a7; 0x209101a8; 0x20910196; 0x2091019a; 0x20910197; 0x20910198; 0x20910199; 0x20910359;
    0x2091035d; 0x2091035a; 0x2091035b; 0x2091035c; 0x209101a0; 0x209101a4; 0x209101a1; 0x209101a2;
    0x209101a3; 0x20910187; 0x2091018b; 0x20910188; 0x20910189; 0x2091018a; 0x2091019b; 0x2091019f;
    0x2091019c; 0x2091019d; 0x2091019e; 0x2091019b; 0x2091019f; 0x2091019c; 0x2091019d; 0x2091019e;
    0x20910065; 0x20910069; 0x20910066; 0x20910067; 0x20910068; 0x20910038; 0x2091003c; 0x20910039;
    0x2091003a; 0x2091003b; 0x2091015f; 0x20910163; 0x20910160; 0x20910161; 0x20910162; 0x209100a1;
    0x209100a5; 0x209100a2; 0x209100a3; 0x209100a4; 0x2091002e; 0x20910032; 0x2091002f; 0x20910030;
    0x20910031; 0x20910033; 0x20910037; 0x20910034; 0x20910035; 0x20910036; 0x2091007e; 0x20910082;
    0x2091007f; 0x20910080; 0x20910081; 0x20910010; 0x20910014; 0x20910011; 0x20910012; 0x20910013;
    0x20910024; 0x20910028; 0x20910025; 0x20910026; 0x20910027; 0x20910029; 0x2091002d; 0x2091002a;
    0x2091002b; 0x2091002c; 0x20910006; 0x2091000a; 0x20910007; 0x20910008; 0x20910009; 0x2091008d;
    0x20910091; 0x2091008e; 0x2091008f; 0x20910090; 0x20910015; 0x20910019; 0x20910016; 0x20910017;
    0x20910018; 0x2091006a; 0x2091006e; 0x2091006b; 0x2091006c; 0x2091006d; 0x20910345; 0x20910349;
    0x20910346; 0x20910347; 0x20910348; 0x2091001a; 0x2091001e; 0x2091001b; 0x2091001c; 0x2091001d;
    0x20910088; 0x2091008c; 0x20910089; 0x2091008a; 0x2091008b; 0x20910051; 0x20910055; 0x20910052;
    0x20910053; 0x20910054; 0x20910056; 0x2091005a; 0x20910057; 0x20910058; 0x20910059; 0x2091004c;
    0x20910050; 0x2091004d; 0x2091004e; 0x2091004f; 0x20910047; 0x2091004b; 0x20910048; 0x20910049;
    0x2091004a; 0x20910060; 0x20910064; 0x20910061; 0x20910062; 0x20910063; 0x2091005b; 0x2091005f;
    0x2091005c; 0x2091005d; 0x2091005e; 0x2091003d; 0x20910041; 0x2091003e; 0x2091003f; 0x20910040;
    0x20910042; 0x20910046; 0x20910043; 0x20910044; 0x20910045; 0x20910204; 0x20910208; 0x20910205;
    0x20910206; 0x20910207; 0x209102a4; 0x209102a8; 0x209102a5; 0x209102a6; 0x209102a7; 0x2091025e;
    0x20910262; 0x2091025f; 0x20910260; 0x20910261; 0x20910268; 0x2091026c; 0x20910269; 0x2091026a;
    0x2091026b; 0x20910231; 0x20910235; 0x20910232; 0x20910233; 0x20910234; 0x20910097; 0x2091009b;
    0x20910098; 0x20910099; 0x2091009a; 0x20910178; 0x2091017c; 0x20910179; 0x2091017a; 0x2091017b;
    0x2091017d; 0x20910181; 0x2091017e; 0x2091017f; 0x20910180; 0x20910092; 0x20910096; 0x20910093;
    0x20910094; 0x20910095; 0x20140011; 0x20110011; 0x10110013; 0x30110017; 0x10110019; 0x2011001c;
    0x20110021; 0x10110025; 0x10110061; 0x50110062; 0x50110063; 0x40110064; 0x40110065; 0x40110066;
    0x40110067; 0x40110068; 0x40110069; 0x4011006a; 0x201100a1; 0x201100a2; 0x201100a3; 0x201100a4;
    0x201100aa; 0x201100ab; 0x301100b1; 0x301100b2; 0x301100b3; 0x301100b4; 0x301100b5; 0x401100c1;
    0x401100c2; 0x201100c4; 0x20930001; 0x20930002; 0x10930003; 0x10930004; 0x10930005; 0x10930006;
    0x20930007; 0x10930011; 0x10930012; 0x10930015; 0x10930016; 0x10930017; 0x10930021; 0x10930022;
    0x10930023; 0x10930024; 0x10930025; 0x10930026; 0x20930031; 0x20930032; 0x30930033; 0x10220001;
    0x10220002; 0x10220003; 0x10220004; 0x20220005; 0x20220021; 0x20220022; 0x20220032; 0x20220031;
    0x30210001; 0x30210002; 0x20210003; 0x10c70001; 0x10c70002; 0x20c70003; 0x50c70004; 0x50c70005;
    0x50c70006; 0x50c70007; 0x10360002; 0x10360003; 0x10360004; 0x10360005; 0x50360006; 0x1031001f;
    0x10310001; 0x10310003; 0x10310020; 0x10310005; 0x10310021; 0x10310007; 0x1031000a; 0x10310022;
    0x1031000d; 0x1031000e; 0x10310024; 0x10310012; 0x10310014; 0x10310015; 0x10310025; 0x10310018;
    0x1031001a; 0x20640001; 0x10640002; 0x10640003; 0x10640005; 0x10640006; 0x10790001; 0x10790002;
    0x10790003; 0x10790004; 0x107a0001; 0x107a0002; 0x107a0004; 0x20030001; 0x20030002; 0x40030003;
    0x40030004; 0x40030005; 0x20030006; 0x20030007; 0x20030008; 0x40030009; 0x4003000a; 0x4003000b;
    0x2003000c; 0x2003000d; 0x2003000e; 0x4003000f; 0x40030010; 0x40030011; 0x20050023; 0x20050030;
    0x30050001; 0x40050002; 0x40050003; 0x40050024; 0x40050025; 0x40050004; 0x40050005; 0x5005002a;
    0x5005002b; 0x40050006; 0x10050007; 0x10050008; 0x10050009; 0x1005000a; 0x1005000b; 0x2005000c;
    0x4005000d; 0x4005000e; 0x40050026; 0x40050027; 0x4005000f; 0x40050010; 0x5005002c; 0x5005002d;
    0x40050011; 0x10050012; 0x10050013; 0x10050014; 0x10050015; 0x10050016; 0x20050017; 0x40520001;
    0x20520002; 0x20520003; 0x20520004; 0x10520005; 0x10730001; 0x10730002; 0x10730003; 0x10730004;
    0x10740001; 0x10740002; 0x10740004; 0x40530001; 0x20530002; 0x20530003; 0x20530004; 0x10530005;
    0x10530006; 0x10750001; 0x10750002; 0x10750003; 0x10750004; 0x10760001; 0x10760002; 0x10760004;
    0x10650001; 0x10650002; 0x3065000a; 0x3065000b; 0x3065000c; 0x5065000d; 0x5065000e; 0x5065000f;
    0x50650010; 0x50650011; 0x50650012; 0x50650013; 0x50650014; 0x50650015; 0x50650016; 0x50650017;
    0x50650018; 0x10770001; 0x10770002; 0x10770003; 0x10770004; 0x10780001; 0x10780002; 0x10780004
  ].

Definition vprm : list Z :=
  [
    FU1; FU1; FU1; FU1; FU1; FI4; FI4; FU4; FU1; FI4;
    FI4; FU4; FU1; FI4; FI4; FU4; FU1; FI4; FI4; FU4;
    FU1; FU1; FU1; FU1; FU1; FU1; FU1; FU1; FU1; FU1;
    FU1; FU1; FU1; FU1; FU1; FU1; FU1; FU1; FU1; FU1;
    FU1; FU1; FU1; FU1; FU1; FU1; FU1; FU1; FU1; FU1;
    FU1; FU1; FU1; FU1; FU1; FU1; FU1; FU1; FU1; FU2;
    FU2; FU2; FU4; FU1; FU2; FU1; FU1; FU1; FU1; FU1;
    FU1; FU1; FU1; FU1; FU1; FU1; FU1; FU1; FU1; FU1;
    FU1; FU1; FU1; FU1; FU1; FU1; FU1; FU1; FU1; FU1;
    FU1; FU1; FU1; FU1; FU1; FU1; FU1; FU1; FU1; FU1;
    FU1; FU1; FU1; FU1; FU1; FU1; FU1; FU1; FU1; FU1;
    FU1; FU1; FU1; FU1; FU1; FU1; FU1; FU1; FU1; FU1;
    FU1; FU1; FU1; FU1; FU1; FU1; FU1; FU1; FU1; FU1;
    FU1; FU1; FU1; FU1; FU1; FU1; FU1; FU1; FU1; FU1;
    FU1; FU1; FU1; FU1; FU1; FU1; FU1; FU1; FU1; FU1;
    FU1; FU1; FU1; FU1; FU1; FU1; FU1; FU1; FU1; FU1;
    FU1; FU1; FU1; FU1; FU1; FU1; FU1; FU1; FU1; FU1;
    FU1; FU1; FU1; FU1; FU1; FU1; FU1; FU1; FU1; FU1;
    FU1; FU1; FU1; FU1; FU1; FU1; FU1; FU1; FU1; FU1;
    FU1; FU1; FU1; FU1; FU1; FU1; FU1; FU1; FU1; FU1;
    FU1; FU1; FU1; FU1; FU1; FU1; FU1; FU1; FU1; FU1;
    FU1; FU1; FU1; FU1; FU1; FU1; FU1; FU1; FU1; FU1;
    FU1; FU1; FU1; FU1; FU1; FU1; FU1; FU1; FU1; FU1;
    FU1; FU1; FU1; FU1; FU1; FU1; FU1; FU1; FU1; FU1;
    FU1; FU1; FU1; FU1; FU1; FU1; FU1; FU1; FU1; FU1;
    FU1; FU1; FU1; FU1; FU1; FU1; FU1; FU1; FU1; FU1;
    FU1; FU1; FU1; FU1; FU1; FU1; FU1; FU1; FU1; FU1;
    FU1; FU1; FU1; FU1; FU1; FU1; FU1; FU1; FU1; FU1;
    FU1; FU1; FU1; FU1; FU1; FU1; FU1; FU1; FU1; FU1;
    FU1; FU1; FU1; FU1; FU1; FU1; FU1; FU1; FU1; FU1;
    FU1; FU1; FU1; FU1; FU1; FU1; FU1; FU1; FU1; FU1;
    FU1; FU1; FU1; FU1; FU1; FU1; FU1; FU1; FU1; FU1;
    FU1; FU1; FU1; FU1; FU1; FU1; FU1; FU1; FU1; FU1;
    FU1; FU1; FU1; FU1; FU1; FU1; FU1; FU1; FU1; FU1;
    FU1; FU1; FU1; FU1; FU1; FU1; FU1; FU1; FU1; FU1;
    FU1; FU1; FU1; FU1; FU1; FU1; FU1; FU1; FU1; FU1;
    FU1; FU1; FU1; FU1; FU1; FU1; FU1; FU1; FU1; FU1;
    FU1; FU1; FU1; FU1; FU1; FU1; FU1; FU1; FU1; FU1;
    FU1; FU1; FU1; FU1; FU1; FU1; FU1; FU1; FU1; FU1;
    FU1; FU1; FU1; FU1; FU1; FU1; FU1; FU1; FU1; FU1;
    FU1; FU1; FU1; FU1; FU1; FU1; FU1; FU1; FU1; FU1;
    FU1; FU1; FU1; FU1; FU1; FU1; FU1; FU1; FU1; FU1;
    FU1; FU1; FU1; FU1; FU1; FU1; FU1; FU1; FU1; FU1;
    FU1; FU1; FU1; FU1; FU1; FU1; FU1; FU2; FU1; FU1;
    FU1; FU1; FU1; FR8; FR8; FR4; FR4; FR4; FR4; FR4;
    FR4; FR4; FU1; FU1; FU1; FI1; FU1; FU1; FU2; FU2;
    FU2; FU2; FU2; FI4; FU4; FU1; FU1; FU1; FU1; FU1;
    FU1; FU1; FU1; FU1; FU1; FU1; FU1; FU1; FU1; FU1;
    FU1; FU1; FU1; FU1; FU1; FU1; FU2; FU1; FU1; FU1;
    FU1; FU1; FU1; FU1; FU1; FU1; FU2; FU2; FU1; FU1;
    FU1; FU1; FU8; FU8; FU8; FU8; FU1; FU1; FU1; FU1;
    FU8; FU1; FU1; FU1; FU1; FU1; FU1; FU1; FU1; FU1;
    FU1; FU1; FU1; FU1; FU1; FU1; FU1; FU1; FU1; FU1;
    FU1; FU1; FU1; FU1; FU1; FU1; FU1; FU1; FU1; FU1;
    FU1; FU1; FU1; FI4; FI4; FI4; FI1; FI1; FI1; FI4;
    FI4; FI4; FI1; FI1; FI1; FU4; FU4; FU4; FU1; FU1;
    FI2; FU4; FU4; FU4; FU4; FU4; FU4; FR8; FR8; FI4;
    FU1; FU1; FU1; FU1; FU1; FU1; FU4; FU4; FU4; FU4;
    FU4; FU4; FR8; FR8; FI4; FU1; FU1; FU1; FU1; FU1;
    FU1; FU4; FU1; FU1; FU1; FU1; FU1; FU1; FU1; FU1;
    FU1; FU1; FU1; FU4; FU1; FU1; FU1; FU1; FU1; FU1;
    FU1; FU1; FU1; FU1; FU1; FU1; FU1; FU1; FU2; FU2;
    FU2; FU8; FU8; FU8; FU8; FU8; FU8; FU8; FU8; FU8;
    FU8; FU8; FU8; FU1; FU1; FU1; FU1; FU1; FU1; FU1
  ].

(** [prm[i][k]] for [k<32]. *)
Definition prm_cell (i k : Z) : Z := rd (arr_get [] prm i) k.

(** [for (i=0;*tbl[i];i++) if (!strcmp(name,tbl[i])) break;]: the index the
    loop stops at, [None] when it reaches the empty string. *)
Fixpoint find_str (tbl : list string) (name : string) (i : Z) : option Z :=
  match tbl with
  | [] => None
  | s :: tbl' => if String.eqb name s then Some i else find_str tbl' name (i + 1)
  end.

(** The bytes one field writes at [q] and the advance of [q]. [%-32.32s]
    writes 32 characters and a NUL, and [q] advances by 32. *)
Definition gen_field (t : Z) (arg : option string) : list Z * Z :=
  let ai := match arg with Some s => atoi s | None => 0 end in
  let af := match arg with Some s => atof s | None => 0%float end in
  if t =? FU1 then (setU1 ai, 1)
  else if t =? FU2 then (setU2 ai, 2)
  else if t =? FU4 then (setU4 ai, 4)
  else if t =? FI1 then (setI1 ai, 1)
  else if t =? FI2 then (setI2 ai, 2)
  else if t =? FI4 then (setI4 ai, 4)
  else if t =? FR4 then (setR4 af, 4)
  else if t =? FR8 then (setR8 af, 8)
  else if t =? FS32 then (str_bytes (fmt_s32 (default EmptyString arg)) ++ [0], 32)
  else (setU1 ai, 1).

(** The output buffer and the write position [q-buff]. *)
Definition emit (st : list Z * Z) (w : list Z * Z) : list Z * Z :=
  (wr_list (fst st) (snd st) (fst w), snd st + snd w).

Definition arg_at (args : list string) (j : Z) : string :=
  arr_get EmptyString args j.

(** [for (j=1;prm[i][j-1]||j<narg;j++) ...]: the state and [j] at the exit;
    [None] when the test would read [prm[i][32]], outside the row. *)
Fixpoint gen_fields (fuel : nat) (i narg : Z) (args : list string) (j : Z)
    (st : list Z * Z) : option (list Z * Z * Z) :=
  match fuel with
  | O => None
  | Datatypes.S fuel' =>
      if 32 <? j then None
      else
        let t := prm_cell i (j - 1) in
        if negb (t =? 0) || (j <? narg) then
          gen_fields fuel' i narg args (j + 1)
            (emit st (gen_field t (if j <? narg then Some (arg_at args j) else None)))
        else Some (st, j)
  end.

(** Add VALSET cfgData: [None] is [return 0]. *)
Definition gen_valset (args : list string) (j : Z) (st : list Z * Z) : option (list Z * Z) :=
  if strncmp_ne (arg_at args j) "CFG-" then None
  else
    match find_str vcmd (str_drop 4 (arg_at args j)) 0 with
    | None => None
    | Some k =>
        let st := emit st (setU4 (rd vid k), 4) in
        (* Set value *)
        Some (emit st (gen_field (rd vprm k) (Some (arg_at args (j + 1)))))
    end.

(** [gen_ubx(msg,buff)]: the length returned and the buffer. The result is
    [None] when [msg] does not fit [mbuff[1024]] or the field loop leaves
    its row of [prm]. *)
Definition gen_ubx (msg : string) (buff : list Z) : option (Z * list Z) :=
  if 1024 <=? Z.of_nat (String.length msg) then None
  else
    let args := take 32 (strtok_all msg) in
    let narg := Z.of_nat (length args) in
    if (narg <? 1) || strncmp_ne (arg_at args 0) "CFG-" then Some (0, buff)
    else
      match find_str cmd (str_drop 4 (arg_at args 0)) 0 with
      | None => Some (0, buff)
      | Some i =>
          let st := emit (buff, 0) ([UBXSYNC1; UBXSYNC2; UBXCFG; rd cmd_id i], 4) in
          let st := (fst st, snd st + 2) in
          let isvalset := i =? 34 in
          (* VALSET sanity check *)
          if isvalset && negb (narg =? 7) then Some (0, fst st)
          else
            let narg := if isvalset then narg - 2 else narg in (* Adjusting for key value addition *)
            match gen_fields 33 i narg args 1 st with
            | None => None
            | Some (st, j) =>
                let fin (st : list Z * Z) :=
                  let n := snd st + 2 in
                  let buff := wr_list (fst st) 4 (setU2 (n - 8)) in
                  (n, setcs buff n) in
                if isvalset then
                  match gen_valset args j st with
                  | None => Some (0, fst st)
                  | Some st => Some (fin st)
                  end
                else Some (fin st)
            end
      end.

End Decoders.

(** The statuses and the final state of [input_ubx] over a byte sequence. *)
Fixpoint input_all `{rtklib} (raw : raw_t) (bytes : list Z) : option (list Z * raw_t) :=
  match bytes with
  | [] => Some ([], raw)
  | b :: bytes' =>
      match input_ubx raw b with
      | None => None
      | Some (st, raw') =>
          match input_all raw' bytes' with
          | None => None
          | Some (sts, raw'') => Some (st :: sts, raw'')
          end
      end
  end.

(** ** A reference instance of the interface

    The constants as RTKLIB 2.4.3 defines them and simple stand-ins for the
    library functions, to run the model on concrete frames. The theorems
    below hold for every instance. *)

Definition ref_satno (sys : sys_t) (prn : Z) : Z :=
  match sys with
  | SYS_GPS => if (1 <=? prn) && (prn <=? 32) then prn else 0
  | SYS_GLO => if (1 <=? prn) && (prn <=? 27) then 32 + prn else 0
  | SYS_GAL => if (1 <=? prn) && (prn <=? 36) then 59 + prn else 0
  | SYS_QZS => if (193 <=? prn) && (prn <=? 202) then 95 + prn - 192 else 0
  | SYS_CMP => if (1 <=? prn) && (prn <=? 63) then 105 + prn else 0
  | SYS_SBS => if (120 <=? prn) && (prn <=? 158) then 168 + prn - 119 else 0
  | _ => 0
  end.

Definition ref_satsys (sat : Z) : sys_t * Z :=
  if sat <=? 0 then (SYS_NONE, 0)
  else if sat <=? 32 then (SYS_GPS, sat)
  else if sat <=? 59 then (SYS_GLO, sat - 32)
  else if sat <=? 95 then (SYS_GAL, sat - 59)
  else if sat <=? 105 then (SYS_QZS, sat - 95 + 192)
  else if sat <=? 168 then (SYS_CMP, sat - 105)
  else if sat <=? 207 then (SYS_SBS, sat - 168 + 119)
  else (SYS_NONE, 0).

Definition ref_gpst2time (week : Z) (sec : float) : gtime_t :=
  let s := default 0 (F_floor_Z sec) in
  mk_gtime (315964800 + 604800 * week + s) (sec - Z2F s)%float.

Definition ref_time2gpst (t : gtime_t) : float * Z :=
  let s := gt_time t - 315964800 in
  let w := s / 604800 in
  ((Z2F (s - w * 604800) + gt_sec t)%float, w).

Definition ref_timeadd (t : gtime_t) (sec : float) : gtime_t :=
  let x := (gt_sec t + sec)%float in
  let s := default 0 (F_floor_Z x) in
  mk_gtime (gt_time t + s) (x - Z2F s)%float.

Definition ref_timediff (t1 t2 : gtime_t) : float :=
  (Z2F (gt_time t1 - gt_time t2) + gt_sec t1 - gt_sec t2)%float.

Definition ref_getbitu (buff : list Z) (pos len : Z) : Z :=
  for_range pos (pos + len)
    (fun i bits =>
       Z.shiftl bits 1 + Z.land (Z.shiftr (rd buff (i / 8)) (7 - i mod 8)) 1) 0.

Definition ref_setbitu (buff : list Z) (pos len data : Z) : list Z :=
  if (len <=? 0) || (32 <? len) then buff
  else
    for_range 0 len
      (fun k buff =>
         let i := pos + k in
         let bit := Z.land (Z.shiftr data (len - 1 - k)) 1 in
         let m := Z.shiftl 1 (7 - i mod 8) in
         let b := rd buff (i / 8) in
         wr buff (i / 8) (if bit =? 0 then Z.land b (255 - m) else Z.lor b m)) buff.

(** CRC-24Q, bit by bit (polynomial 0x1864CFB). *)
Definition ref_crc24q (buff : list Z) (len : Z) : Z :=
  for_range 0 len
    (fun i crc =>
       let crc := Z.lxor crc (Z.shiftl (rd buff i) 16) in
       for_range 0 8
         (fun _ crc =>
            let crc := Z.shiftl crc 1 in
            if Z.testbit crc 24 then Z.lxor crc 0x1864CFB else crc) crc) 0.

#[export] Instance ref_lib : rtklib := {|
  MAXRAWLEN := 16384;
  MAXOBS := 96;
  NFREQ := 3;
  NEXOBS := 0;
  MINPRNSBS := 120;
  MINPRNQZS := 193;
  LLI_SLIP := 1;
  LLI_HALFC := 2;
  CLIGHT := 299792458;
  FREQL1 := 1575420000;
  P2_32 := 0x1p-32;
  FREQ1_GLO := 1602000000;
  FREQ2_GLO := 1246000000;
  FREQ3_GLO := 1202025000;
  DFRQ1_GLO := 562500;
  DFRQ2_GLO := 437500;
  FREQ1_CMP := 1561098000;
  FREQ2_CMP := 1207140000;
  FREQ3_CMP := 1268520000;
  lam_carr := [299792458 / 1575420000; 299792458 / 1227600000; 299792458 / 1176450000]%float;
  satno := ref_satno;
  satsys := ref_satsys;
  gpst2time := ref_gpst2time;
  time2gpst := ref_time2gpst;
  timeadd := ref_timeadd;
  timediff := ref_timediff;
  gpst2utc := fun t => ref_timeadd t (-18)%float;
  time2str := fun t _ => fmt_d (gt_time t);
  getbitu := ref_getbitu;
  setbitu := ref_setbitu;
  rtk_crc24q := ref_crc24q;
  test_glostr := fun _ => 1;
  decode_frame := fun buff io =>
    (Z.land (Z.shiftr (rd buff 5) 2) 7,
     mk_frame_io
       ((fun e => mk_eph (eph_sat e) (rd buff 6) (rd buff 7) (eph_toe e) (eph_toc e) (eph_rest e))
          <$> fio_eph io)
       (fio_alm io) (fio_ion io) (fio_utc io) (fio_leaps io));
  decode_gal_inav := fun buff e =>
    (1, mk_eph (rd buff 113) (rd buff 16) (rd buff 16) (mk_gtime (rd buff 17) 0)
          (mk_gtime (rd buff 18) 0) (eph_rest e));
  decode_bds_d1 := fun buff e => (1, e);
  decode_bds_d2 := fun buff e => (1, e);
  decode_glostr := fun buff g => (1, g);
  sbsdecodemsg := fun _ _ _ m => (1, m);
  sscanf_lf := fun s => Z2F <$> scan_d s;
  atof := fun s => Z2F (atoi s);
  indeterminate := 0
|}.

(** A receiver state as [init_raw] leaves it under [ref_lib]: everything
    zero, the arrays at their declared sizes. *)
Definition ref_obsd0 : obsd_t :=
  mk_obsd gtime0 gtime0 0 0 0 [0; 0; 0] [0; 0; 0] [CODE_NONE; CODE_NONE; CODE_NONE]
    [0; 0; 0] [0; 0; 0] [0; 0; 0]%float [0; 0; 0]%float [0; 0; 0]%float.

Definition ref_raw0 : raw_t :=
  mk_raw gtime0
    (mk_obs 0 0 0 0 (replicate 96 ref_obsd0))
    (mk_nav (replicate 207 eph0) (replicate 27 geph0) []
       [0; 0; 0; 0]%float [0; 0; 0; 0; 0; 0; 0; 0]%float
       [0; 0; 0; 0]%float [0; 0; 0; 0; 0; 0; 0; 0]%float 0)
    (mk_sbsmsg 0 0 0 (replicate 29 0))
    EmptyString
    (replicate 207 (replicate 380 0))
    (replicate 207 [0; 0; 0]%float)
    (replicate 207 [0; 0; 0])
    (replicate 207 [0; 0; 0])
    0 0 0 (replicate (Z.to_nat 16384) 0) EmptyString 0.

(** The state once the framer has accumulated [frame] in [raw->buff]. *)
Definition with_frame (r : raw_t) (frame : list Z) : raw_t :=
  set_len (set_buff r (frame ++ drop (length frame) (raw_buff r)))
    (Z.of_nat (length frame)).

(** An RXM-RAW frame: tow = 100000 ms, week = 0, one satellite. *)
Definition frame_rxmraw_week0 : list Z :=
  [0xB5; 0x62; 0x02; 0x10; 32; 0;
   0xA0; 0x86; 0x01; 0x00; 0; 0; 1; 0;
   0; 0; 0; 0; 0; 0; 0; 0; 0; 0; 0; 0; 0; 0; 0; 0; 0; 0; 0; 0; 5; 4; 40; 0;
   0; 0].

(** An RXM-RAWX frame: rcvTow = 1.0 s, week = 0, one measurement, version 1. *)
Definition frame_rxmrawx_week0 : list Z :=
  [0xB5; 0x62; 0x02; 0x15; 48; 0;
   0; 0; 0; 0; 0; 0; 0xF0; 0x3F; 0; 0; 18; 1; 1; 1; 0; 0]
  ++ replicate 32 0 ++ [0; 0].

(** An RXM-SFRBX frame of GLONASS satellite 1 carrying string 1 with the
    frame-id bytes CC DD (the words are byte-swapped on the wire), and a
    state whose row of that satellite holds 7 everywhere and the saved frame
    id AA BB. *)
Definition frame_gnav_str1 : list Z :=
  [0xB5; 0x62; 0x02; 0x13; 24; 0;
   6; 1; 0; 8; 4; 0; 1; 0;
   3; 2; 1; 0x08;  7; 6; 5; 4;  11; 10; 9; 8;  15; 14; 0xDD; 0xCC;
   0; 0].

Definition ref_raw_glo : raw_t :=
  set_subfrm (with_frame ref_raw0 frame_gnav_str1)
    (arr_set (raw_subfrm ref_raw0) 32
       (replicate 150 7 ++ [0xAA; 0xBB] ++ replicate 228 7)).

(** RXM-SFRBX frames of Galileo satellite 1 with nine words. The first
    byte of the page (the last byte of the first word on the wire) holds the
    even/odd bit and the page-type bit of the first half: C0 sets both, 80
    sets the even/odd bit only. *)
Definition frame_enav (b0 : Z) : list Z :=
  [0xB5; 0x62; 0x02; 0x13; 44; 0;
   2; 1; 0; 0; 9; 0; 1; 0;
   0; 0; 0; b0]
  ++ replicate 32 0 ++ [0; 0].

(** The page at [raw->buff+6+off] passes the tests of [decode_enav] up to
    the word type: length, no alert bit, even/odd parts, CRC, type 0..6. *)
Definition enav_accepts `{rtklib} (raw : raw_t) (off : Z) : bool :=
  let buff := swap_words 8 (at_off (raw_buff raw) (6 + off)) in
  (44 + off <=? raw_len raw)
  && negb (getbitu buff 1 1 =? 1) && negb (getbitu (at_off buff 16) 1 1 =? 1)
  && (getbitu buff 0 1 =? 0) && (getbitu (at_off buff 16) 0 1 =? 1)
  && (rtk_crc24q (enav_crc_buff buff) 25 =? getbitu (at_off buff 16) 82 24)
  && (getbitu buff 2 6 <=? 6).

(** A state whose row of GPS satellite 1 holds the subframes 1, 2 and 3 as
    [ref_lib] reads them (the id in byte 5, iode 5 and iodc 9 in subframe 3). *)
Definition ref_raw_gps : raw_t :=
  set_subfrm ref_raw0
    (arr_set (raw_subfrm ref_raw0) 0
       (replicate 5 0 ++ [4] ++ replicate 29 0 ++ [8] ++ replicate 29 0 ++ [12; 5; 9]
        ++ replicate 312 0)).

(** An RXM-SFRBX frame of Galileo satellite 1: a page of word type 1 with
    the even/odd bits 0 and 1, no alert bit and a matching CRC-24Q; and a
    state where the other six words are present (mask 7F at offset 112) and
    the stored ephemeris of the satellite has iode 4 and toe = toc = 0, which
    is what [ref_lib] decodes from the row. *)
Definition frame_enav_ok : list Z :=
  [0xB5; 0x62; 0x02; 0x13; 44; 0;
   2; 1; 0; 0; 9; 0; 1; 0;
   0; 0; 0; 1;  0; 0; 0; 0;  0; 0; 0; 0;  0; 0; 0; 0;
   0; 0; 0; 128;  0; 0; 0; 0;  159; 43; 0; 0;  0; 0; 192; 125;
   0; 0; 0; 0;
   0; 0].

Definition ref_raw_gal : raw_t :=
  let raw := with_frame ref_raw0 frame_enav_ok in
  let raw := set_subfrm raw
               (arr_set (raw_subfrm raw) 59 (replicate 112 0 ++ [0x7F; 60] ++ replicate 266 0)) in
  set_nav raw
    (nav_with_eph (raw_nav raw)
       (arr_set (nav_eph (raw_nav raw)) 59 (mk_eph 60 4 4 gtime0 gtime0 []))).

(** ** The framer's state and steps *)

(** [nbyte], [len] and [buff]: the state of the framer. *)
Definition framer_of (r : raw_t) : Z * Z * list Z := (raw_nbyte r, raw_len r, raw_buff r).

(** The states of the framer: hunting for the sync code, inside the
    header, or inside a frame whose length passed the length test. *)
Definition framer_ok `{rtklib} (r : raw_t) : Prop :=
  Z.of_nat (length (raw_buff r)) = MAXRAWLEN
  /\ (raw_nbyte r = 0
      \/ 2 <= raw_nbyte r < 6
      \/ (6 <= raw_nbyte r < raw_len r /\ raw_len r <= MAXRAWLEN)).

(** What one call [input_ubx(raw,data)] does, from the state [raw] to the
    status [st] and the state [raw']. *)
Definition framer_step `{rtklib} (raw : raw_t) (data st : Z) (raw' : raw_t) : Prop :=
  (* hunting: the window slides, and only B5 62 starts a frame *)
  (raw_nbyte raw = 0 ->
   st = 0
   /\ raw_buff raw' = wr (wr (raw_buff raw) 0 (rd (raw_buff raw) 1)) 1 data
   /\ raw_nbyte raw' =
        (if (rd (raw_buff raw) 1 =? UBXSYNC1) && (data =? UBXSYNC2) then 2 else 0))
  (* accumulating: the byte is stored below 6 or below len <= MAXRAWLEN *)
  /\ (raw_nbyte raw <> 0 ->
      raw_buff raw' = wr (raw_buff raw) (raw_nbyte raw) data
      /\ 0 <= raw_nbyte raw < Z.of_nat (length (raw_buff raw))
      /\ (raw_nbyte raw < 6 \/ (raw_nbyte raw < raw_len raw /\ raw_len raw <= MAXRAWLEN)))
  (* the header completes: the length gate *)
  /\ (raw_nbyte raw = 5 ->
      raw_len raw' = U2 (at_off (raw_buff raw') 4) + 8
      /\ 8 <= raw_len raw'
      /\ (MAXRAWLEN < raw_len raw' -> raw_nbyte raw' = 0 /\ st = -1)
      /\ (raw_len raw' <= MAXRAWLEN -> raw_nbyte raw' = 6 /\ st = 0))
  (* elsewhere the expected length stays *)
  /\ (raw_nbyte raw <> 5 -> raw_len raw' = raw_len raw)
  (* a frame is handed over exactly when its last byte arrives *)
  /\ (6 <= raw_nbyte raw ->
      raw_nbyte raw' = (if raw_nbyte raw + 1 <? raw_len raw then raw_nbyte raw + 1 else 0)).

(** ** RXM-RAWX measurements *)

(** An RXM-RAWX frame of week 1, rcvTow = 1.0 s, version 1, with one
    measurement of GPS satellite 1, signal L1C/A: prMes = 2e7 m,
    cpMes = 1e8 cycles, locktime = 1000 ms, cno = 40, and the given trkStat
    and cpStdev; the checksum is the one [setcs] computes. *)
Definition frame_rawx (tstat cpstd : Z) : list Z :=
  setcs
    ([0xB5; 0x62; 0x02; 0x15; 48; 0;
      0; 0; 0; 0; 0; 0; 0xF0; 0x3F;  1; 0;  18; 1; 1; 1; 0; 0;
      0; 0; 0; 0; 0xD0; 0x12; 0x73; 0x41;
      0; 0; 0; 0; 0x84; 0xD7; 0x97; 0x41;
      0; 0; 0; 0;
      0; 1; 0; 0;
      0xE8; 0x03;  40;  1; cpstd; 1;  tstat; 0;
      0; 0]) 56.

(** The record has the cells of slot [f] (arrays of [NFREQ+NEXOBS] cells
    in rtklib.h). *)
Definition obsd_slots_ok (f : Z) (o : obsd_t) : bool :=
  (f <=? Z.of_nat (length (obsd_L o))) && (f <=? Z.of_nat (length (obsd_P o)))
  && (f <=? Z.of_nat (length (obsd_LLI o))).

Definition obs_slots_ok (f : Z) (raw : raw_t) : bool :=
  forallb (obsd_slots_ok f) (obs_data (raw_obs raw)).

(** What a byte stream leaves for satellite record 0, slot 0: the last
    status, the stored half-cycle flag and latched lockflag of (sat 1, slot 1),
    the phase and the LLI. *)
Definition rawx_outcome (r : option (list Z * raw_t)) : option (Z * Z * Z * float * Z) :=
  match r with
  | Some (sts, raw) =>
      Some (List.last sts 0, arr2_get 0 (raw_halfc raw) 0 0,
            arr2_get 0 (raw_lockflag raw) 0 0,
            fget (obsd_L (data_get raw 0)) 0,
            arr_get 0 (obsd_LLI (data_get raw 0)) 0)
  | None => None
  end.

(** ** Whole frames, epochs and the two sides of the state *)

(** The state [r] with the framer at [nbyte], [len] and [buff]. *)
Definition frame_state (r : raw_t) (nbyte len : Z) (buff : list Z) : raw_t :=
  set_buff (set_len (set_nbyte r nbyte) len) buff.

(** No byte of [G] completes the sync code, [prev] being the byte before. *)
Fixpoint no_sync (prev : Z) (G : list Z) : bool :=
  match G with
  | [] => true
  | g :: G' => negb ((prev =? UBXSYNC1) && (g =? UBXSYNC2)) && no_sync g G'
  end.

(** The first [n] records of the epoch carry a satellite and the time. *)
Definition epoch_ok (time : gtime_t) (raw : raw_t) (n : Z) : Prop :=
  forall j, 0 <= j < n ->
    obsd_sat (data_get raw j) <> 0 /\ obsd_time (data_get raw j) = time.

(** No two of the first [n] records are of the same satellite. *)
Definition sats_distinct (raw : raw_t) (n : Z) : Prop :=
  forall j k, 0 <= j < k -> k < n ->
    obsd_sat (data_get raw j) <> obsd_sat (data_get raw k).

(** The satellite and the time of a record. *)
Definition obsd_head (o : obsd_t) : Z * gtime_t := (obsd_sat o, obsd_time o).

(** The navigation side of the state: ephemerides, almanac and parameters,
    subframe buffers, SBAS message, satellite of the last ephemeris. *)
Definition nav_side (r : raw_t) : nav_t * list (list Z) * sbsmsg_t * Z :=
  (raw_nav r, raw_subfrm r, raw_sbsmsg r, raw_ephsat r).

(** The measurement side: observations, time and the lock tables. *)
Definition obs_side (r : raw_t)
  : obs_t * gtime_t * list (list float) * list (list Z) * list (list Z) :=
  (raw_obs r, raw_time r, raw_lockt r, raw_halfc r, raw_lockflag r).

(** The stored ephemerides and the satellite of the last one. *)
Definition eph_side (r : raw_t) : list eph_t * list geph_t * Z :=
  (nav_eph (raw_nav r), nav_geph (raw_nav r), raw_ephsat r).

(** A result is an ephemeris (status 2) or the ephemerides are kept. *)
Definition eph_kept (raw : raw_t) (r : Z * raw_t) : Prop :=
  fst r = 2 \/ eph_side (snd r) = eph_side raw.

(** A result is an epoch of observations (status 1) or the observation
    set is kept. *)
Definition obs_kept (raw : raw_t) (r : Z * raw_t) : Prop :=
  fst r = 1 \/ raw_obs (snd r) = raw_obs raw.

(** ** The packing of subframes *)

(** The byte [x] after [t] bits of [w] were shifted in from bit [j] down. *)
Fixpoint shift_bits (t : nat) (x w j : Z) : Z :=
  match t with
  | O => x
  | Datatypes.S t' =>
      (Z.shiftl (shift_bits t' x w j) 1 + Z.land (Z.shiftr w (j - Z.of_nat t')) 1) mod 256
  end.

(** One turn of the bit loop of [save_subfrm]. *)
Definition subfrm_step (w j : Z) (st : list Z * Z * Z) : list Z * Z * Z :=
  let '(row, q, n) := st in
  let row := wr row q ((Z.shiftl (rd row q) 1 + Z.land (Z.shiftr w j) 1) mod 256) in
  let n := n + 1 in
  (row, (if n mod 8 =? 0 then q + 1 else q), n).

(** The three bytes at [o] are the low 24 bits of [w], high byte first. *)
Definition word_at (row : list Z) (o w : Z) : Prop :=
  rd row o = (w / 2 ^ 16) mod 256 /\
  rd row (o + 1) = (w / 2 ^ 8) mod 256 /\
  rd row (o + 2) = w mod 256.

(** The two loops of [save_subfrm] from the row, the offset and bit count 0. *)
Definition subfrm_pack (p row : list Z) (q0 : Z) : list Z * Z * Z :=
  for_range 0 10
    (fun i st => for_range 0 24
       (fun k st => subfrm_step (U4 (at_off p (2 + 4 * i))) (23 - k) st) st)
    (row, q0, 0).

(** What [i] words of the packing loop have established. *)
Definition subfrm_inv (W : Z -> Z) (row : list Z) (q0 i : Z) (s : list Z * Z * Z) : Prop :=
  snd (fst s) = q0 + 3 * i /\ snd s = 24 * i /\
  length (fst (fst s)) = length row /\
  (forall m, 0 <= m < i -> word_at (fst (fst s)) (q0 + 3 * m) (W m)) /\
  (forall k, ~ (q0 <= k < q0 + 3 * i) -> rd (fst (fst s)) k = rd row k).

(** A buffer whose payload announces subframe 2 and whose first word is
    0x00345678, with the state otherwise as [init_raw] leaves it. *)
Definition raw_subfrm2 : raw_t :=
  with_frame ref_raw0
    ([0xB5; 0x62; 0x02; 0x11; 42; 0; 0; 5] ++ [0x78; 0x56; 0x34; 0x00; 8; 0; 0; 0]
       ++ replicate 34 0).

(** * Properties *)

(** ** Arrays and loops *)

Lemma arr_get_set_eq {A : Type} (d : A) (a : list A) (i : Z) (v : A) :
  0 <= i < Z.of_nat (length a) -> arr_get d (arr_set a i v) i = v.
Proof.
  intros H. unfold arr_get, arr_set.
  destruct (i <? 0) eqn:E; [lia|].
  rewrite list_lookup_insert_eq by lia. reflexivity.
Qed.

Lemma arr_get_set_ne {A : Type} (d : A) (a : list A) (i j : Z) (v : A) :
  i <> j -> arr_get d (arr_set a i v) j = arr_get d a j.
Proof.
  intros H. unfold arr_get, arr_set.
  destruct (j <? 0) eqn:Ej; [reflexivity|].
  destruct (i <? 0) eqn:Ei; [reflexivity|].
  rewrite list_lookup_insert_ne by lia. reflexivity.
Qed.

Lemma arr_set_length {A : Type} (a : list A) (i : Z) (v : A) :
  length (arr_set a i v) = length a.
Proof.
  unfold arr_set. destruct (i <? 0); [reflexivity|]. apply length_insert.
Qed.

Lemma rd_wr_eq (b : list Z) (i v : Z) :
  0 <= i < Z.of_nat (length b) -> rd (wr b i v) i = v.
Proof. apply arr_get_set_eq. Qed.

Lemma rd_wr_ne (b : list Z) (i j v : Z) : i <> j -> rd (wr b i v) j = rd b j.
Proof. apply arr_get_set_ne. Qed.

Lemma wr_length (b : list Z) (i v : Z) : length (wr b i v) = length b.
Proof. apply arr_set_length. Qed.

Lemma wr_list_length (src dst : list Z) (off : Z) :
  length (wr_list dst off src) = length dst.
Proof.
  revert dst off. induction src as [|x src IH]; intros dst off; simpl.
  - reflexivity.
  - rewrite IH. apply wr_length.
Qed.

Lemma rd_wr_list_out (src dst : list Z) (off j : Z) :
  j < off \/ off + Z.of_nat (length src) <= j ->
  rd (wr_list dst off src) j = rd dst j.
Proof.
  revert dst off. induction src as [|x src IH]; intros dst off H; simpl.
  - reflexivity.
  - rewrite IH by (simpl in H; lia). apply rd_wr_ne. simpl in H. lia.
Qed.

Lemma rd_wr_list_in (src dst : list Z) (off j : Z) :
  0 <= off -> off + Z.of_nat (length src) <= Z.of_nat (length dst) ->
  off <= j < off + Z.of_nat (length src) ->
  rd (wr_list dst off src) j = rd src (j - off).
Proof.
  revert dst off. induction src as [|x src IH]; intros dst off H0 Hl Hj; simpl in *.
  - lia.
  - destruct (Z.eq_dec j off) as [->|Hne].
    + rewrite rd_wr_list_out by lia. rewrite rd_wr_eq by lia.
      replace (off - off) with 0 by lia. reflexivity.
    + rewrite IH; rewrite ?wr_length; try lia.
      unfold rd, arr_get.
      destruct (j - (off + 1) <? 0) eqn:E1; [lia|].
      destruct (j - off <? 0) eqn:E2; [lia|].
      replace (Z.to_nat (j - off)) with (Datatypes.S (Z.to_nat (j - (off + 1)))) by lia.
      reflexivity.
Qed.

Lemma for_loop_ext {S : Type} (n : nat) (i : Z) (f g : Z -> S -> S) (s : S) :
  (forall k x, i <= k < i + Z.of_nat n -> f k x = g k x) ->
  for_loop n i f s = for_loop n i g s.
Proof.
  revert i s. induction n as [|n IH]; intros i s H; simpl.
  - reflexivity.
  - rewrite (H i s) by lia. apply IH. intros k x Hk. apply H. lia.
Qed.

Lemma for_loop_inv {S : Type} (P : S -> Prop) (n : nat) (i : Z) (f : Z -> S -> S) (s : S) :
  (forall k x, P x -> P (f k x)) -> P s -> P (for_loop n i f s).
Proof.
  revert i s. induction n as [|n IH]; intros i s Hf Hs; simpl.
  - exact Hs.
  - apply IH; [exact Hf|]. apply Hf, Hs.
Qed.

Lemma for_range_inv {S : Type} (P : S -> Prop) (lo hi : Z) (f : Z -> S -> S) (s : S) :
  (forall k x, P x -> P (f k x)) -> P s -> P (for_range lo hi f s).
Proof. apply for_loop_inv. Qed.

(** ** Checksum *)

(** The sums read the cells [2 .. len-3] only. *)
Lemma cs_sum_wr_out (buff : list Z) (len i v : Z) :
  i < 2 \/ len - 2 <= i -> cs_sum (wr buff i v) len = cs_sum buff len.
Proof.
  intros H. unfold cs_sum, for_range.
  apply for_loop_ext. intros k x Hk. unfold cs_step.
  rewrite rd_wr_ne by lia. reflexivity.
Qed.

Lemma cs_sum_range (buff : list Z) (len : Z) :
  0 <= fst (cs_sum buff len) < 256 /\ 0 <= snd (cs_sum buff len) < 256.
Proof.
  unfold cs_sum.
  apply (for_range_inv (fun ck => 0 <= fst ck < 256 /\ 0 <= snd ck < 256)).
  - intros k x _. unfold cs_step. simpl. split; apply Z.mod_pos_bound; lia.
  - simpl. lia.
Qed.

Lemma checksum_setcs (buff : list Z) (len : Z) :
  2 <= len <= Z.of_nat (length buff) -> checksum (setcs buff len) len = true.
Proof.
  intros H. unfold checksum, setcs.
  set (ck := cs_sum buff len).
  rewrite !cs_sum_wr_out by lia. fold ck.
  rewrite rd_wr_ne by lia. rewrite rd_wr_eq by lia.
  rewrite rd_wr_eq by (rewrite wr_length; lia).
  rewrite !Z.eqb_refl. reflexivity.
Qed.

(** ** The generator *)

Lemma prm_rows_short : Forall (fun r : list Z => (length r <= 25)%nat) prm.
Proof. unfold prm. repeat constructor. Qed.

Lemma prm_cell_zero (i k : Z) : 25 <= k -> prm_cell i k = 0.
Proof.
  intros Hk. unfold prm_cell, rd, arr_get at 1.
  destruct (k <? 0) eqn:E; [reflexivity|].
  assert (Hrow : (length (arr_get [] prm i) <= 25)%nat).
  { unfold arr_get. destruct (i <? 0); [simpl; lia|].
    destruct (prm !! Z.to_nat i) as [r|] eqn:Er; simpl; [|lia].
    pose proof prm_rows_short as HF. rewrite Forall_forall in HF.
    apply HF. eapply list_elem_of_lookup_2. exact Er. }
  rewrite lookup_ge_None_2 by lia. reflexivity.
Qed.

Lemma gen_field_advance `{rtklib} (t : Z) (arg : option string) :
  1 <= snd (gen_field t arg).
Proof.
  unfold gen_field.
  repeat match goal with |- context [if ?c then _ else _] => destruct c end; simpl; lia.
Qed.

Lemma emit_length (st : list Z * Z) (w : list Z * Z) :
  length (fst (emit st w)) = length (fst st).
Proof. unfold emit. simpl. apply wr_list_length. Qed.

(** The field loop ends inside its row when there are at most 32 arguments,
    keeps the size of the buffer and never moves [q] back. *)
Lemma gen_fields_total `{rtklib} (fuel : nat) (i narg : Z) (args : list string) (j : Z)
    (st : list Z * Z) :
  narg <= 32 -> 1 <= j <= 32 -> (33 <= Z.of_nat fuel + j) ->
  exists st' j', gen_fields fuel i narg args j st = Some (st', j')
    /\ length (fst st') = length (fst st) /\ snd st <= snd st' /\ j <= j'.
Proof.
  revert j st. induction fuel as [|fuel IH]; intros j st Hn Hj Hf.
  - lia.
  - simpl. destruct (32 <? j) eqn:E; [lia|].
    destruct (negb (prm_cell i (j - 1) =? 0) || (j <? narg)) eqn:Ec.
    + assert (j < 32).
      { destruct (Z.eq_dec j 32) as [->|]; [|lia].
        rewrite prm_cell_zero in Ec by lia. simpl in Ec. lia. }
      edestruct (IH (j + 1)) as (st' & j' & Heq & Hl & Hq & Hjj); [lia|lia|lia|].
      exists st', j'. split; [exact Heq|].
      rewrite Hl, emit_length. repeat split; [|lia].
      etransitivity; [|exact Hq]. unfold emit. simpl.
      pose proof (gen_field_advance (prm_cell i (j - 1))
                    (if j <? narg then Some (arg_at args j) else None)). lia.
    + exists st, j. repeat split; lia.
Qed.

Lemma gen_valset_some `{rtklib} (args : list string) (j : Z) (st st' : list Z * Z) :
  gen_valset args j st = Some st' ->
  length (fst st') = length (fst st) /\ snd st <= snd st'.
Proof.
  unfold gen_valset. destruct (strncmp_ne _ _); [discriminate|].
  destruct (find_str _ _ _) as [k|]; [|discriminate].
  intros [= <-]. rewrite !emit_length. split; [reflexivity|].
  unfold emit. simpl.
  pose proof (gen_field_advance (rd vprm k) (Some (arg_at args (j + 1)))). lia.
Qed.

(** What a call that returns a length [n > 0] has written: the buffer keeps
    its size, [n >= 8], and the last step was [setcs(buff,n)]. *)
Lemma gen_ubx_success `{rtklib} (msg : string) (buff : list Z) (n : Z) (buff' : list Z) :
  gen_ubx msg buff = Some (n, buff') -> n <> 0 ->
  8 <= n /\ exists b, length b = length buff /\ buff' = setcs b n.
Proof.
  unfold gen_ubx.
  destruct (1024 <=? _); [discriminate|].
  set (args := take 32 (strtok_all msg)).
  assert (Hargs : Z.of_nat (length args) <= 32).
  { unfold args. rewrite length_take. lia. }
  destruct (_ || _); [intros [= <- <-]; congruence|].
  destruct (find_str cmd _ 0) as [i|]; [|intros [= <- <-]; congruence].
  set (st0 := (fst (emit (buff, 0) _), _)).
  assert (Hst0 : length (fst st0) = length buff /\ snd st0 = 6).
  { unfold st0. simpl. rewrite !wr_length. split; reflexivity. }
  destruct Hst0 as [Hst0 Hq0].
  destruct ((i =? 34) && negb (Z.of_nat (length args) =? 7)); [intros [= <- <-]; congruence|].
  set (narg := if i =? 34 then _ else _).
  assert (Hnarg : narg <= 32) by (unfold narg; destruct (i =? 34); lia).
  destruct (gen_fields_total 33 i narg args 1 st0 Hnarg) as (st1 & j & Heq & Hl & Hq & _);
    [lia|lia|].
  rewrite Heq.
  assert (Hfin : forall st : list Z * Z,
             length (fst st) = length buff -> 6 <= snd st ->
             8 <= snd st + 2 /\
             exists b, length b = length buff /\
                       setcs (wr_list (fst st) 4 (setU2 (snd st + 2 - 8))) (snd st + 2)
                       = setcs b (snd st + 2)).
  { intros st HL HQ. split; [lia|]. eexists. split; [|reflexivity].
    rewrite wr_list_length. exact HL. }
  destruct (i =? 34).
  - destruct (gen_valset args j st1) as [st2|] eqn:Ev; [|intros [= <- <-]; congruence].
    apply gen_valset_some in Ev. destruct Ev as [Hl2 Hq2].
    intros [= <- <-] _. apply Hfin; [congruence|lia].
  - intros [= <- <-] _. apply Hfin; [congruence|lia].
Qed.

(** The call returns: a message that fits [mbuff] always yields a result. *)
Lemma gen_ubx_total `{rtklib} (msg : string) (buff : list Z) :
  Z.of_nat (String.length msg) < 1024 -> exists r, gen_ubx msg buff = Some r.
Proof.
  intros Hlen. unfold gen_ubx.
  destruct (1024 <=? _) eqn:E; [lia|].
  set (args := take 32 (strtok_all msg)).
  assert (Hargs : Z.of_nat (length args) <= 32).
  { unfold args. rewrite length_take. lia. }
  destruct (_ || _); [eauto|].
  destruct (find_str cmd _ 0) as [i|]; [|eauto].
  destruct ((i =? 34) && negb (Z.of_nat (length args) =? 7)); [eauto|].
  set (st0 := (fst (emit (buff, 0) _), _)).
  set (narg := if i =? 34 then _ else _).
  assert (Hnarg : narg <= 32) by (unfold narg; destruct (i =? 34); lia).
  destruct (gen_fields_total 33 i narg args 1 st0 Hnarg) as (st1 & j & Heq & _);
    [lia|lia|].
  rewrite Heq. destruct (i =? 34); [|eauto].
  destruct (gen_valset args j st1); eauto.
Qed.

(** C2. For every buffer and every [len >= 4] within it, the checksum that
    [setcs] writes into [buff[len-2]] and [buff[len-1]] (the Fletcher sums
    over [buff[2..len-3]]) makes [checksum(buff,len)] succeed; and every
    frame that [gen_ubx] produces (a returned length [n > 0], in a buffer of
    at least [n] bytes) passes [checksum]. *)
Theorem setcs_then_checksum `{rtklib} :
  (forall (buff : list Z) (len : Z),
      4 <= len <= Z.of_nat (length buff) -> checksum (setcs buff len) len = true)
  /\ (forall (msg : string) (buff : list Z) (n : Z) (buff' : list Z),
         gen_ubx msg buff = Some (n, buff') -> 0 < n -> n <= Z.of_nat (length buff) ->
         checksum buff' n = true).
Proof.
  split.
  - intros buff len Hlen. apply checksum_setcs. lia.
  - intros msg buff n buff' Hgen Hn Hfit.
    destruct (gen_ubx_success msg buff n buff' Hgen) as (H8 & b & Hb & ->); [lia|].
    apply checksum_setcs. lia.
Qed.

(** The zero-payload CFG-PRT frame of the specification, and the frame
    generated for [CFG-RATE 1000 1 1]. *)
Lemma setcs_then_checksum_witness :
  checksum (setcs [0xB5; 0x62; 0x06; 0x00; 0x00; 0x00; 0; 0] 8) 8 = true
  /\ setcs [0xB5; 0x62; 0x06; 0x00; 0x00; 0x00; 0; 0] 8
     = [0xB5; 0x62; 0x06; 0x00; 0x00; 0x00; 0x06; 0x18]
  /\ gen_ubx (lib := ref_lib) "CFG-RATE 1000 1 1" (replicate 16 0)
     = Some (14, [181; 98; 6; 8; 6; 0; 232; 3; 1; 0; 1; 0; 1; 57; 0; 0])
  /\ checksum [181; 98; 6; 8; 6; 0; 232; 3; 1; 0; 1; 0; 1; 57; 0; 0] 14 = true.
Proof.
  destruct (@setcs_then_checksum ref_lib) as [Hcs Hgen].
  split; [apply Hcs; simpl; lia|].
  split; [reflexivity|].
  split; [reflexivity|].
  apply (Hgen "CFG-RATE 1000 1 1"%string (replicate 16 0) 14); [reflexivity|lia|simpl; lia].
Defined.

Lemma find_str_none (tbl : list string) (name : string) (i : Z) :
  find_str tbl name i = None <-> ~ In name tbl.
Proof.
  revert i. induction tbl as [|s tbl IH]; intros i; simpl.
  - tauto.
  - destruct (String.eqb_spec name s) as [->|Hne].
    + split; [discriminate|]. intros Hn. exfalso. apply Hn. left. reflexivity.
    + rewrite IH. split; [intros Hn [Heq|Hin]; [congruence|tauto]|tauto].
Qed.

Lemma find_str_some (tbl : list string) (name : string) (i : Z) :
  In name tbl -> exists k, find_str tbl name i = Some k.
Proof.
  intros Hin. destruct (find_str tbl name i) as [k|] eqn:E; [eauto|].
  apply find_str_none in E. contradiction.
Qed.

Lemma find_str_in (tbl : list string) (name : string) (i k : Z) :
  find_str tbl name i = Some k -> In name tbl.
Proof.
  revert i. induction tbl as [|s tbl IH]; intros i; simpl; [discriminate|].
  destruct (String.eqb_spec name s) as [->|Hne]; [left; reflexivity|].
  intros Hf. right. eapply IH, Hf.
Qed.

(** [i == 34] singles out VALSET. *)
Lemma find_cmd_valset (name : string) (i : Z) :
  find_str cmd name 0 = Some i -> (i =? 34) = String.eqb name "VALSET".
Proof.
  unfold cmd. cbn [find_str].
  repeat match goal with
         | |- context [String.eqb name ?s] =>
             destruct (String.eqb_spec name s) as [->|?];
             [intros [= <-]; reflexivity|]
         end.
  discriminate.
Qed.

Lemma arg_at_take (l : list string) (k : Z) :
  k < 32 -> arg_at (take 32 l) k = arg_at l k.
Proof.
  intros Hk. unfold arg_at, arr_get. destruct (k <? 0); [reflexivity|].
  rewrite lookup_take_lt by lia. reflexivity.
Qed.

Lemma length_take_7 (l : list string) :
  Z.of_nat (length (take 32 l)) = 7 <-> length l = 7%nat.
Proof. rewrite length_take. lia. Qed.

(** The four fixed fields of VALSET leave [j] at the key. *)
Lemma gen_fields_valset `{rtklib} (args : list string) (st : list Z * Z) :
  exists st', gen_fields 33 34 5 args 1 st = Some (st', 5).
Proof. eexists. reflexivity. Qed.

(** C8 (as amended). For a message that fits [mbuff], with [toks] its
    blank-separated tokens: [gen_ubx] returns 0 when there is no token, when
    the first token does not begin with [CFG-], when the name after [CFG-]
    is not in the command catalog, and for CFG-VALSET when the token count
    is not 7 or when the sixth token is not [CFG-] followed by a name of the
    key catalog. In every other case, that is for every other recognized
    command and for a CFG-VALSET of 7 tokens with a catalogued key, it
    returns the byte count of the emitted frame, which is at least 8. *)
Theorem gen_ubx_status `{rtklib} (msg : string) (buff : list Z) :
  Z.of_nat (String.length msg) < 1024 ->
  let toks := strtok_all msg in
  let name := str_drop 4 (arg_at toks 0) in
  let kw := arg_at toks 5 in
  ((toks = [] \/ strncmp_ne (arg_at toks 0) "CFG-" = true \/ ~ In name cmd
    \/ (name = "VALSET"%string
        /\ (length toks <> 7%nat \/ strncmp_ne kw "CFG-" = true
            \/ ~ In (str_drop 4 kw) vcmd)))
   -> exists b, gen_ubx msg buff = Some (0, b))
  /\ (strncmp_ne (arg_at toks 0) "CFG-" = false -> In name cmd ->
      (name = "VALSET"%string ->
       length toks = 7%nat /\ strncmp_ne kw "CFG-" = false /\ In (str_drop 4 kw) vcmd) ->
      exists n b, gen_ubx msg buff = Some (n, b) /\ 8 <= n).
Proof.
  intros Hlen toks name kw.
  unfold gen_ubx. destruct (1024 <=? _) eqn:E; [lia|]. clear E.
  fold toks. rewrite arg_at_take by lia.
  assert (Hargs : Z.of_nat (length (take 32 toks)) <= 32) by (rewrite length_take; lia).
  assert (Hnil : Z.of_nat (length (take 32 toks)) < 1 -> toks = []).
  { rewrite length_take. destruct toks; [reflexivity|simpl; lia]. }
  destruct (Z.of_nat (length (take 32 toks)) <? 1) eqn:En.
  { cbn [orb]. split; [intros _; eexists; reflexivity|]. intros Hp. rewrite Hnil in Hp by lia. discriminate. }
  cbn [orb]. destruct (strncmp_ne (arg_at toks 0) "CFG-") eqn:Ep.
  { split; [intros _; eexists; reflexivity|]. discriminate. }
  fold name. destruct (find_str cmd name 0) as [i|] eqn:Ef.
  2:{ split; [intros _; eexists; reflexivity|]. intros _ Hin. apply find_str_none in Ef. contradiction. }
  assert (Hin : In name cmd).
  { eapply find_str_in, Ef. }
  pose proof (find_cmd_valset name i Ef) as Hi.
  set (st0 := (fst (emit (buff, 0) _), _)).
  assert (Hq0 : snd st0 = 6) by reflexivity.
  clearbody st0.
  destruct (String.eqb_spec name "VALSET") as [Hv|Hv].
  - (* CFG-VALSET *)
    apply Z.eqb_eq in Hi. subst i. change (34 =? 34) with true. cbn [andb].
    destruct (Z.of_nat (length (take 32 toks)) =? 7) eqn:E7.
    2:{ cbn [negb]. split; [intros _; eexists; reflexivity|]. intros _ _ Hk. destruct (Hk Hv) as [Hk7 _].
        apply length_take_7 in Hk7. lia. }
    cbn [negb]. apply Z.eqb_eq in E7. rewrite E7. change (7 - 2) with 5.
    destruct (gen_fields_total 33 34 5 (take 32 toks) 1 st0) as (st1 & j & Heq & _ & Hq & _);
      [lia|lia|lia|].
    destruct (gen_fields_valset (take 32 toks) st0) as (st1' & Heq').
    rewrite Heq in Heq'. injection Heq' as <- ->. rewrite Heq.
    unfold gen_valset. rewrite arg_at_take by lia. fold kw.
    destruct (strncmp_ne kw "CFG-") eqn:Ek.
    { split; [intros _; eexists; reflexivity|]. intros _ _ Hk. destruct (Hk Hv) as (_ & Hk' & _). discriminate. }
    destruct (find_str vcmd (str_drop 4 kw) 0) as [k|] eqn:Efk.
    2:{ split; [intros _; eexists; reflexivity|]. intros _ _ Hk. destruct (Hk Hv) as (_ & _ & Hk').
        apply find_str_none in Efk. contradiction. }
    split.
    + intros [Ht|[Ht|[Ht|[_ [Ht|[Ht|Ht]]]]]].
      * rewrite Ht in E7. simpl in E7. lia.
      * discriminate.
      * contradiction.
      * apply length_take_7 in E7. contradiction.
      * discriminate.
      * exfalso. apply Ht. eapply find_str_in, Efk.
    + intros _ _ _. eexists _, _. split; [reflexivity|].
      cbn [snd emit fst].
      pose proof (gen_field_advance (rd vprm k) (Some (arg_at (take 32 toks) (5 + 1)))).
      lia.
  - (* the other commands *)
    apply Z.eqb_neq in Hi. apply Z.eqb_neq in Hi. rewrite Hi. cbn [andb].
    destruct (gen_fields_total 33 i (Z.of_nat (length (take 32 toks))) (take 32 toks) 1 st0)
      as (st1 & j & Heq & _ & Hq & _); [lia|lia|lia|].
    rewrite Heq. split.
    + intros [Ht|[Ht|[Ht|[Ht _]]]].
      * rewrite Ht in En. discriminate.
      * discriminate.
      * contradiction.
      * contradiction.
    + intros _ _ _. eexists _, _. split; [reflexivity|]. simpl. lia.
Qed.

(** The two halves of [gen_ubx_status] on concrete commands: an unknown name
    returns 0, and CFG-PRT returns the length of its frame. *)
Lemma gen_ubx_status_witness :
  (exists b, gen_ubx (lib := ref_lib) "CFG-FOO 1 2" (replicate 32 0) = Some (0, b))
  /\ (exists n b,
         gen_ubx (lib := ref_lib) "CFG-PRT 1 0 0 0 9600 7 3 0" (replicate 32 0) = Some (n, b)
         /\ 8 <= n).
Proof.
  split.
  - assert (Hlen : Z.of_nat (String.length "CFG-FOO 1 2") < 1024) by (simpl; lia).
    pose proof (@gen_ubx_status ref_lib "CFG-FOO 1 2"%string (replicate 32 0) Hlen) as W.
    cbv zeta in W. destruct W as [W _]. apply W.
    right. right. left. vm_compute. intuition discriminate.
  - assert (Hlen : Z.of_nat (String.length "CFG-PRT 1 0 0 0 9600 7 3 0") < 1024)
      by (simpl; lia).
    pose proof (@gen_ubx_status ref_lib "CFG-PRT 1 0 0 0 9600 7 3 0"%string
                  (replicate 32 0) Hlen) as W.
    cbv zeta in W. destruct W as [_ W]. apply W.
    + reflexivity.
    + vm_compute. left. reflexivity.
    + vm_compute. discriminate.
Defined.

(** C8, the claim as stated fails: CFG-VALSET is in the command catalog and
    the command has exactly 7 tokens, yet [gen_ubx] returns 0, because the
    key [NOPE] is not in the key catalog. *)
Lemma gen_ubx_valset_unknown_key :
  In "VALSET"%string cmd
  /\ length (strtok_all "CFG-VALSET 0 1 0 0 CFG-NOPE 1000") = 7%nat
  /\ fst <$> gen_ubx (lib := ref_lib) "CFG-VALSET 0 1 0 0 CFG-NOPE 1000" (replicate 32 0)
     = Some 0.
Proof.
  split; [|split].
  - apply (find_str_in cmd "VALSET" 0 34). reflexivity.
  - reflexivity.
  - vm_compute. reflexivity.
Qed.

(** ** The decoders leave the frame accumulator alone *)

Lemma framer_if (c : bool) (a b : raw_t) :
  framer_of (if c then a else b) = if c then framer_of a else framer_of b.
Proof. destruct c; reflexivity. Qed.

Lemma snd_if {A B : Type} (c : bool) (x y : A * B) :
  snd (if c then x else y) = if c then snd x else snd y.
Proof. destruct c; reflexivity. Qed.

Lemma fst_if {A B : Type} (c : bool) (x y : A * B) :
  fst (if c then x else y) = if c then fst x else fst y.
Proof. destruct c; reflexivity. Qed.

Lemma if_same {A : Type} (c : bool) (x : A) : (if c then x else x) = x.
Proof. destruct c; reflexivity. Qed.

Lemma framer_data_upd (r : raw_t) (n : Z) (g : obsd_t -> obsd_t) :
  framer_of (data_upd r n g) = framer_of r.
Proof. reflexivity. Qed.

Lemma framer_set_subfrm_row (r : raw_t) (sat : Z) (row : list Z) :
  framer_of (set_subfrm_row r sat row) = framer_of r.
Proof. reflexivity. Qed.

Lemma framer_for_range (lo hi : Z) (body : Z -> raw_t * Z -> raw_t * Z) (st : raw_t * Z) :
  (forall k x, framer_of (fst (body k x)) = framer_of (fst x)) ->
  framer_of (fst (for_range lo hi body st)) = framer_of (fst st).
Proof.
  intros Hb.
  apply (for_range_inv (fun x => framer_of (fst x) = framer_of (fst st))); [|reflexivity].
  intros k x Hx. rewrite Hb. exact Hx.
Qed.

Lemma framer_rawx_loop `{rtklib} (k : nat) (i : Z) (body : Z -> raw_t * Z -> raw_t * Z)
    (st : raw_t * Z) :
  (forall k x, framer_of (fst (body k x)) = framer_of (fst x)) ->
  framer_of (fst (rawx_loop k i body st)) = framer_of (fst st).
Proof.
  intros Hb. revert i st. induction k as [|k IH]; intros i st; simpl; [reflexivity|].
  destruct (snd st <? MAXOBS); [|reflexivity]. rewrite IH. apply Hb.
Qed.

(** Case analysis on the tests and pairs met on the way to the state. *)
Ltac framer_cases :=
  repeat first
    [ reflexivity
    | progress cbn [fst snd]
    | match goal with
      | |- context [if ?c then _ else _] => destruct c
      | |- context [match ?e with (_, _) => _ end] => destruct e
      | |- context [match ?e with SYS_NONE => _ | _ => _ end] => destruct e
      end ].

Lemma framer_rxmraw_meas `{rtklib} (time : gtime_t) (toff tt : float) (p : list Z)
    (st : raw_t * Z) :
  framer_of (fst (rxmraw_meas time toff tt p st)) = framer_of (fst st).
Proof. unfold rxmraw_meas. destruct st as [raw n]. framer_cases. Qed.

Lemma framer_rawx_meas `{rtklib} (time : gtime_t) (toff : float) (ver cv cs : Z)
    (p : list Z) (st : raw_t * Z) :
  framer_of (fst (rawx_meas time toff ver cv cs p st)) = framer_of (fst st).
Proof. unfold rawx_meas, rawx_slip, rawx_store. destruct st as [raw n]. framer_cases. Qed.

Lemma framer_trkmeas_ch `{rtklib} (time : gtime_t) (tr utc_gpst : float) (fw : Z)
    (p : list Z) (st : raw_t * Z) :
  framer_of (fst (trkmeas_ch time tr utc_gpst fw p st)) = framer_of (fst st).
Proof. unfold trkmeas_ch. destruct st as [raw n]. framer_cases. Qed.

Lemma framer_trkd5_ch `{rtklib} (time : gtime_t) (tr utc_gpst : float) (type : Z)
    (p : list Z) (st : raw_t * Z) :
  framer_of (fst (trkd5_ch time tr utc_gpst type p st)) = framer_of (fst st).
Proof. unfold trkd5_ch. destruct st as [raw n]. framer_cases. Qed.

(** A loop over the measurements, by the lemma [lem] of its body. *)
Ltac framer_loop lem :=
  match goal with
  | |- context [for_range ?lo ?hi ?b ?s] =>
      let HL := fresh "HL" in
      assert (HL : framer_of (fst (for_range lo hi b s)) = framer_of (fst s))
        by (apply framer_for_range; intros; apply lem);
      destruct (for_range lo hi b s); cbn [fst snd] in HL
  | |- context [rawx_loop ?k ?i ?b ?s] =>
      let HL := fresh "HL" in
      assert (HL : framer_of (fst (rawx_loop k i b s)) = framer_of (fst s))
        by (apply framer_rawx_loop; intros; apply lem);
      destruct (rawx_loop k i b s); cbn [fst snd] in HL
  end.

Ltac framer_done :=
  repeat match goal with
         | HL : context [if ?c then _ else _] |- _ => destruct c
         end;
  unfold framer_of in *;
  cbn [raw_nbyte raw_len raw_buff set_time set_obs set_nav set_sbsmsg set_msgtype
       set_subfrm set_lockt set_halfc set_lockflag set_ephsat set_subfrm_row data_upd
       fst snd] in *;
  congruence.

Ltac framer_with lem :=
  repeat first
    [ framer_loop lem
    | progress cbn [fst snd]
    | match goal with
      | |- context [if ?c then _ else _] => destruct c
      | |- context [match ?e with (_, _) => _ end] => destruct e
      end ];
  framer_done.

Lemma framer_decode_rxmraw `{rtklib} (raw : raw_t) :
  framer_of (snd (decode_rxmraw raw)) = framer_of raw.
Proof. unfold decode_rxmraw. framer_with @framer_rxmraw_meas. Qed.

Lemma framer_decode_rxmrawx `{rtklib} (raw : raw_t) :
  framer_of (snd (decode_rxmrawx raw)) = framer_of raw.
Proof. unfold decode_rxmrawx. framer_with @framer_rawx_meas. Qed.

Lemma framer_decode_trkmeas `{rtklib} (raw : raw_t) :
  framer_of (snd (decode_trkmeas raw)) = framer_of raw.
Proof. unfold decode_trkmeas. framer_with @framer_trkmeas_ch. Qed.

Lemma framer_decode_trkd5 `{rtklib} (raw : raw_t) :
  framer_of (snd (decode_trkd5 raw)) = framer_of raw.
Proof. unfold decode_trkd5. framer_with @framer_trkd5_ch. Qed.

Lemma framer_decode_navsol `{rtklib} (raw : raw_t) :
  framer_of (snd (decode_navsol raw)) = framer_of raw.
Proof. unfold decode_navsol. framer_cases. Qed.

Lemma framer_decode_navtime `{rtklib} (raw : raw_t) :
  framer_of (snd (decode_navtime raw)) = framer_of raw.
Proof. unfold decode_navtime. framer_cases. Qed.

Lemma framer_decode_timtm2 `{rtklib} (raw : raw_t) :
  framer_of (snd (decode_timtm2 raw)) = framer_of raw.
Proof. unfold decode_timtm2. framer_cases. Qed.

Ltac framer_nav :=
  repeat first
    [ progress cbn [fst snd]
    | match goal with
      | |- context [if ?c then _ else _] => destruct c
      | |- context [match ?e with (_, _) => _ end] => destruct e
      | |- context [match ?e with SYS_NONE => _ | _ => _ end] => destruct e
      end ];
  framer_done.

Lemma framer_save_subfrm `{rtklib} (sat : Z) (raw : raw_t) :
  framer_of (snd (save_subfrm sat raw)) = framer_of raw.
Proof. unfold save_subfrm. framer_nav. Qed.

Lemma framer_decode_ephem `{rtklib} (sat : Z) (raw : raw_t) :
  framer_of (snd (decode_ephem sat raw)) = framer_of raw.
Proof. unfold decode_ephem. framer_nav. Qed.

Lemma framer_decode_frame_alm `{rtklib} (buff : list Z) (gps full : bool) (raw : raw_t) :
  framer_of (decode_frame_alm buff gps full raw) = framer_of raw.
Proof. reflexivity. Qed.

Lemma framer_decode_alm1 `{rtklib} (sat : Z) (raw : raw_t) :
  framer_of (snd (decode_alm1 sat raw)) = framer_of raw.
Proof. unfold decode_alm1. destruct (fst (satsys sat)); reflexivity. Qed.

Lemma framer_decode_alm2 `{rtklib} (sat : Z) (raw : raw_t) :
  framer_of (snd (decode_alm2 sat raw)) = framer_of raw.
Proof. unfold decode_alm2. destruct (fst (satsys sat)); reflexivity. Qed.

(** The calls of decoders already treated: their lemmas speak for the
    results. *)
Ltac framer_calls :=
  repeat match goal with
         | |- context [save_subfrm ?a ?b] =>
             let HC := fresh "HC" in
             pose proof (framer_save_subfrm a b) as HC;
             destruct (save_subfrm a b); cbn [fst snd] in HC
         | |- context [decode_ephem ?a ?b] =>
             let HC := fresh "HC" in
             pose proof (framer_decode_ephem a b) as HC;
             destruct (decode_ephem a b); cbn [fst snd] in HC
         | |- context [decode_alm1 ?a ?b] =>
             let HC := fresh "HC" in
             pose proof (framer_decode_alm1 a b) as HC;
             destruct (decode_alm1 a b); cbn [fst snd] in HC
         | |- context [decode_alm2 ?a ?b] =>
             let HC := fresh "HC" in
             pose proof (framer_decode_alm2 a b) as HC;
             destruct (decode_alm2 a b); cbn [fst snd] in HC
         end.

Lemma framer_decode_rxmsfrb `{rtklib} (raw : raw_t) :
  framer_of (snd (decode_rxmsfrb raw)) = framer_of raw.
Proof.
  unfold decode_rxmsfrb.
  destruct (raw_len _ <? 42); [framer_nav|].
  destruct (satno _ _ =? 0); [framer_nav|].
  destruct (satsys _) as [sys prn]. destruct sys; try framer_nav.
  framer_calls. framer_nav.
Qed.

Lemma framer_decode_nav `{rtklib} (raw : raw_t) (sat off : Z) :
  framer_of (snd (decode_nav raw sat off)) = framer_of raw.
Proof. unfold decode_nav. framer_calls. framer_nav. Qed.

Lemma framer_decode_enav `{rtklib} (raw : raw_t) (sat off : Z) :
  framer_of (snd (decode_enav raw sat off)) = framer_of raw.
Proof. unfold decode_enav. framer_nav. Qed.

Lemma framer_decode_cnav `{rtklib} (raw : raw_t) (sat off : Z) :
  framer_of (snd (decode_cnav raw sat off)) = framer_of raw.
Proof. unfold decode_cnav. framer_nav. Qed.

Lemma framer_decode_gnav `{rtklib} (raw : raw_t) (sat off frq : Z) :
  framer_of (snd (decode_gnav raw sat off frq)) = framer_of raw.
Proof. unfold decode_gnav. framer_nav. Qed.

Lemma framer_decode_snav `{rtklib} (raw : raw_t) (sat off : Z) :
  framer_of (snd (decode_snav raw sat off)) = framer_of raw.
Proof. unfold decode_snav. framer_nav. Qed.

Lemma framer_decode_sfrbx_sys `{rtklib} (raw : raw_t) (sys : sys_t) (sat off frq : Z) :
  framer_of (snd (decode_sfrbx_sys raw sys sat off frq)) = framer_of raw.
Proof.
  unfold decode_sfrbx_sys.
  destruct sys; auto using @framer_decode_nav, @framer_decode_enav, @framer_decode_cnav,
    @framer_decode_gnav, @framer_decode_snav.
Qed.

Lemma framer_decode_rxmsfrbx `{rtklib} (raw : raw_t) :
  framer_of (snd (decode_rxmsfrbx raw)) = framer_of raw.
Proof.
  unfold decode_rxmsfrbx.
  repeat match goal with
         | |- context [decode_sfrbx_sys ?a ?b ?c ?d ?e] =>
             pose proof (framer_decode_sfrbx_sys a b c d e);
             destruct (decode_sfrbx_sys a b c d e)
         end.
  framer_nav.
Qed.

Lemma framer_decode_trksfrbx `{rtklib} (raw : raw_t) :
  framer_of (snd (decode_trksfrbx raw)) = framer_of raw.
Proof.
  unfold decode_trksfrbx.
  repeat match goal with
         | |- context [decode_sfrbx_sys ?a ?b ?c ?d ?e] =>
             pose proof (framer_decode_sfrbx_sys a b c d e);
             destruct (decode_sfrbx_sys a b c d e)
         end.
  framer_nav.
Qed.

Lemma framer_decode_ubx `{rtklib} (raw : raw_t) :
  framer_of (snd (decode_ubx raw)) = framer_of raw.
Proof.
  unfold decode_ubx.
  repeat match goal with
         | |- context [if ?c then _ else _] => destruct c
         end;
    auto using @framer_decode_rxmraw, @framer_decode_rxmrawx, @framer_decode_rxmsfrb,
      @framer_decode_rxmsfrbx, @framer_decode_navsol, @framer_decode_navtime,
      @framer_decode_trkmeas, @framer_decode_trkd5, @framer_decode_trksfrbx,
      @framer_decode_timtm2.
Qed.

(** ** The stream framer *)

Lemma U2_range (p : list Z) : 0 <= U2 p < 65536.
Proof.
  unfold U2.
  pose proof (Z.mod_pos_bound (rd p 0) 256). pose proof (Z.mod_pos_bound (rd p 1) 256). lia.
Qed.

Lemma framer_of_eq (r r' : raw_t) :
  framer_of r' = framer_of r ->
  raw_nbyte r' = raw_nbyte r /\ raw_len r' = raw_len r /\ raw_buff r' = raw_buff r.
Proof. unfold framer_of. intros [= -> -> ->]. auto. Qed.

Ltac raw_simpl := cbn [raw_buff raw_nbyte raw_len set_nbyte set_buff set_len].

Lemma input_ubx_step `{rtklib} (raw : raw_t) (data : Z) :
  6 <= MAXRAWLEN -> framer_ok raw ->
  exists st raw', input_ubx raw data = Some (st, raw')
                  /\ framer_ok raw' /\ framer_step raw data st raw'.
Proof.
  intros HM [Hlen Hst]. unfold input_ubx.
  destruct (raw_nbyte raw =? 0) eqn:E0.
  - apply Z.eqb_eq in E0.
    destruct (Z.of_nat (length (raw_buff raw)) <? 2) eqn:E2; [lia|].
    unfold sync_ubx.
    rewrite rd_wr_eq by (rewrite wr_length; lia).
    rewrite rd_wr_ne by lia. rewrite rd_wr_eq by lia.
    destruct ((rd (raw_buff raw) 1 =? UBXSYNC1) && (data =? UBXSYNC2)) eqn:Es;
      cbn [negb]; eexists _, _; (split; [reflexivity|]);
      (split; [split; raw_simpl; rewrite ?wr_length; [exact Hlen|lia]|]);
      unfold framer_step; raw_simpl; rewrite ?Es; repeat split; intros; try lia; try reflexivity.
  - apply Z.eqb_neq in E0.
    assert (Hin : 0 <= raw_nbyte raw < Z.of_nat (length (raw_buff raw))) by lia.
    destruct ((raw_nbyte raw <? 0) || (Z.of_nat (length (raw_buff raw)) <=? raw_nbyte raw)) eqn:Eo;
      [apply orb_true_iff in Eo; lia|].
    cbn [raw_nbyte set_nbyte set_buff raw_buff raw_len].
    set (buff' := wr (raw_buff raw) (raw_nbyte raw) data).
    assert (Hlen' : Z.of_nat (length buff') = MAXRAWLEN) by (unfold buff'; rewrite wr_length; exact Hlen).
    pose proof (U2_range (at_off buff' 4)) as HU.
    destruct (raw_nbyte raw + 1 =? 6) eqn:E6.
    + (* the header completes *)
      pose proof E6 as E6b. apply Z.eqb_eq in E6.
      cbn [raw_nbyte raw_len set_len set_nbyte set_buff raw_buff]. rewrite E6b. cbn [andb].
      destruct (MAXRAWLEN <? U2 (at_off buff' 4) + 8) eqn:Eg.
      * eexists _, _. split; [reflexivity|]. split; [split; raw_simpl; [exact Hlen'|lia]|].
        unfold framer_step; raw_simpl. fold buff'. repeat split; intros; try lia; try reflexivity.
      * rewrite E6. change (6 <? 6) with false. cbn [orb].
        destruct (6 <? U2 (at_off buff' 4) + 8) eqn:El; [|lia].
        eexists _, _. split; [reflexivity|]. split; [split; raw_simpl; [exact Hlen'|lia]|].
        unfold framer_step; raw_simpl. fold buff'. repeat split; intros; try lia; try reflexivity.
    + pose proof E6 as E6b. apply Z.eqb_neq in E6.
      cbn [raw_nbyte raw_len set_len set_nbyte set_buff raw_buff]. rewrite E6b. cbn [andb].
      destruct ((raw_nbyte raw + 1 <? 6) || (raw_nbyte raw + 1 <? raw_len raw)) eqn:Ec.
      * apply orb_true_iff in Ec.
        eexists _, _. split; [reflexivity|]. split; [split; raw_simpl; [exact Hlen'|lia]|].
        unfold framer_step; raw_simpl. fold buff'. repeat split; intros; try lia; try reflexivity.
        destruct (raw_nbyte raw + 1 <? raw_len raw) eqn:En; lia.
      * apply orb_false_iff in Ec. destruct Ec as [Ec1 Ec2].
        match goal with
        | |- context [decode_ubx ?r] =>
            pose proof (framer_of_eq _ _ (framer_decode_ubx r)) as (Hn & Hl & Hb);
            destruct (decode_ubx r) as [st raw']
        end.
        cbn [raw_buff raw_nbyte raw_len set_nbyte set_buff set_len fst snd] in Hn, Hl, Hb.
        eexists _, _. split; [reflexivity|].
        split; [split; [rewrite Hb; exact Hlen'|rewrite Hn; lia]|].
        unfold framer_step. rewrite Hn, Hl, Hb. fold buff'.
        repeat split; intros; try lia; try reflexivity.
        rewrite Ec2. reflexivity.
Qed.



(** ** Week zero, and tracking frames without a time reference *)

(** C3. An RXM-RAW frame that passes its length check ([len >= 12+24*nsat])
    and an RXM-RAWX frame that passes both of its length checks ([len >= 24]
    and [len >= 24+32*numMeas]) with the week field equal to 0 return status
    0 and leave obs, lockt, lockflag, halfc and time as they were (RXM-RAWX
    leaves the whole state as it was). *)
Theorem week_zero_dropped `{rtklib} (raw : raw_t) :
  let p := at_off (raw_buff raw) 6 in
  (12 + 24 * U1 (at_off p 6) <= raw_len raw -> U2 (at_off p 4) = 0 ->
   fst (decode_rxmraw raw) = 0
   /\ raw_obs (snd (decode_rxmraw raw)) = raw_obs raw
   /\ raw_lockt (snd (decode_rxmraw raw)) = raw_lockt raw
   /\ raw_lockflag (snd (decode_rxmraw raw)) = raw_lockflag raw
   /\ raw_halfc (snd (decode_rxmraw raw)) = raw_halfc raw
   /\ raw_time (snd (decode_rxmraw raw)) = raw_time raw)
  /\ (24 <= raw_len raw -> 24 + 32 * U1 (at_off p 11) <= raw_len raw ->
      U2 (at_off p 8) = 0 ->
      decode_rxmrawx raw = (0, raw)).
Proof.
  intros p. split.
  - intros Hlen Hweek. unfold decode_rxmraw. fold p.
    cbn [raw_len raw_opt raw_buff set_msgtype].
    replace (raw_len (if raw_outtype raw =? 0 then raw else set_msgtype raw _))
      with (raw_len raw) by (destruct (raw_outtype raw =? 0); reflexivity).
    destruct (raw_len raw <? 12 + 24 * U1 (at_off p 6)) eqn:E; [lia|].
    rewrite Hweek. change (0 =? 0) with true. cbn [fst snd].
    destruct (raw_outtype raw =? 0); repeat split; reflexivity.
  - intros H24 Hlen Hweek. unfold decode_rxmrawx. fold p.
    destruct (raw_len raw <? 24) eqn:E1; [lia|].
    destruct (raw_len raw <? 24 + 32 * U1 (at_off p 11)) eqn:E2; [lia|].
    rewrite Hweek. reflexivity.
Qed.

Lemma week_zero_dropped_witness :
  (fst (decode_rxmraw (lib := ref_lib) (with_frame ref_raw0 frame_rxmraw_week0)) = 0
   /\ raw_obs (snd (decode_rxmraw (lib := ref_lib) (with_frame ref_raw0 frame_rxmraw_week0)))
      = raw_obs ref_raw0)
  /\ decode_rxmrawx (lib := ref_lib) (with_frame ref_raw0 frame_rxmrawx_week0)
     = (0, with_frame ref_raw0 frame_rxmrawx_week0).
Proof.
  split.
  - pose proof (@week_zero_dropped ref_lib (with_frame ref_raw0 frame_rxmraw_week0)) as W.
    cbv zeta in W. destruct W as [W _].
    destruct W as (W1 & W2 & _).
    + apply Z.leb_le. vm_compute. reflexivity.
    + vm_compute. reflexivity.
    + split; [exact W1|exact W2].
  - pose proof (@week_zero_dropped ref_lib (with_frame ref_raw0 frame_rxmrawx_week0)) as W.
    cbv zeta in W. destruct W as [_ W]. apply W.
    + apply Z.leb_le. vm_compute. reflexivity.
    + apply Z.leb_le. vm_compute. reflexivity.
    + vm_compute. reflexivity.
Defined.

(** C10 (as amended). A TRK-MEAS or TRK-D5 frame received while
    [raw->time.time] is 0 returns status 0, produces no observation and
    changes nothing but the message-type text: [raw->msgtype] is rewritten
    when [raw->outtype] is set, and the state is untouched otherwise. *)
Theorem trk_needs_time `{rtklib} (raw : raw_t) :
  gt_time (raw_time raw) = 0 ->
  (fst (decode_trkmeas raw) = 0
   /\ set_msgtype (snd (decode_trkmeas raw)) (raw_msgtype raw) = raw
   /\ (raw_outtype raw = 0 -> snd (decode_trkmeas raw) = raw))
  /\ (fst (decode_trkd5 raw) = 0
      /\ set_msgtype (snd (decode_trkd5 raw)) (raw_msgtype raw) = raw
      /\ (raw_outtype raw = 0 -> snd (decode_trkd5 raw) = raw)).
Proof.
  intros Ht. unfold decode_trkmeas, decode_trkd5.
  replace (raw_time (if raw_outtype raw =? 0 then raw else set_msgtype raw _))
    with (raw_time raw) by (destruct (raw_outtype raw =? 0); reflexivity).
  replace (raw_time (if raw_outtype raw =? 0 then raw else set_msgtype raw _))
    with (raw_time raw) by (destruct (raw_outtype raw =? 0); reflexivity).
  rewrite Ht. change (0 =? 0) with true. cbn [fst snd].
  destruct (raw_outtype raw =? 0) eqn:E.
  - destruct raw; repeat split; reflexivity.
  - apply Z.eqb_neq in E. destruct raw; repeat split; try reflexivity; intros; contradiction.
Qed.

Lemma trk_needs_time_witness :
  fst (decode_trkmeas (lib := ref_lib) ref_raw0) = 0
  /\ snd (decode_trkmeas (lib := ref_lib) ref_raw0) = ref_raw0
  /\ fst (decode_trkd5 (lib := ref_lib) ref_raw0) = 0
  /\ snd (decode_trkd5 (lib := ref_lib) ref_raw0) = ref_raw0.
Proof.
  assert (Ht : gt_time (raw_time ref_raw0) = 0) by reflexivity.
  destruct (@trk_needs_time ref_lib ref_raw0 Ht) as [(M1 & _ & M3) (D1 & _ & D3)].
  split; [exact M1|]. split; [apply M3; reflexivity|].
  split; [exact D1|apply D3; reflexivity].
Defined.

(** C10, the claim as stated fails: with [raw->outtype] set and no time
    reference, the decoder returns 0 but has rewritten [raw->msgtype]. *)
Lemma trk_needs_time_msgtype_written :
  let raw := mk_raw gtime0 (raw_obs ref_raw0) (raw_nav ref_raw0) (raw_sbsmsg ref_raw0)
               EmptyString (raw_subfrm ref_raw0) (raw_lockt ref_raw0) (raw_halfc ref_raw0)
               (raw_lockflag ref_raw0) 0 0 8 (raw_buff ref_raw0) EmptyString 1 in
  gt_time (raw_time raw) = 0
  /\ fst (decode_trkmeas (lib := ref_lib) raw) = 0
  /\ raw_msgtype (snd (decode_trkmeas (lib := ref_lib) raw)) = "UBX TRK-MEAS  (   8):"%string
  /\ snd (decode_trkmeas (lib := ref_lib) raw) <> raw.
Proof.
  cbv zeta. split; [reflexivity|]. split; [vm_compute; reflexivity|].
  split; [vm_compute; reflexivity|].
  intros Heq. apply (f_equal raw_msgtype) in Heq. vm_compute in Heq. discriminate.
Qed.

(** ** GLONASS strings *)

Lemma rd_take (src : list Z) (n k : Z) : k < n -> rd (take (Z.to_nat n) src) k = rd src k.
Proof.
  intros Hk. unfold rd, arr_get. destruct (k <? 0) eqn:E; [reflexivity|].
  rewrite lookup_take_lt by lia. reflexivity.
Qed.

Lemma rd_at_off (buff : list Z) (off k : Z) :
  0 <= off -> 0 <= k -> rd (at_off buff off) k = rd buff (off + k).
Proof.
  intros Ho Hk. unfold rd, arr_get, at_off.
  destruct (k <? 0) eqn:E1; [lia|]. destruct (off + k <? 0) eqn:E2; [lia|].
  rewrite lookup_drop. replace (Z.to_nat off + Z.to_nat k)%nat with (Z.to_nat (off + k)) by lia.
  reflexivity.
Qed.

Lemma memcpy_length (dst src : list Z) (off n : Z) :
  length (memcpy dst off src n) = length dst.
Proof. apply wr_list_length. Qed.

Lemma memset_length (dst : list Z) (off c n : Z) :
  length (memset dst off c n) = length dst.
Proof. apply wr_list_length. Qed.

Lemma rd_memcpy (dst src : list Z) (off n j : Z) :
  0 <= off -> 0 <= n <= Z.of_nat (length src) -> off + n <= Z.of_nat (length dst) ->
  rd (memcpy dst off src n) j
  = if (off <=? j) && (j <? off + n) then rd src (j - off) else rd dst j.
Proof.
  intros Ho Hn Hd. unfold memcpy.
  assert (Hl : Z.of_nat (length (take (Z.to_nat n) src)) = n) by (rewrite length_take; lia).
  destruct ((off <=? j) && (j <? off + n)) eqn:E.
  - apply andb_true_iff in E. rewrite rd_wr_list_in by lia. apply rd_take. lia.
  - apply andb_false_iff in E. apply rd_wr_list_out. lia.
Qed.

Lemma rd_memset (dst : list Z) (off c n j : Z) :
  0 <= off -> 0 <= n -> off + n <= Z.of_nat (length dst) ->
  rd (memset dst off c n) j = if (off <=? j) && (j <? off + n) then c else rd dst j.
Proof.
  intros Ho Hn Hd. unfold memset.
  assert (Hl : Z.of_nat (length (replicate (Z.to_nat n) c)) = n)
    by (rewrite length_replicate; lia).
  destruct ((off <=? j) && (j <? off + n)) eqn:E.
  - apply andb_true_iff in E. rewrite rd_wr_list_in by lia.
    unfold rd, arr_get. destruct (j - off <? 0) eqn:E1; [lia|].
    rewrite lookup_replicate_2 by lia. reflexivity.
  - apply andb_false_iff in E. apply rd_wr_list_out. lia.
Qed.

(** The flush of the strings 1-4: the first 40 bytes are 0, the rest stays. *)
Lemma rd_gnav_flush (row : list Z) (j : Z) :
  40 <= Z.of_nat (length row) ->
  rd (for_range 0 4 (fun i row => memset row (i * 10) 0 10) row) j
  = if (0 <=? j) && (j <? 40) then 0 else rd row j.
Proof.
  intros Hl. unfold for_range. cbn [Z.sub Z.to_nat Pos.to_nat Pos.iter_op Init.Nat.add for_loop].
  change (Z.to_nat (4 - 0)) with 4%nat. cbn [for_loop].
  rewrite !rd_memset by (rewrite ?memset_length; lia).
  repeat match goal with |- context [if ?c then _ else _] => destruct c eqn:? end;
    try reflexivity; lia.
Qed.

Lemma gnav_flush_length (row : list Z) :
  length (for_range 0 4 (fun i row => memset row (i * 10) 0 10) row) = length row.
Proof.
  apply (for_range_inv (fun r => length r = length row)); [|reflexivity].
  intros k x Hx. rewrite memset_length. exact Hx.
Qed.

(** After the checks, the row of the satellite is what [gnav_store] makes of
    it, whatever the ephemeris decoding does next. *)
Lemma decode_gnav_row `{rtklib} (raw : raw_t) (sat off frq : Z) :
  let buff := swap_words 4 (at_off (raw_buff raw) (6 + off)) in
  let m := getbitu buff 1 4 in
  24 + off <= raw_len raw -> test_glostr buff <> 0 -> 1 <= m <= 15 ->
  0 <= sat - 1 < Z.of_nat (length (raw_subfrm raw)) ->
  subfrm_row (snd (decode_gnav raw sat off frq)) sat
  = gnav_store (subfrm_row raw sat) buff m.
Proof.
  intros buff m Hlen Hham Hm Hsat. unfold decode_gnav. fold buff. fold m.
  destruct (raw_len raw <? 24 + off) eqn:E1; [lia|].
  destruct (test_glostr buff =? 0) eqn:E2; [lia|].
  destruct ((m <? 1) || (15 <? m)) eqn:E3; [apply orb_true_iff in E3; lia|].
  set (raw1 := set_subfrm_row raw sat _).
  assert (H1 : subfrm_row raw1 sat = gnav_store (subfrm_row raw sat) buff m).
  { unfold raw1, subfrm_row, set_subfrm_row. cbn [raw_subfrm set_subfrm].
    apply arr_get_set_eq. exact Hsat. }
  rewrite <- H1. unfold subfrm_row at 1 3.
  f_equal.
  repeat first
    [ reflexivity
    | progress cbn [fst snd]
    | match goal with
      | |- context [if ?c then _ else _] => destruct c
      | |- context [match ?e with (_, _) => _ end] => destruct e
      end ].
Qed.

Lemma swap_words_length (n : nat) (p : list Z) : length (swap_words n p) = (4 * n)%nat.
Proof.
  assert (forall l : list nat,
             length (flat_map (fun i => map (fun j => rd p (4 * Z.of_nat i + 3 - Z.of_nat j))
                                           (seq 0 4)) l) = (4 * length l)%nat) as Hl.
  { induction l as [|i l IH]; [reflexivity|].
    cbn [flat_map]. rewrite length_app, IH. rewrite length_map, length_seq. simpl. lia. }
  unfold swap_words. rewrite Hl, length_seq. reflexivity.
Qed.

(** C9. For every GLONASS string that [decode_gnav] accepts (length,
    Hamming test and string number [m] in 1..15), with [row] the buffer
    [subfrm[sat-1]] before the call and [row'] after it: the string is
    stored at [(m-1)*10 .. m*10-1]. If bytes 12-13 of the string differ from
    the frame id saved at [row+150], the bytes 0..39 outside the slot of the
    incoming string are 0 (strings 1-4 were flushed before the string was
    stored), the new id is latched at 150-151 and the other bytes stay. If
    the frame id is unchanged, every byte outside the slot stays. *)
Theorem gnav_frame_id_flush `{rtklib} (raw : raw_t) (sat off frq : Z) :
  let buff := swap_words 4 (at_off (raw_buff raw) (6 + off)) in
  let m := getbitu buff 1 4 in
  let row := subfrm_row raw sat in
  let row' := subfrm_row (snd (decode_gnav raw sat off frq)) sat in
  let in_slot (j : Z) := (m - 1) * 10 <= j < m * 10 in
  24 + off <= raw_len raw -> test_glostr buff <> 0 -> 1 <= m <= 15 ->
  0 <= sat - 1 < Z.of_nat (length (raw_subfrm raw)) ->
  152 <= Z.of_nat (length row) ->
  (forall j, in_slot j -> rd row' j = rd buff (j - (m - 1) * 10))
  /\ ((rd row 150 <> rd buff 12 \/ rd row 151 <> rd buff 13) ->
      (forall j, 0 <= j < 40 -> ~ in_slot j -> rd row' j = 0)
      /\ rd row' 150 = rd buff 12
      /\ rd row' 151 = rd buff 13
      /\ (forall j, ~ 0 <= j < 40 -> j <> 150 -> j <> 151 -> ~ in_slot j ->
                    rd row' j = rd row j))
  /\ (rd row 150 = rd buff 12 /\ rd row 151 = rd buff 13 ->
      forall j, ~ in_slot j -> rd row' j = rd row j).
Proof.
  intros buff m row row' in_slot Hlen Hham Hm Hsat Hrow.
  assert (Hrow' : row' = gnav_store row buff m).
  { unfold row'. apply decode_gnav_row; assumption. }
  assert (Hb : length buff = 16%nat) by (unfold buff; apply swap_words_length).
  assert (Hb12 : length (at_off buff 12) = 4%nat).
  { unfold at_off. rewrite length_drop. rewrite Hb. reflexivity. }
  clearbody row row' buff m. subst row'. unfold gnav_store, in_slot.
  set (flush := for_range 0 4 (fun i row => memset row (i * 10) 0 10) row).
  assert (Hfl : length flush = length row) by apply gnav_flush_length.
  assert (Hrd12 : rd (at_off buff 12) 0 = rd buff 12) by (rewrite rd_at_off by lia; reflexivity).
  assert (Hrd13 : rd (at_off buff 12) 1 = rd buff 13) by (rewrite rd_at_off by lia; reflexivity).
  destruct (negb (rd row 150 =? rd buff 12) || negb (rd row 151 =? rd buff 13)) eqn:Ec.
  - (* frame id changed *)
    assert (Hne : rd row 150 <> rd buff 12 \/ rd row 151 <> rd buff 13).
    { apply orb_true_iff in Ec. destruct Ec as [Ec|Ec]; apply negb_true_iff, Z.eqb_neq in Ec; tauto. }
    assert (Hall : forall j,
               rd (memcpy (memcpy flush 150 (at_off buff 12) 2) ((m - 1) * 10) buff 10) j
               = if ((m - 1) * 10 <=? j) && (j <? (m - 1) * 10 + 10) then rd buff (j - (m - 1) * 10)
                 else if (150 <=? j) && (j <? 150 + 2) then rd (at_off buff 12) (j - 150)
                 else if (0 <=? j) && (j <? 40) then 0 else rd row j).
    { intros j. rewrite rd_memcpy by (rewrite ?memcpy_length; lia).
      rewrite rd_memcpy by lia. unfold flush. rewrite rd_gnav_flush by lia. reflexivity. }
    split; [|split].
    + intros j Hj. rewrite Hall.
      destruct (((m - 1) * 10 <=? j) && (j <? (m - 1) * 10 + 10)) eqn:E; [reflexivity|].
      apply andb_false_iff in E. lia.
    + intros _. repeat split.
      * intros j Hj Hs. rewrite Hall.
        destruct (((m - 1) * 10 <=? j) && (j <? (m - 1) * 10 + 10)) eqn:E1;
          [apply andb_true_iff in E1; lia|].
        destruct ((150 <=? j) && (j <? 150 + 2)) eqn:E2; [apply andb_true_iff in E2; lia|].
        destruct ((0 <=? j) && (j <? 40)) eqn:E3; [reflexivity|apply andb_false_iff in E3; lia].
      * rewrite Hall.
        destruct (((m - 1) * 10 <=? 150) && (150 <? (m - 1) * 10 + 10)) eqn:E1;
          [apply andb_true_iff in E1; lia|]. exact Hrd12.
      * rewrite Hall.
        destruct (((m - 1) * 10 <=? 151) && (151 <? (m - 1) * 10 + 10)) eqn:E1;
          [apply andb_true_iff in E1; lia|]. exact Hrd13.
      * intros j H40 H150 H151 Hs. rewrite Hall.
        destruct (((m - 1) * 10 <=? j) && (j <? (m - 1) * 10 + 10)) eqn:E1;
          [apply andb_true_iff in E1; lia|].
        destruct ((150 <=? j) && (j <? 150 + 2)) eqn:E2; [apply andb_true_iff in E2; lia|].
        destruct ((0 <=? j) && (j <? 40)) eqn:E3; [apply andb_true_iff in E3; lia|reflexivity].
    + intros [H150 H151]. tauto.
  - (* frame id unchanged *)
    apply orb_false_iff in Ec. destruct Ec as [Ec1 Ec2].
    apply negb_false_iff, Z.eqb_eq in Ec1. apply negb_false_iff, Z.eqb_eq in Ec2.
    split; [|split].
    + intros j Hj. rewrite rd_memcpy by lia.
      destruct (((m - 1) * 10 <=? j) && (j <? (m - 1) * 10 + 10)) eqn:E; [reflexivity|].
      apply andb_false_iff in E. lia.
    + intros [Hne|Hne]; contradiction.
    + intros _ j Hs. rewrite rd_memcpy by lia.
      destruct (((m - 1) * 10 <=? j) && (j <? (m - 1) * 10 + 10)) eqn:E; [|reflexivity].
      apply andb_true_iff in E. lia.
Qed.

(** Scenario S5: string 1 arrives with the frame id CC DD while AA BB is
    saved: strings 2-4 are flushed, string 1 is stored, the id is latched and
    the bytes from 40 on stay. *)
Lemma gnav_frame_id_flush_witness :
  let row' := subfrm_row (snd (decode_gnav (lib := ref_lib) ref_raw_glo 33 8 8)) 33 in
  rd row' 0 = 0x08 /\ rd row' 9 = 9
  /\ rd row' 10 = 0 /\ rd row' 39 = 0
  /\ rd row' 150 = 0xCC /\ rd row' 151 = 0xDD
  /\ rd row' 40 = 7.
Proof.
  pose proof (@gnav_frame_id_flush ref_lib ref_raw_glo 33 8 8) as W.
  cbv zeta in W.
  destruct W as (Wslot & Wchg & _).
  - apply Z.leb_le. vm_compute. reflexivity.
  - vm_compute. discriminate.
  - change (1 <= 1 <= 15). lia.
  - split; [lia|]. apply Z.ltb_lt. vm_compute. reflexivity.
  - apply Z.leb_le. vm_compute. reflexivity.
  - destruct Wchg as (Wz & W150 & W151 & Wrest).
    { left. vm_compute. discriminate. }
    cbv zeta.
    pose proof (Wslot 0) as S0. pose proof (Wslot 9) as S9.
    pose proof (Wz 10) as Z10. pose proof (Wz 39) as Z39.
    pose proof (Wrest 40) as R40.
    change (getbitu (swap_words 4 (at_off (raw_buff ref_raw_glo) (6 + 8))) 1 4) with 1
      in S0, S9, Z10, Z39, R40.
    split; [rewrite S0 by lia; reflexivity|].
    split; [rewrite S9 by lia; reflexivity|].
    split; [apply Z10; lia|]. split; [apply Z39; lia|].
    split; [rewrite W150; reflexivity|]. split; [rewrite W151; reflexivity|].
    rewrite R40 by lia. reflexivity.
Defined.

(** ** Galileo I/NAV pages *)




(** ** Replacement of ephemerides *)

(** A page that [enav_accepts] reaches the frame buffer: the word is saved,
    and the rest of [decode_enav] is the left-hand side below. *)
Lemma decode_enav_accepted `{rtklib} (raw : raw_t) (sat off : Z) :
  enav_accepts raw off = true ->
  let buff := swap_words 8 (at_off (raw_buff raw) (6 + off)) in
  let row := enav_save (subfrm_row raw sat) buff (getbitu buff 2 6) in
  let raw1 := set_subfrm_row raw sat row in
  decode_enav raw sat off
  = if negb (rd row 112 =? 0x7F) then (0, raw1)
    else if has_opt (raw_opt raw1) "-GALFNAV" then (0, raw1)
    else
      let '(r, eph) := decode_gal_inav row eph0 in
      if r =? 0 then (0, raw1)
      else if negb (eph_sat eph =? sat) then (-1, raw1)
      else
        let old := arr_get eph0 (nav_eph (raw_nav raw1)) (sat - 1) in
        if negb (has_opt (raw_opt raw1) "-EPHALL")
           && (eph_iode eph =? eph_iode old)
           && f_eq (timediff (eph_toe eph) (eph_toe old)) 0
           && f_eq (timediff (eph_toc eph) (eph_toc old)) 0
        then (0, raw1)
        else
          (2, set_ephsat
                (set_nav raw1
                   (nav_with_eph (raw_nav raw1)
                      (arr_set (nav_eph (raw_nav raw1)) (sat - 1) (eph_with_sat eph sat))))
                sat).
Proof.
  intros Hacc buff row raw1. unfold enav_accepts in Hacc. cbv zeta in Hacc.
  fold buff in Hacc.
  repeat (apply andb_true_iff in Hacc; destruct Hacc as [Hacc ?]).
  unfold decode_enav. fold buff.
  repeat match goal with
         | Hb : negb _ = true |- _ => apply negb_true_iff in Hb
         end.
  apply Z.leb_le in Hacc.
  destruct (raw_len raw <? 44 + off) eqn:E; [lia|].
  repeat match goal with
         | Hb : (_ =? _) = _ |- _ => rewrite Hb
         end.
  cbn [orb negb].
  match goal with Hb : (_ <=? 6) = true |- _ => apply Z.leb_le in Hb end.
  destruct (6 <? getbitu buff 2 6) eqn:E6; [lia|].
  reflexivity.
Qed.

(** C6. With [eph] the ephemeris just decoded and [old] the stored
    [nav.eph[sat-1]]. GPS/QZSS LNAV ([decode_ephem], the three subframes
    decoded): without -EPHALL and with equal iode and iodc the result is 0
    and the state, so [nav.eph], is left as it was; with -EPHALL, or when
    iode or iodc differs, [eph] (with its sat set) replaces [nav.eph[sat-1]],
    [ephsat] is [sat] and the result is 2. Galileo I/NAV ([decode_enav], an
    accepted page that completes the seven words, no -GALFNAV, the ephemeris
    decoded for this satellite): without -EPHALL and with equal iode and with
    toe and toc at time difference 0 from the stored ones the result is 0 and
    [nav] is left as it was; with -EPHALL, or when iode (or toe, or toc)
    differs, [eph] replaces [nav.eph[sat-1]], [ephsat] is [sat] and the result
    is 2. *)
Theorem ephemeris_replacement `{rtklib} (raw : raw_t) (sat : Z) :
  let old := arr_get eph0 (nav_eph (raw_nav raw)) (sat - 1) in
  let ephall := has_opt (raw_opt raw) "-EPHALL" in
  let replaced (eph : eph_t) (res : Z * raw_t) :=
    fst res = 2
    /\ nav_eph (raw_nav (snd res))
       = arr_set (nav_eph (raw_nav raw)) (sat - 1) (eph_with_sat eph sat)
    /\ raw_ephsat (snd res) = sat in
  (forall eph1 eph2 eph : eph_t,
      let row := subfrm_row raw sat in
      decode_frame_eph row eph0 = (1, eph1) ->
      decode_frame_eph (at_off row 30) eph1 = (2, eph2) ->
      decode_frame_eph (at_off row 60) eph2 = (3, eph) ->
      (ephall = false -> eph_iode eph = eph_iode old -> eph_iodc eph = eph_iodc old ->
       decode_ephem sat raw = (0, raw))
      /\ (ephall = true \/ eph_iode eph <> eph_iode old \/ eph_iodc eph <> eph_iodc old ->
          replaced eph (decode_ephem sat raw)))
  /\ (forall (off r : Z) (eph : eph_t),
         let buff := swap_words 8 (at_off (raw_buff raw) (6 + off)) in
         let row := enav_save (subfrm_row raw sat) buff (getbitu buff 2 6) in
         let same_time (a b : gtime_t) := f_eq (timediff a b) 0 in
         enav_accepts raw off = true ->
         rd row 112 = 0x7F ->
         has_opt (raw_opt raw) "-GALFNAV" = false ->
         decode_gal_inav row eph0 = (r, eph) -> r <> 0 -> eph_sat eph = sat ->
         (ephall = false -> eph_iode eph = eph_iode old ->
          same_time (eph_toe eph) (eph_toe old) = true ->
          same_time (eph_toc eph) (eph_toc old) = true ->
          fst (decode_enav raw sat off) = 0
          /\ raw_nav (snd (decode_enav raw sat off)) = raw_nav raw
          /\ raw_ephsat (snd (decode_enav raw sat off)) = raw_ephsat raw)
         /\ (ephall = true \/ eph_iode eph <> eph_iode old
             \/ same_time (eph_toe eph) (eph_toe old) = false
             \/ same_time (eph_toc eph) (eph_toc old) = false ->
             replaced eph (decode_enav raw sat off))).
Proof.
  intros old ephall replaced. split.
  - intros eph1 eph2 eph row H1 H2 H3.
    unfold decode_ephem. fold row. rewrite H1. cbn [Z.eqb Pos.eqb negb].
    rewrite H2. cbn [Z.eqb Pos.eqb negb]. rewrite H3. cbn [Z.eqb Pos.eqb negb].
    fold old. fold ephall. split.
    + intros He Hi Hc. rewrite He, Hi, Hc, !Z.eqb_refl. reflexivity.
    + intros Hd.
      destruct (negb ephall && (eph_iode eph =? eph_iode old) && (eph_iodc eph =? eph_iodc old))
        eqn:E.
      * apply andb_true_iff in E. destruct E as [E Ec].
        apply andb_true_iff in E. destruct E as [Ea Ei].
        apply negb_true_iff in Ea. apply Z.eqb_eq in Ei. apply Z.eqb_eq in Ec.
        destruct Hd as [Hd|[Hd|Hd]]; congruence.
      * unfold replaced. cbn. auto.
  - intros off r eph buff row same_time Hacc Hmask Hgal Hdec Hr Hsat.
    rewrite (decode_enav_accepted raw sat off Hacc). cbv zeta. fold buff. fold row.
    rewrite Hmask. change (127 =? 127) with true. cbn [negb].
    cbn [raw_opt set_subfrm_row set_subfrm raw_nav]. rewrite Hgal, Hdec.
    apply Z.eqb_neq in Hr. rewrite Hr. rewrite Hsat, Z.eqb_refl. cbn [negb].
    fold old. fold ephall. unfold same_time. split.
    + intros He Hi Htoe Htoc. rewrite He, Hi, Htoe, Htoc, Z.eqb_refl. cbn. auto.
    + intros Hd.
      destruct (negb ephall && (eph_iode eph =? eph_iode old)
                && f_eq (timediff (eph_toe eph) (eph_toe old)) 0
                && f_eq (timediff (eph_toc eph) (eph_toc old)) 0) eqn:E.
      * apply andb_true_iff in E. destruct E as [E Ec].
        apply andb_true_iff in E. destruct E as [E Ee].
        apply andb_true_iff in E. destruct E as [Ea Ei].
        apply negb_true_iff in Ea. apply Z.eqb_eq in Ei.
        destruct Hd as [Hd|[Hd|[Hd|Hd]]]; congruence.
      * unfold replaced. cbn. auto.
Qed.

(** A new GPS ephemeris (iode 5, iodc 9 against the stored 0, 0) is taken;
    a Galileo ephemeris equal to the stored one (iode 4, same toe and toc)
    is not. *)
Lemma ephemeris_replacement_witness :
  (fst (decode_ephem (lib := ref_lib) 1 ref_raw_gps) = 2
   /\ raw_ephsat (snd (decode_ephem (lib := ref_lib) 1 ref_raw_gps)) = 1)
  /\ (fst (decode_enav (lib := ref_lib) ref_raw_gal 60 8) = 0
      /\ raw_nav (snd (decode_enav (lib := ref_lib) ref_raw_gal 60 8)) = raw_nav ref_raw_gal).
Proof.
  split.
  - pose proof (@ephemeris_replacement ref_lib ref_raw_gps 1) as W.
    cbv zeta in W. destruct W as [W _].
    destruct (W (mk_eph 0 0 0 gtime0 gtime0 []) (mk_eph 0 0 0 gtime0 gtime0 [])
                (mk_eph 0 5 9 gtime0 gtime0 [])) as [_ W2];
      [vm_compute; reflexivity|vm_compute; reflexivity|vm_compute; reflexivity|].
    destruct W2 as (R1 & _ & R3).
    + right. left. vm_compute. discriminate.
    + split; [exact R1|exact R3].
  - pose proof (@ephemeris_replacement ref_lib ref_raw_gal 60) as W.
    cbv zeta in W. destruct W as [_ W].
    destruct (W 8 1 (mk_eph 60 4 4 gtime0 gtime0 [])) as [W1 _].
    + vm_compute. reflexivity.
    + vm_compute. reflexivity.
    + vm_compute. reflexivity.
    + vm_compute. reflexivity.
    + discriminate.
    + reflexivity.
    + destruct W1 as (R1 & R2 & _);
        [vm_compute; reflexivity|vm_compute; reflexivity|vm_compute; reflexivity
        |vm_compute; reflexivity|].
      split; [exact R1|exact R2].
Defined.

(** ** RXM-RAWX: validity of range and phase, loss of lock *)

Section Rawx.
Context {lib : rtklib}.

(** The search ends at the satellite's record or at [n]. *)
Lemma find_sat_range (raw : raw_t) (n sat : Z) :
  0 <= n -> 0 <= find_sat raw n sat <= n.
Proof.
  intros Hn. unfold find_sat, for_range.
  replace (n - 0) with n by lia.
  assert (G : forall k i x, 0 <= i -> Z.of_nat k + i <= n -> 0 <= x <= n ->
    0 <= for_loop k i (fun j found => if found <? n then found
        else if obsd_sat (data_get raw j) =? sat then j else found) x <= n).
  { induction k as [|k IH]; intros i x Hi Hk Hx; simpl; [lia|].
    apply IH; [lia|lia|].
    destruct (x <? n); [lia|]. destruct (_ =? sat); lia. }
  apply G; lia.
Qed.

Lemma data_get_upd_eq (raw : raw_t) (j : Z) (g : obsd_t -> obsd_t) :
  0 <= j < Z.of_nat (length (obs_data (raw_obs raw))) ->
  data_get (data_upd raw j g) j = g (data_get raw j).
Proof.
  intros H. unfold data_get, data_upd. cbn. apply arr_get_set_eq. exact H.
Qed.

Lemma data_upd_length (raw : raw_t) (j : Z) (g : obsd_t -> obsd_t) :
  length (obs_data (raw_obs (data_upd raw j g))) = length (obs_data (raw_obs raw)).
Proof. unfold data_upd. cbn. apply arr_set_length. Qed.

Lemma obsd_clear_from_slots (qual : bool) (lo : Z) (o : obsd_t) :
  length (obsd_L (obsd_clear_from qual lo o)) = length (obsd_L o)
  /\ length (obsd_P (obsd_clear_from qual lo o)) = length (obsd_P o)
  /\ length (obsd_LLI (obsd_clear_from qual lo o)) = length (obsd_LLI o).
Proof.
  unfold obsd_clear_from.
  apply (for_range_inv (fun x => length (obsd_L x) = length (obsd_L o)
    /\ length (obsd_P x) = length (obsd_P o)
    /\ length (obsd_LLI x) = length (obsd_LLI o))); [|auto].
  intros k x (HL & HP & HI). unfold obsd_clear_cell.
  destruct qual; cbn; rewrite !arr_set_length; auto.
Qed.

Lemma slots_ok_get (f : Z) (raw : raw_t) (k : Z) :
  obs_slots_ok f raw = true ->
  0 <= k < Z.of_nat (length (obs_data (raw_obs raw))) ->
  obsd_slots_ok f (data_get raw k) = true.
Proof.
  intros Hok Hk. unfold obs_slots_ok in Hok. rewrite forallb_forall in Hok.
  apply Hok. unfold data_get, arr_get.
  destruct (k <? 0) eqn:E; [lia|].
  destruct (lookup_lt_is_Some_2 (obs_data (raw_obs raw)) (Z.to_nat k)) as [o Ho]; [lia|].
  rewrite Ho. cbn. apply list_elem_of_In. eapply list_elem_of_lookup_2, Ho.
Qed.

(** What [rawx_store] leaves in cell [f-1] of the satellite's record. *)
Lemma rawx_store_get (time : gtime_t) (sat f : Z) (L P D : float)
    (cpstd prstd cn0 LLI : Z) (code : code_t) (raw : raw_t) (n : Z) :
  0 <= n < Z.of_nat (length (obs_data (raw_obs raw))) ->
  1 <= f ->
  obs_slots_ok f raw = true ->
  let raw' := fst (rawx_store time sat f L P D cpstd prstd cn0 LLI code (raw, n)) in
  let o := data_get raw' (find_sat raw n sat) in
  fget (obsd_L o) (f - 1) = L /\ fget (obsd_P o) (f - 1) = P
  /\ arr_get 0 (obsd_LLI o) (f - 1) = LLI mod 256.
Proof.
  intros Hn Hf Hok. cbv zeta.
  pose proof (find_sat_range raw n sat ltac:(lia)) as Hj.
  unfold rawx_store.
  set (j := find_sat raw n sat) in *.
  set (st1 := if n <=? j then _ else _).
  assert (H1 : 0 <= j < Z.of_nat (length (obs_data (raw_obs (fst st1))))
               /\ obsd_slots_ok f (data_get (fst st1) j) = true).
  { subst st1. destruct (n <=? j) eqn:E; cbn [fst].
    - assert (j = n) by lia. subst j. rewrite H. rewrite data_upd_length.
      split; [lia|]. rewrite data_get_upd_eq by lia.
      pose proof (slots_ok_get f raw n Hok ltac:(lia)) as Hs.
      unfold obsd_slots_ok in *. unfold obsd_init.
      destruct (obsd_clear_from_slots true 0
        (obsd_with_rcv (obsd_with_sat (obsd_with_time (data_get raw n) time) sat) 0))
        as (EL & EP & EI).
      rewrite EL, EP, EI. exact Hs.
    - split; [lia|]. apply slots_ok_get; [exact Hok|lia]. }
  destruct st1 as [raw1 n1]. cbn [fst] in H1. destruct H1 as [Hj1 Hs].
  set (rawE := data_upd _ j (fun o => obsd_with_code o (f - 1) code)).
  assert (HE : let o := data_get rawE j in
     fget (obsd_L o) (f - 1) = L /\ fget (obsd_P o) (f - 1) = P
     /\ arr_get 0 (obsd_LLI o) (f - 1) = LLI mod 256).
  { subst rawE. cbv zeta.
    repeat (rewrite data_get_upd_eq by (rewrite ?data_upd_length; lia)).
    unfold obsd_slots_ok in Hs. cbn.
    apply andb_prop in Hs as [Hs HI]. apply andb_prop in Hs as [HL HP].
    unfold fget. rewrite !arr_get_set_eq by lia. auto. }
  destruct (f_ne L 0); cbn [fst]; exact HE.
Qed.

Lemma rawx_slip_obs (cpstd_slip : Z) (sys : sys_t) (sat f lockt cpstd tstat : Z)
    (L : float) (raw : raw_t) :
  raw_obs (fst (rawx_slip cpstd_slip sys sat f lockt cpstd tstat L raw)) = raw_obs raw.
Proof.
  unfold rawx_slip. cbv zeta. cbn [fst].
  match goal with |- context [if ?c then raw else _] => destruct c end; reflexivity.
Qed.

End Rawx.


Lemma arr2_get_set_eq {A : Type} (d : A) (a : list (list A)) (i j : Z) (v : A) :
  0 <= i < Z.of_nat (length a) ->
  0 <= j < Z.of_nat (length (arr_get [] a i)) ->
  arr2_get d (arr2_set a i j v) i j = v.
Proof.
  intros Hi Hj. unfold arr2_get, arr2_set.
  rewrite arr_get_set_eq by exact Hi. apply arr_get_set_eq, Hj.
Qed.

Section RawxSlip.
Context {lib : rtklib}.

(** [raw->halfc[sat-1][f-1]=halfc] precedes
    [LLI|=halfc!=raw->halfc[sat-1][f-1]?1:0]: the test reads the value just
    stored, and with an invalid phase the LLI is 0 whatever the flags were. *)
Lemma rawx_slip_toggle_dead (cpstd_slip : Z) (sys : sys_t) (sat f lockt cpstd tstat : Z)
    (L : float) (raw : raw_t) :
  0 <= sat - 1 < Z.of_nat (length (raw_halfc raw)) ->
  0 <= f - 1 < Z.of_nat (length (arr_get [] (raw_halfc raw) (sat - 1))) ->
  let r := rawx_slip cpstd_slip sys sat f lockt cpstd tstat L raw in
  arr2_get 0 (raw_halfc (fst r)) (sat - 1) (f - 1) = b2z (negb (Z.land tstat 8 =? 0))
  /\ (f_ne L 0 = false -> snd r = 0).
Proof.
  intros Hs Hf. cbv zeta. unfold rawx_slip. cbv zeta. cbn [fst snd].
  set (raw1 := if _ =? 0 then raw else _).
  assert (H1 : raw_halfc raw1 = raw_halfc raw).
  { subst raw1. match goal with |- context [if ?c then _ else _] => destruct c end;
      reflexivity. }
  cbn [raw_halfc set_halfc set_lockt]. rewrite H1.
  rewrite arr2_get_set_eq by assumption.
  split; [reflexivity|].
  intros HL. rewrite HL, andb_false_r, Z.eqb_refl. reflexivity.
Qed.
End RawxSlip.

(** C5. Two successive RXM-RAWX frames of GPS satellite 1, signal L1C/A,
    through [input_ubx]: trkStat = 07, cpStdev = 1, then trkStat = 0F (the
    half-cycle-subtracted bit toggled), cpStdev = 6 (above cpstd_valid = 5,
    so the phase is invalid). Both decode with status 1; the stored halfc
    goes from 0 to 1 and the lockflag is latched, but the LLI written for the
    second frame is 0: the toggle sets no bit of it. *)
Theorem rawx_halfc_toggle_lost :
  rawx_outcome (input_all (H := ref_lib) ref_raw0 (frame_rawx 7 1))
    = Some (1, 0, 0, 100000000%float, 0)
  /\ rawx_outcome (input_all (H := ref_lib) ref_raw0 (frame_rawx 7 1 ++ frame_rawx 15 6))
    = Some (1, 1, 1, 0%float, 0).
Proof. split; vm_compute; reflexivity. Qed.

(** * Further properties *)

(** ** Round trips of the integer fields *)

Lemma shiftr_8k (v : Z) (k : Z) : 0 <= k -> Z.shiftr v (8 * k) = v / 256 ^ k.
Proof.
  intros Hk. rewrite Z.shiftr_div_pow2 by lia.
  replace (2 ^ (8 * k)) with (256 ^ k); [reflexivity|].
  change 256 with (2 ^ 8). rewrite <- Z.pow_mul_r by lia. reflexivity.
Qed.

Lemma rd_cons_0 (a : Z) (l : list Z) : rd (a :: l) 0 = a.
Proof. reflexivity. Qed.

Lemma rd_cons_pos (a : Z) (l : list Z) (i : Z) : 0 < i -> rd (a :: l) i = rd l (i - 1).
Proof.
  intros Hi. unfold rd, arr_get.
  destruct (i <? 0) eqn:E; [lia|]. destruct (i - 1 <? 0) eqn:E1; [lia|].
  replace (Z.to_nat i) with (Datatypes.S (Z.to_nat (i - 1))) by lia. reflexivity.
Qed.

Ltac rd_list :=
  repeat first [ rewrite rd_cons_0
               | rewrite rd_cons_pos by lia; cbn [Z.sub Z.add Z.opp Z.pos_sub Pos.pred_double] ].

Lemma le_bytes_4 (v : Z) :
  le_bytes 4 v = [v mod 256; v / 256 mod 256; v / 65536 mod 256; v / 16777216 mod 256].
Proof.
  unfold le_bytes. cbn [seq map].
  change (8 * Z.of_nat 0) with (8 * 0). change (8 * Z.of_nat 1) with (8 * 1).
  change (8 * Z.of_nat 2) with (8 * 2). change (8 * Z.of_nat 3) with (8 * 3).
  rewrite !shiftr_8k by lia.
  change (256 ^ 0) with 1. rewrite Z.div_1_r. reflexivity.
Qed.

Lemma le_bytes_2 (v : Z) : le_bytes 2 v = [v mod 256; v / 256 mod 256].
Proof.
  unfold le_bytes. cbn [seq map].
  change (8 * Z.of_nat 0) with (8 * 0). change (8 * Z.of_nat 1) with (8 * 1).
  rewrite !shiftr_8k by lia.
  change (256 ^ 0) with 1. rewrite Z.div_1_r. reflexivity.
Qed.

Lemma le_bytes_1 (v : Z) : le_bytes 1 v = [v mod 256].
Proof.
  unfold le_bytes. cbn [seq map].
  change (8 * Z.of_nat 0) with (8 * 0).
  rewrite !shiftr_8k by lia.
  change (256 ^ 0) with 1. rewrite Z.div_1_r. reflexivity.
Qed.

Lemma U1_le_bytes (v : Z) : U1 (le_bytes 1 v) = v mod 256.
Proof.
  rewrite le_bytes_1. unfold U1. rewrite rd_cons_0. apply Z.mod_mod. lia.
Qed.

Lemma U2_le_bytes (v : Z) : 0 <= v < 65536 -> U2 (le_bytes 2 v) = v.
Proof.
  intros Hv. rewrite le_bytes_2. unfold U2.
  change (rd [?a; ?b] 1) with b. rewrite rd_cons_0.
  rewrite !Z.mod_mod by lia.
  Z.div_mod_to_equations. lia.
Qed.

Lemma U4_le_bytes (v : Z) : 0 <= v < 4294967296 -> U4 (le_bytes 4 v) = v.
Proof.
  intros Hv. rewrite le_bytes_4. unfold U4.
  change (rd [?a; ?b; ?c; ?d] 1) with b. change (rd [?a; ?b; ?c; ?d] 2) with c.
  change (rd [?a; ?b; ?c; ?d] 3) with d. rewrite rd_cons_0.
  rewrite !Z.mod_mod by lia.
  Z.div_mod_to_equations. lia.
Qed.



(** ** Round trip of the binary64 fields *)

Lemma digits2_pos_bounds (m : positive) :
  2 ^ (Zpos (SpecFloat.digits2_pos m) - 1) <= Zpos m < 2 ^ Zpos (SpecFloat.digits2_pos m).
Proof.
  induction m as [m IH|m IH|]; cbn [SpecFloat.digits2_pos].
  - change (PosDef.Pos.succ ?p) with (Pos.succ p). rewrite Pos2Z.inj_succ.
    replace (Z.succ (Zpos (SpecFloat.digits2_pos m)) - 1)
      with (Z.succ (Zpos (SpecFloat.digits2_pos m) - 1)) by lia.
    rewrite !Z.pow_succ_r by lia. lia.
  - change (PosDef.Pos.succ ?p) with (Pos.succ p). rewrite Pos2Z.inj_succ.
    replace (Z.succ (Zpos (SpecFloat.digits2_pos m)) - 1)
      with (Z.succ (Zpos (SpecFloat.digits2_pos m) - 1)) by lia.
    rewrite !Z.pow_succ_r by lia. lia.
  - simpl. lia.
Qed.

(** A valid binary64 value is a subnormal of exponent -1074 or has a
    significand of 53 bits. *)
Lemma valid_binary64 (s : bool) (m : positive) (e : Z) :
  SpecFloat.bounded 53 1024 m e = true ->
  (e = -1074 /\ Zpos m < 2 ^ 52)
  \/ (-1074 <= e <= 971 /\ 2 ^ 52 <= Zpos m < 2 ^ 53).
Proof.
  unfold SpecFloat.bounded, SpecFloat.canonical_mantissa, SpecFloat.fexp, SpecFloat.emin.
  intros H. apply andb_prop in H as [Hc He].
  apply Z.eqb_eq in Hc. apply Z.leb_le in He.
  change (IntDef.Z.max ?a ?b) with (Z.max a b) in Hc.
  pose proof (digits2_pos_bounds m) as Hd.
  set (d := Zpos (SpecFloat.digits2_pos m)) in *.
  assert (Hd0 : 1 <= d) by (unfold d; lia).
  destruct (Z_lt_dec d 53) as [Hlt|Hge].
  - left. split; [lia|].
    assert (2 ^ d <= 2 ^ 52) by (apply Z.pow_le_mono_r; lia). lia.
  - assert (d = 53) by lia. right. split; [lia|].
    replace (d - 1) with 52 in Hd by lia. replace d with 53 in Hd by lia. exact Hd.
Qed.

Lemma U8bits_le_bytes (v : Z) : 0 <= v < 2 ^ 64 -> U8bits (le_bytes 8 v) = v.
Proof.
  intros Hv. unfold U8bits, U4, le_bytes. cbn [seq map].
  rewrite !rd_at_off by lia.
  change (8 * Z.of_nat 0) with (8 * 0). change (8 * Z.of_nat 1) with (8 * 1).
  change (8 * Z.of_nat 2) with (8 * 2). change (8 * Z.of_nat 3) with (8 * 3).
  change (8 * Z.of_nat 4) with (8 * 4). change (8 * Z.of_nat 5) with (8 * 5).
  change (8 * Z.of_nat 6) with (8 * 6). change (8 * Z.of_nat 7) with (8 * 7).
  rewrite !shiftr_8k by lia.
  change (rd [?a; ?b; ?c; ?d; ?e; ?f; ?g; ?h] 0) with a.
  change (rd [?a; ?b; ?c; ?d; ?e; ?f; ?g; ?h] 1) with b.
  change (rd [?a; ?b; ?c; ?d; ?e; ?f; ?g; ?h] 2) with c.
  change (rd [?a; ?b; ?c; ?d; ?e; ?f; ?g; ?h] 3) with d.
  change (rd [?a; ?b; ?c; ?d; ?e; ?f; ?g; ?h] (4 + 0)) with e.
  change (rd [?a; ?b; ?c; ?d; ?e; ?f; ?g; ?h] (4 + 1)) with f.
  change (rd [?a; ?b; ?c; ?d; ?e; ?f; ?g; ?h] (4 + 2)) with g.
  change (rd [?a; ?b; ?c; ?d; ?e; ?f; ?g; ?h] (4 + 3)) with h.
  rewrite !Z.mod_mod by lia.
  change (256 ^ 0) with 1. change (256 ^ 1) with 256. change (256 ^ 2) with 65536.
  change (256 ^ 3) with 16777216. change (256 ^ 4) with 4294967296.
  change (256 ^ 5) with 1099511627776. change (256 ^ 6) with 281474976710656.
  change (256 ^ 7) with 72057594037927936. change (2 ^ 64) with 18446744073709551616 in Hv.
  rewrite Z.div_1_r.
  Z.div_mod_to_equations. lia.
Qed.

(** The three fields of a binary64 pattern. *)
Lemma bits64_fields (s : bool) (E M : Z) :
  0 <= E < 2048 -> 0 <= M < 2 ^ 52 ->
  let b := (if s then 2 ^ 63 else 0) + E * 2 ^ 52 + M in
  0 <= b < 2 ^ 64
  /\ Z.testbit b 63 = s
  /\ Z.land (Z.shiftr b 52) 2047 = E
  /\ Z.land b (Z.ones 52) = M.
Proof.
  intros HE HM b.
  change (2 ^ 52) with 4503599627370496 in *.
  assert (Hb : 0 <= b < 2 ^ 64).
  { unfold b. change (2 ^ 63) with 9223372036854775808.
    change (2 ^ 52) with 4503599627370496.
    change (2 ^ 64) with 18446744073709551616. destruct s; lia. }
  split; [exact Hb|]. split; [|split].
  - destruct s.
    + apply Z.testbit_true; [lia|]. unfold b.
      change (2 ^ 63) with 9223372036854775808. change (2 ^ 52) with 4503599627370496.
      Z.div_mod_to_equations. lia.
    + apply Z.testbit_false; [lia|]. unfold b.
      change (2 ^ 63) with 9223372036854775808. change (2 ^ 52) with 4503599627370496.
      Z.div_mod_to_equations. lia.
  - change 2047 with (Z.ones 11). rewrite Z.land_ones by lia.
    rewrite Z.shiftr_div_pow2 by lia. unfold b.
    change (2 ^ 63) with 9223372036854775808. change (2 ^ 52) with 4503599627370496.
    change (2 ^ 11) with 2048.
    destruct s; Z.div_mod_to_equations; lia.
  - rewrite Z.land_ones by lia. unfold b.
    change (2 ^ 63) with 9223372036854775808. change (2 ^ 52) with 4503599627370496.
    destruct s; Z.div_mod_to_equations; lia.
Qed.

Lemma SF_bits64_round_trip (x : SpecFloat.spec_float) :
  SpecFloat.valid_binary 53 1024 x = true ->
  0 <= SF_to_bits 53 11 x < 2 ^ 64
  /\ bits64_to_SF (SF_to_bits 53 11 x) = x.
Proof.
  intros Hv. unfold SF_to_bits.
  change (2 ^ (53 - 1 + 11)) with (2 ^ 63). change (2 ^ 11 - 1) with 2047.
  change (2 ^ (11 - 1) - 1) with 1023. change (2 ^ (53 - 1)) with (2 ^ 52).
  change (2 ^ (53 - 2)) with (2 ^ 51).
  destruct x as [s|s| |s m e].
  - destruct (bits64_fields s 0 0 ltac:(lia) ltac:(lia)) as (Hb & Hs & HE & HM).
    cbv zeta in *. rewrite Z.mul_0_l, !Z.add_0_r in *.
    split; [exact Hb|]. unfold bits64_to_SF. cbv zeta. rewrite Hs, HE, HM. reflexivity.
  - destruct (bits64_fields s 2047 0 ltac:(lia) ltac:(lia)) as (Hb & Hs & HE & HM).
    cbv zeta in *. rewrite !Z.add_0_r in *.
    split; [exact Hb|]. unfold bits64_to_SF. cbv zeta. rewrite Hs, HE, HM. reflexivity.
  - destruct (bits64_fields false 2047 (2 ^ 51) ltac:(lia) ltac:(lia)) as (Hb & Hs & HE & HM).
    cbv zeta in *. rewrite !Z.add_0_l in *.
    split; [exact Hb|]. unfold bits64_to_SF. cbv zeta. rewrite HE, HM. reflexivity.
  - cbn [SpecFloat.valid_binary] in Hv.
    destruct (valid_binary64 s m e Hv) as [[He Hm]|[He Hm]].
    + destruct (Zpos m <? 2 ^ 52) eqn:E; [|apply Z.ltb_ge in E; lia].
      destruct (bits64_fields s 0 (Zpos m) ltac:(lia) ltac:(lia)) as (Hb & Hs & HE & HM).
      cbv zeta in *. rewrite Z.mul_0_l, !Z.add_0_r in *.
      split; [exact Hb|]. unfold bits64_to_SF. cbv zeta. rewrite Hs, HE, HM.
      subst e. reflexivity.
    + destruct (Zpos m <? 2 ^ 52) eqn:E; [apply Z.ltb_lt in E; lia|].
      destruct (bits64_fields s (e + 1023 + 53 - 1) (Zpos m - 2 ^ 52) ltac:(lia)
                  ltac:(change (2 ^ 53) with (2 * 2 ^ 52) in Hm; lia))
        as (Hb & Hs & HE & HM).
      cbv zeta in *. rewrite <- Z.add_assoc in Hb, Hs, HE, HM.
      rewrite <- Z.add_assoc.
      split; [exact Hb|]. unfold bits64_to_SF. cbv zeta. rewrite Hs, HE, HM.
      destruct (e + 1023 + 53 - 1 =? 0) eqn:E0; [lia|].
      destruct (e + 1023 + 53 - 1 =? 2047) eqn:E1; [lia|].
      replace (Zpos m - 2 ^ 52 + 2 ^ 52) with (Zpos m) by lia.
      f_equal. lia.
Qed.

(** X17. Every double that [setR8] writes, [R8] reads back unchanged. *)
Theorem R8_setR8 (r : float) : R8 (setR8 r) = r.
Proof.
  unfold R8, setR8.
  destruct (SF_bits64_round_trip (Prim2SF r) (FloatAxioms.Prim2SF_valid r)) as [Hb Hr].
  rewrite U8bits_le_bytes by exact Hb.
  rewrite Hr. apply FloatAxioms.SF2Prim_Prim2SF.
Qed.

(** ** Error detection of the checksum *)

(** [cka] is the sum of the bytes read, modulo 256. *)
Lemma cs_fst_sum (buff : list Z) (n : nat) (i a a' c : Z) :
  a mod 256 = a' mod 256 ->
  fst (for_loop n i (cs_step buff) (a, c)) mod 256
  = for_loop n i (fun k s => s + rd buff k) a' mod 256.
Proof.
  revert i a a' c. induction n as [|n IH]; intros i a a' c Ha; simpl.
  - exact Ha.
  - unfold cs_step at 2. cbn [fst snd]. apply IH.
    rewrite Z.mod_mod by lia.
    rewrite (Z.add_mod a), (Z.add_mod a') by lia. rewrite Ha. reflexivity.
Qed.

Lemma sum_wr (buff : list Z) (n : nat) (i j v a : Z) :
  i <= j < i + Z.of_nat n -> 0 <= j < Z.of_nat (length buff) ->
  for_loop n i (fun k s => s + rd (wr buff j v) k) a
  = for_loop n i (fun k s => s + rd buff k) a + (v - rd buff j).
Proof.
  revert i a. induction n as [|n IH]; intros i a Hj Hl; simpl; [lia|].
  destruct (Z.eq_dec i j) as [->|Hne].
  - rewrite rd_wr_eq by lia.
    assert (E : forall m k x y,
      j < k -> for_loop m k (fun k s => s + rd (wr buff j v) k) (x + y)
               = for_loop m k (fun k s => s + rd buff k) x + y).
    { induction m as [|m IHm]; intros k x y Hk; simpl; [reflexivity|].
      rewrite rd_wr_ne by lia.
      replace (x + y + rd buff k) with (x + rd buff k + y) by lia.
      apply IHm. lia. }
    replace (a + v) with (a + rd buff j + (v - rd buff j)) by lia.
    apply E. lia.
  - rewrite rd_wr_ne by lia. apply IH; lia.
Qed.

(** The first sum of a frame changes when one checked byte changes. *)
Lemma cs_fst_wr (buff : list Z) (len i v : Z) :
  2 <= i < len - 2 -> i < Z.of_nat (length buff) ->
  0 <= rd buff i < 256 -> 0 <= v < 256 -> v <> rd buff i ->
  fst (cs_sum (wr buff i v) len) <> fst (cs_sum buff len).
Proof.
  intros Hi Hl Hx Hv Hne Heq.
  pose proof (cs_sum_range buff len) as [R _].
  pose proof (cs_sum_range (wr buff i v) len) as [R' _].
  assert (E : fst (cs_sum (wr buff i v) len) mod 256 = fst (cs_sum buff len) mod 256)
    by (rewrite Heq; reflexivity).
  unfold cs_sum, for_range in E.
  rewrite (cs_fst_sum (wr buff i v) _ 2 0 0 0 eq_refl) in E.
  rewrite (cs_fst_sum buff _ 2 0 0 0 eq_refl) in E.
  rewrite sum_wr in E by lia.
  set (s := for_loop _ 2 (fun k s => s + rd buff k) 0) in E.
  Z.div_mod_to_equations. lia.
Qed.

(** X2. In a frame that passes [checksum], changing any one byte from
    index 2 on (class, id, length, payload or the checksum itself) to a
    different byte value makes [checksum] fail. *)
Theorem checksum_detects_byte_error (buff : list Z) (len i v : Z) :
  4 <= len <= Z.of_nat (length buff) ->
  checksum buff len = true ->
  2 <= i < len ->
  0 <= rd buff i < 256 -> 0 <= v < 256 -> v <> rd buff i ->
  checksum (wr buff i v) len = false.
Proof.
  intros Hlen Hck Hi Hx Hv Hne. unfold checksum in *.
  apply andb_prop in Hck as [Ha Hb]. apply Z.eqb_eq in Ha, Hb.
  apply andb_false_iff.
  destruct (Z_lt_dec i (len - 2)) as [Hd|Hd].
  - left. apply Z.eqb_neq. rewrite rd_wr_ne by lia. rewrite <- Ha.
    apply cs_fst_wr; lia.
  - rewrite cs_sum_wr_out by lia.
    destruct (Z.eq_dec i (len - 2)) as [->|Hn].
    + left. apply Z.eqb_neq. rewrite rd_wr_eq by lia. lia.
    + right. apply Z.eqb_neq. replace i with (len - 1) in * by lia.
      rewrite rd_wr_eq by lia. lia.
Qed.

Lemma checksum_detects_byte_error_witness :
  checksum (wr [0xB5; 0x62; 0x06; 0x08; 0x00; 0x00; 0x0E; 0x30] 3 9) 8 = false.
Proof.
  apply checksum_detects_byte_error;
    [simpl; lia|reflexivity|lia|vm_compute; split; [discriminate|reflexivity]|lia
    |vm_compute; discriminate].
Defined.

(** ** Whole frames through the stream framer *)

Lemma frame_state_id (r : raw_t) :
  frame_state r (raw_nbyte r) (raw_len r) (raw_buff r) = r.
Proof. destruct r; reflexivity. Qed.

Lemma frame_state_again (r : raw_t) (n l n' l' : Z) (b b' : list Z) :
  frame_state (frame_state r n l b) n' l' b' = frame_state r n' l' b'.
Proof. destruct r; reflexivity. Qed.

Section FramerSteps.
Context {lib : rtklib}.

(** Hunting: the window slides. *)
Lemma input_ubx_hunt (r : raw_t) (l : Z) (buf : list Z) (data : Z) :
  2 <= Z.of_nat (length buf) ->
  input_ubx (frame_state r 0 l buf) data
  = Some (0, frame_state r
               (if (rd buf 1 =? UBXSYNC1) && (data =? UBXSYNC2) then 2 else 0) l
               (wr (wr buf 0 (rd buf 1)) 1 data)).
Proof.
  intros Hl. destruct r as [t o nv sb mt sf lt hc lf es nb ln bf op ot]. unfold input_ubx, frame_state, sync_ubx.
  cbn [raw_nbyte raw_len raw_buff set_nbyte set_len set_buff].
  change (0 =? 0) with true. cbn match.
  destruct (Z.of_nat (length buf) <? 2) eqn:E; [lia|].
  rewrite rd_wr_eq by (rewrite wr_length; lia).
  rewrite rd_wr_ne by lia. rewrite rd_wr_eq by lia.
  destruct ((rd buf 1 =? UBXSYNC1) && (data =? UBXSYNC2)); reflexivity.
Qed.

(** Accumulating: the byte is stored and nothing else happens, away from
    the end of the header and the end of the frame. *)
Lemma input_ubx_store (r : raw_t) (k l : Z) (buf : list Z) (data : Z) :
  0 < k < Z.of_nat (length buf) -> k <> 5 -> k + 1 < 6 \/ k + 1 < l ->
  input_ubx (frame_state r k l buf) data
  = Some (0, frame_state r (k + 1) l (wr buf k data)).
Proof.
  intros Hk H5 Hc. destruct r as [t o nv sb mt sf lt hc lf es nb ln bf op ot]. unfold input_ubx, frame_state.
  cbn [raw_nbyte raw_len raw_buff set_nbyte set_len set_buff].
  destruct (k =? 0) eqn:E0; [lia|].
  destruct ((k <? 0) || (Z.of_nat (length buf) <=? k)) eqn:Eo;
    [apply orb_true_iff in Eo; lia|].
  destruct (k + 1 =? 6) eqn:E6; [lia|].
  cbn [raw_nbyte raw_len raw_buff set_nbyte set_len set_buff]. rewrite ?E6. cbn [andb].
  destruct ((k + 1 <? 6) || (k + 1 <? l)) eqn:Ec; [reflexivity|].
  apply orb_false_iff in Ec. lia.
Qed.

(** The header completes with a length that fits. *)
Lemma input_ubx_header (r : raw_t) (l : Z) (buf : list Z) (data : Z) :
  5 < Z.of_nat (length buf) ->
  U2 (at_off (wr buf 5 data) 4) + 8 <= MAXRAWLEN ->
  input_ubx (frame_state r 5 l buf) data
  = Some (0, frame_state r 6 (U2 (at_off (wr buf 5 data) 4) + 8) (wr buf 5 data)).
Proof.
  intros Hk Hm. destruct r as [t o nv sb mt sf lt hc lf es nb ln bf op ot]. unfold input_ubx, frame_state.
  cbn [raw_nbyte raw_len raw_buff set_nbyte set_len set_buff].
  change (5 =? 0) with false. cbn match.
  destruct ((5 <? 0) || (Z.of_nat (length buf) <=? 5)) eqn:Eo;
    [apply orb_true_iff in Eo; lia|].
  change (5 + 1 =? 6) with true. cbn match.
  cbn [raw_nbyte raw_len raw_buff set_nbyte set_len set_buff].
  change (5 + 1 =? 6) with true. cbn [andb].
  pose proof (U2_range (at_off (wr buf 5 data) 4)) as HU.
  destruct (MAXRAWLEN <? _) eqn:Eg; [lia|].
  change (5 + 1 <? 6) with false. cbn [orb].
  destruct (5 + 1 <? _) eqn:El; [reflexivity|lia].
Qed.

(** The last byte of the frame: the message is decoded. *)
Lemma input_ubx_last (r : raw_t) (k l : Z) (buf : list Z) (data : Z) :
  6 <= k < Z.of_nat (length buf) -> k + 1 = l ->
  input_ubx (frame_state r k l buf) data
  = Some (decode_ubx (frame_state r 0 l (wr buf k data))).
Proof.
  intros Hk Hl. destruct r as [t o nv sb mt sf lt hc lf es nb ln bf op ot]. unfold input_ubx, frame_state.
  cbn [raw_nbyte raw_len raw_buff set_nbyte set_len set_buff].
  destruct (k =? 0) eqn:E0; [lia|].
  destruct ((k <? 0) || (Z.of_nat (length buf) <=? k)) eqn:Eo;
    [apply orb_true_iff in Eo; lia|].
  destruct (k + 1 =? 6) eqn:E6; [lia|].
  cbn [raw_nbyte raw_len raw_buff set_nbyte set_len set_buff]. rewrite ?E6. cbn [andb].
  destruct ((k + 1 <? 6) || (k + 1 <? l)) eqn:Ec; [apply orb_true_iff in Ec; lia|].
  reflexivity.
Qed.

Lemma rd_lookup (l : list Z) (k : Z) :
  0 <= k < Z.of_nat (length l) -> l !! Z.to_nat k = Some (rd l k).
Proof.
  intros Hk. unfold rd, arr_get. destruct (k <? 0) eqn:E; [lia|].
  destruct (lookup_lt_is_Some_2 l (Z.to_nat k)) as [x Hx]; [lia|].
  rewrite Hx. reflexivity.
Qed.

Lemma wr_take_drop (F B : list Z) (k : Z) :
  0 <= k < Z.of_nat (length F) -> k < Z.of_nat (length B) ->
  wr (take (Z.to_nat k) F ++ drop (Z.to_nat k) B) k (rd F k)
  = take (Z.to_nat (k + 1)) F ++ drop (Z.to_nat (k + 1)) B.
Proof.
  intros HF HB. unfold wr, arr_set. destruct (k <? 0) eqn:E; [lia|].
  replace (Z.to_nat (k + 1)) with (Datatypes.S (Z.to_nat k)) by lia.
  rewrite (take_S_r F (Z.to_nat k) (rd F k)) by (apply rd_lookup; lia).
  destruct (lookup_lt_is_Some_2 B (Z.to_nat k)) as [b Hb]; [lia|].
  rewrite (drop_S B b (Z.to_nat k) Hb).
  rewrite insert_app_r_alt by (rewrite length_take; lia).
  replace (Z.to_nat k - length (take (Z.to_nat k) F))%nat with 0%nat
    by (rewrite length_take; lia).
  rewrite <- app_assoc. reflexivity.
Qed.

Lemma rd_take_drop (F B : list Z) (k i : Z) :
  0 <= i < k -> k <= Z.of_nat (length F) ->
  rd (take (Z.to_nat k) F ++ drop (Z.to_nat k) B) i = rd F i.
Proof.
  intros Hi Hk. unfold rd, arr_get. destruct (i <? 0) eqn:E; [lia|].
  rewrite lookup_app_l by (rewrite length_take; lia).
  rewrite lookup_take_lt by lia. reflexivity.
Qed.

Lemma U2_at_off (b : list Z) (k : Z) :
  0 <= k -> U2 (at_off b k) = rd b k mod 256 + 256 * (rd b (k + 1) mod 256).
Proof.
  intros Hk. unfold U2. rewrite !rd_at_off by lia.
  replace (k + 0) with k by lia. reflexivity.
Qed.

(** From inside a frame to its end: the bytes left are stored one by one
    and the last one hands the frame to [decode_ubx]. *)
Lemma input_all_tail (r : raw_t) (F B : list Z) (len : Z) :
  len = Z.of_nat (length F) -> 8 <= len <= MAXRAWLEN ->
  Z.of_nat (length B) = MAXRAWLEN ->
  U2 (at_off F 4) + 8 = len ->
  forall (m : nat) (k l : Z),
    2 <= k -> k + Z.of_nat m + 1 = len -> (6 <= k -> l = len) ->
    input_all (frame_state r k l (take (Z.to_nat k) F ++ drop (Z.to_nat k) B))
      (drop (Z.to_nat k) F)
    = Some (replicate m 0 ++ [fst (decode_ubx (frame_state r 0 len (F ++ drop (Z.to_nat len) B)))],
            snd (decode_ubx (frame_state r 0 len (F ++ drop (Z.to_nat len) B)))).
Proof.
  intros Hlen Hrange HB HU.
  induction m as [|m IH]; intros k l Hk Hm Hl.
  - rewrite (drop_S F (rd F k) (Z.to_nat k)) by (apply rd_lookup; lia).
    cbn [input_all].
    rewrite input_ubx_last; [|rewrite length_app, length_take, length_drop; lia|lia].
    rewrite wr_take_drop by lia.
    replace (Z.to_nat (k + 1)) with (Z.to_nat len) by lia.
    rewrite (take_ge F (Z.to_nat len)) by lia.
    rewrite (Hl ltac:(lia)).
    rewrite (drop_ge F (Datatypes.S (Z.to_nat k))) by lia.
    destruct (decode_ubx _) as [st raw']. reflexivity.
  - rewrite (drop_S F (rd F k) (Z.to_nat k)) by (apply rd_lookup; lia).
    cbn [input_all].
    assert (Hbl : Z.of_nat (length (take (Z.to_nat k) F ++ drop (Z.to_nat k) B)) = MAXRAWLEN).
    { rewrite length_app, length_take, length_drop. lia. }
    destruct (Z.eq_dec k 5) as [->|H5].
    + assert (HU' : U2 (at_off (wr (take (Z.to_nat 5) F ++ drop (Z.to_nat 5) B) 5 (rd F 5)) 4) + 8
                    = len).
      { rewrite wr_take_drop by lia. rewrite U2_at_off by lia.
        rewrite !rd_take_drop by lia. rewrite <- U2_at_off by lia. exact HU. }
      rewrite input_ubx_header by lia. rewrite HU'.
      rewrite wr_take_drop by lia.
      pose proof (IH 6 len ltac:(lia) ltac:(lia) ltac:(lia)) as IH6.
      change (Z.to_nat 6) with 6%nat in IH6.
      change (Z.to_nat (5 + 1)) with 6%nat. change (Datatypes.S (Z.to_nat 5)) with 6%nat.
      rewrite IH6. reflexivity.
    + rewrite input_ubx_store; [|lia|exact H5|].
      * rewrite wr_take_drop by lia.
        replace (Datatypes.S (Z.to_nat k)) with (Z.to_nat (k + 1)) by lia.
        rewrite (IH (k + 1) l) by lia. reflexivity.
      * destruct (Z_lt_dec k 5); [left; lia|right; rewrite Hl by lia; lia].
Qed.

(** A whole frame from the hunting state. *)
Lemma input_all_frame (r : raw_t) (F : list Z) :
  raw_nbyte r = 0 -> Z.of_nat (length (raw_buff r)) = MAXRAWLEN ->
  8 <= Z.of_nat (length F) <= MAXRAWLEN ->
  rd F 0 = UBXSYNC1 -> rd F 1 = UBXSYNC2 ->
  U2 (at_off F 4) + 8 = Z.of_nat (length F) ->
  input_all r F
  = Some (replicate (length F - 1) 0 ++ [fst (decode_ubx (with_frame r F))],
          snd (decode_ubx (with_frame r F))).
Proof.
  intros Hn HB Hlen H0 H1 HU.
  assert (Hr : r = frame_state r 0 (raw_len r) (raw_buff r)).
  { rewrite <- Hn. symmetry. apply frame_state_id. }
  assert (Hw : with_frame r F
               = frame_state r 0 (Z.of_nat (length F))
                   (F ++ drop (Z.to_nat (Z.of_nat (length F))) (raw_buff r))).
  { rewrite Nat2Z.id. unfold with_frame, frame_state.
    destruct r as [t o nv sb mt sf lt hc lf es nb ln bf op ot].
    cbn in Hn. subst nb. reflexivity. }
  rewrite Hw. rewrite Hr at 1. clear Hr Hw.
  set (B := raw_buff r) in *. set (l0 := raw_len r). clearbody B l0.
  destruct F as [|f0 [|f1 F']]; [simpl in Hlen; lia|simpl in Hlen; lia|].
  change (rd (f0 :: f1 :: F') 0) with f0 in H0.
  change (rd (f0 :: f1 :: F') 1) with f1 in H1. subst f0 f1.
  destruct B as [|b0 [|b1 B']]; [simpl in HB; lia|simpl in HB; lia|].
  cbn [input_all].
  rewrite input_ubx_hunt by (simpl; lia).
  replace ((rd (b0 :: b1 :: B') 1 =? UBXSYNC1) && (UBXSYNC1 =? UBXSYNC2)) with false
    by (rewrite andb_false_r; reflexivity).
  rewrite input_ubx_hunt by (rewrite !wr_length; simpl; lia).
  change (wr (wr (wr (wr (b0 :: b1 :: B') 0 (rd (b0 :: b1 :: B') 1)) 1 UBXSYNC1) 0
            (rd (wr (wr (b0 :: b1 :: B') 0 (rd (b0 :: b1 :: B') 1)) 1 UBXSYNC1) 1)) 1 UBXSYNC2)
    with (take (Z.to_nat 2) (UBXSYNC1 :: UBXSYNC2 :: F') ++ drop (Z.to_nat 2) (b0 :: b1 :: B')).
  change (rd (wr (wr (b0 :: b1 :: B') 0 (rd (b0 :: b1 :: B') 1)) 1 UBXSYNC1) 1) with UBXSYNC1.
  change ((UBXSYNC1 =? UBXSYNC1) && (UBXSYNC2 =? UBXSYNC2)) with true. cbn match.
  pose proof (input_all_tail r (UBXSYNC1 :: UBXSYNC2 :: F') (b0 :: b1 :: B')
             (Z.of_nat (length (UBXSYNC1 :: UBXSYNC2 :: F'))) eq_refl Hlen HB HU
             (length F' - 1)%nat 2 l0) as T.
  change (drop (Z.to_nat 2) (UBXSYNC1 :: UBXSYNC2 :: F')) with F' in T.
  rewrite T by (simpl in *; lia).
  f_equal. f_equal.
  replace (length (UBXSYNC1 :: UBXSYNC2 :: F') - 1)%nat with (Datatypes.S (Datatypes.S (length F' - 1)))
    by (simpl in *; lia).
  reflexivity.
Qed.
End FramerSteps.

Lemma input_all_app `{rtklib} (r : raw_t) (a b : list Z) :
  input_all r (a ++ b)
  = match input_all r a with
    | Some (s1, r1) =>
        match input_all r1 b with
        | Some (s2, r2) => Some (s1 ++ s2, r2)
        | None => None
        end
    | None => None
    end.
Proof.
  revert r. induction a as [|x a IH]; intros r.
  - cbn [app input_all]. destruct (input_all r b) as [[s2 r2]|]; reflexivity.
  - cbn [app input_all]. destruct (input_ubx r x) as [[st r1]|]; [|reflexivity].
    rewrite IH. destruct (input_all r1 a) as [[s1 r1']|]; [|reflexivity].
    destruct (input_all r1' b) as [[s2 r2]|]; reflexivity.
Qed.

Lemma drop_wr (b : list Z) (n : nat) (i v : Z) :
  i < Z.of_nat n -> drop n (wr b i v) = drop n b.
Proof.
  intros Hi. unfold wr, arr_set. destruct (i <? 0) eqn:E; [reflexivity|].
  apply drop_insert_lt. lia.
Qed.

Section FramerHunt.
Context {lib : rtklib}.

(** Hunting through bytes that never complete the sync code. *)
Lemma input_all_hunt (r : raw_t) (l : Z) (G : list Z) :
  forall B : list Z,
    2 <= Z.of_nat (length B) -> no_sync (rd B 1) G = true ->
    exists B', input_all (frame_state r 0 l B) G
               = Some (replicate (length G) 0, frame_state r 0 l B')
               /\ length B' = length B /\ drop 2 B' = drop 2 B.
Proof.
  induction G as [|g G IH]; intros B HB Hns.
  - exists B. repeat split; reflexivity.
  - cbn [no_sync] in Hns. apply andb_prop in Hns as [Hg Hns].
    apply negb_true_iff in Hg.
    cbn [input_all]. rewrite input_ubx_hunt by exact HB. rewrite Hg.
    set (B1 := wr (wr B 0 (rd B 1)) 1 g).
    assert (HB1 : length B1 = length B) by (unfold B1; rewrite !wr_length; reflexivity).
    assert (Hr1 : rd B1 1 = g) by (unfold B1; apply rd_wr_eq; rewrite wr_length; lia).
    destruct (IH B1) as (B' & E & Hl & Hd); [lia|rewrite Hr1; exact Hns|].
    exists B'. rewrite E. split; [reflexivity|]. split; [congruence|].
    rewrite Hd. unfold B1. rewrite !drop_wr by lia. reflexivity.
Qed.

Lemma with_frame_frame_state (r : raw_t) (l : Z) (B' F : list Z) :
  raw_nbyte r = 0 -> (2 <= length F)%nat -> drop 2 B' = drop 2 (raw_buff r) ->
  with_frame (frame_state r 0 l B') F = with_frame r F.
Proof.
  intros Hn HF Hd. destruct r as [t o nv sb mt sf lt hc lf es nb ln bf op ot].
  cbn in Hn. subst nb. unfold with_frame, frame_state.
  cbn [raw_buff set_nbyte set_len set_buff] in *.
  replace (drop (length F) B') with (drop (length F) bf); [reflexivity|].
  replace (length F) with (2 + (length F - 2))%nat by lia.
  rewrite <- !drop_drop. rewrite Hd. reflexivity.
Qed.

(** X. Resynchronisation and delivery. *)
(** X3. From the hunting state, bytes [G] that never complete the sync code
    B5 62 followed by a whole frame [F] (sync code, length field equal to its
    size minus 8, at most MAXRAWLEN bytes): [input_ubx] returns 0 for every
    byte but the last, and on the last byte the result of [decode_ubx] on
    the buffer that holds exactly [F]. *)
Theorem input_ubx_delivers_frame (r : raw_t) (G F : list Z) :
  raw_nbyte r = 0 -> Z.of_nat (length (raw_buff r)) = MAXRAWLEN ->
  no_sync (rd (raw_buff r) 1) G = true ->
  8 <= Z.of_nat (length F) <= MAXRAWLEN ->
  rd F 0 = UBXSYNC1 -> rd F 1 = UBXSYNC2 ->
  U2 (at_off F 4) + 8 = Z.of_nat (length F) ->
  input_all r (G ++ F)
  = Some (replicate (length G + length F - 1) 0 ++ [fst (decode_ubx (with_frame r F))],
          snd (decode_ubx (with_frame r F))).
Proof.
  intros Hn HB Hns Hlen H0 H1 HU.
  rewrite input_all_app.
  rewrite <- (frame_state_id r) at 1. rewrite Hn.
  destruct (input_all_hunt r (raw_len r) G (raw_buff r)) as (B' & E & Hl & Hd);
    [lia|exact Hns|].
  rewrite E.
  rewrite input_all_frame; try assumption.
  - rewrite with_frame_frame_state by (try assumption; lia).
    f_equal. f_equal. rewrite app_assoc, <- replicate_add. f_equal. f_equal. lia.
  - destruct r; reflexivity.
  - destruct r as [t o nv sb mt sf lt hc lf es nb ln bf op ot].
    cbn [frame_state raw_buff set_nbyte set_len set_buff] in *. lia.
Qed.
End FramerHunt.

Lemma input_ubx_delivers_frame_witness :
  input_all (H := ref_lib) ref_raw0
    ([0x62; 0xB5; 0x00] ++ [0xB5; 0x62; 0x06; 0x00; 0x00; 0x00; 0x06; 0x18])
  = Some (replicate 11 0,
          with_frame ref_raw0 [0xB5; 0x62; 0x06; 0x00; 0x00; 0x00; 0x06; 0x18]).
Proof.
  rewrite (@input_ubx_delivers_frame ref_lib);
    [vm_compute; reflexivity|reflexivity|vm_compute; reflexivity|reflexivity
    |vm_compute; split; discriminate|reflexivity|reflexivity|reflexivity].
Defined.

Lemma rd_app_l (F R : list Z) (k : Z) :
  k < Z.of_nat (length F) -> rd (F ++ R) k = rd F k.
Proof.
  intros Hk. unfold rd, arr_get. destruct (k <? 0) eqn:E; [reflexivity|].
  rewrite lookup_app_l by lia. reflexivity.
Qed.

Lemma checksum_app (F R : list Z) (len : Z) :
  2 <= len <= Z.of_nat (length F) -> checksum (F ++ R) len = checksum F len.
Proof.
  intros Hl. unfold checksum.
  assert (E : cs_sum (F ++ R) len = cs_sum F len).
  { unfold cs_sum, for_range. apply for_loop_ext. intros k x Hk.
    unfold cs_step. rewrite rd_app_l by lia. reflexivity. }
  rewrite E, !rd_app_l by lia. reflexivity.
Qed.

Section FramerReject.
Context {lib : rtklib}.

(** X4. A whole frame (sync code, consistent length field) whose checksum
    test fails: [input_ubx] returns 0 up to the last byte and -1 on it, and
    nothing but [buff] and [len] changes. *)
Theorem input_ubx_rejects_bad_checksum (r : raw_t) (F : list Z) :
  raw_nbyte r = 0 -> Z.of_nat (length (raw_buff r)) = MAXRAWLEN ->
  8 <= Z.of_nat (length F) <= MAXRAWLEN ->
  rd F 0 = UBXSYNC1 -> rd F 1 = UBXSYNC2 ->
  U2 (at_off F 4) + 8 = Z.of_nat (length F) ->
  checksum F (Z.of_nat (length F)) = false ->
  input_all r F = Some (replicate (length F - 1) 0 ++ [-1], with_frame r F).
Proof.
  intros Hn HB Hlen H0 H1 HU Hck.
  rewrite input_all_frame by assumption.
  assert (E : decode_ubx (with_frame r F) = (-1, with_frame r F)).
  { unfold decode_ubx.
    replace (checksum (raw_buff (with_frame r F)) (raw_len (with_frame r F)))
      with false; [reflexivity|].
    unfold with_frame. cbn [raw_buff raw_len set_len set_buff].
    rewrite checksum_app by lia. symmetry. exact Hck. }
  rewrite E. reflexivity.
Qed.
End FramerReject.

Lemma input_ubx_rejects_bad_checksum_witness :
  input_all (H := ref_lib) ref_raw0 (wr (frame_rawx 7 1) 30 1)
  = Some (replicate 55 0 ++ [-1], with_frame ref_raw0 (wr (frame_rawx 7 1) 30 1)).
Proof.
  apply (@input_ubx_rejects_bad_checksum ref_lib ref_raw0 (wr (frame_rawx 7 1) 30 1));
    try (vm_compute; first [reflexivity | discriminate | split; discriminate]).
Defined.

(** ** The frames of the generator *)

Lemma cmd_id_bytes (i : Z) : 0 <= rd cmd_id i < 256.
Proof.
  unfold rd, arr_get. destruct (i <? 0); [lia|].
  destruct (cmd_id !! Z.to_nat i) as [x|] eqn:E; [|simpl; lia].
  apply list_elem_of_lookup_2 in E. simpl.
  unfold cmd_id in E. repeat (apply elem_of_cons in E as [->|E]; [lia|]).
  apply elem_of_nil in E. contradiction.
Qed.

Section GenLayout.
Context {lib : rtklib}.

Lemma gen_field_size (t : Z) (arg : option string) : snd (gen_field t arg) <= 32.
Proof.
  unfold gen_field.
  repeat match goal with |- context [if ?c then _ else _] => destruct c end; simpl; lia.
Qed.

Lemma emit_below (st : list Z * Z) (w : list Z * Z) (k : Z) :
  k < snd st -> rd (fst (emit st w)) k = rd (fst st) k.
Proof. intros Hk. unfold emit. cbn [fst]. apply rd_wr_list_out. left. exact Hk. Qed.

(** The field loop writes from [q] on only, and at most 32 bytes a field. *)
Lemma gen_fields_frame (fuel : nat) (i narg : Z) (args : list string) (j : Z)
    (st st' : list Z * Z) (j' : Z) :
  gen_fields fuel i narg args j st = Some (st', j') ->
  length (fst st') = length (fst st)
  /\ snd st <= snd st' <= snd st + 32 * (j' - j) /\ j <= j' <= 33
  /\ forall k, k < snd st -> rd (fst st') k = rd (fst st) k.
Proof.
  revert j st. induction fuel as [|fuel IH]; intros j st; simpl; [discriminate|].
  destruct (32 <? j) eqn:E; [discriminate|].
  destruct (negb (prm_cell i (j - 1) =? 0) || (j <? narg)) eqn:Ec.
  - intros Hg. apply IH in Hg. destruct Hg as (Hl & Hq & Hj & Hk).
    set (w := gen_field _ _) in *.
    pose proof (gen_field_advance (prm_cell i (j - 1))
                  (if j <? narg then Some (arg_at args j) else None)) as Ha.
    pose proof (gen_field_size (prm_cell i (j - 1))
                  (if j <? narg then Some (arg_at args j) else None)) as Hs.
    fold w in Ha, Hs. unfold emit in Hq. cbn [fst snd] in Hq.
    rewrite emit_length in Hl.
    split; [exact Hl|]. split; [lia|]. split; [lia|].
    intros k Hk'. rewrite Hk by (unfold emit; cbn [snd]; lia).
    apply emit_below. exact Hk'.
  - intros [= <- <-]. repeat split; try lia.
Qed.

Lemma gen_valset_frame (args : list string) (j : Z) (st st' : list Z * Z) :
  gen_valset args j st = Some st' ->
  length (fst st') = length (fst st) /\ snd st <= snd st' <= snd st + 36
  /\ forall k, k < snd st -> rd (fst st') k = rd (fst st) k.
Proof.
  unfold gen_valset. destruct (strncmp_ne _ _); [discriminate|].
  destruct (find_str _ _ _) as [k|]; [|discriminate].
  intros [= <-]. rewrite !emit_length.
  pose proof (gen_field_advance (rd vprm k) (Some (arg_at args (j + 1)))) as Ha.
  pose proof (gen_field_size (rd vprm k) (Some (arg_at args (j + 1)))) as Hs.
  split; [reflexivity|]. split; [unfold emit; cbn [fst snd]; lia|].
  intros k' Hk'. rewrite emit_below by (unfold emit; cbn [snd]; lia).
  apply emit_below. exact Hk'.
Qed.

(** The frame a successful call leaves in [buff]. *)
Lemma gen_ubx_layout (msg : string) (buff : list Z) (n : Z) (buff' : list Z) :
  gen_ubx msg buff = Some (n, buff') -> n <> 0 -> n <= Z.of_nat (length buff) ->
  8 <= n <= 1068
  /\ length buff' = length buff
  /\ rd buff' 0 = UBXSYNC1 /\ rd buff' 1 = UBXSYNC2 /\ rd buff' 2 = UBXCFG
  /\ (exists i, find_str cmd (str_drop 4 (arg_at (strtok_all msg) 0)) 0 = Some i
                /\ rd buff' 3 = rd cmd_id i)
  /\ U2 (at_off buff' 4) = n - 8
  /\ checksum buff' n = true.
Proof.
  unfold gen_ubx.
  destruct (1024 <=? _); [discriminate|].
  rewrite arg_at_take by lia.
  set (args := take 32 (strtok_all msg)).
  destruct (_ || _); [intros [= <- <-]; congruence|].
  destruct (find_str cmd _ 0) as [i|] eqn:Ef; [|intros [= <- <-]; congruence].
  set (st0 := (fst (emit (buff, 0) _), _)).
  destruct ((i =? 34) && negb (Z.of_nat (length args) =? 7)); [intros [= <- <-]; congruence|].
  set (narg := if i =? 34 then _ else _).
  destruct (gen_fields 33 i narg args 1 st0) as [[st1 j]|] eqn:Eg; [|discriminate].
  apply gen_fields_frame in Eg. destruct Eg as (Hl1 & Hq1 & Hj1 & Hk1).
  assert (Hq0 : snd st0 = 6) by reflexivity.
  assert (Hl0 : length (fst st0) = length buff).
  { unfold st0. cbn [fst]. apply emit_length. }
  assert (Hfin : forall st : list Z * Z,
    length (fst st) = length buff -> 6 <= snd st <= 1066 ->
    (forall k, k < 6 -> rd (fst st) k = rd (fst st0) k) ->
    snd st + 2 <= Z.of_nat (length buff) ->
    let n := snd st + 2 in
    let b := setcs (wr_list (fst st) 4 (setU2 (n - 8))) n in
    8 <= n <= 1068 /\ length b = length buff
    /\ rd b 0 = UBXSYNC1 /\ rd b 1 = UBXSYNC2 /\ rd b 2 = UBXCFG
    /\ (exists i0, Some i = Some i0 /\ rd b 3 = rd cmd_id i0)
    /\ U2 (at_off b 4) = n - 8 /\ checksum b n = true).
  { intros st HL HQ HK Hfit n0 b.
    assert (Hhead : forall k, k < 4 -> rd b k = rd (fst st0) k).
    { intros k Hk. unfold b, setcs. rewrite !rd_wr_ne by (unfold n0; lia).
      rewrite rd_wr_list_out by (left; lia). apply HK. lia. }
    assert (H0 : forall k, 0 <= k < 4 ->
              rd (fst st0) k = rd [UBXSYNC1; UBXSYNC2; UBXCFG; rd cmd_id i] k).
    { intros k Hk. unfold st0, emit. cbn [fst snd].
      rewrite rd_wr_list_in by (simpl; lia). replace (k - 0) with k by lia. reflexivity. }
    split; [unfold n0; lia|].
    split; [unfold b, setcs; rewrite !wr_length, wr_list_length; exact HL|].
    split; [rewrite Hhead, H0 by lia; reflexivity|].
    split; [rewrite Hhead, H0 by lia; reflexivity|].
    split; [rewrite Hhead, H0 by lia; reflexivity|].
    split; [exists i; split; [reflexivity|rewrite Hhead, H0 by lia; reflexivity]|].
    split.
    - rewrite U2_at_off by lia. unfold b, setcs.
      rewrite !rd_wr_ne by (unfold n0; lia).
      rewrite !rd_wr_list_in by (rewrite ?HL; simpl; unfold n0 in *; lia).
      unfold setU2. rewrite le_bytes_2.
      replace (4 - 4) with 0 by lia. replace (4 + 1 - 4) with 1 by lia.
      change (rd [?x; ?y] 1) with y. rewrite rd_cons_0.
      rewrite !Z.mod_mod by lia.
      assert (0 <= n0 - 8 < 65536) by (unfold n0; lia).
      change (2 ^ 16) with 65536. Z.div_mod_to_equations. lia.
    - apply checksum_setcs. rewrite wr_list_length. unfold n0. lia. }
  destruct (i =? 34).
  - destruct (gen_valset args j st1) as [st2|] eqn:Ev; [|intros [= <- <-]; congruence].
    apply gen_valset_frame in Ev. destruct Ev as (Hl2 & Hq2 & Hk2).
    intros [= <- <-] _ Hfit. apply Hfin; [congruence|lia| |exact Hfit].
    intros k Hk. rewrite Hk2 by lia. apply Hk1. lia.
  - intros [= <- <-] _ Hfit. apply Hfin; [congruence|lia| |exact Hfit].
    intros k Hk. apply Hk1. lia.
Qed.
End GenLayout.

Section GenAccepted.
Context {lib : rtklib}.

(** A message of class 06 passes the checksum test and is none of the
    decoded messages. *)
Lemma decode_ubx_cfg (raw : raw_t) :
  checksum (raw_buff raw) (raw_len raw) = true ->
  rd (raw_buff raw) 2 = UBXCFG -> raw_outtype raw = 0 ->
  decode_ubx raw = (0, raw).
Proof.
  intros Hck H2 Hot. unfold decode_ubx. rewrite Hck. cbn [negb].
  unfold U1. rewrite !rd_at_off by lia.
  change (2 + 0) with 2. change (3 + 0) with 3. rewrite H2.
  change (Z.shiftl (UBXCFG mod 256) 8) with 1536.
  pose proof (Z.mod_pos_bound (rd (raw_buff raw) 3) 256 ltac:(lia)) as Hb.
  set (x := rd (raw_buff raw) 3 mod 256) in *.
  unfold ID_RXMRAW, ID_RXMRAWX, ID_RXMSFRB, ID_RXMSFRBX, ID_NAVSOL, ID_NAVTIME,
    ID_TRKMEAS, ID_TRKD5, ID_TRKSFRBX, ID_TIMTM2.
  repeat match goal with
         | |- context [1536 + x =? ?c] =>
             let E := fresh "E" in destruct (1536 + x =? c) eqn:E; [lia|]
         end.
  rewrite Hot. reflexivity.
Qed.

(** X5. A frame that [gen_ubx] returns with length [n > 0]: it starts
    with B5 62, class 06 and the id of the command in the table, its length
    field holds [n - 8], [8 <= n <= 1068], and the buffer keeps its size. *)
Theorem gen_ubx_frame_layout (msg : string) (buff : list Z) (n : Z) (buff' : list Z) :
  gen_ubx msg buff = Some (n, buff') -> n <> 0 -> n <= Z.of_nat (length buff) ->
  8 <= n <= 1068
  /\ length buff' = length buff
  /\ rd buff' 0 = UBXSYNC1 /\ rd buff' 1 = UBXSYNC2 /\ rd buff' 2 = UBXCFG
  /\ (exists i, find_str cmd (str_drop 4 (arg_at (strtok_all msg) 0)) 0 = Some i
                /\ rd buff' 3 = rd cmd_id i)
  /\ U2 (at_off buff' 4) = n - 8.
Proof.
  intros Hg Hn Hfit.
  destruct (gen_ubx_layout msg buff n buff' Hg Hn Hfit)
    as (H1 & H2 & H3 & H4 & H5 & H6 & H7 & _).
  repeat (split; [assumption|]). assumption.
Qed.

(** X6. The [n] bytes of a frame of [gen_ubx], fed to [input_ubx] from the
    hunting state: all statuses are 0 (the frame is complete, its checksum
    holds, and no decoder handles class 06) and the state only holds the
    frame in [buff] and [n] in [len]. *)
Theorem gen_ubx_frame_accepted (msg : string) (buff : list Z) (n : Z) (buff' : list Z)
    (r : raw_t) :
  gen_ubx msg buff = Some (n, buff') -> n <> 0 -> n <= Z.of_nat (length buff) ->
  n <= MAXRAWLEN ->
  raw_nbyte r = 0 -> Z.of_nat (length (raw_buff r)) = MAXRAWLEN -> raw_outtype r = 0 ->
  input_all r (take (Z.to_nat n) buff')
  = Some (replicate (Z.to_nat n) 0, with_frame r (take (Z.to_nat n) buff')).
Proof.
  intros Hg Hn Hfit HM Hnb HB Hot.
  destruct (gen_ubx_layout msg buff n buff' Hg Hn Hfit)
    as (H1 & H2 & H3 & H4 & H5 & H6 & H7 & H8).
  set (F := take (Z.to_nat n) buff').
  assert (HF : Z.of_nat (length F) = n) by (unfold F; rewrite length_take; lia).
  assert (Hrd : forall k, k < n -> rd F k = rd buff' k).
  { intros k Hk. unfold F. apply rd_take. exact Hk. }
  rewrite input_all_frame; try assumption; try lia.
  - assert (E : decode_ubx (with_frame r F) = (0, with_frame r F)).
    { apply decode_ubx_cfg.
      - unfold with_frame. cbn [raw_buff raw_len set_len set_buff].
        rewrite checksum_app by lia. rewrite HF.
        unfold checksum in *.
        assert (Ec : cs_sum F n = cs_sum buff' n).
        { unfold cs_sum, for_range. apply for_loop_ext. intros k x Hk.
          unfold cs_step. rewrite Hrd by lia. reflexivity. }
        rewrite Ec, !Hrd by lia. exact H8.
      - unfold with_frame. cbn [raw_buff set_len set_buff].
        rewrite rd_app_l by lia. rewrite Hrd by lia. exact H5.
      - unfold with_frame. destruct r; exact Hot. }
    rewrite E. cbn [fst snd]. f_equal. f_equal.
    replace (Z.to_nat n) with (Datatypes.S (length F - 1)) by lia.
    rewrite replicate_S_end. reflexivity.
  - rewrite Hrd by lia. exact H3.
  - rewrite Hrd by lia. exact H4.
  - rewrite U2_at_off in * by lia. rewrite !Hrd by lia. lia.
Qed.
End GenAccepted.

Lemma gen_ubx_frame_layout_witness :
  exists b, gen_ubx (lib := ref_lib) "CFG-RATE 1000 1 1" (replicate 16 0) = Some (14, b)
            /\ rd b 0 = 0xB5 /\ rd b 1 = 0x62 /\ rd b 2 = 0x06 /\ U2 (at_off b 4) = 6.
Proof.
  destruct (gen_ubx (lib := ref_lib) "CFG-RATE 1000 1 1" (replicate 16 0))
    as [[n b]|] eqn:E; [|vm_compute in E; discriminate].
  assert (Hn : n = 14) by (vm_compute in E; congruence). subst n.
  exists b. split; [reflexivity|].
  destruct (@gen_ubx_frame_layout ref_lib _ _ _ _ E) as (_ & _ & H0 & H1 & H2 & _ & HU);
    [lia|vm_compute; discriminate|].
  auto.
Defined.

Lemma gen_ubx_frame_accepted_witness :
  exists b, gen_ubx (lib := ref_lib) "CFG-RATE 1000 1 1" (replicate 16 0) = Some (14, b)
            /\ input_all (H := ref_lib) ref_raw0 (take 14 b)
               = Some (replicate 14 0, with_frame ref_raw0 (take 14 b)).
Proof.
  destruct (gen_ubx (lib := ref_lib) "CFG-RATE 1000 1 1" (replicate 16 0))
    as [[n b]|] eqn:E; [|vm_compute in E; discriminate].
  assert (Hn : n = 14) by (vm_compute in E; congruence). subst n.
  exists b. split; [reflexivity|].
  apply (@gen_ubx_frame_accepted ref_lib _ _ _ _ ref_raw0 E);
    [lia|vm_compute; discriminate|vm_compute; discriminate|reflexivity
    |vm_compute; reflexivity|reflexivity].
Defined.

(** ** Whole frames through the file reader *)

Lemma rd_ext (a b : list Z) :
  length a = length b ->
  (forall k, 0 <= k < Z.of_nat (length a) -> rd a k = rd b k) -> a = b.
Proof.
  intros Hl Hk. apply list_eq. intros i.
  destruct (Nat.lt_ge_cases i (length a)) as [Hi|Hi].
  - specialize (Hk (Z.of_nat i) ltac:(lia)).
    rewrite <- (Nat2Z.id i). rewrite !rd_lookup by lia. rewrite Hk. reflexivity.
  - rewrite !lookup_ge_None_2 by lia. reflexivity.
Qed.

Lemma rd_drop (l : list Z) (n : nat) (k : Z) :
  0 <= k -> rd (drop n l) k = rd l (Z.of_nat n + k).
Proof.
  intros Hk. rewrite <- (Nat2Z.id n) at 1. apply (rd_at_off l (Z.of_nat n) k); lia.
Qed.

Lemma rd_take_nat (l : list Z) (n : nat) (k : Z) :
  k < Z.of_nat n -> rd (take n l) k = rd l k.
Proof.
  intros Hk. rewrite <- (Nat2Z.id n). apply rd_take. exact Hk.
Qed.

(** The sync loop of the file reader finds the code after at most 4095
    bytes that do not complete it. *)
Lemma ubxf_sync_found (G : list Z) :
  forall (i : Z) (B tl : list Z),
    2 <= Z.of_nat (length B) -> no_sync (rd B 1) G = true ->
    0 <= i -> i + Z.of_nat (length G) <= 4095 ->
    exists B', ubxf_sync i B (G ++ UBXSYNC1 :: UBXSYNC2 :: tl) = (SyncFound, B', tl)
               /\ length B' = length B /\ drop 2 B' = drop 2 B
               /\ rd B' 0 = UBXSYNC1 /\ rd B' 1 = UBXSYNC2.
Proof.
  induction G as [|g G IH]; intros i B tl HB Hns Hi Hb.
  - exists (wr (wr (wr (wr B 0 (rd B 1)) 1 UBXSYNC1) 0
                (rd (wr (wr B 0 (rd B 1)) 1 UBXSYNC1) 1)) 1 UBXSYNC2).
    split.
    + cbn [app ubxf_sync]. unfold sync_ubx.
      rewrite (rd_wr_ne (wr B 0 (rd B 1)) 1 0) by lia.
      rewrite (rd_wr_eq B 0) by lia.
      rewrite (rd_wr_eq (wr B 0 (rd B 1)) 1) by (rewrite wr_length; lia).
      replace ((rd B 1 =? UBXSYNC1) && (UBXSYNC1 =? UBXSYNC2)) with false
        by (rewrite andb_false_r; reflexivity).
      destruct (4096 <=? i) eqn:E; [simpl in Hb; lia|].
      rewrite rd_wr_ne by lia.
      rewrite !rd_wr_eq by (rewrite ?wr_length; lia).
      reflexivity.
    + split; [rewrite !wr_length; reflexivity|].
      split; [rewrite !drop_wr by lia; reflexivity|].
      split; [rewrite rd_wr_ne by lia; rewrite rd_wr_eq by (rewrite !wr_length; lia);
              apply rd_wr_eq; rewrite !wr_length; lia
             |apply rd_wr_eq; rewrite !wr_length; lia].
  - cbn [no_sync] in Hns. apply andb_prop in Hns as [Hg Hns].
    apply negb_true_iff in Hg.
    set (B1 := wr (wr B 0 (rd B 1)) 1 g).
    assert (HB1 : length B1 = length B) by (unfold B1; rewrite !wr_length; reflexivity).
    assert (Hr1 : rd B1 1 = g) by (unfold B1; apply rd_wr_eq; rewrite wr_length; lia).
    destruct (IH (i + 1) B1 tl) as (B' & E' & Hl & Hd & H0 & H1);
      [lia|rewrite Hr1; exact Hns|lia|simpl in Hb; lia|].
    exists B'. split.
    + cbn [app ubxf_sync]. unfold sync_ubx.
      rewrite rd_wr_eq by (rewrite wr_length; lia).
      rewrite rd_wr_ne by lia. rewrite rd_wr_eq by lia. rewrite Hg.
      destruct (4096 <=? i) eqn:E; [simpl in Hb; lia|].
      exact E'.
    + split; [congruence|].
      split; [|auto]. rewrite Hd. unfold B1. rewrite !drop_wr by lia. reflexivity.
Qed.

(** The buffer once the six bytes of the header and the rest of the frame
    have been read behind the sync code. *)
Lemma ubxf_buffer (B' B F : list Z) :
  length B' = length B -> drop 2 B' = drop 2 B ->
  rd B' 0 = rd F 0 -> rd B' 1 = rd F 1 ->
  (8 <= length F <= length B)%nat ->
  wr_list (wr_list B' 2 (take 4 (drop 2 F))) 6 (drop 6 F) = F ++ drop (length F) B.
Proof.
  intros Hl Hd H0 H1 HF.
  apply rd_ext.
  - rewrite !wr_list_length, length_app, length_drop. lia.
  - rewrite !wr_list_length. intros k Hk.
    assert (H4 : length (take 4 (drop 2 F)) = 4%nat) by (rewrite length_take, length_drop; lia).
    assert (H6 : length (drop 6 F) = (length F - 6)%nat) by apply length_drop.
    destruct (Z_lt_dec k 6) as [Hk6|Hk6].
    + rewrite rd_wr_list_out by (left; lia).
      rewrite rd_app_l by lia.
      destruct (Z_lt_dec k 2) as [Hk2|Hk2].
      * rewrite rd_wr_list_out by (left; lia).
        assert (k = 0 \/ k = 1) as [->| ->] by lia; assumption.
      * rewrite rd_wr_list_in by lia.
        rewrite rd_take_nat by lia. rewrite rd_drop by lia. f_equal. lia.
    + destruct (Z_lt_dec k (Z.of_nat (length F))) as [HkF|HkF].
      * rewrite rd_wr_list_in by (rewrite ?wr_list_length; lia).
        rewrite rd_app_l by lia. rewrite rd_drop by lia. f_equal. lia.
      * rewrite !rd_wr_list_out by (right; lia).
        unfold rd at 2, arr_get. destruct (k <? 0) eqn:E; [lia|].
        rewrite lookup_app_r by lia. rewrite lookup_drop.
        replace (length F + (Z.to_nat k - length F))%nat with (Z.to_nat k) by lia.
        replace (Z.to_nat k) with (2 + (Z.to_nat k - 2))%nat by lia.
        rewrite <- (lookup_drop B 2), <- Hd, lookup_drop.
        replace (2 + (Z.to_nat k - 2))%nat with (Z.to_nat k) by lia.
        unfold rd, arr_get. rewrite E. reflexivity.
Qed.

Section FileFrame.
Context {lib : rtklib}.

(** X7. [input_ubxf] on a file that holds at most 4095 bytes without the
    sync code, then a whole frame [F], then [rest]: the result is that of
    [decode_ubx] on the buffer holding [F], as for [input_ubx] fed the same
    bytes, and the file is left at [rest]. *)
Theorem input_ubxf_reads_frame (r : raw_t) (G F rest : list Z) :
  raw_nbyte r = 0 -> Z.of_nat (length (raw_buff r)) = MAXRAWLEN ->
  no_sync (rd (raw_buff r) 1) G = true -> Z.of_nat (length G) <= 4095 ->
  8 <= Z.of_nat (length F) <= MAXRAWLEN ->
  rd F 0 = UBXSYNC1 -> rd F 1 = UBXSYNC2 ->
  U2 (at_off F 4) + 8 = Z.of_nat (length F) ->
  input_ubxf r (G ++ F ++ rest)
  = Some (fst (decode_ubx (with_frame r F)), snd (decode_ubx (with_frame r F)), rest).
Proof.
  intros Hn HB Hns HG Hlen H0 H1 HU.
  destruct F as [|f0 [|f1 F']]; [simpl in Hlen; lia|simpl in Hlen; lia|].
  change (rd (f0 :: f1 :: F') 0) with f0 in H0.
  change (rd (f0 :: f1 :: F') 1) with f1 in H1. subst f0 f1.
  set (F := UBXSYNC1 :: UBXSYNC2 :: F') in *.
  destruct (ubxf_sync_found G 0 (raw_buff r) (F' ++ rest)) as (B' & Es & Hl & Hd & Hb0 & Hb1);
    [lia|exact Hns|lia|lia|].
  unfold input_ubxf.
  destruct (Z.of_nat (length (raw_buff r)) <? 6) eqn:E6; [lia|].
  rewrite Hn. change (0 =? 0) with true. cbn match.
  change (F ++ rest) with (UBXSYNC1 :: UBXSYNC2 :: F' ++ rest).
  rewrite Es. cbn [raw_buff set_buff].
  assert (HF' : (6 <= length F')%nat) by (simpl in Hlen; lia).
  unfold fread.
  replace (take (Z.to_nat 4) (F' ++ rest)) with (take 4 (drop 2 F))
    by (unfold F; cbn [drop]; change (Z.to_nat 4) with 4%nat; rewrite take_app_le by lia; reflexivity).
  replace (drop (Z.to_nat 4) (F' ++ rest)) with (drop 6 F ++ rest)
    by (unfold F; change (Z.to_nat 4) with 4%nat; cbn [drop];
        rewrite drop_app_le by lia; reflexivity).
  assert (H4 : length (take 4 (drop 2 F)) = 4%nat).
  { change (drop 2 F) with F'. rewrite length_take. lia. }
  rewrite H4. change (Z.of_nat 4 <? 4) with false. cbn match.
  cbn [raw_buff raw_len raw_nbyte set_buff set_len set_nbyte].
  assert (HU' : U2 (at_off (wr_list B' 2 (take 4 (drop 2 F))) 4) + 8 = Z.of_nat (length F)).
  { rewrite U2_at_off by lia.
    rewrite !rd_wr_list_in by lia. rewrite !rd_take_nat by lia. rewrite !rd_drop by lia.
    rewrite U2_at_off in HU by lia.
    replace (Z.of_nat 2 + (4 - 2)) with 4 by lia.
    replace (Z.of_nat 2 + (4 + 1 - 2)) with (4 + 1) by lia. exact HU. }
  rewrite HU'.
  destruct (MAXRAWLEN <? Z.of_nat (length F)) eqn:Em; [lia|].
  rewrite wr_list_length.
  destruct (Z.of_nat (length B') <? Z.of_nat (length F)) eqn:El; [lia|].
  assert (Hd6 : length (drop 6 F) = Z.to_nat (Z.of_nat (length F) - 6)).
  { rewrite length_drop. lia. }
  rewrite (take_app_length' (drop 6 F) rest _ (eq_sym Hd6)).
  rewrite (drop_app_length' (drop 6 F) rest _ (eq_sym Hd6)).
  rewrite length_drop.
  assert (HF0 : rd F 0 = UBXSYNC1) by reflexivity.
  assert (HF1 : rd F 1 = UBXSYNC2) by reflexivity.
  clear Es. clearbody F.
  destruct (Z.of_nat (length F - 6) <? Z.of_nat (length F) - 6) eqn:Eg.
  { apply Z.ltb_lt in Eg. lia. }
  rewrite (ubxf_buffer B' (raw_buff r) F) by (try congruence; lia).
  replace (set_nbyte _ 0) with (with_frame r F).
  - destruct (decode_ubx (with_frame r F)) as [st raw']. reflexivity.
  - unfold with_frame. destruct r as [t o nv sb mt sf lt hc lf es nb ln bf op ot].
    cbn in Hn. subst nb. reflexivity.
Qed.
End FileFrame.

Lemma input_ubxf_reads_frame_witness :
  input_ubxf (lib := ref_lib) ref_raw0 ([1; 2; 3] ++ frame_rawx 7 1 ++ [9; 9])
  = Some (fst (decode_ubx (lib := ref_lib) (with_frame ref_raw0 (frame_rawx 7 1))),
          snd (decode_ubx (lib := ref_lib) (with_frame ref_raw0 (frame_rawx 7 1))), [9; 9]).
Proof.
  apply (@input_ubxf_reads_frame ref_lib ref_raw0 [1; 2; 3] (frame_rawx 7 1) [9; 9]);
    try (vm_compute; first [reflexivity | discriminate | split; discriminate]).
Defined.

(** The sync loop over bytes without the sync code: the end of the file
    within 4097 bytes, or the loop gives up at the 4097th. *)
Lemma ubxf_sync_none (G : list Z) :
  forall (i : Z) (B : list Z),
    2 <= Z.of_nat (length B) -> no_sync (rd B 1) G = true -> 0 <= i <= 4096 ->
    exists B', length B' = length B /\ drop 2 B' = drop 2 B
      /\ ubxf_sync i B G
         = if i + Z.of_nat (length G) <=? 4096 then (SyncEof, B', [])
           else (SyncNone, B', drop (Z.to_nat (4097 - i)) G).
Proof.
  induction G as [|g G IH]; intros i B HB Hns Hi.
  - exists B. split; [reflexivity|]. split; [reflexivity|].
    cbn [ubxf_sync length]. change (Z.of_nat 0) with 0.
    destruct (i + 0 <=? 4096) eqn:E; [reflexivity|lia].
  - cbn [no_sync] in Hns. apply andb_prop in Hns as [Hg Hns].
    apply negb_true_iff in Hg.
    set (B1 := wr (wr B 0 (rd B 1)) 1 g).
    assert (HB1 : length B1 = length B) by (unfold B1; rewrite !wr_length; reflexivity).
    assert (Hr1 : rd B1 1 = g) by (unfold B1; apply rd_wr_eq; rewrite wr_length; lia).
    assert (Hd1 : drop 2 B1 = drop 2 B) by (unfold B1; rewrite !drop_wr by lia; reflexivity).
    assert (Es : sync_ubx B g = (false, B1)).
    { unfold sync_ubx. fold B1. rewrite Hr1.
      unfold B1. rewrite rd_wr_ne by lia. rewrite rd_wr_eq by lia. rewrite Hg. reflexivity. }
    cbn [ubxf_sync]. rewrite Es.
    destruct (4096 <=? i) eqn:E.
    + exists B1. split; [exact HB1|]. split; [exact Hd1|].
      destruct (i + Z.of_nat (length (g :: G)) <=? 4096) eqn:E';
        [apply Z.leb_le in E'; cbn [length] in E'; lia|].
      replace (Z.to_nat (4097 - i)) with 1%nat by lia. reflexivity.
    + destruct (IH (i + 1) B1) as (B' & Hl & Hd & Eq); [lia|rewrite Hr1; exact Hns|lia|].
      exists B'. split; [congruence|]. split; [congruence|].
      rewrite Eq.
      replace (i + 1 + Z.of_nat (length G)) with (i + Z.of_nat (length (g :: G)))
        by (cbn [length]; lia).
      destruct (i + Z.of_nat (length (g :: G)) <=? 4096); [reflexivity|].
      replace (Z.to_nat (4097 - i)) with (Datatypes.S (Z.to_nat (4097 - (i + 1)))) by lia.
      reflexivity.
Qed.

Section FileEdges.
Context {lib : rtklib}.

(** X8. [input_ubxf] on a file [G] without the sync code: -2 (end of file)
    when [G] has at most 4096 bytes, else 0 after exactly 4097 bytes were
    read; only the two bytes of the sync window change. *)
Theorem input_ubxf_no_sync (r : raw_t) (G : list Z) :
  raw_nbyte r = 0 -> 6 <= Z.of_nat (length (raw_buff r)) ->
  no_sync (rd (raw_buff r) 1) G = true ->
  exists B', length B' = length (raw_buff r) /\ drop 2 B' = drop 2 (raw_buff r)
    /\ input_ubxf r G
       = if Z.of_nat (length G) <=? 4096 then Some (-2, set_buff r B', [])
         else Some (0, set_buff r B', drop 4097 G).
Proof.
  intros Hn HB Hns.
  destruct (ubxf_sync_none G 0 (raw_buff r)) as (B' & Hl & Hd & Es); [lia|exact Hns|lia|].
  exists B'. split; [exact Hl|]. split; [exact Hd|].
  unfold input_ubxf.
  destruct (Z.of_nat (length (raw_buff r)) <? 6) eqn:E6; [lia|].
  rewrite Hn. change (0 =? 0) with true. cbn match. rewrite Es.
  change (0 + Z.of_nat (length G)) with (Z.of_nat (length G)).
  destruct (Z.of_nat (length G) <=? 4096); reflexivity.
Qed.

(** X9. [input_ubxf] on a file that ends inside a frame (any proper prefix
    of it): the status is -2 and the file is exhausted. *)
Theorem input_ubxf_truncated (r : raw_t) (F : list Z) (k : nat) :
  raw_nbyte r = 0 -> Z.of_nat (length (raw_buff r)) = MAXRAWLEN ->
  8 <= Z.of_nat (length F) <= MAXRAWLEN ->
  rd F 0 = UBXSYNC1 -> rd F 1 = UBXSYNC2 ->
  U2 (at_off F 4) + 8 = Z.of_nat (length F) ->
  (k < length F)%nat ->
  exists raw', input_ubxf r (take k F) = Some (-2, raw', []).
Proof.
  intros Hn HB Hlen H0 H1 HU Hk.
  destruct F as [|f0 [|f1 F']]; [simpl in Hlen; lia|simpl in Hlen; lia|].
  change (rd (f0 :: f1 :: F') 0) with f0 in H0.
  change (rd (f0 :: f1 :: F') 1) with f1 in H1. subst f0 f1.
  assert (HF' : (6 <= length F')%nat) by (simpl in Hlen; lia).
  unfold input_ubxf.
  destruct (Z.of_nat (length (raw_buff r)) <? 6) eqn:E6; [lia|].
  rewrite Hn. change (0 =? 0) with true. cbn match.
  destruct k as [|[|k]].
  - cbn [take ubxf_sync]. eexists. reflexivity.
  - cbn [take ubxf_sync]. unfold sync_ubx.
    rewrite rd_wr_eq by (rewrite wr_length; lia).
    replace (_ && (UBXSYNC1 =? UBXSYNC2)) with false by (rewrite andb_false_r; reflexivity).
    change (4096 <=? 0) with false. cbn match. eexists. reflexivity.
  - set (F := UBXSYNC1 :: UBXSYNC2 :: F') in *.
    change (take (Datatypes.S (Datatypes.S k)) F)
      with ([] ++ UBXSYNC1 :: UBXSYNC2 :: take k F').
    destruct (ubxf_sync_found [] 0 (raw_buff r) (take k F'))
      as (B' & Es & Hl & Hd & Hb0 & Hb1); [lia|reflexivity|lia|simpl; lia|].
    rewrite Es. cbn [raw_buff set_buff]. unfold fread.
    change (Z.to_nat 4) with 4%nat.
    rewrite take_take.
    destruct (Nat.lt_ge_cases k 4) as [Hk4|Hk4].
    + (* the file ends inside the header *)
      rewrite length_take.
      destruct (Z.of_nat (Nat.min (Nat.min 4 k) (length F')) <? 4) eqn:E4;
        [|apply Z.ltb_ge in E4; lia].
      rewrite (drop_ge (take k F') 4) by (rewrite length_take; lia). eexists. reflexivity.
    + (* the file ends inside the payload *)
      replace (Nat.min 4 k) with 4%nat by lia.
      assert (H4 : length (take 4 F') = 4%nat) by (rewrite length_take; lia).
      rewrite H4. change (Z.of_nat 4 <? 4) with false. cbn match.
      cbn [raw_buff raw_len raw_nbyte set_buff set_len set_nbyte].
      assert (HU' : U2 (at_off (wr_list B' 2 (take 4 F')) 4) + 8 = Z.of_nat (length F)).
      { rewrite U2_at_off by lia.
        rewrite !rd_wr_list_in by lia. rewrite !rd_take_nat by lia.
        rewrite U2_at_off in HU by lia.
        change (rd F 4) with (rd F' (4 - 2)) in HU.
        change (rd F (4 + 1)) with (rd F' (4 + 1 - 2)) in HU. exact HU. }
      rewrite HU'.
      destruct (MAXRAWLEN <? Z.of_nat (length F)) eqn:Em; [lia|].
      rewrite wr_list_length.
      destruct (Z.of_nat (length B') <? Z.of_nat (length F)) eqn:El; [lia|].
      set (fp := drop 4 (take k F')).
      assert (Hfp : (length fp = k - 4)%nat).
      { unfold fp. rewrite length_drop, length_take. unfold F in Hk. simpl in Hk. lia. }
      rewrite length_take, Hfp.
      destruct (Z.of_nat (Nat.min (Z.to_nat (Z.of_nat (length F) - 6)) (k - 4))
                <? Z.of_nat (length F) - 6) eqn:Eg.
      * rewrite drop_ge by (rewrite Hfp; unfold F in *; simpl in *; lia).
        eexists. reflexivity.
      * apply Z.ltb_ge in Eg. unfold F in *. simpl in *. lia.
Qed.
End FileEdges.

Lemma input_ubxf_no_sync_witness :
  exists B', input_ubxf (lib := ref_lib) ref_raw0 [1; 2; 3] = Some (-2, set_buff ref_raw0 B', []).
Proof.
  destruct (@input_ubxf_no_sync ref_lib ref_raw0 [1; 2; 3]) as (B' & _ & _ & E);
    [reflexivity|vm_compute; discriminate|reflexivity|].
  exists B'. exact E.
Defined.

Lemma input_ubxf_truncated_witness :
  exists raw', input_ubxf (lib := ref_lib) ref_raw0 (take 20 (frame_rawx 7 1))
               = Some (-2, raw', []).
Proof.
  apply (@input_ubxf_truncated ref_lib ref_raw0 (frame_rawx 7 1) 20);
    try (vm_compute; first [reflexivity | discriminate | split; discriminate]).
  vm_compute. lia.
Defined.

(** ** Epochs of observations *)

Lemma for_loop_ind {S : Type} (Q : Z -> S -> Prop) (n : nat) (i : Z) (f : Z -> S -> S) (s : S) :
  (forall k x, i <= k < i + Z.of_nat n -> Q k x -> Q (k + 1) (f k x)) ->
  Q i s -> Q (i + Z.of_nat n) (for_loop n i f s).
Proof.
  revert i s. induction n as [|n IH]; intros i s Hf Hs; simpl for_loop.
  - replace (i + Z.of_nat 0) with i by lia. exact Hs.
  - replace (i + Z.of_nat (Datatypes.S n)) with (i + 1 + Z.of_nat n) by lia.
    apply IH.
    + intros k x Hk. apply Hf. lia.
    + apply Hf; [lia|exact Hs].
Qed.

Lemma data_get_upd_ne (raw : raw_t) (i j : Z) (g : obsd_t -> obsd_t) :
  i <> j -> data_get (data_upd raw i g) j = data_get raw j.
Proof. intros H. unfold data_get, data_upd. cbn. apply arr_get_set_ne. exact H. Qed.

Section ObsSearch.
Context {lib : rtklib}.

(** Clearing cells keeps the time and the satellite of a record. *)
Lemma obsd_clear_from_head (qual : bool) (lo : Z) (o : obsd_t) :
  obsd_sat (obsd_clear_from qual lo o) = obsd_sat o
  /\ obsd_time (obsd_clear_from qual lo o) = obsd_time o.
Proof.
  unfold obsd_clear_from.
  apply (for_range_inv (fun x => obsd_sat x = obsd_sat o /\ obsd_time x = obsd_time o));
    [|auto].
  intros k x [H1 H2]. unfold obsd_clear_cell. destruct qual; cbn; auto.
Qed.

(** The search stops at the first record of the satellite, or at [n]. *)
Lemma find_sat_spec (raw : raw_t) (n sat : Z) :
  0 <= n ->
  let j := find_sat raw n sat in
  (j = n /\ forall k, 0 <= k < n -> obsd_sat (data_get raw k) <> sat)
  \/ (0 <= j < n /\ obsd_sat (data_get raw j) = sat).
Proof.
  intros Hn. cbv zeta. unfold find_sat, for_range.
  replace (n - 0) with n by lia.
  pose proof (for_loop_ind
    (fun i found =>
       (found = n /\ forall k, 0 <= k < i -> obsd_sat (data_get raw k) <> sat)
       \/ (0 <= found < i /\ found < n /\ obsd_sat (data_get raw found) = sat))
    (Z.to_nat n) 0
    (fun j found => if found <? n then found
                    else if obsd_sat (data_get raw j) =? sat then j else found) n) as H.
  replace (0 + Z.of_nat (Z.to_nat n)) with n in H by lia.
  destruct H as [[H1 H2]|(H1 & H2 & H3)].
  - intros k x Hk [[-> Hno]|(Hf & Hfn & Hs)].
    + destruct (n <? n) eqn:E; [lia|].
      destruct (obsd_sat (data_get raw k) =? sat) eqn:Es.
      * right. apply Z.eqb_eq in Es. repeat split; lia.
      * left. split; [reflexivity|]. intros k' Hk'.
        destruct (Z.eq_dec k' k) as [->|]; [apply Z.eqb_neq, Es|apply Hno; lia].
    + destruct (x <? n) eqn:E; [|lia]. right. repeat split; lia.
  - left. split; [reflexivity|]. intros; lia.
  - left. split; assumption.
  - right. split; [lia|assumption].
Qed.
End ObsSearch.

Lemma data_upd_head (raw : raw_t) (j k : Z) (g : obsd_t -> obsd_t) :
  (forall o, obsd_head (g o) = obsd_head o) ->
  obsd_head (data_get (data_upd raw j g) k) = obsd_head (data_get raw k).
Proof.
  intros Hg. destruct (Z.eq_dec j k) as [->|Hne]; [|rewrite data_get_upd_ne by exact Hne; reflexivity].
  destruct (Z_lt_dec k 0) as [Hk|Hk].
  { unfold data_get, data_upd, arr_get. destruct (k <? 0) eqn:E; [reflexivity|lia]. }
  destruct (Z_lt_dec k (Z.of_nat (length (obs_data (raw_obs raw))))) as [Hl|Hl].
  - rewrite data_get_upd_eq by lia. apply Hg.
  - unfold data_get, data_upd, arr_get, arr_set. cbn.
    destruct (k <? 0) eqn:E; [reflexivity|].
    rewrite list_insert_ge by lia. reflexivity.
Qed.

Section ObsStore.
Context {lib : rtklib}.

Lemma obsd_init_head (time : gtime_t) (sat : Z) (o : obsd_t) :
  obsd_head (obsd_init time sat o) = (sat, time).
Proof.
  unfold obsd_init, obsd_head.
  destruct (obsd_clear_from_head true 0
              (obsd_with_rcv (obsd_with_sat (obsd_with_time o time) sat) 0)) as [H1 H2].
  rewrite H1, H2. reflexivity.
Qed.

(** The count and the heads of the records after one measurement is
    merged. *)
Lemma rawx_store_heads (time : gtime_t) (sat f : Z) (L P D : float)
    (cpstd prstd cn0 LLI : Z) (code : code_t) (raw : raw_t) (n : Z) :
  0 <= n < Z.of_nat (length (obs_data (raw_obs raw))) ->
  let j := find_sat raw n sat in
  let st' := rawx_store time sat f L P D cpstd prstd cn0 LLI code (raw, n) in
  snd st' = (if n <=? j then n + 1 else n)
  /\ forall k, obsd_head (data_get (fst st') k)
               = if (n <=? j) && (k =? n) then (sat, time)
                 else obsd_head (data_get raw k).
Proof.
  intros Hn. cbv zeta. unfold rawx_store.
  set (j := find_sat raw n sat).
  set (st1 := if n <=? j then _ else _).
  assert (H1 : snd st1 = (if n <=? j then n + 1 else n)
               /\ forall k, obsd_head (data_get (fst st1) k)
                            = if (n <=? j) && (k =? n) then (sat, time)
                              else obsd_head (data_get raw k)).
  { subst st1. destruct (n <=? j) eqn:E; cbn [fst snd andb]; (split; [reflexivity|]).
    - intros k. destruct (k =? n) eqn:Ek.
      + apply Z.eqb_eq in Ek. subst k. rewrite data_get_upd_eq by lia.
        apply obsd_init_head.
      + apply Z.eqb_neq in Ek. rewrite data_get_upd_ne by lia. reflexivity.
    - intros k. reflexivity. }
  destruct st1 as [raw1 n1]. cbn [fst snd] in H1. destruct H1 as [Hn1 Hh].
  set (rawE := data_upd _ j (fun o => obsd_with_code o (f - 1) code)).
  assert (HE : forall k, obsd_head (data_get rawE k) = obsd_head (data_get raw1 k)).
  { intros k. subst rawE. repeat (rewrite data_upd_head by (intros o; reflexivity)).
    reflexivity. }
  destruct (f_ne L 0); cbn [fst snd]; (split; [exact Hn1|]);
    intros k; rewrite <- Hh; apply HE.
Qed.

Lemma rawx_store_length (time : gtime_t) (sat f : Z) (L P D : float)
    (cpstd prstd cn0 LLI : Z) (code : code_t) (raw : raw_t) (n : Z) :
  length (obs_data (raw_obs (fst (rawx_store time sat f L P D cpstd prstd cn0 LLI code (raw, n)))))
  = length (obs_data (raw_obs raw)).
Proof.
  unfold rawx_store.
  set (j := find_sat raw n sat).
  set (st1 := if n <=? j then _ else _).
  assert (H1 : length (obs_data (raw_obs (fst st1))) = length (obs_data (raw_obs raw))).
  { subst st1. destruct (n <=? j); cbn [fst]; [apply data_upd_length|reflexivity]. }
  destruct st1 as [raw1 n1]. cbn [fst] in H1.
  set (rawE := data_upd _ j (fun o => obsd_with_code o (f - 1) code)).
  assert (HE : length (obs_data (raw_obs rawE)) = length (obs_data (raw_obs raw1))).
  { subst rawE. do 8 rewrite data_upd_length. reflexivity. }
  destruct (f_ne L 0); cbn [fst]; rewrite <- H1, <- HE; reflexivity.
Qed.

(** One measurement block keeps the epoch well formed and adds at most one
    record. *)
Lemma rawx_meas_epoch (time : gtime_t) (toff : float) (ver cv cs : Z) (p : list Z)
    (raw : raw_t) (n : Z) :
  0 <= n < Z.of_nat (length (obs_data (raw_obs raw))) ->
  epoch_ok time raw n -> sats_distinct raw n ->
  let st' := rawx_meas time toff ver cv cs p (raw, n) in
  n <= snd st' <= n + 1
  /\ epoch_ok time (fst st') (snd st') /\ sats_distinct (fst st') (snd st')
  /\ length (obs_data (raw_obs (fst st'))) = length (obs_data (raw_obs raw)).
Proof.
  intros Hn He Hd. cbv zeta. unfold rawx_meas.
  set (b := rawx_read p). set (sys := ubx_sys (blk_gnss b)).
  destruct (sys_eqb sys SYS_NONE); [cbn [fst snd]; split; [lia|split; [assumption|split; [assumption|reflexivity]]]|].
  set (sat := satno sys _).
  destruct (sat =? 0) eqn:Es; [cbn [fst snd]; split; [lia|split; [assumption|split; [assumption|reflexivity]]]|].
  apply Z.eqb_neq in Es.
  destruct (_ || _); [cbn [fst snd]; split; [lia|split; [assumption|split; [assumption|reflexivity]]]|].
  match goal with
  | |- context [rawx_slip ?a ?b ?c ?d ?e ?g ?h ?i ?j] =>
      pose proof (rawx_slip_obs a b c d e g h i j) as Hobs;
      destruct (rawx_slip a b c d e g h i j) as [raw1 LLI]
  end.
  cbn [fst] in Hobs.
  assert (Hdg : forall k, data_get raw1 k = data_get raw k).
  { intros k. unfold data_get. rewrite Hobs. reflexivity. }
  assert (Hfs : find_sat raw1 n sat = find_sat raw n sat).
  { unfold find_sat, data_get. rewrite Hobs. reflexivity. }
  match goal with
  | |- context [rawx_store ?t ?s ?ff ?l ?pp ?d ?c ?pr ?cn ?li ?co (raw1, n)] =>
      pose proof (rawx_store_heads t s ff l pp d c pr cn li co raw1 n) as G;
      pose proof (rawx_store_length t s ff l pp d c pr cn li co raw1 n) as GL;
      destruct (rawx_store t s ff l pp d c pr cn li co (raw1, n)) as [raw2 n2]
  end.
  cbv zeta in G. cbn [fst snd] in G, GL |- *. rewrite Hobs in G, GL. rewrite Hfs in G.
  destruct (G Hn) as [Gn Gh]. clear G.
  pose proof (find_sat_spec raw n sat ltac:(lia)) as Hsp. cbv zeta in Hsp.
  assert (Hsat : forall k, obsd_sat (data_get raw2 k) = fst (obsd_head (data_get raw2 k)))
    by reflexivity.
  assert (Htime : forall k, obsd_time (data_get raw2 k) = snd (obsd_head (data_get raw2 k)))
    by reflexivity.
  split; [destruct (n <=? find_sat raw n sat); lia|].
  split; [|split; [|exact GL]].
  - intros k Hk. rewrite Hsat, Htime, Gh.
    destruct (n <=? find_sat raw n sat) eqn:E; cbn [andb].
    + destruct (k =? n) eqn:Ek; cbn [fst snd]; [auto|].
      rewrite Hdg. apply He. apply Z.eqb_neq in Ek. lia.
    + cbn [fst snd]. rewrite Hdg. apply He. lia.
  - intros k1 k2 Hk1 Hk2. rewrite !Hsat, !Gh.
    destruct (n <=? find_sat raw n sat) eqn:E; cbn [andb].
    + assert (Hj : find_sat raw n sat = n) by (destruct Hsp as [[? ?]|[? ?]]; lia).
      destruct Hsp as [[_ Hno]|[? ?]]; [|lia].
      destruct (k1 =? n) eqn:E1; [apply Z.eqb_eq in E1; lia|].
      destruct (k2 =? n) eqn:E2; cbn [fst snd]; rewrite ?Hdg.
      * apply Hno. lia.
      * apply Z.eqb_neq in E2. apply Hd; lia.
    + cbn [fst snd]. rewrite !Hdg. apply Hd; lia.
Qed.
End ObsStore.

Section ObsRawx.
Context {lib : rtklib}.

Lemma rawx_loop_epoch (time : gtime_t) (toff : float) (ver cv cs : Z) (pf : Z -> list Z)
    (k : nat) :
  forall (i : Z) (raw : raw_t) (n : Z),
    0 <= n -> MAXOBS <= Z.of_nat (length (obs_data (raw_obs raw))) ->
    epoch_ok time raw n -> sats_distinct raw n ->
    let st' := rawx_loop k i (fun i => rawx_meas time toff ver cv cs (pf i)) (raw, n) in
    n <= snd st' <= n + Z.of_nat k /\ snd st' <= Z.max n MAXOBS
    /\ epoch_ok time (fst st') (snd st') /\ sats_distinct (fst st') (snd st').
Proof.
  induction k as [|k IH]; intros i raw n Hn HM He Hd; cbv zeta; cbn [rawx_loop].
  - cbn [fst snd]. split; [lia|]. split; [lia|]. split; assumption.
  - cbn [snd]. destruct (n <? MAXOBS) eqn:E.
    + pose proof (rawx_meas_epoch time toff ver cv cs (pf i) raw n ltac:(lia) He Hd) as H.
      cbv zeta in H.
      destruct (rawx_meas time toff ver cv cs (pf i) (raw, n)) as [raw1 n1].
      cbn [fst snd] in H. destruct H as (Hn1 & He1 & Hd1 & Hl1).
      pose proof (IH (i + 1) raw1 n1 ltac:(lia) ltac:(lia) He1 Hd1) as H. cbv zeta in H.
      destruct H as (Hc & Hm & He2 & Hd2).
      split; [lia|]. split; [lia|]. split; assumption.
    + cbn [fst snd]. split; [lia|]. split; [lia|]. split; assumption.
Qed.

(** X10. An RXM-RAWX message that passes the length tests with a week
    other than 0 returns 1 and leaves an epoch of [n = obs.n] records with
    [n <= min(numMeas, MAXOBS)]; each of them carries a satellite number
    other than 0 and the time of the epoch ([raw->time]), and no two of them
    are of the same satellite. *)
Theorem decode_rxmrawx_epoch (raw : raw_t) :
  let p := at_off (raw_buff raw) 6 in
  let nmeas := U1 (at_off p 11) in
  24 <= raw_len raw -> 24 + 32 * nmeas <= raw_len raw -> U2 (at_off p 8) <> 0 ->
  0 <= MAXOBS <= Z.of_nat (length (obs_data (raw_obs raw))) ->
  let raw' := snd (decode_rxmrawx raw) in
  let n := obs_n (raw_obs raw') in
  fst (decode_rxmrawx raw) = 1
  /\ 0 <= n <= Z.min nmeas MAXOBS
  /\ epoch_ok (raw_time raw') raw' n
  /\ sats_distinct raw' n.
Proof.
  intros p nmeas H24 Hlen Hweek HM. cbv zeta. unfold decode_rxmrawx. fold p. fold nmeas.
  destruct (raw_len raw <? 24) eqn:E1; [lia|].
  destruct (raw_len raw <? 24 + 32 * nmeas) eqn:E2; [lia|].
  destruct (U2 (at_off p 8) =? 0) eqn:E3; [lia|].
  destruct (time_adjust _ _) as [toff time].
  set (raw0 := if raw_outtype raw =? 0 then raw else _).
  assert (H0 : raw_obs raw0 = raw_obs raw) by (subst raw0; destruct (raw_outtype raw =? 0); reflexivity).
  assert (Hnm : 0 <= nmeas) by (unfold nmeas, U1; apply Z.mod_pos_bound; lia).
  match goal with
  | |- context [rawx_loop ?k0 ?i0 ?body0 (raw0, 0)] =>
      pose proof (rawx_loop_epoch time toff
                    (U1 (at_off p 13)) (opt_cpstd_valid (raw_opt raw0))
                    (opt_cpstd_slip (raw_opt raw0)) (fun i => at_off p (16 + 32 * i))
                    k0 i0 raw0 0 ltac:(lia) ltac:(rewrite H0; lia)) as H
  end.
  cbv zeta in H.
  destruct (rawx_loop _ _ _ _) as [raw1 n1]. cbn [fst snd] in H |- *.
  destruct H as (Hc & Hm & He & Hd).
  - intros j Hj. lia.
  - intros j k Hj Hk. lia.
  - cbn [obs_n raw_obs set_obs set_time obs_with_n raw_time].
    split; [reflexivity|]. split; [lia|]. split.
    + intros j Hj. apply (He j Hj).
    + intros j k Hj Hk. apply (Hd j k Hj Hk).
Qed.
End ObsRawx.

Lemma decode_rxmrawx_epoch_witness :
  let raw' := snd (decode_rxmrawx (lib := ref_lib) (with_frame ref_raw0 (frame_rawx 7 1))) in
  fst (decode_rxmrawx (lib := ref_lib) (with_frame ref_raw0 (frame_rawx 7 1))) = 1
  /\ obs_n (raw_obs raw') = 1
  /\ epoch_ok (raw_time raw') raw' 1.
Proof.
  pose proof (@decode_rxmrawx_epoch ref_lib (with_frame ref_raw0 (frame_rawx 7 1))) as W.
  cbv zeta in W. destruct W as (W1 & W2 & W3 & W4).
  - vm_compute. discriminate.
  - vm_compute. discriminate.
  - vm_compute. discriminate.
  - vm_compute. split; discriminate.
  - cbv zeta. split; [exact W1|]. split; [vm_compute; reflexivity|].
    replace 1 with (obs_n (raw_obs (snd (decode_rxmrawx (lib := ref_lib)
                      (with_frame ref_raw0 (frame_rawx 7 1)))))) at 2
      by (vm_compute; reflexivity).
    exact W3.
Defined.

Section ObsRaw.
Context {lib : rtklib}.

Ltac data_len :=
  repeat first [ rewrite data_upd_length
               | progress change (raw_obs (set_lockt ?r ?x)) with (raw_obs r) ];
  lia.

Ltac data_simpl :=
  repeat first
    [ rewrite data_get_upd_ne by lia
    | rewrite data_get_upd_eq by data_len
    | progress change (data_get (set_lockt ?r ?x) ?k) with (data_get r k)
    | progress change (raw_obs (set_lockt ?r ?x)) with (raw_obs r)
    | rewrite data_upd_length ].

(** One satellite block of RXM-RAW: record [n] is written, and counted
    when the satellite number is valid. *)
Lemma rxmraw_meas_epoch (time : gtime_t) (toff tt : float) (p : list Z)
    (raw : raw_t) (n : Z) :
  0 <= n < Z.of_nat (length (obs_data (raw_obs raw))) ->
  epoch_ok time raw n ->
  let st' := rxmraw_meas time toff tt p (raw, n) in
  n <= snd st' <= n + 1
  /\ epoch_ok time (fst st') (snd st')
  /\ length (obs_data (raw_obs (fst st'))) = length (obs_data (raw_obs raw)).
Proof.
  intros Hn He. cbv zeta. unfold rxmraw_meas.
  set (raw7 := data_upd _ n (fun o => obsd_with_code o 0 CODE_L1C)).
  assert (H7 : length (obs_data (raw_obs raw7)) = length (obs_data (raw_obs raw))
               /\ (forall j, j <> n -> data_get raw7 j = data_get raw j)
               /\ obsd_time (data_get raw7 n) = time).
  { subst raw7. split; [data_simpl; reflexivity|]. split.
    - intros j Hj. data_simpl. reflexivity.
    - data_simpl. reflexivity. }
  clearbody raw7. destruct H7 as (Hl7 & Hj7 & Ht7).
  set (raw8 := if has_opt (raw_opt raw7) "-INVCP" then _ else raw7).
  assert (H8 : length (obs_data (raw_obs raw8)) = length (obs_data (raw_obs raw))
               /\ (forall j, j <> n -> data_get raw8 j = data_get raw j)
               /\ obsd_time (data_get raw8 n) = time).
  { subst raw8. destruct (has_opt _ _); [|auto].
    split; [data_simpl; exact Hl7|]. split.
    - intros j Hj. data_simpl. apply Hj7. exact Hj.
    - rewrite data_get_upd_eq by lia. exact Ht7. }
  clearbody raw8. destruct H8 as (Hl8 & Hj8 & Ht8).
  set (sat := satno _ _).
  destruct (sat =? 0) eqn:Es; cbn [fst snd].
  - split; [lia|]. split; [|exact Hl8].
    intros j Hj. rewrite Hj8 by lia. apply He. exact Hj.
  - apply Z.eqb_neq in Es. split; [lia|]. split.
    + intros j Hj. destruct (Z.eq_dec j n) as [->|Hne].
      * data_simpl.
        destruct (obsd_clear_from_head true 1 (obsd_with_sat (data_get raw8 n) sat))
          as [H1 H2].
        rewrite H1, H2. cbn [obsd_sat obsd_time obsd_with_sat]. auto.
      * data_simpl. rewrite Hj8 by lia. apply He. lia.
    + data_simpl. exact Hl8.
Qed.

(** X11. An RXM-RAW message that passes the length test with a week other
    than 0 returns 1 and leaves [obs.n <= min(nsat, MAXOBS)] records, each
    with a satellite number other than 0 and the time of the epoch. *)
Theorem decode_rxmraw_epoch (raw : raw_t) :
  let p := at_off (raw_buff raw) 6 in
  let nsat := U1 (at_off p 6) in
  12 + 24 * nsat <= raw_len raw -> U2 (at_off p 4) <> 0 ->
  0 <= MAXOBS <= Z.of_nat (length (obs_data (raw_obs raw))) ->
  let raw' := snd (decode_rxmraw raw) in
  let n := obs_n (raw_obs raw') in
  fst (decode_rxmraw raw) = 1
  /\ 0 <= n <= Z.min nsat MAXOBS
  /\ epoch_ok (raw_time raw') raw' n.
Proof.
  intros p nsat Hlen Hweek HM. cbv zeta. unfold decode_rxmraw. fold p. fold nsat.
  set (raw0 := if raw_outtype raw =? 0 then raw else _).
  assert (H0 : raw_obs raw0 = raw_obs raw /\ raw_len raw0 = raw_len raw)
    by (subst raw0; destruct (raw_outtype raw =? 0); split; reflexivity).
  destruct H0 as [H0 H0l]. rewrite H0l.
  destruct (raw_len raw <? 12 + 24 * nsat) eqn:E1; [lia|].
  destruct (U2 (at_off p 4) =? 0) eqn:E3; [lia|].
  destruct (time_adjust _ _) as [toff time].
  assert (Hns : 0 <= nsat) by (unfold nsat, U1; apply Z.mod_pos_bound; lia).
  set (tt := timediff time (raw_time raw0)).
  unfold for_range.
  pose proof (for_loop_ind
    (fun i (st : raw_t * Z) =>
       0 <= snd st <= i /\ epoch_ok time (fst st) (snd st)
       /\ length (obs_data (raw_obs (fst st))) = length (obs_data (raw_obs raw)))
    (Z.to_nat (Z.min nsat MAXOBS - 0)) 0
    (fun i => rxmraw_meas time toff tt (at_off p (8 + 24 * i))) (raw0, 0)) as H.
  destruct (for_loop _ 0 _ (raw0, 0)) as [raw1 n1]. cbn [fst snd] in H.
  destruct H as (Hc & He & Hl).
  - intros k [rawk nk] Hk (Hck & Hek & Hlk). cbn [fst snd] in *.
    pose proof (rxmraw_meas_epoch time toff tt (at_off p (8 + 24 * k)) rawk nk
                  ltac:(lia) Hek) as G.
    cbv zeta in G. destruct G as (G1 & G2 & G3).
    split; [lia|]. split; [exact G2|congruence].
  - split; [lia|]. split; [intros j Hj; lia|rewrite H0; reflexivity].
  - cbn [fst snd obs_n raw_obs set_obs set_time obs_with_n raw_time].
    split; [reflexivity|]. split; [lia|].
    intros j Hj. apply (He j Hj).
Qed.
End ObsRaw.

Lemma decode_rxmraw_epoch_witness :
  let raw := with_frame ref_raw0 (wr frame_rxmraw_week0 10 1) in
  fst (decode_rxmraw (lib := ref_lib) raw) = 1
  /\ 0 <= obs_n (raw_obs (snd (decode_rxmraw (lib := ref_lib) raw))) <= 1.
Proof.
  pose proof (@decode_rxmraw_epoch ref_lib
                (with_frame ref_raw0 (wr frame_rxmraw_week0 10 1))) as W.
  cbv zeta in W. destruct W as (W1 & W2 & W3).
  - vm_compute. discriminate.
  - vm_compute. discriminate.
  - vm_compute. split; discriminate.
  - cbv zeta. split; [exact W1|].
    replace 1 with (Z.min
      (U1 (at_off (at_off (raw_buff (with_frame ref_raw0 (wr frame_rxmraw_week0 10 1))) 6) 6))
      (@MAXOBS ref_lib)) at 2 by (vm_compute; reflexivity).
    exact W2.
Defined.

(** ** What each message leaves alone *)

Lemma keep_for_range {A : Type} (proj : raw_t -> A) (lo hi : Z)
    (body : Z -> raw_t * Z -> raw_t * Z) (st : raw_t * Z) :
  (forall k x, proj (fst (body k x)) = proj (fst x)) ->
  proj (fst (for_range lo hi body st)) = proj (fst st).
Proof.
  intros Hb.
  apply (for_range_inv (fun x => proj (fst x) = proj (fst st))); [|reflexivity].
  intros k x Hx. rewrite Hb. exact Hx.
Qed.

Lemma keep_rawx_loop `{rtklib} {A : Type} (proj : raw_t -> A) (k : nat) (i : Z)
    (body : Z -> raw_t * Z -> raw_t * Z) (st : raw_t * Z) :
  (forall k x, proj (fst (body k x)) = proj (fst x)) ->
  proj (fst (rawx_loop k i body st)) = proj (fst st).
Proof.
  intros Hb. revert i st. induction k as [|k IH]; intros i st; simpl; [reflexivity|].
  destruct (snd st <? MAXOBS); [|reflexivity]. rewrite IH. apply Hb.
Qed.

Ltac side_cbn :=
  cbn [raw_nav raw_subfrm raw_sbsmsg raw_ephsat raw_obs raw_time raw_lockt raw_halfc
       raw_lockflag set_time set_obs set_nav set_sbsmsg set_msgtype
       set_subfrm set_lockt set_halfc set_lockflag set_ephsat set_subfrm_row data_upd
       fst snd] in *.

Ltac nav_body :=
  unfold nav_side;
  repeat first
    [ reflexivity
    | progress cbn [fst snd]
    | match goal with
      | |- context [if ?c then _ else _] => destruct c
      | |- context [match ?e with (_, _) => _ end] => destruct e
      | |- context [match ?e with SYS_NONE => _ | _ => _ end] => destruct e
      end ].

Section SidesNav.
Context {lib : rtklib}.

Lemma nav_rxmraw_meas (time : gtime_t) (toff tt : float) (p : list Z) (st : raw_t * Z) :
  nav_side (fst (rxmraw_meas time toff tt p st)) = nav_side (fst st).
Proof. unfold rxmraw_meas. destruct st as [raw n]. nav_body. Qed.

Lemma nav_rawx_slip (cs : Z) (sys : sys_t) (sat f lockt cpstd tstat : Z) (L : float)
    (raw : raw_t) :
  nav_side (fst (rawx_slip cs sys sat f lockt cpstd tstat L raw)) = nav_side raw.
Proof. unfold rawx_slip. nav_body. Qed.

Lemma nav_rawx_store (time : gtime_t) (sat f : Z) (L P D : float)
    (cpstd prstd cn0 LLI : Z) (code : code_t) (st : raw_t * Z) :
  nav_side (fst (rawx_store time sat f L P D cpstd prstd cn0 LLI code st)) = nav_side (fst st).
Proof. unfold rawx_store. destruct st as [raw n]. nav_body. Qed.

Lemma nav_rawx_meas (time : gtime_t) (toff : float) (ver cv cs : Z) (p : list Z)
    (st : raw_t * Z) :
  nav_side (fst (rawx_meas time toff ver cv cs p st)) = nav_side (fst st).
Proof.
  unfold rawx_meas. destruct st as [raw n].
  destruct (sys_eqb _ SYS_NONE); [reflexivity|].
  destruct (satno _ _ =? 0); [reflexivity|].
  destruct (_ || _); [reflexivity|].
  match goal with
  | |- context [rawx_slip ?a ?b ?c ?d ?e ?g ?h ?i ?j] =>
      pose proof (nav_rawx_slip a b c d e g h i j) as Hs;
      destruct (rawx_slip a b c d e g h i j) as [raw1 LLI]
  end.
  cbn [fst] in Hs. rewrite nav_rawx_store. exact Hs.
Qed.

Lemma nav_trkmeas_ch (time : gtime_t) (tr utc_gpst : float) (fw : Z) (p : list Z)
    (st : raw_t * Z) :
  nav_side (fst (trkmeas_ch time tr utc_gpst fw p st)) = nav_side (fst st).
Proof. unfold trkmeas_ch. destruct st as [raw n]. nav_body. Qed.

Lemma nav_trkd5_ch (time : gtime_t) (tr utc_gpst : float) (type : Z) (p : list Z)
    (st : raw_t * Z) :
  nav_side (fst (trkd5_ch time tr utc_gpst type p st)) = nav_side (fst st).
Proof. unfold trkd5_ch. destruct st as [raw n]. nav_body. Qed.

Ltac nav_loop lem :=
  match goal with
  | |- context [for_range ?lo ?hi ?b ?s] =>
      lazymatch type of s with
      | (raw_t * Z)%type =>
          let HL := fresh "HL" in
          assert (HL : nav_side (fst (for_range lo hi b s)) = nav_side (fst s))
            by (apply (keep_for_range nav_side); intros; apply lem);
          destruct (for_range lo hi b s); cbn [fst snd] in HL
      end
  | |- context [rawx_loop ?k ?i ?b ?s] =>
      let HL := fresh "HL" in
      assert (HL : nav_side (fst (rawx_loop k i b s)) = nav_side (fst s))
        by (apply (keep_rawx_loop nav_side); intros; apply lem);
      destruct (rawx_loop k i b s); cbn [fst snd] in HL
  end.

Ltac nav_done :=
  repeat match goal with
         | HL : context [if ?c then _ else _] |- _ => destruct c
         end;
  unfold nav_side in *; side_cbn; congruence.

Ltac nav_with lem :=
  repeat first
    [ nav_loop lem
    | progress cbn [fst snd]
    | match goal with
      | |- context [if ?c then _ else _] => destruct c
      | |- context [match ?e with (_, _) => _ end] => destruct e
      end ];
  nav_done.

Lemma nav_decode_rxmraw (raw : raw_t) : nav_side (snd (decode_rxmraw raw)) = nav_side raw.
Proof. unfold decode_rxmraw. nav_with @nav_rxmraw_meas. Qed.

Lemma nav_decode_rxmrawx (raw : raw_t) : nav_side (snd (decode_rxmrawx raw)) = nav_side raw.
Proof. unfold decode_rxmrawx. nav_with @nav_rawx_meas. Qed.

Lemma nav_decode_trkmeas (raw : raw_t) : nav_side (snd (decode_trkmeas raw)) = nav_side raw.
Proof. unfold decode_trkmeas. nav_with @nav_trkmeas_ch. Qed.

Lemma nav_decode_trkd5 (raw : raw_t) : nav_side (snd (decode_trkd5 raw)) = nav_side raw.
Proof. unfold decode_trkd5. nav_with @nav_trkd5_ch. Qed.

Lemma nav_decode_navsol (raw : raw_t) : nav_side (snd (decode_navsol raw)) = nav_side raw.
Proof. unfold decode_navsol. nav_body. Qed.

Lemma nav_decode_navtime (raw : raw_t) : nav_side (snd (decode_navtime raw)) = nav_side raw.
Proof. unfold decode_navtime. nav_body. Qed.

Lemma nav_decode_timtm2 (raw : raw_t) : nav_side (snd (decode_timtm2 raw)) = nav_side raw.
Proof. unfold decode_timtm2. nav_body. Qed.

End SidesNav.

Section SidesObs.
Context {lib : rtklib}.

Ltac obs_nav :=
  unfold obs_side;
  repeat first
    [ reflexivity
    | progress cbn [fst snd]
    | match goal with
      | |- context [if ?c then _ else _] => destruct c
      | |- context [match ?e with (_, _) => _ end] => destruct e
      | |- context [match ?e with SYS_NONE => _ | _ => _ end] => destruct e
      end ];
  repeat match goal with
         | HL : context [if ?c then _ else _] |- _ => destruct c
         end;
  unfold obs_side in *; side_cbn; congruence.

Lemma obs_save_subfrm (sat : Z) (raw : raw_t) :
  obs_side (snd (save_subfrm sat raw)) = obs_side raw.
Proof. unfold save_subfrm. obs_nav. Qed.

Lemma obs_decode_ephem (sat : Z) (raw : raw_t) :
  obs_side (snd (decode_ephem sat raw)) = obs_side raw.
Proof. unfold decode_ephem. obs_nav. Qed.

Lemma obs_decode_frame_alm (buff : list Z) (gps full : bool) (raw : raw_t) :
  obs_side (decode_frame_alm buff gps full raw) = obs_side raw.
Proof. reflexivity. Qed.

Lemma obs_decode_alm1 (sat : Z) (raw : raw_t) :
  obs_side (snd (decode_alm1 sat raw)) = obs_side raw.
Proof. unfold decode_alm1. destruct (fst (satsys sat)); reflexivity. Qed.

Lemma obs_decode_alm2 (sat : Z) (raw : raw_t) :
  obs_side (snd (decode_alm2 sat raw)) = obs_side raw.
Proof. unfold decode_alm2. destruct (fst (satsys sat)); reflexivity. Qed.

Ltac obs_calls :=
  repeat match goal with
         | |- context [save_subfrm ?a ?b] =>
             let HC := fresh "HC" in
             pose proof (obs_save_subfrm a b) as HC;
             destruct (save_subfrm a b); cbn [fst snd] in HC
         | |- context [decode_ephem ?a ?b] =>
             let HC := fresh "HC" in
             pose proof (obs_decode_ephem a b) as HC;
             destruct (decode_ephem a b); cbn [fst snd] in HC
         | |- context [decode_alm1 ?a ?b] =>
             let HC := fresh "HC" in
             pose proof (obs_decode_alm1 a b) as HC;
             destruct (decode_alm1 a b); cbn [fst snd] in HC
         | |- context [decode_alm2 ?a ?b] =>
             let HC := fresh "HC" in
             pose proof (obs_decode_alm2 a b) as HC;
             destruct (decode_alm2 a b); cbn [fst snd] in HC
         end.

Lemma obs_decode_rxmsfrb (raw : raw_t) :
  obs_side (snd (decode_rxmsfrb raw)) = obs_side raw.
Proof.
  unfold decode_rxmsfrb.
  destruct (raw_len _ <? 42); [obs_nav|].
  destruct (satno _ _ =? 0); [obs_nav|].
  destruct (satsys _) as [sys prn]. destruct sys; try obs_nav.
  obs_calls. obs_nav.
Qed.

Lemma obs_decode_nav (raw : raw_t) (sat off : Z) :
  obs_side (snd (decode_nav raw sat off)) = obs_side raw.
Proof. unfold decode_nav. obs_calls. obs_nav. Qed.

Lemma obs_decode_enav (raw : raw_t) (sat off : Z) :
  obs_side (snd (decode_enav raw sat off)) = obs_side raw.
Proof. unfold decode_enav. obs_nav. Qed.

Lemma obs_decode_cnav (raw : raw_t) (sat off : Z) :
  obs_side (snd (decode_cnav raw sat off)) = obs_side raw.
Proof. unfold decode_cnav. obs_nav. Qed.

Lemma obs_decode_gnav (raw : raw_t) (sat off frq : Z) :
  obs_side (snd (decode_gnav raw sat off frq)) = obs_side raw.
Proof. unfold decode_gnav. obs_nav. Qed.

Lemma obs_decode_snav (raw : raw_t) (sat off : Z) :
  obs_side (snd (decode_snav raw sat off)) = obs_side raw.
Proof. unfold decode_snav. obs_nav. Qed.

Lemma obs_decode_sfrbx_sys (raw : raw_t) (sys : sys_t) (sat off frq : Z) :
  obs_side (snd (decode_sfrbx_sys raw sys sat off frq)) = obs_side raw.
Proof.
  unfold decode_sfrbx_sys.
  destruct sys; auto using obs_decode_nav, obs_decode_enav, obs_decode_cnav,
    obs_decode_gnav, obs_decode_snav.
Qed.

Lemma obs_decode_rxmsfrbx (raw : raw_t) :
  obs_side (snd (decode_rxmsfrbx raw)) = obs_side raw.
Proof.
  unfold decode_rxmsfrbx.
  repeat match goal with
         | |- context [decode_sfrbx_sys ?a ?b ?c ?d ?e] =>
             pose proof (obs_decode_sfrbx_sys a b c d e);
             destruct (decode_sfrbx_sys a b c d e)
         end.
  obs_nav.
Qed.

Lemma obs_decode_trksfrbx (raw : raw_t) :
  obs_side (snd (decode_trksfrbx raw)) = obs_side raw.
Proof.
  unfold decode_trksfrbx.
  repeat match goal with
         | |- context [decode_sfrbx_sys ?a ?b ?c ?d ?e] =>
             pose proof (obs_decode_sfrbx_sys a b c d e);
             destruct (decode_sfrbx_sys a b c d e)
         end.
  obs_nav.
Qed.

(** X13. The decoders of navigation data (RXM-SFRB, RXM-SFRBX, TRK-SFRBX)
    never write to the observations, the time or the tables [lockt],
    [halfc] and [lockflag]. *)
Theorem navigation_keeps_measurements (raw : raw_t) :
  obs_side (snd (decode_rxmsfrb raw)) = obs_side raw
  /\ obs_side (snd (decode_rxmsfrbx raw)) = obs_side raw
  /\ obs_side (snd (decode_trksfrbx raw)) = obs_side raw.
Proof.
  split; [apply obs_decode_rxmsfrb|].
  split; [apply obs_decode_rxmsfrbx|apply obs_decode_trksfrbx].
Qed.
End SidesObs.

Lemma eph_of_nav_side (r r' : raw_t) : nav_side r' = nav_side r -> eph_side r' = eph_side r.
Proof. unfold nav_side, eph_side. intros [= -> _ _ ->]. reflexivity. Qed.

Section SidesEph.
Context {lib : rtklib}.

Ltac eph_leaf :=
  unfold eph_kept, eph_side in *; cbn [fst snd] in *;
  first [ left; reflexivity
        | right; side_cbn; first [reflexivity | congruence]
        | match goal with
          | H : _ \/ _ |- _ => destruct H; [left; assumption | right; side_cbn; congruence]
          end ].

Ltac eph_nav :=
  repeat first
    [ progress cbn [fst snd]
    | match goal with
      | |- context [if ?c then _ else _] => destruct c
      | |- context [match ?e with (_, _) => _ end] => destruct e
      | |- context [match ?e with SYS_NONE => _ | _ => _ end] => destruct e
      end ];
  eph_leaf.

Lemma eph_decode_frame_alm (buff : list Z) (gps full : bool) (raw : raw_t) :
  eph_side (decode_frame_alm buff gps full raw) = eph_side raw.
Proof. unfold decode_frame_alm. destruct gps; reflexivity. Qed.

Lemma eph_save_subfrm (sat : Z) (raw : raw_t) :
  eph_side (snd (save_subfrm sat raw)) = eph_side raw.
Proof.
  unfold save_subfrm.
  repeat first
    [ reflexivity
    | progress cbn [fst snd]
    | match goal with
      | |- context [if ?c then _ else _] => destruct c
      | |- context [match ?e with (_, _) => _ end] => destruct e
      end ].
Qed.

Lemma eph_decode_ephem (sat : Z) (raw : raw_t) : eph_kept raw (decode_ephem sat raw).
Proof. unfold decode_ephem. eph_nav. Qed.

Lemma eph_decode_alm1 (sat : Z) (raw : raw_t) : eph_kept raw (decode_alm1 sat raw).
Proof.
  unfold decode_alm1, eph_kept. right.
  destruct (fst (satsys sat)); cbn [snd]; try reflexivity;
    unfold eph_side; cbn [raw_nav raw_ephsat set_nav nav_eph nav_geph nav_with_utc_gps
                          nav_with_utc_qzs];
    match goal with
    | |- context [decode_frame_alm ?b ?g ?f ?r] =>
        pose proof (eph_decode_frame_alm b g f r) as E; unfold eph_side in E;
        injection E as E1 E2 E3; rewrite E1, E2, E3; reflexivity
    end.
Qed.

Lemma eph_decode_alm2 (sat : Z) (raw : raw_t) : eph_kept raw (decode_alm2 sat raw).
Proof.
  unfold decode_alm2, eph_kept. right.
  destruct (fst (satsys sat)); cbn [snd]; try reflexivity;
    unfold eph_side; cbn [raw_nav raw_ephsat set_nav nav_eph nav_geph nav_with_utc_gps
                          nav_with_utc_qzs];
    match goal with
    | |- context [decode_frame_alm ?b ?g ?f ?r] =>
        pose proof (eph_decode_frame_alm b g f r) as E; unfold eph_side in E;
        injection E as E1 E2 E3; rewrite ?E1, ?E2, ?E3; reflexivity
    end.
Qed.

Lemma eph_kept_trans (raw raw1 : raw_t) (r : Z * raw_t) :
  eph_side raw1 = eph_side raw -> eph_kept raw1 r -> eph_kept raw r.
Proof. unfold eph_kept. intros E [H|H]; [left; exact H|right; congruence]. Qed.

Lemma eph_subframes (id sat : Z) (raw raw1 : raw_t) :
  eph_side raw1 = eph_side raw ->
  eph_kept raw
    (if id =? 3 then decode_ephem sat raw1
     else if id =? 4 then decode_alm1 sat raw1
     else if id =? 5 then decode_alm2 sat raw1
     else (0, raw1)).
Proof.
  intros E.
  destruct (id =? 3); [eapply eph_kept_trans; [exact E|apply eph_decode_ephem]|].
  destruct (id =? 4); [eapply eph_kept_trans; [exact E|apply eph_decode_alm1]|].
  destruct (id =? 5); [eapply eph_kept_trans; [exact E|apply eph_decode_alm2]|].
  right. exact E.
Qed.

Lemma eph_decode_rxmsfrb (raw : raw_t) : eph_kept raw (decode_rxmsfrb raw).
Proof.
  unfold decode_rxmsfrb.
  set (raw0 := if raw_outtype raw =? 0 then raw else _).
  assert (E0 : eph_side raw0 = eph_side raw)
    by (subst raw0; destruct (raw_outtype raw =? 0); reflexivity).
  apply (eph_kept_trans raw raw0); [exact E0|]. clearbody raw0.
  destruct (raw_len _ <? 42); [right; reflexivity|].
  destruct (satno _ _ =? 0); [right; reflexivity|].
  destruct (satsys _) as [sys prn].
  destruct sys;
    try (match goal with |- eph_kept _ (_, ?r) => is_var r end; right; reflexivity).
  - match goal with
    | |- context [save_subfrm ?a ?b] =>
        pose proof (eph_save_subfrm a b) as Es;
        destruct (save_subfrm a b) as [id raw1]
    end.
    cbn [snd] in Es. apply eph_subframes. exact Es.
  - match goal with
    | |- context [sbsdecodemsg ?a ?b ?c ?d] => destruct (sbsdecodemsg a b c d) as [r msg]
    end.
    right. reflexivity.
Qed.

Lemma eph_decode_nav (raw : raw_t) (sat off : Z) : eph_kept raw (decode_nav raw sat off).
Proof.
  unfold decode_nav.
  destruct (raw_len raw <? 48 + off); [right; reflexivity|].
  destruct (_ =? PREAMB_CNAV); [right; reflexivity|].
  destruct (_ || _); [right; reflexivity|].
  apply eph_subframes. reflexivity.
Qed.

Lemma eph_decode_enav (raw : raw_t) (sat off : Z) : eph_kept raw (decode_enav raw sat off).
Proof. unfold decode_enav. eph_nav. Qed.

Lemma eph_decode_cnav (raw : raw_t) (sat off : Z) : eph_kept raw (decode_cnav raw sat off).
Proof. unfold decode_cnav. eph_nav. Qed.

Lemma eph_decode_gnav (raw : raw_t) (sat off frq : Z) :
  eph_kept raw (decode_gnav raw sat off frq).
Proof. unfold decode_gnav. eph_nav. Qed.

Lemma eph_decode_snav (raw : raw_t) (sat off : Z) : eph_kept raw (decode_snav raw sat off).
Proof. unfold decode_snav. eph_nav. Qed.

Lemma eph_decode_sfrbx_sys (raw : raw_t) (sys : sys_t) (sat off frq : Z) :
  eph_kept raw (decode_sfrbx_sys raw sys sat off frq).
Proof.
  unfold decode_sfrbx_sys.
  destruct sys;
    first [ apply eph_decode_nav | apply eph_decode_enav | apply eph_decode_cnav
          | apply eph_decode_gnav | apply eph_decode_snav | right; reflexivity ].
Qed.

Lemma eph_decode_rxmsfrbx (raw : raw_t) : eph_kept raw (decode_rxmsfrbx raw).
Proof.
  unfold decode_rxmsfrbx.
  set (raw0 := if raw_outtype raw =? 0 then raw else _).
  assert (E0 : eph_side raw0 = eph_side raw)
    by (subst raw0; destruct (raw_outtype raw =? 0); reflexivity).
  apply (eph_kept_trans raw raw0); [exact E0|]. clearbody raw0.
  destruct (sys_eqb _ SYS_NONE); [right; reflexivity|].
  destruct (satno _ _ =? 0); [destruct (_ && _); right; reflexivity|].
  apply eph_decode_sfrbx_sys.
Qed.

Lemma eph_decode_trksfrbx (raw : raw_t) : eph_kept raw (decode_trksfrbx raw).
Proof.
  unfold decode_trksfrbx.
  set (raw0 := if raw_outtype raw =? 0 then raw else _).
  assert (E0 : eph_side raw0 = eph_side raw)
    by (subst raw0; destruct (raw_outtype raw =? 0); reflexivity).
  apply (eph_kept_trans raw raw0); [exact E0|]. clearbody raw0.
  destruct (sys_eqb _ SYS_NONE); [right; reflexivity|].
  destruct (satno _ _ =? 0); [right; reflexivity|].
  apply eph_decode_sfrbx_sys.
Qed.

End SidesEph.


Lemma obs_of_obs_side (r r' : raw_t) : obs_side r' = obs_side r -> raw_obs r' = raw_obs r.
Proof. unfold obs_side. intros [= -> _ _ _ _]. reflexivity. Qed.

Section SidesStatus.
Context {lib : rtklib}.

(** The outermost test of the result. *)
Ltac top_if :=
  match goal with
  | |- _ \/ raw_obs (snd (if ?c then _ else _)) = _ => destruct c
  end.
Ltac top_pair :=
  match goal with
  | |- _ \/ raw_obs (snd (let '(_, _) := ?e in _)) = _ => destruct e
  end.

(** A channel is skipped without a write to the observations, or counted. *)
Lemma trkmeas_ch_count (time : gtime_t) (tr utc_gpst : float) (fw : Z) (p : list Z)
    (raw : raw_t) (n : Z) :
  let st' := trkmeas_ch time tr utc_gpst fw p (raw, n) in
  (snd st' = n /\ raw_obs (fst st') = raw_obs raw) \/ snd st' = n + 1.
Proof.
  cbv zeta. unfold trkmeas_ch.
  repeat first
    [ progress cbn [fst snd]
    | match goal with
      | |- context [if ?c then (_, _) else _] => destruct c
      | |- context [if ?c then ?st else _] =>
          lazymatch type of st with (raw_t * Z)%type => destruct c end
      end ];
    first [ right; reflexivity
          | left; split; [reflexivity|];
            repeat match goal with |- context [if ?c then _ else _] => destruct c end;
            reflexivity ].
Qed.

Lemma trkd5_ch_count (time : gtime_t) (tr utc_gpst : float) (type : Z) (p : list Z)
    (raw : raw_t) (n : Z) :
  let st' := trkd5_ch time tr utc_gpst type p (raw, n) in
  (snd st' = n /\ raw_obs (fst st') = raw_obs raw) \/ snd st' = n + 1.
Proof.
  cbv zeta. unfold trkd5_ch.
  repeat first
    [ progress cbn [fst snd]
    | match goal with
      | |- context [if ?c then (_, _) else _] => destruct c
      | |- context [if ?c then ?st else _] =>
          lazymatch type of st with (raw_t * Z)%type => destruct c end
      end ];
    first [ right; reflexivity
          | left; split; [reflexivity|];
            repeat match goal with |- context [if ?c then _ else _] => destruct c end;
            reflexivity ].
Qed.

(** A loop over channels that ends with no channel counted has not
    written to the observations. *)
Lemma channels_count (body : Z -> raw_t * Z -> raw_t * Z) (lo hi : Z) (raw : raw_t) :
  (forall k r n, (snd (body k (r, n)) = n /\ raw_obs (fst (body k (r, n))) = raw_obs r)
                 \/ snd (body k (r, n)) = n + 1) ->
  let st' := for_range lo hi body (raw, 0) in
  0 <= snd st' /\ (snd st' = 0 -> raw_obs (fst st') = raw_obs raw).
Proof.
  intros Hb. cbv zeta.
  apply (for_range_inv (fun st => 0 <= snd st /\ (snd st = 0 -> raw_obs (fst st) = raw_obs raw))).
  - intros k [r n] [Hn Hk]. cbn [fst snd] in *.
    destruct (Hb k r n) as [[E1 E2]|E1]; rewrite E1; [|split; lia].
    split; [lia|]. intros H0. rewrite E2. apply Hk. exact H0.
  - cbn [fst snd]. split; [lia|reflexivity].
Qed.

Lemma obs_decode_trkmeas (raw : raw_t) : obs_kept raw (decode_trkmeas raw).
Proof.
  unfold decode_trkmeas, obs_kept.
  set (raw0 := if raw_outtype raw =? 0 then raw else _).
  assert (E0 : raw_obs raw0 = raw_obs raw)
    by (subst raw0; destruct (raw_outtype raw =? 0); reflexivity).
  clearbody raw0.
  top_if; [right; exact E0|].
  top_if; [right; exact E0|].
  top_if; [right; exact E0|].
  match goal with
  | |- context [for_range ?lo ?hi ?b (raw0, 0)] =>
      pose proof (channels_count b lo hi raw0) as H;
      destruct (for_range lo hi b (raw0, 0)) as [raw1 n1]
  end.
  cbv zeta in H. cbn [fst snd] in H.
  destruct H as [Hn H0]; [intros k r n; apply trkmeas_ch_count|].
  destruct (n1 <=? 0) eqn:E; [|left; reflexivity].
  right. cbn [snd]. rewrite H0 by lia. exact E0.
Qed.

Lemma obs_decode_trkd5 (raw : raw_t) : obs_kept raw (decode_trkd5 raw).
Proof.
  unfold decode_trkd5, obs_kept.
  set (raw0 := if raw_outtype raw =? 0 then raw else _).
  assert (E0 : raw_obs raw0 = raw_obs raw)
    by (subst raw0; destruct (raw_outtype raw =? 0); reflexivity).
  clearbody raw0.
  top_if; [right; exact E0|].
  top_pair.
  top_if; [right; exact E0|].
  match goal with
  | |- context [for_range ?lo ?hi ?b (raw0, 0)] =>
      pose proof (channels_count b lo hi raw0) as H;
      destruct (for_range lo hi b (raw0, 0)) as [raw1 n1]
  end.
  cbv zeta in H. cbn [fst snd] in H.
  destruct H as [Hn H0]; [intros k r n; apply trkd5_ch_count|].
  destruct (n1 <=? 0) eqn:E; [|left; reflexivity].
  right. cbn [snd]. rewrite H0 by lia. exact E0.
Qed.

Lemma obs_decode_rxmraw (raw : raw_t) : obs_kept raw (decode_rxmraw raw).
Proof.
  unfold decode_rxmraw, obs_kept.
  set (raw0 := if raw_outtype raw =? 0 then raw else _).
  assert (E0 : raw_obs raw0 = raw_obs raw)
    by (subst raw0; destruct (raw_outtype raw =? 0); reflexivity).
  clearbody raw0.
  top_if; [right; exact E0|].
  top_if; [right; exact E0|].
  top_pair. top_pair. left. reflexivity.
Qed.

Lemma obs_decode_rxmrawx (raw : raw_t) : obs_kept raw (decode_rxmrawx raw).
Proof.
  unfold decode_rxmrawx, obs_kept.
  top_if; [right; reflexivity|].
  top_if; [right; reflexivity|].
  top_if; [right; reflexivity|].
  top_pair. top_pair. left. reflexivity.
Qed.

End SidesStatus.


(** ** Signals and slots *)

(** X16. [sig_idx] yields 0, 1 or 2, and 0 for CODE_NONE; every signal
    that [ubx_sig] knows for a system has a slot 1 or 2 in [sig_idx]. *)
Theorem signal_slots (sys : sys_t) (sigid : Z) (code : code_t) :
  0 <= sig_idx sys code <= 2
  /\ sig_idx sys CODE_NONE = 0
  /\ (ubx_sig sys sigid = CODE_NONE \/ 1 <= sig_idx sys (ubx_sig sys sigid) <= 2).
Proof.
  split; [destruct sys, code; simpl; lia|].
  split; [destruct sys; reflexivity|].
  destruct sys; unfold ubx_sig;
    repeat match goal with
           | |- context [if ?c then _ else _] => destruct c
           end;
    first [left; reflexivity | right; simpl; lia].
Qed.

(** ** Subframe buffers *)

Lemma for_loop_snoc {S : Type} (n : nat) (i : Z) (f : Z -> S -> S) (s : S) :
  for_loop (Datatypes.S n) i f s = f (i + Z.of_nat n) (for_loop n i f s).
Proof.
  revert i s. induction n as [|n IH]; intros i s.
  - cbn [for_loop]. change (Z.of_nat 0) with 0. rewrite Z.add_0_r. reflexivity.
  - change (for_loop (Datatypes.S (Datatypes.S n)) i f s)
      with (for_loop (Datatypes.S n) (i + 1) f (f i s)).
    rewrite IH. cbn [for_loop]. f_equal. lia.
Qed.

Lemma for_loop_add {S : Type} (a b : nat) (i : Z) (f : Z -> S -> S) (s : S) :
  for_loop (a + b) i f s = for_loop b (i + Z.of_nat a) f (for_loop a i f s).
Proof.
  revert i s. induction a as [|a IH]; intros i s.
  - cbn [Nat.add for_loop]. change (Z.of_nat 0) with 0. rewrite Z.add_0_r. reflexivity.
  - cbn [Nat.add for_loop]. rewrite IH. f_equal. lia.
Qed.

Lemma wr_wr (b : list Z) (i x y : Z) : wr (wr b i x) i y = wr b i y.
Proof.
  unfold wr, arr_set. destruct (i <? 0); [reflexivity|]. apply list_insert_insert_eq.
Qed.

Lemma shift_bits_value (x w j : Z) (t : nat) :
  Z.of_nat t <= j + 1 ->
  shift_bits t x w j mod 256
  = (x * 2 ^ Z.of_nat t + (w / 2 ^ (j - Z.of_nat t + 1)) mod 2 ^ Z.of_nat t) mod 256.
Proof.
  induction t as [|t IH]; intros Ht.
  - cbn [shift_bits]. change (2 ^ Z.of_nat 0) with 1. rewrite Z.mod_1_r.
    f_equal. lia.
  - cbn [shift_bits]. rewrite Z.mod_mod by lia.
    rewrite Z.shiftl_mul_pow2 by lia. change (2 ^ 1) with 2.
    change 1 with (Z.ones 1) at 1. rewrite Z.land_ones by lia. change (2 ^ 1) with 2.
    rewrite Z.shiftr_div_pow2 by lia.
    set (u := w / 2 ^ (j - Z.of_nat t)).
    assert (Hu : w / 2 ^ (j - Z.of_nat t + 1) = u / 2).
    { unfold u. rewrite Z.pow_add_r by lia. rewrite Z.div_div by (try lia; apply Z.pow_pos_nonneg; lia).
      reflexivity. }
    rewrite Hu in IH.
    replace (j - Z.of_nat (Datatypes.S t) + 1) with (j - Z.of_nat t) by lia. fold u.
    replace (Z.of_nat (Datatypes.S t)) with (Z.succ (Z.of_nat t)) by lia.
    rewrite Z.pow_succ_r by lia.
    set (P := 2 ^ Z.of_nat t) in *.
    assert (HP : 0 < P) by (apply Z.pow_pos_nonneg; lia).
    rewrite (Z.rem_mul_r u 2 P) by lia.
    rewrite Z.add_mod by lia. rewrite Z.mul_mod by lia.
    rewrite IH by lia.
    rewrite <- Z.mul_mod by lia. rewrite <- Z.add_mod by lia.
    f_equal. lia.
Qed.

Lemma shift_bits_8 (x w j : Z) :
  7 <= j -> shift_bits 8 x w j = (w / 2 ^ (j - 7)) mod 256.
Proof.
  intros Hj.
  assert (E : shift_bits 8 x w j = shift_bits 8 x w j mod 256).
  { cbn [shift_bits]. rewrite Z.mod_mod by lia. reflexivity. }
  rewrite E. rewrite shift_bits_value by lia.
  change (Z.of_nat 8) with 8. replace (j - 8 + 1) with (j - 7) by lia.
  change (2 ^ 8) with 256. rewrite Z.add_mod by lia. rewrite Z_mod_mult.
  rewrite Z.add_0_l. rewrite !Z.mod_mod by lia. reflexivity.
Qed.

Lemma byte_steps (w : Z) (row : list Z) (q n0 k0 : Z) (t : nat) :
  (t <= 8)%nat -> n0 mod 8 = 0 -> 0 <= q < Z.of_nat (length row) ->
  for_loop t k0 (fun k st => subfrm_step w (23 - k) st) (row, q, n0)
  = (match t with
     | O => row
     | _ => wr row q (shift_bits t (rd row q) w (23 - k0))
     end,
     (if (t =? 8)%nat then q + 1 else q), n0 + Z.of_nat t).
Proof.
  intros Ht Hn Hq. induction t as [|t IH].
  - cbn [for_loop Nat.eqb]. change (Z.of_nat 0) with 0. rewrite Z.add_0_r. reflexivity.
  - rewrite for_loop_snoc. rewrite IH by lia.
    assert (E8 : (t =? 8)%nat = false) by (apply Nat.eqb_neq; lia).
    rewrite E8. unfold subfrm_step.
    assert (En : ((n0 + Z.of_nat t + 1) mod 8 =? 0) = (Datatypes.S t =? 8)%nat).
    { destruct (Nat.eqb_spec (Datatypes.S t) 8) as [E|E].
      - apply Z.eqb_eq. replace (n0 + Z.of_nat t + 1) with (n0 + 1 * 8) by lia.
        rewrite Z_mod_plus_full. exact Hn.
      - apply Z.eqb_neq. intros H.
        assert (Z.of_nat t + 1 < 8) by lia.
        pose proof (Nat2Z.is_nonneg t) as Ht0.
        clear IH. Z.div_mod_to_equations. lia. }
    rewrite En.
    replace (n0 + Z.of_nat t + 1) with (n0 + Z.of_nat (Datatypes.S t)) by lia.
    f_equal. f_equal.
    destruct t as [|t'].
    + cbn [shift_bits]. change (Z.of_nat 0) with 0.
      rewrite Z.add_0_r, Z.sub_0_r. reflexivity.
    + rewrite wr_wr. rewrite rd_wr_eq by lia.
      cbn [shift_bits]. replace (23 - (k0 + Z.of_nat (Datatypes.S t'))) with (23 - k0 - Z.of_nat (Datatypes.S t')) by lia. reflexivity.
Qed.

Lemma word_steps (w : Z) (row : list Z) (q n0 : Z) :
  n0 mod 8 = 0 -> 0 <= q -> q + 2 < Z.of_nat (length row) ->
  for_range 0 24 (fun k st => subfrm_step w (23 - k) st) (row, q, n0)
  = (wr (wr (wr row q ((w / 2 ^ 16) mod 256)) (q + 1) ((w / 2 ^ 8) mod 256))
        (q + 2) (w mod 256),
     q + 3, n0 + 24).
Proof.
  intros Hn Hq0 Hq. unfold for_range.
  change (Z.to_nat (24 - 0)) with (8 + (8 + 8))%nat.
  rewrite !for_loop_add.
  rewrite byte_steps by (try lia; exact Hn).
  cbn [Nat.eqb].
  rewrite byte_steps; [| lia | | rewrite wr_length; lia].
  2:{ change (Z.of_nat 8) with 8. replace (n0 + 8) with (n0 + 1 * 8) by lia.
      rewrite Z_mod_plus_full. exact Hn. }
  cbn [Nat.eqb].
  rewrite byte_steps; [| lia | | rewrite !wr_length; lia].
  2:{ change (Z.of_nat 8) with 8. replace (n0 + 8 + 8) with (n0 + 2 * 8) by lia.
      rewrite Z_mod_plus_full. exact Hn. }
  cbn [Nat.eqb].
  rewrite !shift_bits_8 by (change (Z.of_nat 8) with 8; lia).
  change (Z.of_nat 8) with 8.
  replace (23 - 0 - 7) with 16 by lia.
  replace (23 - (0 + 8) - 7) with 8 by lia.
  replace (23 - (0 + 8 + 8) - 7) with 0 by lia.
  change (2 ^ 0) with 1. rewrite Z.div_1_r.
  f_equal; [f_equal|]; [f_equal; lia | lia | lia].
Qed.

Lemma for_range_ind {S : Type} (Q : Z -> S -> Prop) (lo hi : Z) (f : Z -> S -> S) (s : S) :
  lo <= hi ->
  (forall k x, lo <= k < hi -> Q k x -> Q (k + 1) (f k x)) ->
  Q lo s -> Q hi (for_range lo hi f s).
Proof.
  intros Hle Hf Hs. unfold for_range.
  assert (E : hi = lo + Z.of_nat (Z.to_nat (hi - lo))) by lia.
  rewrite E at 1. apply for_loop_ind; [|exact Hs].
  intros k x Hk. apply Hf. lia.
Qed.

Lemma subfrm_inv_step (W : Z -> Z) (row : list Z) (q0 i : Z) (s : list Z * Z * Z) :
  0 <= q0 -> q0 + 30 <= Z.of_nat (length row) -> 0 <= i < 10 ->
  subfrm_inv W row q0 i s ->
  subfrm_inv W row q0 (i + 1)
    (for_range 0 24 (fun k st => subfrm_step (W i) (23 - k) st) s).
Proof.
  intros Hq0 Hlen Hi. destruct s as [[row' q] n].
  intros (Eq & En & El & Hw & Hf). cbn [fst snd] in Eq, En, El, Hw, Hf.
  subst q n.
  rewrite word_steps; [| | lia | lia].
  2:{ replace (24 * i) with (0 + (3 * i) * 8) by lia.
      rewrite Z_mod_plus_full. reflexivity. }
  unfold subfrm_inv. cbn [fst snd].
  split; [lia|]. split; [lia|].
  split; [rewrite !wr_length; exact El|].
  split.
  - intros m Hm. destruct (Z.eq_dec m i) as [->|Hne].
    + unfold word_at.
      split; [|split].
      * rewrite !rd_wr_ne by lia. apply rd_wr_eq. lia.
      * rewrite rd_wr_ne by lia. apply rd_wr_eq. rewrite wr_length. lia.
      * apply rd_wr_eq. rewrite !wr_length. lia.
    + destruct (Hw m ltac:(lia)) as (H0 & H1 & H2). unfold word_at.
      rewrite !rd_wr_ne by lia. auto.
  - intros k Hk. rewrite !rd_wr_ne by lia. apply Hf. lia.
Qed.

Lemma subfrm_words (p row : list Z) (q0 : Z) :
  0 <= q0 -> q0 + 30 <= Z.of_nat (length row) ->
  subfrm_inv (fun i => U4 (at_off p (2 + 4 * i))) row q0 10 (subfrm_pack p row q0).
Proof.
  intros Hq0 Hlen. unfold subfrm_pack.
  apply (for_range_ind (subfrm_inv (fun i => U4 (at_off p (2 + 4 * i))) row q0)).
  - lia.
  - intros k x Hk Hx.
    exact (subfrm_inv_step (fun i => U4 (at_off p (2 + 4 * i))) row q0 k x Hq0 Hlen Hk Hx).
  - unfold subfrm_inv. cbn [fst snd].
    split; [lia|]. split; [lia|]. split; [reflexivity|].
    split; [intros m Hm; lia|]. intros k Hk. reflexivity.
Qed.

Lemma save_subfrm_unfold (sat : Z) (raw : raw_t) :
  save_subfrm sat raw
  = let p := at_off (raw_buff raw) 6 in
    let id := Z.land (Z.shiftr (U4 (at_off p 6)) 2) 7 in
    if (id <? 1) || (5 <? id) then (0, raw)
    else (id, set_subfrm_row raw sat
                (fst (fst (subfrm_pack p (subfrm_row raw sat) ((id - 1) * 30))))).
Proof.
  unfold save_subfrm, subfrm_pack, subfrm_step. cbv zeta beta.
  match goal with |- context [if ?b then _ else _] => destruct b end; [reflexivity|].
  match goal with |- context [for_range 0 10 ?f ?s] => destruct (for_range 0 10 f s) as [[a b] c] end.
  reflexivity.
Qed.

(** X18. [save_subfrm] with a subframe id 1..5 returns the id and stores
    the low 24 bits of each of the ten words of the message, high byte
    first, in the 30 bytes of the row of [sat] from offset [(id-1)*30];
    the other bytes of the row keep their value. *)
Theorem save_subfrm_packs (sat : Z) (raw : raw_t) (id : Z) :
  id = Z.land (Z.shiftr (U4 (at_off (at_off (raw_buff raw) 6) 6)) 2) 7 ->
  1 <= id <= 5 ->
  1 <= sat <= Z.of_nat (length (raw_subfrm raw)) ->
  id * 30 <= Z.of_nat (length (subfrm_row raw sat)) ->
  fst (save_subfrm sat raw) = id /\
  length (subfrm_row (snd (save_subfrm sat raw)) sat) = length (subfrm_row raw sat) /\
  (forall i, 0 <= i < 10 ->
     word_at (subfrm_row (snd (save_subfrm sat raw)) sat) ((id - 1) * 30 + 3 * i)
       (U4 (at_off (at_off (raw_buff raw) 6) (2 + 4 * i)))) /\
  (forall k, ~ ((id - 1) * 30 <= k < id * 30) ->
     rd (subfrm_row (snd (save_subfrm sat raw)) sat) k = rd (subfrm_row raw sat) k).
Proof.
  intros Eid Hid Hsat Hlen.
  rewrite save_subfrm_unfold. cbv zeta. rewrite <- Eid.
  assert (Et : ((id <? 1) || (5 <? id)) = false).
  { apply orb_false_iff. split; apply Z.ltb_ge; lia. }
  rewrite Et. cbn [fst snd].
  destruct (subfrm_words (at_off (raw_buff raw) 6) (subfrm_row raw sat) ((id - 1) * 30)
              ltac:(lia) ltac:(lia)) as (_ & _ & El & Hw & Hf).
  assert (Er : subfrm_row
                 (set_subfrm_row raw sat
                    (fst (fst (subfrm_pack (at_off (raw_buff raw) 6) (subfrm_row raw sat)
                                 ((id - 1) * 30))))) sat
               = fst (fst (subfrm_pack (at_off (raw_buff raw) 6) (subfrm_row raw sat)
                             ((id - 1) * 30)))).
  { unfold subfrm_row at 1. unfold set_subfrm_row. cbn [raw_subfrm set_subfrm].
    apply arr_get_set_eq. lia. }
  rewrite Er.
  split; [reflexivity|]. split; [exact El|]. split; [exact Hw|].
  intros k Hk. apply Hf. lia.
Qed.

Lemma save_subfrm_packs_witness :
  fst (save_subfrm 5 raw_subfrm2) = 2 /\
  length (subfrm_row (snd (save_subfrm 5 raw_subfrm2)) 5) = length (subfrm_row raw_subfrm2 5) /\
  (forall i, 0 <= i < 10 ->
     word_at (subfrm_row (snd (save_subfrm 5 raw_subfrm2)) 5) ((2 - 1) * 30 + 3 * i)
       (U4 (at_off (at_off (raw_buff raw_subfrm2) 6) (2 + 4 * i)))) /\
  (forall k, ~ ((2 - 1) * 30 <= k < 2 * 30) ->
     rd (subfrm_row (snd (save_subfrm 5 raw_subfrm2)) 5) k = rd (subfrm_row raw_subfrm2 5) k).
Proof.
  apply (save_subfrm_packs 5 raw_subfrm2 2).
  - reflexivity.
  - lia.
  - vm_compute. split; discriminate.
  - vm_compute. discriminate.
Defined.

(** ** Cycle slips *)

Section SlipLatch.
Context {lib : rtklib}.

Lemma lockflag_data_upd (raw : raw_t) (j : Z) (g : obsd_t -> obsd_t) :
  raw_lockflag (data_upd raw j g) = raw_lockflag raw.
Proof. reflexivity. Qed.

Lemma rawx_store_lockflag (time : gtime_t) (sat f : Z) (L P D : float)
    (cpstd prstd cn0 LLI : Z) (code : code_t) (raw : raw_t) (n : Z) :
  raw_lockflag (fst (rawx_store time sat f L P D cpstd prstd cn0 LLI code (raw, n)))
  = if f_ne L 0 then arr2_set (raw_lockflag raw) (sat - 1) (f - 1) 0 else raw_lockflag raw.
Proof.
  unfold rawx_store.
  set (j := find_sat raw n sat).
  set (st1 := if n <=? j then _ else _).
  assert (H1 : raw_lockflag (fst st1) = raw_lockflag raw).
  { subst st1. destruct (n <=? j); reflexivity. }
  destruct st1 as [raw1 n1]. cbn [fst] in H1.
  set (rawE := data_upd _ j (fun o => obsd_with_code o (f - 1) code)).
  assert (HE : raw_lockflag rawE = raw_lockflag raw1).
  { subst rawE. do 8 rewrite lockflag_data_upd. reflexivity. }
  destruct (f_ne L 0); cbn [fst].
  - cbn [raw_lockflag set_lockflag]. rewrite HE, H1. reflexivity.
  - rewrite HE, H1. reflexivity.
Qed.

(** The lockflag cell and the slip bit after [rawx_slip]. *)
Lemma rawx_slip_lockflag (cpstd_slip : Z) (sys : sys_t) (sat f lockt cpstd tstat : Z)
    (L : float) (raw : raw_t) :
  LLI_SLIP = 1 ->
  0 <= sat - 1 < Z.of_nat (length (raw_lockflag raw)) ->
  0 <= f - 1 < Z.of_nat (length (arr_get [] (raw_lockflag raw) (sat - 1))) ->
  0 < arr2_get 0 (raw_lockflag raw) (sat - 1) (f - 1) \/ lockt = 0 \/ cpstd_slip <= cpstd ->
  let s := rawx_slip cpstd_slip sys sat f lockt cpstd tstat L raw in
  0 < arr2_get 0 (raw_lockflag (fst s)) (sat - 1) (f - 1) /\
  length (raw_lockflag (fst s)) = length (raw_lockflag raw) /\
  length (arr_get [] (raw_lockflag (fst s)) (sat - 1))
  = length (arr_get [] (raw_lockflag raw) (sat - 1)) /\
  (f_ne L 0 = true -> Z.testbit (snd s) 0 = true).
Proof.
  intros ES Hs Hf Hc. cbv zeta. unfold rawx_slip.
  set (halfc := b2z (negb (Z.land tstat 8 =? 0))).
  set (slip0 := b2z _).
  set (slip := if cpstd_slip <=? cpstd then LLI_SLIP else slip0).
  set (raw1 := if slip =? 0 then raw else _).
  assert (H1 : 0 < arr2_get 0 (raw_lockflag raw1) (sat - 1) (f - 1)
               /\ length (raw_lockflag raw1) = length (raw_lockflag raw)
               /\ length (arr_get [] (raw_lockflag raw1) (sat - 1))
                  = length (arr_get [] (raw_lockflag raw) (sat - 1))).
  { subst raw1. destruct (slip =? 0) eqn:E0.
    - split; [|split; reflexivity].
      apply Z.eqb_eq in E0. destruct Hc as [Hc|[Hc|Hc]]; [exact Hc| |].
      + exfalso. subst slip slip0. rewrite Hc in E0. cbn [Z.eqb orb b2z] in E0.
        destruct (cpstd_slip <=? cpstd); lia.
      + exfalso. subst slip. apply Z.leb_le in Hc. rewrite Hc in E0. lia.
    - cbn [raw_lockflag set_lockflag].
      assert (Hv : slip mod 256 = 1).
      { apply Z.eqb_neq in E0. subst slip slip0.
        destruct (cpstd_slip <=? cpstd); [rewrite ES; reflexivity|].
        unfold b2z in *. destruct (_ || _); [reflexivity|lia]. }
      rewrite Hv. rewrite arr2_get_set_eq by assumption.
      split; [lia|]. unfold arr2_set. rewrite arr_set_length.
      split; [reflexivity|]. rewrite arr_get_set_eq by assumption.
      apply arr_set_length. }
  cbn [fst snd raw_lockflag set_lockt set_halfc].
  destruct H1 as (Hp & Hl1 & Hl2).
  split; [exact Hp|]. split; [exact Hl1|]. split; [exact Hl2|].
  intros EL. rewrite EL. apply Z.ltb_lt in Hp. rewrite Hp.
  rewrite Z.lor_spec. rewrite ES. apply orb_true_r.
Qed.


End SlipLatch.

